(** * block-vhd: the dynamic / differencing write path of the asynchronous
      VHD driver (drivers/block-vhd.c), embedded as executable functions over
      an explicit driver state.

    Conventions of the embedding.
    - Unsigned C integers are [Z] with the wrap-around written out ([u32],
      [u64]); [vhd_flag_t] words are [Z] manipulated with [Z.land], [Z.lor]
      and [Z.lnot], as the [test_vhd_flag] / [set_vhd_flag] /
      [clear_vhd_flag] macros do.
    - Pointers to [struct vhd_request] are references [rref] into the request
      store of the state ([vreq_list], [bat.req], [bat.zero_req] and the
      request embedded in every bitmap); the intrusive [next] links and the
      [head] / [tail] pointers of [struct vhd_req_list] are kept as they are
      in the source, so that aliasing and stale links are visible.
    - Pointers to [struct vhd_bitmap] (and to the transaction embedded in it)
      are indices into [bitmap_list].
    - The code runs in a state-and-fault monad: [ASSERT] (compiled in, since
      ASSERTING is 1) stops the run with [AssertionFailed], a NULL
      dereference with [NullPointer], an access outside an array with
      [OutOfBounds].
    - Loops that follow [next] links, and the mutual recursion of the
      transaction finishers, are structural on a bound taken from the state
      ([chain_fuel], [tx_fuel]); a run that exhausts its bound ends in
      [OutOfFuel], which the lemmas on [returns] exclude where the source
      terminates.
    - The caller callbacks are external code: every invocation is recorded in
      [cb_log] and its return value is given by [cb_ret].
    - Profiling and debug output ([tp_log], [DBG], [TRACE] and the statistics
      counters they print) have no effect on the driver and are left out. *)

From Stdlib Require Import ZArith List Lia Bool.
From stdpp Require Import base option list.
Import ListNotations.
Local Open Scope Z_scope.

(** ** Constants *)

Definition VHD_CACHE_SIZE : nat := 32.

Definition VHD_OP_BAT_WRITE : Z := 0.
Definition VHD_OP_DATA_READ : Z := 1.
Definition VHD_OP_DATA_WRITE : Z := 2.
Definition VHD_OP_BITMAP_READ : Z := 3.
Definition VHD_OP_BITMAP_WRITE : Z := 4.
Definition VHD_OP_ZERO_BM_WRITE : Z := 5.

Definition VHD_BM_BAT_LOCKED : Z := 0.
Definition VHD_BM_BAT_CLEAR : Z := 1.
Definition VHD_BM_BIT_CLEAR : Z := 2.
Definition VHD_BM_BIT_SET : Z := 3.
Definition VHD_BM_NOT_CACHED : Z := 4.
Definition VHD_BM_READ_PENDING : Z := 5.

Definition VHD_FLAG_BAT_LOCKED : Z := 1.
Definition VHD_FLAG_BAT_WRITE_STARTED : Z := 2.

Definition VHD_FLAG_BM_UPDATE_BAT : Z := 1.
Definition VHD_FLAG_BM_WRITE_PENDING : Z := 2.
Definition VHD_FLAG_BM_READ_PENDING : Z := 4.
Definition VHD_FLAG_BM_LOCKED : Z := 8.

Definition VHD_FLAG_REQ_UPDATE_BAT : Z := 1.
Definition VHD_FLAG_REQ_UPDATE_BITMAP : Z := 2.
Definition VHD_FLAG_REQ_QUEUED : Z := 4.
Definition VHD_FLAG_REQ_FINISHED : Z := 8.

Definition VHD_FLAG_TX_LIVE : Z := 1.
Definition VHD_FLAG_TX_UPDATE_BAT : Z := 2.

(** errno.h (Linux). *)
Definition EIO : Z := 5.
Definition ENOMEM : Z := 12.
Definition EBUSY : Z := 16.
Definition EINVAL : Z := 22.

(** Modelled from the spec: vhd.h is not among the sources; the spec gives the
    BAT sentinel [UNUSED = 0xFFFFFFFF], the sector size 512 and the three
    disk shapes. *)
Definition DD_BLK_UNUSED : Z := 4294967295.
Definition VHD_SECTOR_SHIFT : Z := 9.
Definition VHD_SECTOR_SIZE : Z := 512.

Inductive hd_type := HD_TYPE_FIXED | HD_TYPE_DYNAMIC | HD_TYPE_DIFF.

Definition hd_type_eqb (a b : hd_type) : bool :=
  match a, b with
  | HD_TYPE_FIXED, HD_TYPE_FIXED
  | HD_TYPE_DYNAMIC, HD_TYPE_DYNAMIC
  | HD_TYPE_DIFF, HD_TYPE_DIFF => true
  | _, _ => false
  end.

(** ** Machine integers and flag words *)

Definition u32 (z : Z) : Z := z mod 2 ^ 32.
Definition u64 (z : Z) : Z := z mod 2 ^ 64.

(** [(int) x] for an unsigned [x]: two's complement on 32 bits. *)
Definition to_int (z : Z) : Z :=
  let w := z mod 2 ^ 32 in if w <? 2 ^ 31 then w else w - 2 ^ 32.

Definition MIN (a b : Z) : Z := if a <? b then a else b.

Definition test_vhd_flag (word flag : Z) : bool := negb (Z.land word flag =? 0).
Definition set_vhd_flag (word flag : Z) : Z := Z.lor word flag.
Definition clear_vhd_flag (word flag : Z) : Z := Z.land word (Z.lnot flag).

Definition secs_round_up (bytes : Z) : Z :=
  Z.shiftr (bytes + (VHD_SECTOR_SIZE - 1)) VHD_SECTOR_SHIFT.

(** ** Data model *)

(** A pointer to a [struct vhd_request]. *)
Inductive rref :=
| RData (i : nat)        (* &s->vreq_list[i] *)
| RBat                   (* &s->bat.req *)
| RZero                  (* &s->bat.zero_req *)
| RBm (slot : nat).      (* &s->bitmap_list[slot].req *)

Definition rref_eqb (a b : rref) : bool :=
  match a, b with
  | RData i, RData j => Nat.eqb i j
  | RBat, RBat => true
  | RZero, RZero => true
  | RBm i, RBm j => Nat.eqb i j
  | _, _ => false
  end.

Definition opt_rref_eqb (a : option rref) (b : rref) : bool :=
  match a with Some x => rref_eqb x b | None => false end.

Record vhd_req_list := mk_req_list {
  head : option rref;
  tail : option rref
}.

Record vhd_transaction := mk_tx {
  tx_error : Z;
  tx_closed : Z;
  tx_started : Z;
  tx_finished : Z;
  tx_status : Z;
  tx_requests : vhd_req_list
}.

(** [req_cb] is the callback pointer (0 is NULL); [req_tx] points to the
    transaction embedded in the bitmap at that index of [bitmap_list]. *)
Record vhd_request := mk_req {
  req_id : Z;
  req_error : Z;
  req_buf : Z;
  req_op : Z;
  req_nr_secs : Z;
  req_lsec : Z;
  req_private : Z;
  req_flags : Z;
  req_cb : Z;
  req_next : option rref;
  req_tx : option nat
}.

(** The 512-byte buffer of [bat.req] is kept as [bat_buf]; the BAT itself
    is the array of [hdr.max_bat_size] entries that [alloc_bat] allocates. *)
Record vhd_bat := mk_bat {
  bat_bat : list Z;
  bat_status : Z;
  pbw_blk : Z;
  pbw_offset : Z;
  bat_req : vhd_request;
  bat_buf : list Z;
  bat_zero_req : vhd_request
}.

(** [map] and [shadow] are the two bit arrays of a bitmap, read as one
    number: bit [n] of the number is bit [n mod 64] of word [n / 64], which
    is what [test_bit] reads. *)
Record vhd_bitmap := mk_bitmap {
  bm_blk : Z;
  bm_seqno : Z;
  bm_status : Z;
  bm_map : Z;
  bm_shadow : Z;
  bm_tx : vhd_transaction;
  bm_queue : vhd_req_list;
  bm_waiting : vhd_req_list;
  bm_req : vhd_request
}.

(** A prepared control block: the request it belongs to ([io->data]), the
    direction, the byte count and the file offset. *)
Record iocb := mk_iocb {
  io_data : rref;
  io_write : bool;
  io_nbytes : Z;
  io_offset : Z
}.

(** One invocation of a caller callback: [cb (dd, err, sector, count, id,
    private)]. *)
Record cb_call := mk_cb_call {
  cc_cb : Z;
  cc_error : Z;
  cc_sector : Z;
  cc_nr_secs : Z;
  cc_id : Z;
  cc_private : Z
}.

(** [bitmap_free] and [vreq_free] are the two free stacks (top first);
    [aio_ctx] is the kernel side of the asynchronous context: the control
    blocks submitted and not yet reaped. *)
Record vhd_state := mk_state {
  ftr_type : hd_type;
  hdr_max_bat_size : Z;
  hdr_table_offset : Z;
  spp : Z;
  spb : Z;
  next_db : Z;
  bat : vhd_bat;
  bm_lru : Z;
  bm_secs : Z;
  bitmap : list (option nat);
  bitmap_free : list nat;
  bitmap_list : list vhd_bitmap;
  vreq_free : list rref;
  vreq_list : list vhd_request;
  iocb_queue : list iocb;
  aio_ctx : list iocb;
  cb_log : list cb_call
}.

(** ** Field updates *)

Definition with_next_db (v : Z) (s : vhd_state) : vhd_state :=
  mk_state (ftr_type s) (hdr_max_bat_size s) (hdr_table_offset s) (spp s) (spb s)
    v (bat s) (bm_lru s) (bm_secs s) (bitmap s) (bitmap_free s) (bitmap_list s)
    (vreq_free s) (vreq_list s) (iocb_queue s) (aio_ctx s) (cb_log s).

Definition with_bat (v : vhd_bat) (s : vhd_state) : vhd_state :=
  mk_state (ftr_type s) (hdr_max_bat_size s) (hdr_table_offset s) (spp s) (spb s)
    (next_db s) v (bm_lru s) (bm_secs s) (bitmap s) (bitmap_free s) (bitmap_list s)
    (vreq_free s) (vreq_list s) (iocb_queue s) (aio_ctx s) (cb_log s).

Definition with_bm_lru (v : Z) (s : vhd_state) : vhd_state :=
  mk_state (ftr_type s) (hdr_max_bat_size s) (hdr_table_offset s) (spp s) (spb s)
    (next_db s) (bat s) v (bm_secs s) (bitmap s) (bitmap_free s) (bitmap_list s)
    (vreq_free s) (vreq_list s) (iocb_queue s) (aio_ctx s) (cb_log s).

Definition with_bitmap (v : list (option nat)) (s : vhd_state) : vhd_state :=
  mk_state (ftr_type s) (hdr_max_bat_size s) (hdr_table_offset s) (spp s) (spb s)
    (next_db s) (bat s) (bm_lru s) (bm_secs s) v (bitmap_free s) (bitmap_list s)
    (vreq_free s) (vreq_list s) (iocb_queue s) (aio_ctx s) (cb_log s).

Definition with_bitmap_free (v : list nat) (s : vhd_state) : vhd_state :=
  mk_state (ftr_type s) (hdr_max_bat_size s) (hdr_table_offset s) (spp s) (spb s)
    (next_db s) (bat s) (bm_lru s) (bm_secs s) (bitmap s) v (bitmap_list s)
    (vreq_free s) (vreq_list s) (iocb_queue s) (aio_ctx s) (cb_log s).

Definition with_bitmap_list (v : list vhd_bitmap) (s : vhd_state) : vhd_state :=
  mk_state (ftr_type s) (hdr_max_bat_size s) (hdr_table_offset s) (spp s) (spb s)
    (next_db s) (bat s) (bm_lru s) (bm_secs s) (bitmap s) (bitmap_free s) v
    (vreq_free s) (vreq_list s) (iocb_queue s) (aio_ctx s) (cb_log s).

Definition with_vreq_free (v : list rref) (s : vhd_state) : vhd_state :=
  mk_state (ftr_type s) (hdr_max_bat_size s) (hdr_table_offset s) (spp s) (spb s)
    (next_db s) (bat s) (bm_lru s) (bm_secs s) (bitmap s) (bitmap_free s) (bitmap_list s)
    v (vreq_list s) (iocb_queue s) (aio_ctx s) (cb_log s).

Definition with_vreq_list (v : list vhd_request) (s : vhd_state) : vhd_state :=
  mk_state (ftr_type s) (hdr_max_bat_size s) (hdr_table_offset s) (spp s) (spb s)
    (next_db s) (bat s) (bm_lru s) (bm_secs s) (bitmap s) (bitmap_free s) (bitmap_list s)
    (vreq_free s) v (iocb_queue s) (aio_ctx s) (cb_log s).

Definition with_iocb_queue (v : list iocb) (s : vhd_state) : vhd_state :=
  mk_state (ftr_type s) (hdr_max_bat_size s) (hdr_table_offset s) (spp s) (spb s)
    (next_db s) (bat s) (bm_lru s) (bm_secs s) (bitmap s) (bitmap_free s) (bitmap_list s)
    (vreq_free s) (vreq_list s) v (aio_ctx s) (cb_log s).

Definition with_aio_ctx (v : list iocb) (s : vhd_state) : vhd_state :=
  mk_state (ftr_type s) (hdr_max_bat_size s) (hdr_table_offset s) (spp s) (spb s)
    (next_db s) (bat s) (bm_lru s) (bm_secs s) (bitmap s) (bitmap_free s) (bitmap_list s)
    (vreq_free s) (vreq_list s) (iocb_queue s) v (cb_log s).

Definition with_cb_log (v : list cb_call) (s : vhd_state) : vhd_state :=
  mk_state (ftr_type s) (hdr_max_bat_size s) (hdr_table_offset s) (spp s) (spb s)
    (next_db s) (bat s) (bm_lru s) (bm_secs s) (bitmap s) (bitmap_free s) (bitmap_list s)
    (vreq_free s) (vreq_list s) (iocb_queue s) (aio_ctx s) v.

Definition bat_with_bat (v : list Z) (b : vhd_bat) : vhd_bat :=
  mk_bat v (bat_status b) (pbw_blk b) (pbw_offset b) (bat_req b) (bat_buf b) (bat_zero_req b).
Definition bat_with_status (v : Z) (b : vhd_bat) : vhd_bat :=
  mk_bat (bat_bat b) v (pbw_blk b) (pbw_offset b) (bat_req b) (bat_buf b) (bat_zero_req b).
Definition bat_with_pbw (blk off : Z) (b : vhd_bat) : vhd_bat :=
  mk_bat (bat_bat b) (bat_status b) blk off (bat_req b) (bat_buf b) (bat_zero_req b).
Definition bat_with_req (v : vhd_request) (b : vhd_bat) : vhd_bat :=
  mk_bat (bat_bat b) (bat_status b) (pbw_blk b) (pbw_offset b) v (bat_buf b) (bat_zero_req b).
Definition bat_with_buf (v : list Z) (b : vhd_bat) : vhd_bat :=
  mk_bat (bat_bat b) (bat_status b) (pbw_blk b) (pbw_offset b) (bat_req b) v (bat_zero_req b).
Definition bat_with_zero_req (v : vhd_request) (b : vhd_bat) : vhd_bat :=
  mk_bat (bat_bat b) (bat_status b) (pbw_blk b) (pbw_offset b) (bat_req b) (bat_buf b) v.

Definition bm_with_seqno (v : Z) (b : vhd_bitmap) : vhd_bitmap :=
  mk_bitmap (bm_blk b) v (bm_status b) (bm_map b) (bm_shadow b) (bm_tx b)
    (bm_queue b) (bm_waiting b) (bm_req b).
Definition bm_with_status (v : Z) (b : vhd_bitmap) : vhd_bitmap :=
  mk_bitmap (bm_blk b) (bm_seqno b) v (bm_map b) (bm_shadow b) (bm_tx b)
    (bm_queue b) (bm_waiting b) (bm_req b).
Definition bm_with_map (v : Z) (b : vhd_bitmap) : vhd_bitmap :=
  mk_bitmap (bm_blk b) (bm_seqno b) (bm_status b) v (bm_shadow b) (bm_tx b)
    (bm_queue b) (bm_waiting b) (bm_req b).
Definition bm_with_shadow (v : Z) (b : vhd_bitmap) : vhd_bitmap :=
  mk_bitmap (bm_blk b) (bm_seqno b) (bm_status b) (bm_map b) v (bm_tx b)
    (bm_queue b) (bm_waiting b) (bm_req b).
Definition bm_with_tx (v : vhd_transaction) (b : vhd_bitmap) : vhd_bitmap :=
  mk_bitmap (bm_blk b) (bm_seqno b) (bm_status b) (bm_map b) (bm_shadow b) v
    (bm_queue b) (bm_waiting b) (bm_req b).
Definition bm_with_queue (v : vhd_req_list) (b : vhd_bitmap) : vhd_bitmap :=
  mk_bitmap (bm_blk b) (bm_seqno b) (bm_status b) (bm_map b) (bm_shadow b) (bm_tx b)
    v (bm_waiting b) (bm_req b).
Definition bm_with_waiting (v : vhd_req_list) (b : vhd_bitmap) : vhd_bitmap :=
  mk_bitmap (bm_blk b) (bm_seqno b) (bm_status b) (bm_map b) (bm_shadow b) (bm_tx b)
    (bm_queue b) v (bm_req b).
Definition bm_with_req (v : vhd_request) (b : vhd_bitmap) : vhd_bitmap :=
  mk_bitmap (bm_blk b) (bm_seqno b) (bm_status b) (bm_map b) (bm_shadow b) (bm_tx b)
    (bm_queue b) (bm_waiting b) v.

Definition tx_with_error (v : Z) (t : vhd_transaction) : vhd_transaction :=
  mk_tx v (tx_closed t) (tx_started t) (tx_finished t) (tx_status t) (tx_requests t).
Definition tx_with_closed (v : Z) (t : vhd_transaction) : vhd_transaction :=
  mk_tx (tx_error t) v (tx_started t) (tx_finished t) (tx_status t) (tx_requests t).
Definition tx_with_started (v : Z) (t : vhd_transaction) : vhd_transaction :=
  mk_tx (tx_error t) (tx_closed t) v (tx_finished t) (tx_status t) (tx_requests t).
Definition tx_with_finished (v : Z) (t : vhd_transaction) : vhd_transaction :=
  mk_tx (tx_error t) (tx_closed t) (tx_started t) v (tx_status t) (tx_requests t).
Definition tx_with_status (v : Z) (t : vhd_transaction) : vhd_transaction :=
  mk_tx (tx_error t) (tx_closed t) (tx_started t) (tx_finished t) v (tx_requests t).
Definition tx_with_requests (v : vhd_req_list) (t : vhd_transaction) : vhd_transaction :=
  mk_tx (tx_error t) (tx_closed t) (tx_started t) (tx_finished t) (tx_status t) v.

Definition req_with_error (v : Z) (r : vhd_request) : vhd_request :=
  mk_req (req_id r) v (req_buf r) (req_op r) (req_nr_secs r) (req_lsec r)
    (req_private r) (req_flags r) (req_cb r) (req_next r) (req_tx r).
Definition req_with_flags (v : Z) (r : vhd_request) : vhd_request :=
  mk_req (req_id r) (req_error r) (req_buf r) (req_op r) (req_nr_secs r) (req_lsec r)
    (req_private r) v (req_cb r) (req_next r) (req_tx r).
Definition req_with_next (v : option rref) (r : vhd_request) : vhd_request :=
  mk_req (req_id r) (req_error r) (req_buf r) (req_op r) (req_nr_secs r) (req_lsec r)
    (req_private r) (req_flags r) (req_cb r) v (req_tx r).
Definition req_with_tx (v : option nat) (r : vhd_request) : vhd_request :=
  mk_req (req_id r) (req_error r) (req_buf r) (req_op r) (req_nr_secs r) (req_lsec r)
    (req_private r) (req_flags r) (req_cb r) (req_next r) v.
(** The assignments [req->op = ..; req->lsec = ..; req->nr_secs = ..] made
    on the three embedded metadata requests. *)
Definition req_with_io (op lsec nr : Z) (r : vhd_request) : vhd_request :=
  mk_req (req_id r) (req_error r) (req_buf r) op nr lsec
    (req_private r) (req_flags r) (req_cb r) (req_next r) (req_tx r).

(** [memset (req, 0, sizeof (struct vhd_request))]. *)
Definition zero_request : vhd_request :=
  mk_req 0 0 0 0 0 0 0 0 0 None None.

Definition empty_req_list : vhd_req_list := mk_req_list None None.

(** [memset (tx, 0, sizeof (struct vhd_transaction))]. *)
Definition zero_tx : vhd_transaction := mk_tx 0 0 0 0 0 empty_req_list.

(** ** The state-and-fault monad *)

Inductive fault :=
| AssertionFailed
| NullPointer
| OutOfBounds
| DivideByZero
| UndefinedShift.

(** [OutOfFuel] is the outcome of a loop that was given too few iterations
    (or that does not terminate); [Crash] keeps the state at the fault. *)
Inductive result (A : Type) : Type :=
| Ok (a : A) (s : vhd_state)
| Crash (f : fault) (s : vhd_state)
| OutOfFuel.
Arguments Ok {A} a s.
Arguments Crash {A} f s.
Arguments OutOfFuel {A}.

Definition M (A : Type) : Type := vhd_state -> result A.

Definition ret {A} (a : A) : M A := fun s => Ok a s.
Definition bind {A B} (m : M A) (k : A -> M B) : M B :=
  fun s => match m s with
           | Ok a s' => k a s'
           | Crash f s' => Crash f s'
           | OutOfFuel => OutOfFuel
           end.
Definition crash {A} (f : fault) : M A := fun s => Crash f s.
Definition out_of_fuel {A} : M A := fun _ => OutOfFuel.
Definition gets {A} (f : vhd_state -> A) : M A := fun s => Ok (f s) s.
Definition modify (f : vhd_state -> vhd_state) : M unit := fun s => Ok tt (f s).

Notation "'let*' x ':=' m 'in' k" := (bind m (fun x => k))
  (at level 10, x pattern, m at level 100, k at level 200).
Notation "m ;; k" := (bind m (fun _ => k))
  (at level 100, k at level 200, right associativity).

Definition ASSERT (p : bool) : M unit :=
  if p then ret tt else crash AssertionFailed.

(** [a / b] and [a % b] on unsigned operands. *)
Definition udiv (a b : Z) : M Z :=
  if b =? 0 then crash DivideByZero else ret (a / b).
Definition umod (a b : Z) : M Z :=
  if b =? 0 then crash DivideByZero else ret (a mod b).

(** ** The request store and the bitmap slots *)

Definition get_req (s : vhd_state) (r : rref) : option vhd_request :=
  match r with
  | RData i => vreq_list s !! i
  | RBat => Some (bat_req (bat s))
  | RZero => Some (bat_zero_req (bat s))
  | RBm k => bm_req <$> bitmap_list s !! k
  end.

Definition put_req (r : rref) (v : vhd_request) (s : vhd_state) : vhd_state :=
  match r with
  | RData i => with_vreq_list (<[i := v]> (vreq_list s)) s
  | RBat => with_bat (bat_with_req v (bat s)) s
  | RZero => with_bat (bat_with_zero_req v (bat s)) s
  | RBm k => with_bitmap_list (alter (bm_with_req v) k (bitmap_list s)) s
  end.

Definition load_req (r : rref) : M vhd_request :=
  fun s => match get_req s r with
           | Some v => Ok v s
           | None => Crash OutOfBounds s
           end.

Definition store_req (r : rref) (v : vhd_request) : M unit :=
  load_req r ;; modify (put_req r v).

Definition upd_req (r : rref) (f : vhd_request -> vhd_request) : M unit :=
  let* v := load_req r in modify (put_req r (f v)).

(** Dereferencing a possibly NULL request pointer. *)
Definition deref (p : option rref) : M rref :=
  match p with Some r => ret r | None => crash NullPointer end.

Definition load_bm (b : nat) : M vhd_bitmap :=
  fun s => match bitmap_list s !! b with
           | Some v => Ok v s
           | None => Crash OutOfBounds s
           end.

Definition upd_bm (b : nat) (f : vhd_bitmap -> vhd_bitmap) : M unit :=
  load_bm b ;; modify (fun s => with_bitmap_list (alter f b (bitmap_list s)) s).

Definition load_tx (b : nat) : M vhd_transaction :=
  let* bm := load_bm b in ret (bm_tx bm).

Definition upd_tx (b : nat) (f : vhd_transaction -> vhd_transaction) : M unit :=
  upd_bm b (fun bm => bm_with_tx (f (bm_tx bm)) bm).

Definition upd_bat (f : vhd_bat -> vhd_bat) : M unit :=
  modify (fun s => with_bat (f (bat s)) s).

(** Bound on the length of any walk along [next] links: the number of
    request structures of the state, plus one. *)
Definition chain_fuel (s : vhd_state) : nat :=
  S (length (vreq_list s) + length (bitmap_list s) + 2).

(** ** Bit operations on the bitmaps *)

Definition test_bit (nr : Z) (addr : Z) : Z :=
  if Z.testbit addr nr then 1 else 0.

(** [word |= (1 << (nr % 64))] with an [int] constant 1: the shift is
    defined only while the result fits an [int]. *)
Definition set_bit (nr : Z) (addr : Z) : M Z :=
  if nr mod 64 <? 31 then ret (Z.lor addr (Z.shiftl 1 nr))
  else crash UndefinedShift.

Fixpoint set_bits (count : nat) (from : Z) (addr : Z) : M Z :=
  match count with
  | O => ret addr
  | S c => let* a := set_bit from addr in set_bits c (from + 1) a
  end.

(** ** Request lists *)

Definition add_to_tail (l : vhd_req_list) (e : rref) : M vhd_req_list :=
  match head l with
  | None => ret (mk_req_list (Some e) (Some e))
  | Some _ =>
      let* t := deref (tail l) in
      upd_req t (req_with_next (Some e)) ;;
      ret (mk_req_list (head l) (Some e))
  end.

Fixpoint remove_walk (fuel : nat) (i e : rref) : M Z :=
  match fuel with
  | O => out_of_fuel
  | S fuel' =>
      let* ri := load_req i in
      match req_next ri with
      | None => ret (- EINVAL)
      | Some n =>
          if rref_eqb n e then
            let* rn := load_req n in
            upd_req i (req_with_next (req_next rn)) ;; ret 0
          else remove_walk fuel' n e
      end
  end.

Definition remove_from_req_list (l : vhd_req_list) (e : rref)
  : M (Z * vhd_req_list) :=
  if opt_rref_eqb (head l) e then
    let* re := load_req e in
    ret (0, mk_req_list (req_next re) (tail l))
  else
    let* i := deref (head l) in
    let* fuel := gets chain_fuel in
    let* r := remove_walk fuel i e in
    ret (r, l).

(** ** Transactions *)

Definition add_to_transaction (b : nat) (r : rref) : M unit :=
  let* tx := load_tx b in
  ASSERT (tx_closed tx =? 0) ;;
  upd_req r (req_with_tx (Some b)) ;;
  upd_tx b (fun t => tx_with_started (tx_started t + 1) t) ;;
  let* tx := load_tx b in
  let* l := add_to_tail (tx_requests tx) r in
  upd_tx b (tx_with_requests l) ;;
  upd_tx b (fun t => tx_with_status (set_vhd_flag (tx_status t) VHD_FLAG_TX_LIVE) t).

Definition transaction_completed (tx : vhd_transaction) : bool :=
  tx_started tx =? tx_finished tx.

(** ** The BAT lock *)

Definition init_bat : M unit :=
  upd_req RBat (req_with_tx None) ;;
  upd_bat (bat_with_pbw 0 0) ;;
  upd_bat (bat_with_status 0).

Definition lock_bat : M unit :=
  upd_bat (fun b => bat_with_status (set_vhd_flag (bat_status b) VHD_FLAG_BAT_LOCKED) b).

Definition unlock_bat : M unit :=
  upd_bat (fun b => bat_with_status (clear_vhd_flag (bat_status b) VHD_FLAG_BAT_LOCKED) b).

Definition bat_locked (s : vhd_state) : bool :=
  test_vhd_flag (bat_status (bat s)) VHD_FLAG_BAT_LOCKED.

(** [bat_entry (s, blk)] as an rvalue: a read of the BAT array. *)
Definition bat_entry (blk : Z) : M Z :=
  fun s => if (0 <=? blk) && (blk <? Z.of_nat (length (bat_bat (bat s)))) then
             match bat_bat (bat s) !! Z.to_nat blk with
             | Some v => Ok v s
             | None => Crash OutOfBounds s
             end
           else Crash OutOfBounds s.

(** ** The bitmap cache *)

Definition zero_bitmap : vhd_bitmap :=
  mk_bitmap 0 0 0 0 0 zero_tx empty_req_list empty_req_list zero_request.

(** [memset] of [map], [shadow] and [req], and the cleared lists. *)
Definition init_vhd_bitmap (b : nat) : M unit :=
  upd_bm b (fun _ => zero_bitmap).

(** The pointers [s->bitmap[0 .. VHD_CACHE_SIZE)]. *)
Definition cache_slots (s : vhd_state) : list (option nat) :=
  take VHD_CACHE_SIZE (bitmap s).

Fixpoint get_bitmap_scan (bl : list vhd_bitmap) (block : Z)
    (slots : list (option nat)) : option nat :=
  match slots with
  | [] => None
  | Some b :: rest =>
      match bl !! b with
      | Some bm => if bm_blk bm =? block then Some b
                   else get_bitmap_scan bl block rest
      | None => get_bitmap_scan bl block rest
      end
  | None :: rest => get_bitmap_scan bl block rest
  end.

Definition get_bitmap (s : vhd_state) (block : Z) : option nat :=
  get_bitmap_scan (bitmap_list s) block (cache_slots s).

Definition lock_bitmap (b : nat) : M unit :=
  upd_bm b (fun bm => bm_with_status (set_vhd_flag (bm_status bm) VHD_FLAG_BM_LOCKED) bm).

Definition unlock_bitmap (b : nat) : M unit :=
  upd_bm b (fun bm => bm_with_status (clear_vhd_flag (bm_status bm) VHD_FLAG_BM_LOCKED) bm).

Definition bitmap_locked (bm : vhd_bitmap) : bool :=
  test_vhd_flag (bm_status bm) VHD_FLAG_BM_LOCKED.

Definition bitmap_valid (bm : vhd_bitmap) : bool :=
  negb (test_vhd_flag (bm_status bm) VHD_FLAG_BM_READ_PENDING).

Definition is_some {A} (o : option A) : bool :=
  match o with Some _ => true | None => false end.

Definition bitmap_in_use (bm : vhd_bitmap) : bool :=
  test_vhd_flag (bm_status bm) VHD_FLAG_BM_READ_PENDING
  || test_vhd_flag (bm_status bm) VHD_FLAG_BM_WRITE_PENDING
  || test_vhd_flag (tx_status (bm_tx bm)) VHD_FLAG_TX_UPDATE_BAT
  || is_some (head (bm_waiting bm))
  || is_some (head (tx_requests (bm_tx bm)))
  || is_some (head (bm_queue bm)).

(** The scan of [remove_lru_bitmap]: [(idx, lru, seq)] after slot [i]. *)
Fixpoint lru_scan (bl : list vhd_bitmap) (slots : list (option nat)) (i : nat)
    (acc : nat * option nat * Z) : nat * option nat * Z :=
  match slots with
  | [] => acc
  | o :: rest =>
      let acc' :=
        match o with
        | Some b =>
            match bl !! b with
            | Some bm =>
                if (bm_seqno bm <? snd acc) && negb (bitmap_locked bm)
                then (i, Some b, bm_seqno bm) else acc
            | None => acc
            end
        | None => acc
        end in
      lru_scan bl rest (S i) acc'
  end.

Definition remove_lru_bitmap : M (option nat) :=
  let* s := gets id in
  let '(idx, lru, _) := lru_scan (bitmap_list s) (cache_slots s) 0%nat (0%nat, None, bm_lru s) in
  match lru with
  | Some b =>
      modify (fun s => with_bitmap (<[idx := None]> (bitmap s)) s) ;;
      let* bm := load_bm b in
      ASSERT (negb (bitmap_in_use bm)) ;;
      ret (Some b)
  | None => ret None
  end.

(** Returns the error code and the bitmap stored through [*bitmap]. *)
Definition alloc_vhd_bitmap (blk : Z) : M (Z * option nat) :=
  let* fr := gets bitmap_free in
  let* got :=
    match fr with
    | b :: rest => modify (with_bitmap_free rest) ;; ret (Some b)
    | [] => remove_lru_bitmap
    end in
  match got with
  | None => ret (- EBUSY, None)
  | Some b =>
      init_vhd_bitmap b ;;
      upd_bm b (fun bm => mk_bitmap blk (bm_seqno bm) (bm_status bm) (bm_map bm)
                            (bm_shadow bm) (bm_tx bm) (bm_queue bm) (bm_waiting bm)
                            (bm_req bm)) ;;
      ret (0, Some b)
  end.

(** The renumbering pass of [__bitmap_lru_seqno]: every cached bitmap has
    its sequence number halved, and [bm_lru] becomes the largest of them. *)
Fixpoint lru_halve (slots : list (option nat)) (bl : list vhd_bitmap) (lru : Z)
  : list vhd_bitmap * Z :=
  match slots with
  | [] => (bl, lru)
  | Some b :: rest =>
      match bl !! b with
      | Some bm =>
          let sq := Z.shiftr (bm_seqno bm) 1 in
          lru_halve rest (<[b := bm_with_seqno sq bm]> bl) (if lru <? sq then sq else lru)
      | None => lru_halve rest bl lru
      end
  | None :: rest => lru_halve rest bl lru
  end.

Definition __bitmap_lru_seqno : M Z :=
  let* s := gets id in
  (if bm_lru s =? 4294967295 then
     let '(bl, lru) := lru_halve (cache_slots s) (bitmap_list s) 0 in
     modify (fun s => with_bm_lru lru (with_bitmap_list bl s))
   else ret tt) ;;
  modify (fun s => with_bm_lru (u64 (bm_lru s + 1)) s) ;;
  gets bm_lru.

Definition touch_bitmap (b : nat) : M unit :=
  let* sq := __bitmap_lru_seqno in
  upd_bm b (bm_with_seqno sq).

Fixpoint first_null (slots : list (option nat)) (i : nat) : option nat :=
  match slots with
  | [] => None
  | None :: _ => Some i
  | Some _ :: rest => first_null rest (S i)
  end.

Definition install_bitmap (b : nat) : M unit :=
  let* s := gets id in
  match first_null (cache_slots s) 0%nat with
  | Some i =>
      touch_bitmap b ;;
      modify (fun s => with_bitmap (<[i := Some b]> (bitmap s)) s)
  | None => ASSERT false
  end.

Fixpoint slot_of (slots : list (option nat)) (b : nat) (i : nat) : nat :=
  match slots with
  | [] => i
  | Some b' :: rest => if Nat.eqb b' b then i else slot_of rest b (S i)
  | None :: rest => slot_of rest b (S i)
  end.

Definition free_vhd_bitmap (b : nat) : M unit :=
  let* s := gets id in
  let i := slot_of (cache_slots s) b 0%nat in
  let* bm := load_bm b in
  ASSERT (negb (bitmap_locked bm)) ;;
  ASSERT (negb (bitmap_in_use bm)) ;;
  ASSERT (Nat.ltb i VHD_CACHE_SIZE) ;;
  modify (fun s => with_bitmap (<[i := None]> (bitmap s)) s) ;;
  let* fr := gets bitmap_free in
  if Nat.ltb (length fr) VHD_CACHE_SIZE then modify (with_bitmap_free (b :: fr))
  else crash OutOfBounds.

(** ** Classification of a sector *)

Definition read_bitmap_cache (sector : Z) (op : Z) : M Z :=
  let* s := gets id in
  if hd_type_eqb (ftr_type s) HD_TYPE_FIXED then ret VHD_BM_BIT_SET else
  let* q := udiv sector (spb s) in
  let* m := umod sector (spb s) in
  let blk := u32 q in
  let sec := u32 m in
  if hdr_max_bat_size s <? blk then ret (- EINVAL) else
  let* e := bat_entry blk in
  if e =? DD_BLK_UNUSED then
    if (op =? VHD_OP_DATA_WRITE) && negb (pbw_blk (bat s) =? blk) && bat_locked s
    then ret VHD_BM_BAT_LOCKED
    else ret VHD_BM_BAT_CLEAR
  else
  if hd_type_eqb (ftr_type s) HD_TYPE_DYNAMIC then ret VHD_BM_BIT_SET else
  match get_bitmap s blk with
  | None => ret VHD_BM_NOT_CACHED
  | Some b =>
      touch_bitmap b ;;
      let* bm := load_bm b in
      if test_vhd_flag (bm_status bm) VHD_FLAG_BM_READ_PENDING
      then ret VHD_BM_READ_PENDING
      else ret (if test_bit sec (bm_map bm) =? 0 then VHD_BM_BIT_CLEAR
                else VHD_BM_BIT_SET)
  end.

(** The [for] loop of [read_bitmap_cache_span]; it runs at most [nr_secs]
    times. *)
Fixpoint span_loop (fuel : nat) (map spb_ sec ret_ nr_secs value : Z) : Z :=
  match fuel with
  | O => ret_
  | S fuel' =>
      if (sec <? spb_) && (ret_ <? nr_secs) then
        if negb (test_bit sec map =? value) then ret_
        else span_loop fuel' map spb_ (sec + 1) (ret_ + 1) nr_secs value
      else ret_
  end.

Definition read_bitmap_cache_span (sector nr_secs value : Z) : M Z :=
  let* s := gets id in
  if hd_type_eqb (ftr_type s) HD_TYPE_FIXED then ret nr_secs else
  let* m := umod sector (spb s) in
  let sec := u32 m in
  if hd_type_eqb (ftr_type s) HD_TYPE_DYNAMIC
  then ret (to_int (MIN (u32 nr_secs) (u32 (spb s - sec)))) else
  let* q := udiv sector (spb s) in
  let blk := u32 q in
  match get_bitmap s blk with
  | None => ASSERT false ;; ret 0
  | Some b =>
      let* bm := load_bm b in
      ASSERT (bitmap_valid bm) ;;
      ret (span_loop (Z.to_nat nr_secs) (bm_map bm) (spb s) sec 0 nr_secs value)
  end.

(** ** The request pool and the submission queue *)

Definition alloc_vhd_request : M (option rref) :=
  let* fr := gets vreq_free in
  match fr with
  | r :: rest =>
      modify (with_vreq_free rest) ;;
      let* rq := load_req r in
      ASSERT (req_nr_secs rq =? 0) ;;
      ret (Some r)
  | [] => ret None
  end.

(** [vreq_free] has room for as many pointers as [vreq_list] has requests
    (VHD_REQS_DATA). *)
Definition free_vhd_request (r : rref) : M unit :=
  upd_req r (fun _ => zero_request) ;;
  let* s := gets id in
  if Nat.ltb (length (vreq_free s)) (length (vreq_list s))
  then modify (with_vreq_free (r :: vreq_free s))
  else crash OutOfBounds.

(** [iocb_queue] has VHD_REQS_TOTAL entries: one per request structure. *)
Definition enqueue_iocb (io : iocb) : M unit :=
  let* s := gets id in
  if Nat.ltb (length (iocb_queue s))
       (length (vreq_list s) + VHD_CACHE_SIZE + 2)
  then modify (with_iocb_queue (iocb_queue s ++ [io]))
  else crash OutOfBounds.

Definition aio_read (r : rref) (offset : Z) : M unit :=
  let* rq := load_req r in
  enqueue_iocb (mk_iocb r false (Z.shiftl (req_nr_secs rq) VHD_SECTOR_SHIFT) offset).

Definition aio_write (r : rref) (offset : Z) : M unit :=
  let* rq := load_req r in
  enqueue_iocb (mk_iocb r true (Z.shiftl (req_nr_secs rq) VHD_SECTOR_SHIFT) offset).

(** ** Block allocation *)

Definition reserve_new_block (blk : Z) : M Z :=
  let* s := gets id in
  ASSERT (negb (bat_locked s)
          && negb (test_vhd_flag (bat_status (bat s)) VHD_FLAG_BAT_WRITE_STARTED)) ;;
  upd_bat (bat_with_pbw blk (next_db s)) ;;
  lock_bat ;;
  gets next_db.

(** The four bytes that [BE32_OUT] leaves in memory for a 32-bit value. *)
Definition be32 (v : Z) : list Z :=
  [ (v / 2 ^ 24) mod 256; (v / 2 ^ 16) mod 256; (v / 2 ^ 8) mod 256; v mod 256 ].

(** [memcpy (req->buf, &bat_entry (s, base), 512)]: 128 entries of the BAT
    array have to exist from [base] on. *)
Definition bat_window (base : Z) : M (list Z) :=
  fun s => if (0 <=? base) && (base + 128 <=? Z.of_nat (length (bat_bat (bat s))))
           then Ok (take 128 (drop (Z.to_nat base) (bat_bat (bat s)))) s
           else Crash OutOfBounds s.

Definition schedule_bat_write : M Z :=
  let* s := gets id in
  ASSERT (bat_locked s) ;;
  let blk := pbw_blk (bat s) in
  let* win := bat_window (blk - blk mod 128) in
  let win' := <[Z.to_nat (blk mod 128) := u32 (pbw_offset (bat s))]> win in
  upd_bat (bat_with_buf (flat_map be32 win')) ;;
  let offset := u64 (hdr_table_offset s + u32 ((blk - blk mod 128) * 4)) in
  upd_req RBat (fun r => req_with_io VHD_OP_BAT_WRITE (req_lsec r) 1 r) ;;
  aio_write RBat offset ;;
  upd_bat (fun b => bat_with_status
                      (set_vhd_flag (bat_status b) VHD_FLAG_BAT_WRITE_STARTED) b) ;;
  ret 0.

Definition schedule_zero_bm_write (b : nat) : M unit :=
  let* s := gets id in
  let offset := u64 (Z.shiftl (pbw_offset (bat s)) VHD_SECTOR_SHIFT) in
  upd_req RZero (req_with_io VHD_OP_ZERO_BM_WRITE
                   (u32 (pbw_blk (bat s) * spb s)) (bm_secs s)) ;;
  lock_bitmap b ;;
  add_to_transaction b RZero ;;
  aio_write RZero offset.

Definition update_bat (blk : Z) : M Z :=
  let* e := bat_entry blk in
  ASSERT (e =? DD_BLK_UNUSED) ;;
  let* s := gets id in
  if bat_locked s then
    ASSERT (pbw_blk (bat s) =? blk) ;; ret 0
  else
    let* got :=
      match get_bitmap s blk with
      | Some b => ret (0, Some b)
      | None =>
          let* r := alloc_vhd_bitmap blk in
          if negb (fst r =? 0) then ret (fst r, None) else
          match snd r with
          | Some b => install_bitmap b ;; ret (0, Some b)
          | None => crash NullPointer
          end
      end in
    match got with
    | (err, None) => ret err
    | (_, Some b) =>
        reserve_new_block blk ;;
        schedule_zero_bm_write b ;;
        upd_tx b (fun t => tx_with_status
                             (set_vhd_flag (tx_status t) VHD_FLAG_TX_UPDATE_BAT) t) ;;
        ret 0
    end.

(** ** Scheduling of data and bitmap I/O *)

(** The assignments that fill a data request taken from the pool. *)
Definition fill_request (op sector nr_secs buf flags cb id_ private : Z)
    (r : vhd_request) : vhd_request :=
  mk_req id_ (req_error r) buf op nr_secs sector private flags cb
    (req_next r) (req_tx r).

(** [offset += s->bm_secs + sec; offset <<= VHD_SECTOR_SHIFT] on a 64-bit
    offset, the sum of the two 32-bit operands being taken first. *)
Definition data_offset (s : vhd_state) (base sec : Z) : Z :=
  u64 (Z.shiftl (u64 (base + u32 (bm_secs s + sec))) VHD_SECTOR_SHIFT).

Definition schedule_data_read (sector nr_secs buf flags cb id_ private : Z) : M Z :=
  let* s := gets id in
  let* offset :=
    if hd_type_eqb (ftr_type s) HD_TYPE_FIXED
    then ret (u64 (Z.shiftl sector VHD_SECTOR_SHIFT))
    else
      let* q := udiv sector (spb s) in
      let* m := umod sector (spb s) in
      let blk := u32 q in
      let sec := u32 m in
      let bm := get_bitmap s blk in
      let* e := bat_entry blk in
      (if hd_type_eqb (ftr_type s) HD_TYPE_DIFF then
         ASSERT (negb (e =? DD_BLK_UNUSED)) ;;
         match bm with
         | Some b => let* v := load_bm b in ASSERT (bitmap_valid v)
         | None => ASSERT false
         end
       else ret tt) ;;
      ret (data_offset s e sec) in
  let* got := alloc_vhd_request in
  match got with
  | None => ret (- ENOMEM)
  | Some req =>
      upd_req req (fill_request VHD_OP_DATA_READ sector nr_secs buf flags cb id_ private) ;;
      aio_read req offset ;;
      ret 0
  end.

Definition schedule_data_write (sector nr_secs buf flags cb id_ private : Z) : M Z :=
  let* s := gets id in
  let* pre :=
    if hd_type_eqb (ftr_type s) HD_TYPE_FIXED
    then ret (0, 0, u64 (Z.shiftl sector VHD_SECTOR_SHIFT))
    else
      let* q := udiv sector (spb s) in
      let* m := umod sector (spb s) in
      let blk := u32 q in
      let sec := u32 m in
      let* e := bat_entry blk in
      if test_vhd_flag flags VHD_FLAG_REQ_UPDATE_BAT then
        let* err := update_bat blk in
        if negb (err =? 0) then ret (err, blk, 0) else
        let* s' := gets id in
        ret (0, blk, data_offset s (pbw_offset (bat s')) sec)
      else ret (0, blk, data_offset s e sec) in
  let '(err, blk, offset) := pre in
  if negb (err =? 0) then ret err else
  let* got := alloc_vhd_request in
  match got with
  | None => ret (- ENOMEM)
  | Some req =>
      upd_req req (fill_request VHD_OP_DATA_WRITE sector nr_secs buf flags cb id_ private) ;;
      (if test_vhd_flag flags VHD_FLAG_REQ_UPDATE_BITMAP then
         let* s := gets id in
         match get_bitmap s blk with
         | None => ASSERT false
         | Some b =>
             let* bm := load_bm b in
             ASSERT (bitmap_valid bm) ;;
             lock_bitmap b ;;
             if negb (tx_closed (bm_tx bm) =? 0) then
               let* l := add_to_tail (bm_queue bm) req in
               upd_bm b (bm_with_queue l) ;;
               upd_req req (fun r => req_with_flags
                                       (set_vhd_flag (req_flags r) VHD_FLAG_REQ_QUEUED) r)
             else add_to_transaction b req
         end
       else ret tt) ;;
      aio_write req offset ;;
      ret 0
  end.

Definition schedule_bitmap_read (blk : Z) : M Z :=
  let* s := gets id in
  ASSERT (negb (hd_type_eqb (ftr_type s) HD_TYPE_FIXED)) ;;
  let* e := bat_entry blk in
  ASSERT (negb (e =? DD_BLK_UNUSED)) ;;
  ASSERT (negb (is_some (get_bitmap s blk))) ;;
  let offset := u64 (Z.shiftl e VHD_SECTOR_SHIFT) in
  let* r := alloc_vhd_bitmap blk in
  if negb (fst r =? 0) then ret (fst r) else
  let* b := match snd r with Some b => ret b | None => crash NullPointer end in
  upd_req (RBm b) (req_with_io VHD_OP_BITMAP_READ (u32 (blk * spb s)) (bm_secs s)) ;;
  aio_read (RBm b) offset ;;
  lock_bitmap b ;;
  install_bitmap b ;;
  upd_bm b (fun bm => bm_with_status
                        (set_vhd_flag (bm_status bm) VHD_FLAG_BM_READ_PENDING) bm) ;;
  ret 0.

Definition schedule_bitmap_write (blk : Z) : M Z :=
  let* s := gets id in
  let bm := get_bitmap s blk in
  let* e := bat_entry blk in
  ASSERT (negb (hd_type_eqb (ftr_type s) HD_TYPE_FIXED)) ;;
  let* b := match bm with Some b => ret b | None => ASSERT false ;; crash NullPointer end in
  let* v := load_bm b in
  ASSERT (bitmap_valid v
          && negb (test_vhd_flag (bm_status v) VHD_FLAG_BM_WRITE_PENDING)) ;;
  let* base :=
    if e =? DD_BLK_UNUSED then
      ASSERT (pbw_blk (bat s) =? blk) ;; ret (pbw_offset (bat s))
    else ret e in
  let offset := u64 (Z.shiftl base VHD_SECTOR_SHIFT) in
  upd_req (RBm b) (req_with_io VHD_OP_BITMAP_WRITE (u32 (blk * spb s)) (bm_secs s)) ;;
  aio_write (RBm b) offset ;;
  lock_bitmap b ;;
  touch_bitmap b ;;
  upd_bm b (fun bm => bm_with_status
                        (set_vhd_flag (bm_status bm) VHD_FLAG_BM_WRITE_PENDING) bm) ;;
  ret 0.

Definition __vhd_queue_request (op sector nr_secs buf cb id_ private : Z) : M Z :=
  let* s := gets id in
  ASSERT (negb (hd_type_eqb (ftr_type s) HD_TYPE_FIXED)) ;;
  let* q := udiv sector (spb s) in
  let blk := u32 q in
  let* b := match get_bitmap s blk with Some b => ret b | None => ASSERT false ;; crash NullPointer end in
  let* bm := load_bm b in
  ASSERT (test_vhd_flag (bm_status bm) VHD_FLAG_BM_READ_PENDING) ;;
  let* got := alloc_vhd_request in
  match got with
  | None => ret (- ENOMEM)
  | Some req =>
      upd_req req (fun r => fill_request op sector nr_secs buf (req_flags r) cb id_ private r) ;;
      let* bm := load_bm b in
      let* l := add_to_tail (bm_waiting bm) req in
      upd_bm b (bm_with_waiting l) ;;
      lock_bitmap b ;;
      ret 0
  end.

(** ** The request router *)

(** How a walk over a sector range ended: by running off the end of the
    range ([Done], with the accumulated [rsp]) or by one of the
    [return cb (...)] statements inside the loop ([Aborted], with the value
    of that callback). *)
Inductive walk :=
| Done (rsp : Z)
| Aborted (v : Z).

Definition walk_value (w : walk) : Z :=
  match w with Done v => v | Aborted v => v end.

Section Driver.

(** The caller callbacks ([td_callback_t]) are external: [cb_ret] gives the
    value each invocation returns.  [BLK_NOT_ALLOCATED] is the sentinel of
    tapdisk.h, which is not among the sources. *)
Variable cb_ret : cb_call -> Z.
Variable BLK_NOT_ALLOCATED : Z.

Definition call_cb (cb err sector nr_secs id_ private : Z) : M Z :=
  if cb =? 0 then crash NullPointer else
  let c := mk_cb_call cb err sector nr_secs id_ private in
  modify (fun s => with_cb_log (cb_log s ++ [c]) s) ;;
  ret (cb_ret c).

(** [MIN (remaining, s->spb - (sec % s->spb))], compared on 64 bits. *)
Definition block_span (s : vhd_state) (sec remaining : Z) : M Z :=
  let* m := umod sec (spb s) in
  ret (to_int (MIN (u64 remaining) (u64 (spb s - m)))).

Fixpoint vhd_queue_read_loop (fuel : nat) (sec end_ buf cb id_ private rsp : Z)
  : M walk :=
  if negb (sec <? end_) then ret (Done rsp) else
  match fuel with
  | O => out_of_fuel
  | S fuel' =>
      let remaining := to_int (u64 (end_ - sec)) in
      let next n rsp' :=
        vhd_queue_read_loop fuel' (u64 (sec + n)) end_ (buf + VHD_SECTOR_SIZE * n)
          cb id_ private rsp' in
      let abort err :=
        let* v := call_cb cb err sec remaining id_ private in ret (Aborted v) in
      let hole n :=
        let* r := call_cb cb BLK_NOT_ALLOCATED sec n id_ private in
        if r =? - EBUSY then
          let* v := call_cb cb (- EBUSY) (u64 (sec + n)) (remaining - n) id_ private in
          ret (Aborted v)
        else next n (rsp + r) in
      let* s := gets id in
      let* c := read_bitmap_cache sec VHD_OP_DATA_READ in
      if c =? - EINVAL then abort (- EINVAL)
      else if c =? VHD_BM_BAT_CLEAR then
        let* n := block_span s sec remaining in hole n
      else if c =? VHD_BM_BIT_CLEAR then
        let* n := read_bitmap_cache_span sec remaining 0 in hole n
      else if c =? VHD_BM_BIT_SET then
        let* n := read_bitmap_cache_span sec remaining 1 in
        let* err := schedule_data_read sec n buf 0 cb id_ private in
        if negb (err =? 0) then abort err else next n rsp
      else if c =? VHD_BM_NOT_CACHED then
        let* n := block_span s sec remaining in
        let* q := udiv sec (spb s) in
        let* err := schedule_bitmap_read (u32 q) in
        if negb (err =? 0) then abort err else
        let* err := __vhd_queue_request VHD_OP_DATA_READ sec n buf cb id_ private in
        if negb (err =? 0) then abort err else next n rsp
      else if c =? VHD_BM_READ_PENDING then
        let* n := block_span s sec remaining in
        let* err := __vhd_queue_request VHD_OP_DATA_READ sec n buf cb id_ private in
        if negb (err =? 0) then abort err else next n rsp
      else
        ASSERT false ;; next 1 rsp
  end.

(** Every turn of the loop advances by at least one sector, so [nr_sectors]
    turns are enough. *)
Definition vhd_queue_read_walk (sector nr_sectors buf cb id_ private : Z) : M walk :=
  vhd_queue_read_loop (Z.to_nat nr_sectors) sector (u64 (sector + nr_sectors))
    buf cb id_ private 0.

Definition vhd_queue_read (sector nr_sectors buf cb id_ private : Z) : M Z :=
  let* w := vhd_queue_read_walk sector nr_sectors buf cb id_ private in
  ret (walk_value w).

Fixpoint vhd_queue_write_loop (fuel : nat) (sec end_ buf cb id_ private : Z)
  : M walk :=
  if negb (sec <? end_) then ret (Done 0) else
  match fuel with
  | O => out_of_fuel
  | S fuel' =>
      let remaining := to_int (u64 (end_ - sec)) in
      let next n :=
        vhd_queue_write_loop fuel' (u64 (sec + n)) end_ (buf + VHD_SECTOR_SIZE * n)
          cb id_ private in
      let abort err :=
        let* v := call_cb cb err sec remaining id_ private in ret (Aborted v) in
      let write n flags :=
        let* err := schedule_data_write sec n buf flags cb id_ private in
        if negb (err =? 0) then abort err else next n in
      let* s := gets id in
      let* c := read_bitmap_cache sec VHD_OP_DATA_WRITE in
      if c =? - EINVAL then abort (- EINVAL)
      else if c =? VHD_BM_BAT_LOCKED then abort (- EBUSY)
      else if c =? VHD_BM_BAT_CLEAR then
        let* n := block_span s sec remaining in
        write n (Z.lor VHD_FLAG_REQ_UPDATE_BAT VHD_FLAG_REQ_UPDATE_BITMAP)
      else if c =? VHD_BM_BIT_CLEAR then
        let* n := read_bitmap_cache_span sec remaining 0 in
        write n VHD_FLAG_REQ_UPDATE_BITMAP
      else if c =? VHD_BM_BIT_SET then
        let* n := read_bitmap_cache_span sec remaining 1 in
        write n 0
      else if c =? VHD_BM_NOT_CACHED then
        let* n := block_span s sec remaining in
        let* q := udiv sec (spb s) in
        let* err := schedule_bitmap_read (u32 q) in
        if negb (err =? 0) then abort err else
        let* err := __vhd_queue_request VHD_OP_DATA_WRITE sec n buf cb id_ private in
        if negb (err =? 0) then abort err else next n
      else if c =? VHD_BM_READ_PENDING then
        let* n := block_span s sec remaining in
        let* err := __vhd_queue_request VHD_OP_DATA_WRITE sec n buf cb id_ private in
        if negb (err =? 0) then abort err else next n
      else
        ASSERT false ;; next 1
  end.

Definition vhd_queue_write_walk (sector nr_sectors buf cb id_ private : Z) : M walk :=
  vhd_queue_write_loop (Z.to_nat nr_sectors) sector (u64 (sector + nr_sectors))
    buf cb id_ private.

Definition vhd_queue_write (sector nr_sectors buf cb id_ private : Z) : M Z :=
  let* w := vhd_queue_write_walk sector nr_sectors buf cb id_ private in
  ret (walk_value w).

(** ** Completion of requests *)

Fixpoint signal_completion_loop (fuel : nat) (r : option rref) (error rsp : Z) : M Z :=
  match r with
  | None => ret rsp
  | Some p =>
      match fuel with
      | O => out_of_fuel
      | S fuel' =>
          let* rq := load_req p in
          let err := if negb (error =? 0) then error else req_error rq in
          let next := req_next rq in
          let* v := call_cb (req_cb rq) err (req_lsec rq) (req_nr_secs rq)
                      (req_id rq) (req_private rq) in
          free_vhd_request p ;;
          signal_completion_loop fuel' next error (rsp + v)
      end
  end.

Definition signal_completion (list : option rref) (error : Z) : M Z :=
  let* fuel := gets chain_fuel in
  signal_completion_loop fuel list error 0.

(** The [while (r)] loop of [start_new_bitmap_transaction]: every queued
    request either joins the transaction of bitmap [b] or, if it already
    failed, goes to the local list [completed]. *)
Fixpoint promote_queue (fuel : nat) (b : nat) (r : option rref)
    (completed : vhd_req_list) : M vhd_req_list :=
  match r with
  | None => ret completed
  | Some p =>
      match fuel with
      | O => out_of_fuel
      | S fuel' =>
          let* rq := load_req p in
          let next := req_next rq in
          upd_req p (req_with_next None) ;;
          upd_req p (fun r => req_with_flags
                                (clear_vhd_flag (req_flags r) VHD_FLAG_REQ_QUEUED) r) ;;
          let* completed' :=
            if negb (req_error rq =? 0) then add_to_tail completed p
            else
              add_to_transaction b p ;;
              let* rq := load_req p in
              (if test_vhd_flag (req_flags rq) VHD_FLAG_REQ_FINISHED then
                 let* s := gets id in
                 (if hd_type_eqb (ftr_type s) HD_TYPE_DIFF then
                    let* m := umod (req_lsec rq) (spb s) in
                    let* bm := load_bm b in
                    let* sh := set_bits (Z.to_nat (req_nr_secs rq)) (u32 m) (bm_shadow bm) in
                    upd_bm b (bm_with_shadow sh)
                  else ret tt) ;;
                 upd_tx b (fun t => tx_with_finished (tx_finished t + 1) t)
               else ret tt) ;;
              ret completed in
          promote_queue fuel' b next completed'
      end
  end.

Definition start_new_bitmap_transaction_ (fdt : nat -> M Z) (b : nat) : M Z :=
  let* bm := load_bm b in
  match head (bm_queue bm) with
  | None => ret 0
  | Some _ =>
      let r := head (bm_queue bm) in
      upd_bm b (bm_with_queue empty_req_list) ;;
      let* e := bat_entry (bm_blk bm) in
      if e =? DD_BLK_UNUSED then
        signal_completion r (- EIO)
      else
        let* fuel := gets chain_fuel in
        let* completed := promote_queue fuel b r empty_req_list in
        let* tx := load_tx b in
        let* rsp := if transaction_completed tx then fdt b else ret 0 in
        let* v := signal_completion (head completed) 0 in
        ret (rsp + v)
  end.

Definition finish_data_transaction_ (fbt : nat -> Z -> M Z) (b : nat) : M Z :=
  upd_tx b (tx_with_closed 1) ;;
  let* tx := load_tx b in
  let* s := gets id in
  if (tx_error tx =? 0) && hd_type_eqb (ftr_type s) HD_TYPE_DIFF then
    let* bm := load_bm b in
    schedule_bitmap_write (bm_blk bm) ;;
    ret 0
  else fbt b 0.

(** [finish_bitmap_transaction], [start_new_bitmap_transaction] and
    [finish_data_transaction] call one another; [fuel] bounds the depth of
    the calls to [finish_bitmap_transaction]. *)
Fixpoint finish_bitmap_transaction (fuel : nat) (b : nat) (error : Z) : M Z :=
  match fuel with
  | O => out_of_fuel
  | S fuel' =>
      upd_tx b (fun t => tx_with_error
                           (if negb (tx_error t =? 0) then tx_error t else error) t) ;;
      let* tx := load_tx b in
      if test_vhd_flag (tx_status tx) VHD_FLAG_TX_UPDATE_BAT then
        let* s := gets id in
        let* bm := load_bm b in
        ASSERT (bm_blk bm =? pbw_blk (bat s)) ;;
        ASSERT (test_vhd_flag (bat_status (bat s)) VHD_FLAG_BAT_WRITE_STARTED) ;;
        upd_req RBat (req_with_tx (Some b)) ;;
        ret 0
      else
        let* v1 := signal_completion (head (tx_requests tx)) (tx_error tx) in
        upd_tx b (fun _ => zero_tx) ;;
        let* v2 := start_new_bitmap_transaction_
                     (finish_data_transaction_ (finish_bitmap_transaction fuel')) b in
        let* bm := load_bm b in
        (if negb (bitmap_in_use bm) then unlock_bitmap b else ret tt) ;;
        ret (v1 + v2)
  end.

(** The queue is emptied before the nested calls are made, so the nesting
    stops at the second [finish_bitmap_transaction]. *)
Definition tx_fuel : nat := 3.

Definition finish_data_transaction (b : nat) : M Z :=
  finish_data_transaction_ (finish_bitmap_transaction tx_fuel) b.

Definition start_new_bitmap_transaction (b : nat) : M Z :=
  start_new_bitmap_transaction_ finish_data_transaction b.

(** ** The completion finishers *)

(** [bat_entry (s, blk) = v]: a write to the BAT array. *)
Definition set_bat_entry (blk v : Z) : M unit :=
  let* _ := bat_entry blk in
  upd_bat (fun b => bat_with_bat (<[Z.to_nat blk := v]> (bat_bat b)) b).

(** [s->next_db += s->spb + s->bm_secs], then the padding that puts the data
    region of the next block on a page boundary. *)
Definition advance_next_db : M unit :=
  let* s := gets id in
  let nd := u64 (next_db s + u32 (spb s + bm_secs s)) in
  let* m := umod (u64 (nd + bm_secs s)) (spp s) in
  if negb (m =? 0) then modify (with_next_db (u64 (nd + u64 (spp s - m))))
  else modify (with_next_db nd).

Definition finish_bat_write (req : rref) : M Z :=
  let* s := gets id in
  let* b := match get_bitmap s (pbw_blk (bat s)) with
            | Some b => ret b
            | None => ASSERT false ;; crash NullPointer
            end in
  let* bm := load_bm b in
  ASSERT (bitmap_valid bm) ;;
  ASSERT (bat_locked s
          && test_vhd_flag (bat_status (bat s)) VHD_FLAG_BAT_WRITE_STARTED) ;;
  ASSERT (test_vhd_flag (tx_status (bm_tx bm)) VHD_FLAG_TX_LIVE) ;;
  let* rq := load_req req in
  (if req_error rq =? 0 then
     set_bat_entry (pbw_blk (bat s)) (u32 (pbw_offset (bat s))) ;;
     advance_next_db
   else upd_tx b (tx_with_error (req_error rq))) ;;
  upd_tx b (fun t => tx_with_status
                       (clear_vhd_flag (tx_status t) VHD_FLAG_TX_UPDATE_BAT) t) ;;
  let* s1 := gets id in
  let* rsp := if is_some (req_tx (bat_req (bat s1)))
              then finish_bitmap_transaction tx_fuel b (req_error rq)
              else ret 0 in
  unlock_bat ;;
  init_bat ;;
  ret rsp.

Definition finish_zero_bm_write (req : rref) : M Z :=
  let* rq := load_req req in
  let* s := gets id in
  let* q := udiv (req_lsec rq) (spb s) in
  let blk := u32 q in
  let bm := get_bitmap s blk in
  ASSERT (bat_locked s) ;;
  ASSERT (pbw_blk (bat s) =? blk) ;;
  let* b := match bm with Some b => ret b | None => ASSERT false ;; crash NullPointer end in
  let* v := load_bm b in
  ASSERT (bitmap_valid v && bitmap_locked v) ;;
  let* t := match req_tx rq with Some t => ret t | None => crash NullPointer end in
  upd_tx t (fun x => tx_with_finished (tx_finished x + 1) x) ;;
  let* tx := load_tx t in
  let* rl := remove_from_req_list (tx_requests tx) req in
  upd_tx t (tx_with_requests (snd rl)) ;;
  if negb (req_error rq =? 0) then
    unlock_bat ;;
    init_bat ;;
    upd_tx t (tx_with_error (req_error rq)) ;;
    upd_tx t (fun x => tx_with_status
                         (clear_vhd_flag (tx_status x) VHD_FLAG_TX_UPDATE_BAT) x) ;;
    let* tx := load_tx t in
    if transaction_completed tx then finish_data_transaction b else ret 0
  else
    schedule_bat_write ;; ret 0.

(** The [while (r)] loop of [finish_bitmap_read]: every waiting request is
    copied, released and sent through the router again. *)
Fixpoint requeue_waiting (fuel : nat) (r : option rref) (rsp : Z) : M Z :=
  match r with
  | None => ret rsp
  | Some p =>
      match fuel with
      | O => out_of_fuel
      | S fuel' =>
          let* tmp := load_req p in
          let next := req_next tmp in
          free_vhd_request p ;;
          ASSERT ((req_op tmp =? VHD_OP_DATA_READ) || (req_op tmp =? VHD_OP_DATA_WRITE)) ;;
          let* v :=
            if req_op tmp =? VHD_OP_DATA_READ then
              vhd_queue_read (req_lsec tmp) (req_nr_secs tmp) (req_buf tmp)
                (req_cb tmp) (req_id tmp) (req_private tmp)
            else
              vhd_queue_write (req_lsec tmp) (req_nr_secs tmp) (req_buf tmp)
                (req_cb tmp) (req_id tmp) (req_private tmp) in
          requeue_waiting fuel' next (rsp + v)
      end
  end.

Definition finish_bitmap_read (req : rref) : M Z :=
  let* rq := load_req req in
  let* s := gets id in
  let* q := udiv (req_lsec rq) (spb s) in
  let blk := u32 q in
  let* b := match get_bitmap s blk with Some b => ret b | None => ASSERT false ;; crash NullPointer end in
  let* bm := load_bm b in
  ASSERT (test_vhd_flag (bm_status bm) VHD_FLAG_BM_READ_PENDING) ;;
  let r := head (bm_waiting bm) in
  upd_bm b (bm_with_waiting empty_req_list) ;;
  upd_bm b (fun x => bm_with_status
                       (clear_vhd_flag (bm_status x) VHD_FLAG_BM_READ_PENDING) x) ;;
  let* rsp :=
    if req_error rq =? 0 then
      upd_bm b (fun x => bm_with_shadow (bm_map x) x) ;;
      let* fuel := gets chain_fuel in
      requeue_waiting fuel r 0
    else
      let* p := deref r in
      let* first := load_req p in
      let* v := signal_completion r (req_error first) in
      free_vhd_bitmap b ;;
      ret v in
  let* bm := load_bm b in
  (if negb (bitmap_in_use bm) then unlock_bitmap b else ret tt) ;;
  ret rsp.

Definition finish_bitmap_write (req : rref) : M Z :=
  let* rq := load_req req in
  let* s := gets id in
  let* q := udiv (req_lsec rq) (spb s) in
  let blk := u32 q in
  let* b := match get_bitmap s blk with Some b => ret b | None => crash NullPointer end in
  let* bm := load_bm b in
  ASSERT (negb (tx_closed (bm_tx bm) =? 0)) ;;
  ASSERT (bitmap_valid bm) ;;
  ASSERT (test_vhd_flag (bm_status bm) VHD_FLAG_BM_WRITE_PENDING) ;;
  upd_bm b (fun x => bm_with_status
                       (clear_vhd_flag (bm_status x) VHD_FLAG_BM_WRITE_PENDING) x) ;;
  (if negb (req_error rq =? 0)
   then upd_bm b (fun x => bm_with_shadow (bm_map x) x)
   else upd_bm b (fun x => bm_with_map (bm_shadow x) x)) ;;
  finish_bitmap_transaction tx_fuel b (req_error rq).

Definition finish_data_read (req : rref) : M Z :=
  signal_completion (Some req) 0.

Definition finish_data_write (req : rref) : M Z :=
  upd_req req (fun r => req_with_flags
                          (set_vhd_flag (req_flags r) VHD_FLAG_REQ_FINISHED) r) ;;
  let* rq := load_req req in
  match req_tx rq with
  | Some t =>
      let* s := gets id in
      let* q := udiv (req_lsec rq) (spb s) in
      let* m := umod (req_lsec rq) (spb s) in
      let blk := u32 q in
      let sec := u32 m in
      let* b := match get_bitmap s blk with Some b => ret b | None => ASSERT false ;; crash NullPointer end in
      let* bm := load_bm b in
      ASSERT (bitmap_valid bm && bitmap_locked bm) ;;
      upd_tx t (fun x => tx_with_finished (tx_finished x + 1) x) ;;
      (if (req_error rq =? 0) && hd_type_eqb (ftr_type s) HD_TYPE_DIFF then
         let* bm := load_bm b in
         let* sh := set_bits (Z.to_nat (req_nr_secs rq)) sec (bm_shadow bm) in
         upd_bm b (bm_with_shadow sh)
       else ret tt) ;;
      let* tx := load_tx t in
      if transaction_completed tx then finish_data_transaction b else ret 0
  | None =>
      if negb (test_vhd_flag (req_flags rq) VHD_FLAG_REQ_QUEUED) then
        ASSERT (negb (is_some (req_next rq))) ;;
        signal_completion (Some req) 0
      else ret 0
  end.

(** ** Submission and the poll loop *)

Definition dispatch (req : rref) : M Z :=
  let* rq := load_req req in
  if req_op rq =? VHD_OP_DATA_READ then finish_data_read req
  else if req_op rq =? VHD_OP_DATA_WRITE then finish_data_write req
  else if req_op rq =? VHD_OP_BITMAP_READ then finish_bitmap_read req
  else if req_op rq =? VHD_OP_BITMAP_WRITE then finish_bitmap_write req
  else if req_op rq =? VHD_OP_ZERO_BM_WRITE then finish_zero_bm_write req
  else if req_op rq =? VHD_OP_BAT_WRITE then finish_bat_write req
  else ASSERT false ;; ret 0.

Definition fail_vhd_request (r : rref) (err : Z) : M Z :=
  let* rq := load_req r in
  ASSERT (negb (is_some (req_next rq))) ;;
  upd_req r (req_with_error err) ;;
  dispatch r.

(** The loop [for (i = ret; i < s->iocb_queued; i++)] of [vhd_submit]; the
    queue may grow while it runs. *)
Fixpoint fail_from (fuel : nat) (i : nat) (err rsp : Z) : M Z :=
  match fuel with
  | O => out_of_fuel
  | S fuel' =>
      let* q := gets iocb_queue in
      match q !! i with
      | None => ret rsp
      | Some io =>
          let* v := fail_vhd_request (io_data io) err in
          fail_from fuel' (S i) err (rsp + v)
      end
  end.

(** [io_ret] is what [io_submit] returns: an error, or the number of control
    blocks the kernel accepted. *)
Definition vhd_submit (io_ret : Z) : M Z :=
  let* q := gets iocb_queue in
  match q with
  | [] => ret 0
  | _ =>
      let queued := Z.of_nat (length q) in
      let ret_ := if io_ret <? 0 then 0 else io_ret in
      let err := if io_ret <? 0 then io_ret
                 else if io_ret <? queued then - EIO else 0 in
      modify (fun s => with_aio_ctx (aio_ctx s ++ take (Z.to_nat ret_) q) s) ;;
      let* rsp :=
        if negb (err =? 0) then
          let* s := gets id in
          fail_from (S (length (vreq_list s) + VHD_CACHE_SIZE + 2)) (Z.to_nat ret_) err 0
        else ret 0 in
      modify (with_iocb_queue []) ;;
      ret rsp
  end.

(** One event returned by [io_getevents]: the request of the control block,
    the byte count [res] and, for a bitmap read, the sectors the kernel
    stored in [bm->map]. *)
Record io_event := mk_event {
  ev_req : rref;
  ev_res : Z;
  ev_data : Z
}.

Fixpoint take_iocb (r : rref) (ctx : list iocb) : option (iocb * list iocb) :=
  match ctx with
  | [] => None
  | io :: rest =>
      if rref_eqb (io_data io) r then Some (io, rest)
      else match take_iocb r rest with
           | Some (x, rest') => Some (x, io :: rest')
           | None => None
           end
  end.

(** The body of the event loop of [vhd_do_callbacks]; an event for a control
    block that is not outstanding is not one the kernel can deliver, and is
    skipped. *)
Definition complete (ev : io_event) : M Z :=
  let* s := gets id in
  match take_iocb (ev_req ev) (aio_ctx s) with
  | None => ret 0
  | Some (io, rest) =>
      modify (with_aio_ctx rest) ;;
      let* rq := load_req (ev_req ev) in
      (match ev_req ev with
       | RBm b => if (req_op rq =? VHD_OP_BITMAP_READ) && negb (io_write io)
                  then upd_bm b (bm_with_map (ev_data ev)) else ret tt
       | _ => ret tt
       end) ;;
      upd_req (ev_req ev)
        (req_with_error (if ev_res ev =? io_nbytes io then 0 else - EIO)) ;;
      dispatch (ev_req ev)
  end.

Fixpoint complete_all (evs : list io_event) (rsp : Z) : M Z :=
  match evs with
  | [] => ret rsp
  | ev :: rest => let* v := complete ev in complete_all rest (rsp + v)
  end.

Definition vhd_do_callbacks (evs : list io_event) (io_ret : Z) : M Z :=
  let* nr_iocbs := gets (fun s => length (iocb_queue s)) in
  let* rsp := complete_all evs 0 in
  let* queued := gets (fun s => length (iocb_queue s)) in
  (if negb (Nat.eqb queued nr_iocbs) then vhd_submit io_ret ;; ret tt else ret tt) ;;
  ret rsp.

End Driver.

(** ** The state after [vhd_open]

    Everything is zeroed, the BAT holds the entries read from the file, every
    bitmap of [bitmap_list] is on the free stack and so is every request of
    [vreq_list] (the last one on top). *)

Definition opened_bat (entries : list Z) : vhd_bat :=
  mk_bat entries 0 0 0 zero_request [] zero_request.

Definition opened (ty : hd_type) (entries : list Z) (table_offset spp_ spb_
    next_db_ : Z) (nr_reqs : nat) : vhd_state :=
  mk_state ty (Z.of_nat (length entries)) table_offset spp_ spb_ next_db_
    (opened_bat entries) 0 (secs_round_up (Z.shiftr spb_ 3))
    (replicate VHD_CACHE_SIZE None)
    (rev (seq 0 VHD_CACHE_SIZE))
    (replicate VHD_CACHE_SIZE zero_bitmap)
    (rev (map RData (seq 0 nr_reqs)))
    (replicate nr_reqs zero_request)
    [] [] [].

(** Running one driver call after another, keeping the first fault. *)
Definition run {A} (m : M A) (r : result unit) : result A :=
  match r with
  | Ok _ s => m s
  | Crash f s => Crash f s
  | OutOfFuel => OutOfFuel
  end.

Definition state_of {A} (r : result A) : option vhd_state :=
  match r with Ok _ s => Some s | _ => None end.

Definition forget {A} (r : result A) : result unit :=
  match r with
  | Ok _ s => Ok tt s
  | Crash f s => Crash f s
  | OutOfFuel => OutOfFuel
  end.

(** * Predicates used in the statements *)

(** [kept f m]: whenever [m] returns, the projection [f] of the state is what
    it was. *)
Definition kept {A X} (f : vhd_state -> X) (m : M A) : Prop :=
  forall s a s', m s = Ok a s' -> f s' = f s.

(** A projection that does not look at the requests, at the bitmaps, at the
    flag words of the BAT, at the free stacks or at the queues. *)
Definition skips_requests {X} (f : vhd_state -> X) : Prop :=
  forall s r v, f (put_req r v s) = f s.
Definition skips_bitmaps {X} (f : vhd_state -> X) : Prop :=
  forall s v, f (with_bitmap_list v s) = f s.

(** The padded successor of [nd]: the least [v >= nd] with
    [(v + bm) mod spp = 0]. *)
Definition page_aligned_from (nd bm spp_ v : Z) : Prop :=
  nd <= v /\ (v + bm) mod spp_ = 0 /\
  forall w, nd <= w -> (w + bm) mod spp_ = 0 -> v <= w.


(** The BAT array together with [next_db]. *)
Definition bat_and_next_db (s : vhd_state) : list Z * Z :=
  (bat_bat (bat s), next_db s).

(** * Example runs

    A differencing image with 128 unallocated blocks of 4096 sectors, the BAT
    in sector 3 of the file, pages of 8 sectors, and a pool of four data
    requests.  The callbacks of the examples return 0. *)

Definition cb_zero (c : cb_call) : Z := 0.

(** The value the examples use for the sentinel of tapdisk.h. *)
Definition ex_not_allocated : Z := 99.

Definition the_state {A} (r : result A) (d : vhd_state) : vhd_state :=
  match r with
  | Ok _ s => s
  | Crash _ s => s
  | OutOfFuel => d
  end.

Definition ex_diff : vhd_state :=
  opened HD_TYPE_DIFF (replicate 128 DD_BLK_UNUSED) 1536 8 4096 7 4.

(** One event per call of [vhd_do_callbacks], the kernel accepting
    everything that is submitted. *)
Definition ex_event (r : rref) (res : Z) (s : vhd_state) : result Z :=
  vhd_do_callbacks cb_zero ex_not_allocated [mk_event r res 0] 128 s.

Definition ex_write (sector nr id_ : Z) (s : vhd_state) : result Z :=
  (vhd_queue_write cb_zero sector nr 0 1 id_ 0 ;;
   vhd_submit cb_zero ex_not_allocated 128) s.

(** A write to sector 0 of the unallocated block 0, submitted. *)
Definition ex_alloc : vhd_state :=
  Eval vm_compute in the_state (ex_write 0 1 1 ex_diff) ex_diff.

(** ... its zero-bitmap write has completed: the BAT write is submitted. *)
Definition ex_alloc_zero_done : vhd_state :=
  Eval vm_compute in the_state (ex_event RZero 512 ex_alloc) ex_diff.

(** ... then its data write has completed: the bitmap write is submitted. *)
Definition ex_alloc_data_done : vhd_state :=
  Eval vm_compute in the_state (ex_event (RData 3) 512 ex_alloc_zero_done) ex_diff.

(** ... then the bitmap write has completed: the transaction waits for the
    BAT write. *)
Definition ex_bat_pending : vhd_state :=
  Eval vm_compute in the_state (ex_event (RBm 31) 512 ex_alloc_data_done) ex_diff.

(** ... then the BAT write has completed. *)
Definition ex_bat_done : vhd_state :=
  Eval vm_compute in the_state (finish_bat_write cb_zero RBat ex_bat_pending) ex_diff.

(** The same write when its data write completes before its zero-bitmap
    write: the data write has completed ... *)
Definition ex_data_first : vhd_state :=
  Eval vm_compute in the_state (ex_event (RData 3) 512 ex_alloc) ex_diff.

(** ... then the zero-bitmap write: the BAT write is submitted ... *)
Definition ex_data_first_zero_done : vhd_state :=
  Eval vm_compute in the_state (ex_event RZero 512 ex_data_first) ex_diff.

(** ... then the BAT write. *)
Definition ex_data_first_bat_done : vhd_state :=
  Eval vm_compute in the_state (ex_event RBat 512 ex_data_first_zero_done) ex_diff.

(** A write to sector 3 of the unallocated block 5, submitted, and the BAT
    write that follows the zero-bitmap write. *)
Definition ex_alloc5 : vhd_state :=
  Eval vm_compute in the_state (ex_write (5 * 4096 + 3) 1 1 ex_diff) ex_diff.

Definition ex_alloc5_bat : vhd_state :=
  Eval vm_compute in the_state (schedule_bat_write ex_alloc5) ex_diff.

(** The sum of the values the callbacks returned for a list of calls. *)
Definition returned_sum (cb_ret : cb_call -> Z) (calls : list cb_call) : Z :=
  fold_right Z.add 0 (map cb_ret calls).

(** What a walk adds to the callback log, and the value of a walk that ran
    to the end of the range. *)
Definition walk_sums (cb_ret : cb_call -> Z) (rsp : Z) (s : vhd_state)
    (w : walk) (s' : vhd_state) : Prop :=
  exists calls, cb_log s' = cb_log s ++ calls
                /\ forall r, w = Done r -> r = rsp + returned_sum cb_ret calls.

(** A callback that returns the number of sectors it was called for. *)
Definition cb_count (c : cb_call) : Z := cc_nr_secs c.

(** A read of two unallocated sectors on either side of a block boundary. *)
Definition ex_read_holes : vhd_state :=
  Eval vm_compute in
    the_state (vhd_queue_read cb_count ex_not_allocated 4095 2 0 1 1 0 ex_diff) ex_diff.

(** [is_chain s r l]: following the [next] links from [r] in the request
    store of [s] visits exactly the requests [l], and ends at NULL. *)
Inductive is_chain (s : vhd_state) : option rref -> list rref -> Prop :=
| chain_nil : is_chain s None []
| chain_cons p rq l :
    get_req s p = Some rq ->
    is_chain s (req_next rq) l ->
    is_chain s (Some p) (p :: l).

(** The callback invocation by which [signal_completion (.., error)]
    completes the request [p] of [s]: [error ? error : r->error]. *)
Definition completion_call (s : vhd_state) (error : Z) (p : rref) : cb_call :=
  match get_req s p with
  | Some rq =>
      mk_cb_call (req_cb rq) (if negb (error =? 0) then error else req_error rq)
        (req_lsec rq) (req_nr_secs rq) (req_id rq) (req_private rq)
  | None => mk_cb_call 0 0 0 0 0 0
  end.

(** What the promotion of a queue does not touch when the block turns out
    to be unallocated: the transaction of bitmap [b], the submission queue,
    the BAT with its lock and pending allocation, and [next_db]. *)
Definition promotion_frame (b : nat) (s : vhd_state)
  : option vhd_transaction * list iocb * (Z * Z * Z) * list Z * Z :=
  (bm_tx <$> bitmap_list s !! b, iocb_queue s,
   (bat_status (bat s), pbw_blk (bat s), pbw_offset (bat s)),
   bat_bat (bat s), next_db s).

(** While the transaction of block 0 is closed and its BAT write is still
    outstanding, two more writes to block 0 arrive: they wait on the queue
    of the bitmap. *)
Definition ex_queued : vhd_state :=
  Eval vm_compute in
    the_state ((ex_write 1 1 2 ;; ex_write 2 1 3) ex_alloc_data_done) ex_diff.

Definition ex_queued_failed : vhd_state :=
  Eval vm_compute in
    the_state (start_new_bitmap_transaction cb_zero 31 ex_queued) ex_diff.

(** The allocating write of sector 0 from start to finish: zero-bitmap
    write, data write, bitmap write and BAT write complete in this order. *)
Definition ex_first_write : M Z :=
  ex_write 0 1 1 ;; ex_event RZero 512 ;; ex_event (RData 3) 512 ;;
  ex_event (RBm 31) 512 ;; ex_event RBat 512.

(** After it, four writes to sectors 1 to 4 of block 0 take the four
    requests of the pool and join the transaction of the bitmap of block 0;
    then a write to block 1 reserves the block and queues the zero-bitmap
    write, and finds the pool empty. *)
Definition ex_pool_exhausted : M Z :=
  ex_first_write ;;
  ex_write 1 1 2 ;; ex_write 2 1 3 ;; ex_write 3 1 4 ;; ex_write 4 1 5 ;;
  ex_write 4096 1 6.

Definition ex_stale : vhd_state :=
  Eval vm_compute in the_state (ex_pool_exhausted ex_diff) ex_diff.

(** ... and the zero-bitmap write of block 1 fails. *)
Definition ex_stale_signalled : vhd_state :=
  Eval vm_compute in the_state (ex_event RZero 0 ex_stale) ex_diff.

(** The allocating write of sector 0 whose data write succeeds and whose
    zero-bitmap write then fails. *)
Definition ex_zero_failed : vhd_state :=
  Eval vm_compute in
    the_state ((ex_event (RData 3) 512 ;; ex_event RZero 0) ex_alloc) ex_diff.

(** A differencing image whose block 0 is allocated at sector 7, and a read
    of its sector 0: the bitmap of block 0 is not cached, so the bitmap read
    is submitted and the request waits for it. *)
Definition ex_diff_allocated : vhd_state :=
  opened HD_TYPE_DIFF (7 :: replicate 127 DD_BLK_UNUSED) 1536 8 4096 4111 4.

Definition ex_waiting : vhd_state :=
  Eval vm_compute in
    the_state ((vhd_queue_read cb_zero ex_not_allocated 0 1 0 1 1 0 ;;
                vhd_submit cb_zero ex_not_allocated 128) ex_diff_allocated) ex_diff.

(** ... and the bitmap read fails. *)
Definition ex_bitmap_read_failed : vhd_state :=
  Eval vm_compute in the_state (ex_event (RBm 31) 0 ex_waiting) ex_diff.

(** The requests that have a control block queued or outstanding. *)
Definition outstanding (s : vhd_state) (r : rref) : bool :=
  existsb (fun io => rref_eqb (io_data io) r) (iocb_queue s ++ aio_ctx s).

(** A bitmap write (a write whose request is the one embedded in bitmap
    [b]) is queued or outstanding. *)
Definition bitmap_write_outstanding (s : vhd_state) (b : nat) : bool :=
  existsb (fun io => rref_eqb (io_data io) (RBm b) && io_write io)
    (iocb_queue s ++ aio_ctx s).

(** The reading of C2 as a property of a state: a bitmap write of an
    allocating transaction is never queued or outstanding together with the
    BAT write. *)
Definition bitmap_write_waits_for_bat (s : vhd_state) : Prop :=
  forall b bm,
    bitmap_list s !! b = Some bm ->
    test_vhd_flag (tx_status (bm_tx bm)) VHD_FLAG_TX_UPDATE_BAT = true ->
    bitmap_write_outstanding s b = true ->
    outstanding s RBat = false.

(** Everything of the state but the two arrays of structures. *)
Definition outer (s : vhd_state) :=
  (ftr_type s, hdr_max_bat_size s, hdr_table_offset s, spp s, spb s, next_db s,
   bat s, bm_secs s, bitmap s, iocb_queue s, aio_ctx s, cb_log s).

(** The submission queue, the outstanding control blocks and the callbacks
    made so far. *)
Definition submission (s : vhd_state) := (iocb_queue s, aio_ctx s, cb_log s).

(** The block numbers of the bitmap slots. *)
Definition slot_blocks (s : vhd_state) : list Z := map bm_blk (bitmap_list s).

(** The transaction and the status word of bitmap [b]. *)
Definition tx_of (s : vhd_state) (b : nat) : option vhd_transaction :=
  bm_tx <$> bitmap_list s !! b.
Definition status_of (s : vhd_state) (b : nat) : option Z :=
  bm_status <$> bitmap_list s !! b.

(** [returns m]: [m] never stops for lack of fuel: it returns or faults. *)
Definition returns {A} (m : M A) : Prop := forall s, m s <> OutOfFuel.

(** The disk shape and the block size, which nothing changes after open. *)
Definition cfg (s : vhd_state) : hd_type * Z := (ftr_type s, spb s).

(** Every request structure of the state: the pool, the two requests
    embedded in the BAT and the one embedded in each bitmap. *)
Definition request_refs (s : vhd_state) : list rref :=
  map RData (seq 0 (length (vreq_list s))) ++ [RBat; RZero]
  ++ map RBm (seq 0 (length (bitmap_list s))).

(** The queue of requests waiting on bitmap [b]. *)
Definition queue_of (b : nat) (s : vhd_state) : option vhd_req_list :=
  bm_queue <$> bitmap_list s !! b.

(** Nothing waits on bitmap [b]. *)
Definition queue_empty (b : nat) (s : vhd_state) : Prop :=
  head <$> queue_of b s = Some None.

(** [runs m s]: from [s], [m] returns a value. *)
Definition runs {A} (m : M A) (s : vhd_state) : Prop := exists a s', m s = Ok a s'.

(** [s1] has the requests of [s], with the same links, and the same free
    stack. *)
Definition same_requests (s1 s : vhd_state) : Prop :=
  (forall q, get_req s1 q = get_req s q)
  /\ vreq_free s1 = vreq_free s
  /\ length (vreq_list s1) = length (vreq_list s).

(** * Further parts of the driver *)

(** ** Disk geometry *)

(** [secs_round_up (size)] on a [uint64_t] operand, stored in a [u32]. *)
Definition chs_secs (size : Z) : Z :=
  u32 (Z.shiftr (u64 (size + (VHD_SECTOR_SIZE - 1))) VHD_SECTOR_SHIFT).

(** The cylinders, heads and sectors per track that [chs] computes before it
    packs them. *)
Definition chs_geometry (size : Z) : Z * Z * Z :=
  let secs := chs_secs size in
  let secs := if 65535 * 16 * 255 <? secs then 65535 * 16 * 255 else secs in
  let '(spt, cth, heads) :=
    if 65535 * 16 * 63 <=? secs then (255, secs / 255, 16)
    else
      let spt := 17 in
      let cth := secs / spt in
      let heads := u32 (cth + 1023) / 1024 in
      let heads := if heads <? 4 then 4 else heads in
      let '(spt, cth, heads) :=
        if (u32 (heads * 1024) <=? cth) || (16 <? heads)
        then (31, secs / 31, 16) else (spt, cth, heads) in
      if u32 (heads * 1024) <=? cth then (63, secs / 63, 16)
      else (spt, cth, heads) in
  (cth / heads, heads, spt).

Section Geometry.

(** [GEOM_ENCODE] is a macro of vhd.h. *)
Variable GEOM_ENCODE : Z -> Z -> Z -> Z.

Definition chs (size : Z) : Z :=
  let '(cylinders, heads, spt) := chs_geometry size in
  GEOM_ENCODE cylinders heads spt.

End Geometry.

(** ** Reading the block allocation table *)

(** [be32_to_cpu] of the 32-bit word stored in four bytes of memory. *)
Definition be32_to_cpu (b0 b1 b2 b3 : Z) : Z :=
  b0 * 2 ^ 24 + b1 * 2 ^ 16 + b2 * 2 ^ 8 + b3.

(** The first [n] words of [buf], each through [BE32_IN]. *)
Fixpoint bat_entries (n : nat) (buf : list Z) : list Z :=
  match n, buf with
  | S n', b0 :: b1 :: b2 :: b3 :: rest =>
      be32_to_cpu b0 b1 b2 b3 :: bat_entries n' rest
  | _, _ => []
  end.

(** The [for] loop of [vhd_read_bat] over the decoded entries: [next_db]
    moves past every allocated block that starts at or after it.  The sum
    [bat_entry + spb + bm_secs] is one of three [u32]. *)
Fixpoint scan_next_db (spb_ bm_secs_ : Z) (entries : list Z) (nd : Z) : Z :=
  match entries with
  | [] => nd
  | e :: rest =>
      scan_next_db spb_ bm_secs_ rest
        (if negb (e =? DD_BLK_UNUSED) && (nd <=? e)
         then u32 (e + spb_ + bm_secs_) else nd)
  end.

(** [(next_db + bm_secs) % spp] and the padding to the page boundary. *)
Definition page_align (nd bm_secs_ spp_ : Z) : M Z :=
  let* m := umod (u64 (nd + bm_secs_)) spp_ in
  if negb (m =? 0) then ret (u64 (nd + u64 (spp_ - m))) else ret nd.

(** [vhd_read_bat]: [io] is what [lseek64] and [read] deliver, the bytes
    of the table, or [None] when either fails; a short read fails too. *)
Definition vhd_read_bat (io : option (list Z)) : M Z :=
  let* s := gets id in
  let entries := hdr_max_bat_size s in
  let location := hdr_table_offset s in
  let secs := to_int (secs_round_up (u64 (entries * 4))) in
  match io with
  | None => ret (-1)
  | Some buf =>
      if negb (Z.of_nat (length buf) =? Z.shiftl secs VHD_SECTOR_SHIFT)
      then ret (-1)
      else
        let table := bat_entries (Z.to_nat entries) buf in
        let nd := u64 (Z.shiftr location VHD_SECTOR_SHIFT
                       + secs_round_up (u64 (4 * entries))) in
        let nd := scan_next_db (spb s) (bm_secs s) table nd in
        let* nd := page_align nd (bm_secs s) (spp s) in
        upd_bat (bat_with_bat table) ;;
        modify (with_next_db nd) ;;
        ret 0
  end.

(** A dynamic disk of two blocks before its table is read, and the sector
    that holds the table: block 0 at sector 7, block 1 unallocated. *)
Definition ex_unread : vhd_state :=
  opened HD_TYPE_DYNAMIC [0; 0] 1536 8 4096 0 4.

Definition ex_table_sector : list Z :=
  [0; 0; 0; 7; 255; 255; 255; 255] ++ replicate 504 0.

(** ** Request lists *)

(** A well-formed [struct vhd_req_list]: the [next] links from [head] run
    through [refs] and end in NULL; when the list is not empty, [tail]
    points at its last request. *)
Definition is_req_list (s : vhd_state) (l : vhd_req_list) (refs : list rref) : Prop :=
  is_chain s (head l) refs /\ (refs <> [] -> tail l = last refs).

(** ** Examples *)

(** Two allocating writes, to block 0 and then to block 1, each from start
    to finish: the bitmaps of both blocks are cached and unlocked, that of
    block 1 being the more recently used. *)
Definition ex_two_blocks : vhd_state :=
  Eval vm_compute in
    the_state ((ex_first_write ;; ex_write 4096 1 2 ;; ex_event RZero 512 ;;
                ex_event (RData 3) 512 ;; ex_event (RBm 30) 512 ;;
                ex_event RBat 512) ex_diff) ex_diff.

(** The sequence numbers of the cached bitmaps are those [touch_bitmap]
    hands out: none is beyond [bm_lru]. *)
Definition lru_bounded (s : vhd_state) : Prop :=
  forall b bm, In (Some b) (cache_slots s) -> bitmap_list s !! b = Some bm ->
               0 <= bm_seqno bm <= bm_lru s.

(** Everything of a bitmap but its sequence number. *)
Definition bitmap_contents (bm : vhd_bitmap) :=
  (bm_blk bm, bm_status bm, bm_map bm, bm_shadow bm, bm_tx bm, bm_queue bm,
   bm_waiting bm, bm_req bm).

(** What a data request looks like once it is queued: the request [r] of
    the pool filled in, and its control block at the end of the submission
    queue. *)
Definition queued_data_request (op : Z) (write : bool)
    (sector nr_secs buf flags cb id_ private offset : Z)
    (r : rref) (rq : vhd_request) (rest : list rref) (s : vhd_state) : vhd_state :=
  with_iocb_queue
    (iocb_queue s ++ [mk_iocb r write (Z.shiftl nr_secs VHD_SECTOR_SHIFT) offset])
    (put_req r (fill_request op sector nr_secs buf flags cb id_ private rq)
       (with_vreq_free rest s)).

(** A fixed disk with a pool of four requests. *)
Definition ex_fixed : vhd_state := opened HD_TYPE_FIXED [] 0 8 0 0 4.

(** A dynamic disk of two blocks of 4096 sectors, the second allocated at
    sector 7 of the file, with a pool of four requests. *)
Definition ex_dynamic : vhd_state :=
  opened HD_TYPE_DYNAMIC [DD_BLK_UNUSED; 7] 1536 8 4096 4111 4.

(** * Reasoning about runs *)

Lemma bind_Ok {A B} (m : M A) (k : A -> M B) s b s' :
  bind m k s = Ok b s' ->
  exists a s1, m s = Ok a s1 /\ k a s1 = Ok b s'.
Proof.
  unfold bind. destruct (m s) as [a s1| |]; intros H; try discriminate.
  exists a, s1. split; [reflexivity | exact H].
Qed.

Lemma ret_Ok {A} (a b : A) s s' : ret a s = Ok b s' -> b = a /\ s' = s.
Proof. unfold ret. intros H. inversion H. split; reflexivity. Qed.

Lemma gets_Ok {A} (f : vhd_state -> A) a s s' :
  gets f s = Ok a s' -> a = f s /\ s' = s.
Proof. unfold gets. intros H. inversion H. split; reflexivity. Qed.

Lemma modify_Ok (f : vhd_state -> vhd_state) u s s' :
  modify f s = Ok u s' -> s' = f s.
Proof. unfold modify. intros H. inversion H. reflexivity. Qed.

Lemma ASSERT_Ok p u s s' : ASSERT p s = Ok u s' -> p = true /\ s' = s.
Proof.
  unfold ASSERT. destruct p; intros H; [|discriminate].
  apply ret_Ok in H. tauto.
Qed.

Lemma load_req_Ok r v s s' :
  load_req r s = Ok v s' -> get_req s r = Some v /\ s' = s.
Proof.
  unfold load_req. destruct (get_req s r); intros H; inversion H. tauto.
Qed.

Lemma load_bm_Ok b v s s' :
  load_bm b s = Ok v s' -> bitmap_list s !! b = Some v /\ s' = s.
Proof.
  unfold load_bm. destruct (bitmap_list s !! b); intros H; inversion H. tauto.
Qed.


Lemma kept_ret {A X} (f : vhd_state -> X) (a : A) : kept f (ret a).
Proof. intros s b s' H. apply ret_Ok in H. destruct H as [_ ->]. reflexivity. Qed.

Lemma kept_bind {A B X} (f : vhd_state -> X) (m : M A) (k : A -> M B) :
  kept f m -> (forall a, kept f (k a)) -> kept f (bind m k).
Proof.
  intros Hm Hk s b s' H. apply bind_Ok in H. destruct H as (a & s1 & H1 & H2).
  rewrite (Hk a _ _ _ H2). exact (Hm _ _ _ H1).
Qed.

Lemma kept_crash {A X} (f : vhd_state -> X) (e : fault) : kept f (@crash A e).
Proof. intros s a s' H. discriminate. Qed.

Lemma kept_out_of_fuel {A X} (f : vhd_state -> X) : kept f (@out_of_fuel A).
Proof. intros s a s' H. discriminate. Qed.

Lemma kept_gets {A X} (f : vhd_state -> X) (g : vhd_state -> A) : kept f (gets g).
Proof. intros s a s' H. apply gets_Ok in H. destruct H as [_ ->]. reflexivity. Qed.

Lemma kept_modify {X} (f : vhd_state -> X) (g : vhd_state -> vhd_state) :
  (forall s, f (g s) = f s) -> kept f (modify g).
Proof. intros Hg s a s' H. apply modify_Ok in H. subst s'. apply Hg. Qed.

Lemma kept_ASSERT {X} (f : vhd_state -> X) p : kept f (ASSERT p).
Proof. intros s a s' H. apply ASSERT_Ok in H. destruct H as [_ ->]. reflexivity. Qed.

Lemma kept_udiv {X} (f : vhd_state -> X) a b : kept f (udiv a b).
Proof. unfold udiv. destruct (b =? 0); [apply kept_crash | apply kept_ret]. Qed.

Lemma kept_umod {X} (f : vhd_state -> X) a b : kept f (umod a b).
Proof. unfold umod. destruct (b =? 0); [apply kept_crash | apply kept_ret]. Qed.

Lemma kept_load_req {X} (f : vhd_state -> X) r : kept f (load_req r).
Proof. intros s a s' H. apply load_req_Ok in H. destruct H as [_ ->]. reflexivity. Qed.

Lemma kept_load_bm {X} (f : vhd_state -> X) b : kept f (load_bm b).
Proof. intros s a s' H. apply load_bm_Ok in H. destruct H as [_ ->]. reflexivity. Qed.

Lemma kept_deref {X} (f : vhd_state -> X) p : kept f (deref p).
Proof. destruct p; [apply kept_ret | apply kept_crash]. Qed.

Lemma kept_bat_entry {X} (f : vhd_state -> X) blk : kept f (bat_entry blk).
Proof.
  intros s a s' H. unfold bat_entry in H.
  destruct (_ && _); [destruct (_ !! _)|]; inversion H; reflexivity.
Qed.

Lemma kept_bat_window {X} (f : vhd_state -> X) base : kept f (bat_window base).
Proof.
  intros s a s' H. unfold bat_window in H.
  destruct (_ && _); inversion H; reflexivity.
Qed.


Lemma kept_upd_req {X} (f : vhd_state -> X) r g :
  skips_requests f -> kept f (upd_req r g).
Proof.
  intros Hf. unfold upd_req. apply kept_bind; [apply kept_load_req|].
  intros a. apply kept_modify. intros s. apply Hf.
Qed.

Lemma kept_upd_bm {X} (f : vhd_state -> X) b g :
  skips_bitmaps f -> kept f (upd_bm b g).
Proof.
  intros Hf. unfold upd_bm. apply kept_bind; [apply kept_load_bm|].
  intros a. apply kept_modify. intros s. apply Hf.
Qed.

Lemma kept_load_tx {X} (f : vhd_state -> X) b : kept f (load_tx b).
Proof.
  unfold load_tx. apply kept_bind; [apply kept_load_bm|]. intros a. apply kept_ret.
Qed.

Lemma kept_upd_tx {X} (f : vhd_state -> X) b g :
  skips_bitmaps f -> kept f (upd_tx b g).
Proof. intros Hf. unfold upd_tx. apply kept_upd_bm. exact Hf. Qed.

Section Kept.

Context {X : Type} (f : vhd_state -> X).

Hypothesis H_req : skips_requests f.
Hypothesis H_bml : skips_bitmaps f.
Hypothesis H_vfree : forall s v, f (with_vreq_free v s) = f s.
Hypothesis H_ioq : forall s v, f (with_iocb_queue v s) = f s.
Hypothesis H_cache : forall s v, f (with_bitmap v s) = f s.
Hypothesis H_bmfree : forall s v, f (with_bitmap_free v s) = f s.
Hypothesis H_lru : forall s v, f (with_bm_lru v s) = f s.
Hypothesis H_bat : forall s b, bat_bat b = bat_bat (bat s) -> f (with_bat b s) = f s.
Hypothesis H_log : forall s v, f (with_cb_log v s) = f s.

Ltac quiet :=
  intros;
  repeat first
    [ rewrite H_req | rewrite H_bml | rewrite H_vfree | rewrite H_ioq
    | rewrite H_cache | rewrite H_bmfree | rewrite H_lru | rewrite H_log
    | rewrite H_bat by reflexivity ];
  reflexivity.

Ltac kept_step :=
  match goal with
  | H : kept f ?m |- kept f ?m => exact H
  | |- kept _ (bind _ _) => apply kept_bind; [|intros ?]
  | |- kept _ (ret _) => apply kept_ret
  | |- kept _ (crash _) => apply kept_crash
  | |- kept _ out_of_fuel => apply kept_out_of_fuel
  | |- kept _ (gets _) => apply kept_gets
  | |- kept _ (ASSERT _) => apply kept_ASSERT
  | |- kept _ (udiv _ _) => apply kept_udiv
  | |- kept _ (umod _ _) => apply kept_umod
  | |- kept _ (load_req _) => apply kept_load_req
  | |- kept _ (load_bm _) => apply kept_load_bm
  | |- kept _ (load_tx _) => apply kept_load_tx
  | |- kept _ (deref _) => apply kept_deref
  | |- kept _ (bat_entry _) => apply kept_bat_entry
  | |- kept _ (bat_window _) => apply kept_bat_window
  | |- kept _ (upd_req _ _) => apply kept_upd_req; exact H_req
  | |- kept _ (upd_bm _ _) => apply kept_upd_bm; exact H_bml
  | |- kept _ (upd_tx _ _) => apply kept_upd_tx; exact H_bml
  | |- kept _ (modify _) => apply kept_modify; quiet
  | |- kept _ (if ?b then _ else _) => destruct b
  | |- kept _ (match ?x with _ => _ end) => destruct x
  | |- kept _ _ => solve [auto 1]
  end.

Ltac kept_auto := repeat kept_step.

Lemma kept_upd_bat g :
  (forall b, bat_bat (g b) = bat_bat b) -> kept f (upd_bat g).
Proof.
  intros Hg. unfold upd_bat. apply kept_modify. intros s.
  apply H_bat. apply Hg.
Qed.

Lemma kept_set_bits count from addr : kept f (set_bits count from addr).
Proof.
  revert from addr. induction count as [|c IH]; intros from addr; simpl.
  - kept_auto.
  - unfold set_bit. kept_auto.
Qed.

Lemma kept_add_to_tail l e : kept f (add_to_tail l e).
Proof. unfold add_to_tail. kept_auto. Qed.

Lemma kept_remove_walk fuel i e : kept f (remove_walk fuel i e).
Proof.
  revert i. induction fuel as [|n IH]; intros i; simpl; kept_auto.
Qed.

Lemma kept_remove_from_req_list l e : kept f (remove_from_req_list l e).
Proof.
  unfold remove_from_req_list. kept_auto. apply kept_remove_walk.
Qed.

Lemma kept_add_to_transaction b r : kept f (add_to_transaction b r).
Proof. unfold add_to_transaction. kept_auto. apply kept_add_to_tail. Qed.

Lemma kept_init_bat : kept f init_bat.
Proof. unfold init_bat. kept_auto; apply kept_upd_bat; reflexivity. Qed.

Lemma kept_lock_bat : kept f lock_bat.
Proof. unfold lock_bat. apply kept_upd_bat. reflexivity. Qed.

Lemma kept_unlock_bat : kept f unlock_bat.
Proof. unfold unlock_bat. apply kept_upd_bat. reflexivity. Qed.

Lemma kept_lock_bitmap b : kept f (lock_bitmap b).
Proof. unfold lock_bitmap. kept_auto. Qed.

Lemma kept_unlock_bitmap b : kept f (unlock_bitmap b).
Proof. unfold unlock_bitmap. kept_auto. Qed.

Lemma kept_seqno : kept f __bitmap_lru_seqno.
Proof. unfold __bitmap_lru_seqno. kept_auto. Qed.

Lemma kept_touch_bitmap b : kept f (touch_bitmap b).
Proof. unfold touch_bitmap. kept_auto. apply kept_seqno. Qed.

Lemma kept_install_bitmap b : kept f (install_bitmap b).
Proof. unfold install_bitmap. kept_auto. apply kept_touch_bitmap. Qed.

Lemma kept_remove_lru_bitmap : kept f remove_lru_bitmap.
Proof. unfold remove_lru_bitmap. kept_auto. Qed.

Lemma kept_alloc_vhd_bitmap blk : kept f (alloc_vhd_bitmap blk).
Proof.
  unfold alloc_vhd_bitmap, init_vhd_bitmap. kept_auto.
  apply kept_remove_lru_bitmap.
Qed.

Lemma kept_free_vhd_bitmap b : kept f (free_vhd_bitmap b).
Proof. unfold free_vhd_bitmap. kept_auto. Qed.

Lemma kept_alloc_vhd_request : kept f alloc_vhd_request.
Proof. unfold alloc_vhd_request. kept_auto. Qed.

Lemma kept_free_vhd_request r : kept f (free_vhd_request r).
Proof. unfold free_vhd_request. kept_auto. Qed.

Lemma kept_enqueue_iocb io : kept f (enqueue_iocb io).
Proof. unfold enqueue_iocb. kept_auto. Qed.

Lemma kept_aio_read r o : kept f (aio_read r o).
Proof. unfold aio_read. kept_auto. apply kept_enqueue_iocb. Qed.

Lemma kept_aio_write r o : kept f (aio_write r o).
Proof. unfold aio_write. kept_auto. apply kept_enqueue_iocb. Qed.

#[local] Hint Resolve kept_set_bits kept_add_to_tail kept_remove_from_req_list
  kept_add_to_transaction kept_init_bat kept_lock_bat kept_unlock_bat
  kept_lock_bitmap kept_unlock_bitmap kept_touch_bitmap kept_install_bitmap
  kept_alloc_vhd_bitmap kept_free_vhd_bitmap kept_alloc_vhd_request
  kept_free_vhd_request kept_aio_read kept_aio_write : core.

Lemma kept_read_bitmap_cache sector op : kept f (read_bitmap_cache sector op).
Proof. unfold read_bitmap_cache. kept_auto. Qed.

Lemma kept_read_bitmap_cache_span sector n v :
  kept f (read_bitmap_cache_span sector n v).
Proof. unfold read_bitmap_cache_span. kept_auto. Qed.

Lemma kept_reserve_new_block blk : kept f (reserve_new_block blk).
Proof. unfold reserve_new_block. kept_auto. apply kept_upd_bat. reflexivity. Qed.

Lemma kept_schedule_bat_write : kept f schedule_bat_write.
Proof. unfold schedule_bat_write. kept_auto; apply kept_upd_bat; reflexivity. Qed.

Lemma kept_schedule_zero_bm_write b : kept f (schedule_zero_bm_write b).
Proof. unfold schedule_zero_bm_write. kept_auto. Qed.

#[local] Hint Resolve kept_reserve_new_block kept_schedule_bat_write
  kept_schedule_zero_bm_write kept_read_bitmap_cache
  kept_read_bitmap_cache_span : core.

Lemma kept_update_bat blk : kept f (update_bat blk).
Proof. unfold update_bat. kept_auto. Qed.

#[local] Hint Resolve kept_update_bat : core.

Lemma kept_schedule_data_read sector n buf flags cb id_ private :
  kept f (schedule_data_read sector n buf flags cb id_ private).
Proof. unfold schedule_data_read. kept_auto. Qed.

Lemma kept_schedule_data_write sector n buf flags cb id_ private :
  kept f (schedule_data_write sector n buf flags cb id_ private).
Proof. unfold schedule_data_write. kept_auto. Qed.

Lemma kept_schedule_bitmap_read blk : kept f (schedule_bitmap_read blk).
Proof. unfold schedule_bitmap_read. kept_auto. Qed.

Lemma kept_schedule_bitmap_write blk : kept f (schedule_bitmap_write blk).
Proof. unfold schedule_bitmap_write. kept_auto. Qed.

Lemma kept___vhd_queue_request op sector n buf cb id_ private :
  kept f (__vhd_queue_request op sector n buf cb id_ private).
Proof. unfold __vhd_queue_request. kept_auto. Qed.

#[local] Hint Resolve kept_schedule_data_read kept_schedule_data_write
  kept_schedule_bitmap_read kept_schedule_bitmap_write
  kept___vhd_queue_request : core.

Context (cb_ret : cb_call -> Z).

Lemma kept_call_cb cb err sector n id_ private :
  kept f (call_cb cb_ret cb err sector n id_ private).
Proof. unfold call_cb. kept_auto. Qed.

#[local] Hint Resolve kept_call_cb : core.

Lemma kept_signal_completion_loop fuel r error rsp :
  kept f (signal_completion_loop cb_ret fuel r error rsp).
Proof.
  revert r rsp. induction fuel as [|n IH]; intros r rsp; simpl; kept_auto.
Qed.

Lemma kept_signal_completion r error : kept f (signal_completion cb_ret r error).
Proof.
  unfold signal_completion. kept_auto. apply kept_signal_completion_loop.
Qed.

#[local] Hint Resolve kept_signal_completion : core.

Lemma kept_promote_queue fuel b r completed :
  kept f (promote_queue fuel b r completed).
Proof.
  revert r completed. induction fuel as [|n IH]; intros r completed; simpl;
    kept_auto.
Qed.

#[local] Hint Resolve kept_promote_queue : core.

Lemma kept_start_new_bitmap_transaction_ fdt b :
  (forall b', kept f (fdt b')) ->
  kept f (start_new_bitmap_transaction_ cb_ret fdt b).
Proof. intros Hfdt. unfold start_new_bitmap_transaction_. kept_auto. Qed.

Lemma kept_finish_data_transaction_ fbt b :
  (forall b' e, kept f (fbt b' e)) ->
  kept f (finish_data_transaction_ fbt b).
Proof. intros Hfbt. unfold finish_data_transaction_. kept_auto. Qed.

Lemma kept_finish_bitmap_transaction fuel b error :
  kept f (finish_bitmap_transaction cb_ret fuel b error).
Proof.
  revert b error. induction fuel as [|n IH]; intros b error; simpl.
  - kept_auto.
  - kept_auto.
    apply kept_start_new_bitmap_transaction_. intros b'.
    apply kept_finish_data_transaction_. exact IH.
Qed.

Lemma kept_finish_data_transaction b :
  kept f (finish_data_transaction cb_ret b).
Proof.
  unfold finish_data_transaction. apply kept_finish_data_transaction_.
  intros b' e. apply kept_finish_bitmap_transaction.
Qed.

End Kept.

(** ** The BAT-write finisher *)

Lemma u32_small z : 0 <= z < 2 ^ 32 -> u32 z = z.
Proof. intros H. unfold u32. apply Z.mod_small. exact H. Qed.

Lemma u64_small z : 0 <= z < 2 ^ 64 -> u64 z = z.
Proof. intros H. unfold u64. apply Z.mod_small. exact H. Qed.


Lemma page_aligned_pad nd bm spp_ :
  0 < spp_ ->
  page_aligned_from nd bm spp_
    (if negb ((nd + bm) mod spp_ =? 0) then nd + (spp_ - (nd + bm) mod spp_) else nd).
Proof.
  intros Hspp. unfold page_aligned_from.
  pose proof (Z.mod_pos_bound (nd + bm) spp_ Hspp) as Hm.
  pose proof (Z.div_mod (nd + bm) spp_ ltac:(lia)) as Hdm.
  destruct ((nd + bm) mod spp_ =? 0) eqn:E; simpl.
  - apply Z.eqb_eq in E. repeat split; [lia | exact E | intros; lia].
  - apply Z.eqb_neq in E. repeat split.
    + lia.
    + replace (nd + (spp_ - (nd + bm) mod spp_) + bm)
        with (((nd + bm) / spp_ + 1) * spp_) by lia.
      apply Z.mod_mul. lia.
    + intros w Hw Hwm.
      pose proof (Z.div_mod (w + bm) spp_ ltac:(lia)) as Hw2.
      rewrite Hwm in Hw2.
      assert ((nd + bm) / spp_ < (w + bm) / spp_) by nia.
      nia.
Qed.

Lemma advance_next_db_Ok s u s' :
  advance_next_db s = Ok u s' ->
  0 <= next_db s -> 0 <= spb s -> 0 <= bm_secs s -> 0 < spp s ->
  spb s + bm_secs s < 2 ^ 32 ->
  next_db s + spb s + 2 * bm_secs s + spp s < 2 ^ 64 ->
  page_aligned_from (next_db s + spb s + bm_secs s) (bm_secs s) (spp s) (next_db s')
  /\ bat s' = bat s.
Proof.
  intros H Hn Hb Hm Hp H32 H64. unfold advance_next_db in H.
  apply bind_Ok in H. destruct H as (s0 & s1 & H0 & H).
  apply gets_Ok in H0. destruct H0 as [-> ->]. unfold id in H.
  apply bind_Ok in H. destruct H as (m & s2 & H1 & H).
  unfold umod in H1. destruct (spp s =? 0) eqn:E0; [discriminate|].
  apply ret_Ok in H1. destruct H1 as [-> ->].
  rewrite (u32_small (spb s + bm_secs s)) in H by lia.
  rewrite (u64_small (next_db s + (spb s + bm_secs s))) in H by lia.
  rewrite (u64_small (next_db s + (spb s + bm_secs s) + bm_secs s)) in H by lia.
  pose proof (Z.mod_pos_bound (next_db s + (spb s + bm_secs s) + bm_secs s) (spp s) Hp).
  rewrite (u64_small (spp s - _)) in H by lia.
  rewrite u64_small in H by lia.
  pose proof (page_aligned_pad (next_db s + spb s + bm_secs s) (bm_secs s) (spp s) Hp) as P.
  replace (next_db s + (spb s + bm_secs s)) with (next_db s + spb s + bm_secs s) in H by lia.
  destruct (negb (_ =? 0)); apply modify_Ok in H; subst s'; simpl; split; auto.
Qed.

Lemma set_bat_entry_Ok blk v s u s' :
  set_bat_entry blk v s = Ok u s' ->
  bat_bat (bat s') = <[Z.to_nat blk := v]> (bat_bat (bat s))
  /\ bat_bat (bat s') !! Z.to_nat blk = Some v
  /\ next_db s' = next_db s /\ spb s' = spb s /\ spp s' = spp s
  /\ bm_secs s' = bm_secs s.
Proof.
  intros H. unfold set_bat_entry in H.
  apply bind_Ok in H. destruct H as (e & s1 & H1 & H).
  unfold bat_entry in H1.
  destruct ((0 <=? blk) && (blk <? Z.of_nat (length (bat_bat (bat s))))) eqn:E;
    [|discriminate].
  destruct (bat_bat (bat s) !! Z.to_nat blk) eqn:El; inversion H1; subst.
  unfold upd_bat in H. apply modify_Ok in H. subst s'. simpl.
  split; [reflexivity|]. split; [|auto].
  apply list_lookup_insert_eq. apply lookup_lt_Some in El. exact El.
Qed.

Lemma unlock_init_bat_Ok s u s' :
  (unlock_bat ;; init_bat) s = Ok u s' ->
  bat_status (bat s') = 0 /\ pbw_blk (bat s') = 0 /\ pbw_offset (bat s') = 0
  /\ bat_bat (bat s') = bat_bat (bat s) /\ next_db s' = next_db s.
Proof.
  intros H. cbv [unlock_bat init_bat upd_bat upd_req load_req modify bind get_req
                 put_req] in H.
  inversion H. subst s'. simpl. auto.
Qed.

Ltac binv H :=
  let a := fresh "a" in
  let s1 := fresh "s" in
  let H1 := fresh "H" in
  apply bind_Ok in H; destruct H as (a & s1 & H1 & H).

Tactic Notation "bstep" hyp(H) "as" ident(a) ident(s1) ident(H1) :=
  apply bind_Ok in H; destruct H as (a & s1 & H1 & H).

Lemma kept_bat_next_db_fbt cb_ret fuel b error :
  kept bat_and_next_db (finish_bitmap_transaction cb_ret fuel b error).
Proof.
  apply kept_finish_bitmap_transaction; try (intros; reflexivity).
  - unfold skips_requests. intros s r v. destruct r; reflexivity.
  - unfold skips_bitmaps. intros s v. reflexivity.
Qed.


(** ** Out-of-range sectors *)

(** C5 (the code departs from the claim): block index [max_bat_size] is one
    past the last BAT entry, yet the router does not answer -EINVAL for it:
    the test is [blk > max_bat_size], so the classification goes on to read
    [bat[max_bat_size]], outside the array, and no callback is made. *)
Theorem read_at_max_bat_size_reads_bat :
  hdr_max_bat_size ex_diff = 128
  /\ length (bat_bat (bat ex_diff)) = 128%nat
  /\ read_bitmap_cache (128 * 4096) VHD_OP_DATA_READ ex_diff
     = Crash OutOfBounds ex_diff
  /\ vhd_queue_read cb_zero ex_not_allocated (128 * 4096) 1 0 1 1 0 ex_diff
     = Crash OutOfBounds ex_diff
  /\ cb_log ex_diff = [].
Proof. vm_compute. repeat split; reflexivity. Qed.

(** ** The BAT write *)

Lemma length_flat_map_be32 l : length (flat_map be32 l) = (4 * length l)%nat.
Proof. induction l as [|x l IH]; simpl; [reflexivity | rewrite IH; lia]. Qed.

(** [be32] puts the most significant byte first: read as a base-256 number,
    the four bytes give back the 32-bit value. *)
Lemma be32_big_endian v :
  exists b0 b1 b2 b3,
    be32 v = [b0; b1; b2; b3]
    /\ 0 <= b0 < 256 /\ 0 <= b1 < 256 /\ 0 <= b2 < 256 /\ 0 <= b3 < 256
    /\ b0 * 2 ^ 24 + b1 * 2 ^ 16 + b2 * 2 ^ 8 + b3 = u32 v.
Proof.
  exists ((v / 2 ^ 24) mod 256), ((v / 2 ^ 16) mod 256), ((v / 2 ^ 8) mod 256),
         (v mod 256).
  split; [reflexivity|].
  repeat (split; [apply Z.mod_pos_bound; lia|]).
  unfold u32.
  change (2 ^ 24) with 16777216. change (2 ^ 16) with 65536. change (2 ^ 8) with 256.
  change (2 ^ 32) with 4294967296.
  pose proof (Z.div_mod v 4294967296 ltac:(lia)).
  pose proof (Z.mod_pos_bound v 4294967296 ltac:(lia)).
  pose proof (Z.div_mod v 16777216 ltac:(lia)).
  pose proof (Z.mod_pos_bound v 16777216 ltac:(lia)).
  pose proof (Z.div_mod v 65536 ltac:(lia)).
  pose proof (Z.mod_pos_bound v 65536 ltac:(lia)).
  pose proof (Z.div_mod v 256 ltac:(lia)).
  pose proof (Z.mod_pos_bound v 256 ltac:(lia)).
  pose proof (Z.div_mod (v / 16777216) 256 ltac:(lia)).
  pose proof (Z.mod_pos_bound (v / 16777216) 256 ltac:(lia)).
  pose proof (Z.div_mod (v / 65536) 256 ltac:(lia)).
  pose proof (Z.mod_pos_bound (v / 65536) 256 ltac:(lia)).
  pose proof (Z.div_mod (v / 256) 256 ltac:(lia)).
  pose proof (Z.mod_pos_bound (v / 256) 256 ltac:(lia)).
  assert (v / 16777216 / 256 = v / 4294967296) by (rewrite Z.div_div by lia; reflexivity).
  assert (v / 65536 / 256 = v / 16777216) by (rewrite Z.div_div by lia; reflexivity).
  assert (v / 256 / 256 = v / 65536) by (rewrite Z.div_div by lia; reflexivity).
  lia.
Qed.

Lemma flat_map_be32_lookup l : forall i e (j : nat),
  l !! i = Some e -> (j < 4)%nat ->
  flat_map be32 l !! (4 * i + j)%nat = be32 e !! j.
Proof.
  induction l as [|x l IH]; intros i e j Hl Hj; [discriminate|].
  cbn [flat_map].
  destruct i as [|i].
  - injection Hl as ->.
    replace (4 * 0 + j)%nat with j by lia.
    apply lookup_app_l. change (length (be32 e)) with 4%nat. exact Hj.
  - simpl in Hl.
    replace (4 * S i + j)%nat with (length (be32 x) + (4 * i + j))%nat
      by (change (length (be32 x)) with 4%nat; lia).
    rewrite lookup_app_r by lia.
    replace (length (be32 x) + (4 * i + j) - length (be32 x))%nat
      with (4 * i + j)%nat by lia.
    apply IH; assumption.
Qed.

Lemma flat_map_be32_entry l i e :
  l !! i = Some e ->
  exists b0 b1 b2 b3,
    flat_map be32 l !! (4 * i)%nat = Some b0
    /\ flat_map be32 l !! (4 * i + 1)%nat = Some b1
    /\ flat_map be32 l !! (4 * i + 2)%nat = Some b2
    /\ flat_map be32 l !! (4 * i + 3)%nat = Some b3
    /\ 0 <= b0 < 256 /\ 0 <= b1 < 256 /\ 0 <= b2 < 256 /\ 0 <= b3 < 256
    /\ b0 * 2 ^ 24 + b1 * 2 ^ 16 + b2 * 2 ^ 8 + b3 = u32 e.
Proof.
  intros Hl.
  destruct (be32_big_endian e) as (b0 & b1 & b2 & b3 & E & H0 & H1 & H2 & H3 & Hv).
  exists b0, b1, b2, b3.
  pose proof (flat_map_be32_lookup l i e 0 Hl ltac:(lia)) as L0.
  pose proof (flat_map_be32_lookup l i e 1 Hl ltac:(lia)) as L1.
  pose proof (flat_map_be32_lookup l i e 2 Hl ltac:(lia)) as L2.
  pose proof (flat_map_be32_lookup l i e 3 Hl ltac:(lia)) as L3.
  rewrite E in L0, L1, L2, L3.
  replace (4 * i + 0)%nat with (4 * i)%nat in L0 by lia.
  repeat split; try assumption; tauto.
Qed.

(** A BAT write gets scheduled whenever the BAT is locked, the window of
    the pending block lies inside the BAT array and the submission queue has
    room. *)
Lemma schedule_bat_write_runs s :
  bat_locked s = true ->
  0 <= pbw_blk (bat s) ->
  pbw_blk (bat s) - pbw_blk (bat s) mod 128 + 128
  <= Z.of_nat (length (bat_bat (bat s))) ->
  (length (iocb_queue s) < length (vreq_list s) + VHD_CACHE_SIZE + 2)%nat ->
  exists s', schedule_bat_write s = Ok 0 s'.
Proof.
  intros Hl Hblk Hwin Hroom.
  unfold schedule_bat_write.
  cbv [bind gets id ASSERT]. rewrite Hl. cbv [ret].
  unfold bat_window.
  pose proof (Z.mod_pos_bound (pbw_blk (bat s)) 128 ltac:(lia)) as Hmod.
  pose proof (Z.mod_le (pbw_blk (bat s)) 128 Hblk ltac:(lia)) as Hle.
  replace ((0 <=? _) && (_ <=? _)) with true
    by (symmetry; apply andb_true_intro; split; apply Z.leb_le; lia).
  cbv [upd_bat modify upd_req load_req get_req put_req aio_write enqueue_iocb
       bind gets id ret].
  simpl.
  apply Nat.ltb_lt in Hroom. rewrite Hroom. eexists. reflexivity.
Qed.

(** C8: the buffer of the BAT write is the 128-entry window of the in-memory
    BAT that starts at [blk - blk mod 128], with [pbw_offset] at position
    [blk mod 128], every entry in big-endian byte order: entry [i] of the
    window occupies the bytes [4 i] to [4 i + 3] of the buffer, most
    significant byte first.  The write is queued at
    [table_offset + (blk - blk mod 128) * 4] and WRITE_STARTED is set.
    The write is scheduled whenever the BAT is locked, the window lies inside
    the BAT array and the submission queue has room. *)
Theorem schedule_bat_write_buffer s :
  0 <= pbw_blk (bat s) < 2 ^ 30 ->
  0 <= pbw_offset (bat s) < 2 ^ 32 ->
  0 <= hdr_table_offset s < 2 ^ 63 ->
  let blk := pbw_blk (bat s) in
  let base := blk - blk mod 128 in
  let window := take 128 (drop (Z.to_nat base) (bat_bat (bat s))) in
  (bat_locked s = true ->
   base + 128 <= Z.of_nat (length (bat_bat (bat s))) ->
   (length (iocb_queue s) < length (vreq_list s) + VHD_CACHE_SIZE + 2)%nat ->
   exists s', schedule_bat_write s = Ok 0 s')
  /\ forall r s',
      schedule_bat_write s = Ok r s' ->
      length window = 128%nat
      /\ (forall (i : nat) e,
            <[Z.to_nat (blk mod 128) := pbw_offset (bat s)]> window !! i = Some e ->
            exists b0 b1 b2 b3,
              bat_buf (bat s') !! (4 * i)%nat = Some b0
              /\ bat_buf (bat s') !! (4 * i + 1)%nat = Some b1
              /\ bat_buf (bat s') !! (4 * i + 2)%nat = Some b2
              /\ bat_buf (bat s') !! (4 * i + 3)%nat = Some b3
              /\ 0 <= b0 < 256 /\ 0 <= b1 < 256 /\ 0 <= b2 < 256 /\ 0 <= b3 < 256
              /\ b0 * 2 ^ 24 + b1 * 2 ^ 16 + b2 * 2 ^ 8 + b3 = u32 e)
      /\ length (bat_buf (bat s')) = 512%nat
      /\ iocb_queue s'
         = iocb_queue s ++ [mk_iocb RBat true 512 (hdr_table_offset s + base * 4)]
      /\ test_vhd_flag (bat_status (bat s')) VHD_FLAG_BAT_WRITE_STARTED = true.
Proof.
  intros Hblk Hoff Htab blk base window. split.
  { intros Hl Hwin Hroom. apply schedule_bat_write_runs; [exact Hl | lia | exact Hwin | exact Hroom]. }
  intros r s' H.
  unfold schedule_bat_write in H.
  binv H. apply gets_Ok in H0. destruct H0 as [-> ->]. unfold id in H.
  binv H. apply ASSERT_Ok in H0. destruct H0 as [_ ->].
  bstep H as win sw Hwin. unfold bat_window in Hwin.
  fold blk in Hwin, H. fold base in Hwin, H.
  destruct ((0 <=? base) && (base + 128 <=? Z.of_nat (length (bat_bat (bat s)))))
    eqn:Eb; [|discriminate].
  injection Hwin as Hwin Hsw. subst win sw. fold window in H.
  apply andb_prop in Eb. destruct Eb as [Eb1 Eb2].
  apply Z.leb_le in Eb1, Eb2.
  assert (Hw : length window = 128%nat).
  { unfold window. rewrite length_take, length_drop. lia. }
  pose proof (Z.mod_pos_bound blk 128 ltac:(lia)) as Hmod.
  rewrite (u32_small (pbw_offset (bat s))) in H by lia.
  rewrite (u32_small (base * 4)) in H by (unfold base, blk in *; lia).
  rewrite u64_small in H by (unfold base, blk in *; lia).
  cbv [bind upd_bat modify upd_req load_req get_req put_req aio_write
       enqueue_iocb gets ret] in H.
  simpl in H.
  destruct (Nat.ltb _ _); [|discriminate].
  inversion H; subst r s'; clear H. simpl.
  split; [exact Hw|].
  split; [intros i e Hl; exact (flat_map_be32_entry _ i e Hl)|]. split.
  - rewrite length_flat_map_be32, length_insert, Hw. reflexivity.
  - split; [reflexivity|].
    unfold test_vhd_flag, set_vhd_flag.
    apply negb_true_iff. apply Z.eqb_neq. intros E.
    assert (Z.testbit (Z.land (Z.lor (bat_status (bat s)) VHD_FLAG_BAT_WRITE_STARTED)
                         VHD_FLAG_BAT_WRITE_STARTED) 1 = true) as T.
    { rewrite Z.land_spec, Z.lor_spec. simpl. rewrite orb_true_r. reflexivity. }
    rewrite E in T. discriminate.
Qed.

Lemma schedule_bat_write_buffer_witness :
  schedule_bat_write ex_alloc5 = Ok 0 ex_alloc5_bat
  /\ pbw_blk (bat ex_alloc5) = 5 /\ pbw_offset (bat ex_alloc5) = 7
  /\ bat_bat (bat ex_alloc5) = replicate 128 DD_BLK_UNUSED
  /\ take 24 (bat_buf (bat ex_alloc5_bat))
     = [255; 255; 255; 255; 255; 255; 255; 255; 255; 255; 255; 255;
        255; 255; 255; 255; 255; 255; 255; 255; 0; 0; 0; 7]
  /\ (exists b0 b1 b2 b3,
        take 4 (drop 20 (bat_buf (bat ex_alloc5_bat))) = [b0; b1; b2; b3]
        /\ b0 * 2 ^ 24 + b1 * 2 ^ 16 + b2 * 2 ^ 8 + b3 = 7)
  /\ iocb_queue ex_alloc5_bat = [mk_iocb RBat true 512 1536].
Proof.
  assert (H : schedule_bat_write ex_alloc5 = Ok 0 ex_alloc5_bat)
    by (vm_compute; reflexivity).
  destruct (schedule_bat_write_buffer ex_alloc5
              ltac:(split; [vm_compute; discriminate | vm_compute; reflexivity])
              ltac:(split; [vm_compute; discriminate | vm_compute; reflexivity])
              ltac:(split; [vm_compute; discriminate | vm_compute; reflexivity]))
    as [_ Hp].
  destruct (Hp 0 ex_alloc5_bat H) as (_ & Hb & _ & Hq & _).
  destruct (Hb 5%nat 7 ltac:(vm_compute; reflexivity))
    as (b0 & b1 & b2 & b3 & L0 & L1 & L2 & L3 & _ & _ & _ & _ & Hv).
  split; [exact H|]. split; [reflexivity|]. split; [reflexivity|].
  split; [vm_compute; reflexivity|]. split; [vm_compute; reflexivity|].
  split; [|rewrite Hq; reflexivity].
  exists b0, b1, b2, b3. split; [|exact Hv].
  vm_compute in L0, L1, L2, L3.
  injection L0 as <-. injection L1 as <-. injection L2 as <-. injection L3 as <-.
  vm_compute. reflexivity.
Defined.

(** ** The BAT lock seen by the router *)

Lemma hd_type_eqb_neq a b : a <> b -> hd_type_eqb a b = false.
Proof. destruct a, b; simpl; congruence. Qed.

Lemma bat_entry_lookup blk v s :
  0 <= blk -> bat_bat (bat s) !! Z.to_nat blk = Some v ->
  bat_entry blk s = Ok v s.
Proof.
  intros H0 Hl. unfold bat_entry. rewrite Hl.
  apply lookup_lt_Some in Hl.
  replace ((0 <=? blk) && (blk <? Z.of_nat (length (bat_bat (bat s))))) with true.
  - reflexivity.
  - symmetry. apply andb_true_intro. split; [apply Z.leb_le | apply Z.ltb_lt]; lia.
Qed.

Lemma read_bitmap_cache_locked s sec :
  ftr_type s <> HD_TYPE_FIXED -> spb s <> 0 ->
  u32 (sec / spb s) <= hdr_max_bat_size s ->
  bat_bat (bat s) !! Z.to_nat (u32 (sec / spb s)) = Some DD_BLK_UNUSED ->
  bat_locked s = true -> pbw_blk (bat s) <> u32 (sec / spb s) ->
  read_bitmap_cache sec VHD_OP_DATA_WRITE s = Ok VHD_BM_BAT_LOCKED s.
Proof.
  intros Hty Hspb Hmax Hent Hlock Hblk.
  unfold read_bitmap_cache, bind, gets, udiv, umod, id.
  rewrite (hd_type_eqb_neq _ _ Hty).
  apply Z.eqb_neq in Hspb. rewrite Hspb. unfold ret.
  replace (hdr_max_bat_size s <? u32 (sec / spb s)) with false
    by (symmetry; apply Z.ltb_ge; exact Hmax).
  rewrite (bat_entry_lookup _ DD_BLK_UNUSED).
  - rewrite Z.eqb_refl, Hlock.
    apply Z.eqb_neq in Hblk. rewrite Hblk. reflexivity.
  - unfold u32. apply Z.mod_pos_bound. lia.
  - exact Hent.
Qed.

Lemma read_bitmap_cache_read_not_locked s sector c s' :
  read_bitmap_cache sector VHD_OP_DATA_READ s = Ok c s' ->
  c <> VHD_BM_BAT_LOCKED.
Proof.
  intros H. unfold read_bitmap_cache in H.
  binv H. apply gets_Ok in H0. destruct H0 as [-> ->]. unfold id in H.
  destruct (hd_type_eqb (ftr_type s) HD_TYPE_FIXED).
  { apply ret_Ok in H. destruct H as [-> _]. discriminate. }
  binv H. binv H.
  destruct (hdr_max_bat_size _ <? _).
  { apply ret_Ok in H. destruct H as [-> _]. discriminate. }
  binv H.
  destruct (_ =? DD_BLK_UNUSED).
  { simpl in H. apply ret_Ok in H. destruct H as [-> _]. discriminate. }
  destruct (hd_type_eqb _ HD_TYPE_DYNAMIC).
  { apply ret_Ok in H. destruct H as [-> _]. discriminate. }
  destruct (get_bitmap _ _).
  - binv H. binv H.
    destruct (test_vhd_flag _ _).
    + apply ret_Ok in H. destruct H as [-> _]. discriminate.
    + apply ret_Ok in H. destruct H as [-> _].
      destruct (_ =? 0); discriminate.
  - apply ret_Ok in H. destruct H as [-> _]. discriminate.
Qed.

(** C7: a write whose current sector lies in an unallocated block while the
    BAT is locked for another block makes exactly one callback, with -EBUSY
    over the whole remaining range, and returns its value at once, leaving
    the driver as it was; a read is never classified BAT_LOCKED. *)
Theorem vhd_queue_write_bat_locked cb_ret fuel s sec end_ buf cb id_ private :
  ftr_type s <> HD_TYPE_FIXED -> spb s <> 0 ->
  0 < end_ - sec < 2 ^ 31 -> cb <> 0 ->
  u32 (sec / spb s) <= hdr_max_bat_size s ->
  bat_bat (bat s) !! Z.to_nat (u32 (sec / spb s)) = Some DD_BLK_UNUSED ->
  bat_locked s = true -> pbw_blk (bat s) <> u32 (sec / spb s) ->
  vhd_queue_write_loop cb_ret (S fuel) sec end_ buf cb id_ private s
  = (let c := mk_cb_call cb (- EBUSY) sec (end_ - sec) id_ private in
     Ok (Aborted (cb_ret c)) (with_cb_log (cb_log s ++ [c]) s))
  /\ (forall s0 sector c s', read_bitmap_cache sector VHD_OP_DATA_READ s0 = Ok c s' ->
                             c <> VHD_BM_BAT_LOCKED).
Proof.
  intros Hty Hspb Hrem Hcb Hmax Hent Hlock Hblk. split.
  - simpl.
    replace (sec <? end_) with true by (symmetry; apply Z.ltb_lt; lia).
    simpl. unfold bind at 1. unfold gets at 1. unfold bind at 1.
    rewrite (read_bitmap_cache_locked s sec Hty Hspb Hmax Hent Hlock Hblk).
    simpl. unfold call_cb. apply Z.eqb_neq in Hcb. rewrite Hcb.
    unfold bind, modify, ret.
    replace (to_int (u64 (end_ - sec))) with (end_ - sec); [reflexivity|].
    unfold to_int, u64. rewrite (Z.mod_small (end_ - sec) (2 ^ 64)) by lia.
    rewrite (Z.mod_small (end_ - sec) (2 ^ 32)) by lia.
    replace (end_ - sec <? 2 ^ 31) with true by (symmetry; apply Z.ltb_lt; lia).
    reflexivity.
  - intros s0 sector c s'. apply read_bitmap_cache_read_not_locked.
Qed.

Lemma vhd_queue_write_bat_locked_witness :
  bat_locked ex_alloc = true /\ pbw_blk (bat ex_alloc) = 0
  /\ vhd_queue_write_loop cb_zero 2 4096 4098 0 1 9 0 ex_alloc
     = Ok (Aborted 0)
         (with_cb_log (cb_log ex_alloc ++ [mk_cb_call 1 (- EBUSY) 4096 2 9 0]) ex_alloc).
Proof.
  split; [reflexivity|]. split; [reflexivity|].
  apply (vhd_queue_write_bat_locked cb_zero 1 ex_alloc 4096 4098 0 1 9 0).
  - vm_compute. discriminate.
  - vm_compute. discriminate.
  - split; vm_compute; reflexivity.
  - discriminate.
  - vm_compute. discriminate.
  - vm_compute. reflexivity.
  - vm_compute. reflexivity.
  - vm_compute. discriminate.
Defined.

(** ** The value returned by the router *)

Ltac kept_log_side :=
  try (intros; reflexivity);
  try (unfold skips_requests; intros ? [| | |] ?; reflexivity);
  try (unfold skips_bitmaps; intros; reflexivity).

Lemma log_read_bitmap_cache sector op : kept cb_log (read_bitmap_cache sector op).
Proof. apply kept_read_bitmap_cache; kept_log_side. Qed.

Lemma log_read_bitmap_cache_span sector n v :
  kept cb_log (read_bitmap_cache_span sector n v).
Proof. apply kept_read_bitmap_cache_span; kept_log_side. Qed.

Lemma log_schedule_data_read sector n buf flags cb id_ private :
  kept cb_log (schedule_data_read sector n buf flags cb id_ private).
Proof. apply kept_schedule_data_read; kept_log_side. Qed.

Lemma log_schedule_data_write sector n buf flags cb id_ private :
  kept cb_log (schedule_data_write sector n buf flags cb id_ private).
Proof. apply kept_schedule_data_write; kept_log_side. Qed.

Lemma log_schedule_bitmap_read blk : kept cb_log (schedule_bitmap_read blk).
Proof. apply kept_schedule_bitmap_read; kept_log_side. Qed.

Lemma log___vhd_queue_request op sector n buf cb id_ private :
  kept cb_log (__vhd_queue_request op sector n buf cb id_ private).
Proof. apply kept___vhd_queue_request; kept_log_side. Qed.

Lemma log_block_span s0 sec remaining : kept cb_log (block_span s0 sec remaining).
Proof.
  unfold block_span. apply kept_bind; [apply kept_umod | intros; apply kept_ret].
Qed.

Lemma call_cb_Ok cb_ret cb err sector n id_ private s v s' :
  call_cb cb_ret cb err sector n id_ private s = Ok v s' ->
  let c := mk_cb_call cb err sector n id_ private in
  v = cb_ret c /\ cb_log s' = cb_log s ++ [c].
Proof.
  unfold call_cb. destruct (cb =? 0); [discriminate|].
  unfold bind, modify, ret. intros H. inversion H. simpl. split; reflexivity.
Qed.

Lemma returned_sum_app cb_ret l1 l2 :
  returned_sum cb_ret (l1 ++ l2) = returned_sum cb_ret l1 + returned_sum cb_ret l2.
Proof.
  unfold returned_sum. induction l1 as [|x l IH]; simpl; [lia|]. rewrite IH. lia.
Qed.


Lemma walk_sums_trans cb_ret rsp s l1 s1 w s' :
  cb_log s1 = cb_log s ++ l1 ->
  walk_sums cb_ret (rsp + returned_sum cb_ret l1) s1 w s' ->
  walk_sums cb_ret rsp s w s'.
Proof.
  intros H1 (l2 & H2 & Hr). exists (l1 ++ l2). split.
  - rewrite H2, H1, app_assoc. reflexivity.
  - intros r Hw. rewrite (Hr r Hw), returned_sum_app. lia.
Qed.

Lemma walk_sums_same cb_ret rsp s s1 w s' :
  cb_log s1 = cb_log s ->
  walk_sums cb_ret rsp s1 w s' ->
  walk_sums cb_ret rsp s w s'.
Proof.
  intros H1 H2. apply (walk_sums_trans cb_ret rsp s [] s1).
  - rewrite H1, app_nil_r. reflexivity.
  - unfold returned_sum. simpl. rewrite Z.add_0_r. exact H2.
Qed.

Lemma walk_sums_abort cb_ret rsp cb err sector n id_ private s v s' :
  call_cb cb_ret cb err sector n id_ private s = Ok v s' ->
  walk_sums cb_ret rsp s (Aborted v) s'.
Proof.
  intros H. apply call_cb_Ok in H. destruct H as [_ Hl].
  eexists. split; [exact Hl|]. intros r Hr. discriminate.
Qed.

Lemma abort_sums cb_ret rsp cb err sector n id_ private s w s' :
  (let* v := call_cb cb_ret cb err sector n id_ private in ret (Aborted v)) s
  = Ok w s' ->
  walk_sums cb_ret rsp s w s'.
Proof.
  intros H. binv H. apply ret_Ok in H. destruct H as [-> ->].
  eapply walk_sums_abort. exact H0.
Qed.

Ltac log_of H :=
  first
    [ apply log_read_bitmap_cache in H
    | apply log_read_bitmap_cache_span in H
    | apply log_schedule_data_read in H
    | apply log_schedule_data_write in H
    | apply log_schedule_bitmap_read in H
    | apply log___vhd_queue_request in H
    | apply log_block_span in H
    | apply (kept_udiv cb_log) in H
    | apply (kept_gets cb_log) in H ].

(** One more silent step, then the rest of the walk. *)
Ltac silent H :=
  let a := fresh "a" in
  let s1 := fresh "s" in
  let H1 := fresh "L" in
  apply bind_Ok in H; destruct H as (a & s1 & H1 & H);
  log_of H1;
  apply (walk_sums_same _ _ _ s1); [congruence|].

Lemma vhd_queue_read_loop_sums cb_ret BLK fuel :
  forall sec end_ buf cb id_ private rsp s w s',
    vhd_queue_read_loop cb_ret BLK fuel sec end_ buf cb id_ private rsp s = Ok w s' ->
    walk_sums cb_ret rsp s w s'.
Proof.
  induction fuel as [|fuel IH]; intros sec end_ buf cb id_ private rsp s w s' H.
  - simpl in H. destruct (negb (sec <? end_)); [|discriminate].
    apply ret_Ok in H. destruct H as [-> ->].
    exists []. split; [rewrite app_nil_r; reflexivity|].
    intros r Hr. inversion Hr. unfold returned_sum. simpl. lia.
  - simpl in H. destruct (negb (sec <? end_)).
    { apply ret_Ok in H. destruct H as [-> ->].
      exists []. split; [rewrite app_nil_r; reflexivity|].
      intros r Hr. inversion Hr. unfold returned_sum. simpl. lia. }
    assert (Hhole : forall n s1 w s',
      (let* r := call_cb cb_ret cb BLK sec n id_ private in
       if r =? - EBUSY then
         let* v := call_cb cb_ret cb (- EBUSY) (u64 (sec + n))
                     (to_int (u64 (end_ - sec)) - n) id_ private in
         ret (Aborted v)
       else vhd_queue_read_loop cb_ret BLK fuel (u64 (sec + n)) end_
              (buf + VHD_SECTOR_SIZE * n) cb id_ private (rsp + r)) s1 = Ok w s' ->
      walk_sums cb_ret rsp s1 w s').
    { intros n s1 w0 s0 Hh. binv Hh. apply call_cb_Ok in H0.
      destruct H0 as [-> Hl].
      eapply walk_sums_trans; [exact Hl|].
      destruct (_ =? - EBUSY).
      - eapply abort_sums. exact Hh.
      - apply IH in Hh. unfold returned_sum at 1. simpl.
        rewrite Z.add_0_r. exact Hh. }
    silent H. silent H.
    destruct (_ =? - EINVAL); [eapply abort_sums; exact H|].
    destruct (_ =? VHD_BM_BAT_CLEAR); [silent H; eapply Hhole; exact H|].
    destruct (_ =? VHD_BM_BIT_CLEAR); [silent H; eapply Hhole; exact H|].
    destruct (_ =? VHD_BM_BIT_SET).
    { silent H. silent H.
      destruct (negb _); [eapply abort_sums; exact H | eapply IH; exact H]. }
    destruct (_ =? VHD_BM_NOT_CACHED).
    { silent H. silent H. silent H.
      destruct (negb _); [eapply abort_sums; exact H|].
      silent H.
      destruct (negb _); [eapply abort_sums; exact H | eapply IH; exact H]. }
    destruct (_ =? VHD_BM_READ_PENDING).
    { silent H. silent H.
      destruct (negb _); [eapply abort_sums; exact H | eapply IH; exact H]. }
    binv H. discriminate.
Qed.

Lemma vhd_queue_write_loop_sums cb_ret fuel :
  forall sec end_ buf cb id_ private s w s',
    vhd_queue_write_loop cb_ret fuel sec end_ buf cb id_ private s = Ok w s' ->
    (forall r, w = Done r -> r = 0 /\ cb_log s' = cb_log s).
Proof.
  induction fuel as [|fuel IH]; intros sec end_ buf cb id_ private s w s' H.
  - simpl in H. destruct (negb (sec <? end_)); [|discriminate].
    apply ret_Ok in H. destruct H as [-> ->]. intros r Hr. inversion Hr. auto.
  - simpl in H. destruct (negb (sec <? end_)).
    { apply ret_Ok in H. destruct H as [-> ->]. intros r Hr. inversion Hr. auto. }
    assert (Habort : forall err s1 w s',
      (let* v := call_cb cb_ret cb err sec (to_int (u64 (end_ - sec))) id_ private in
       ret (Aborted v)) s1 = Ok w s' -> forall r, w = Done r -> r = 0 /\ cb_log s' = cb_log s).
    { intros err s1 w0 s0 Hh. binv Hh. apply ret_Ok in Hh. destruct Hh as [-> _].
      intros r Hr. discriminate. }
    assert (Hwrite : forall n flags s1 w s',
      cb_log s1 = cb_log s ->
      (let* err := schedule_data_write sec n buf flags cb id_ private in
       if negb (err =? 0) then
         let* v := call_cb cb_ret cb err sec (to_int (u64 (end_ - sec))) id_ private in
         ret (Aborted v)
       else vhd_queue_write_loop cb_ret fuel (u64 (sec + n)) end_
              (buf + VHD_SECTOR_SIZE * n) cb id_ private) s1 = Ok w s' ->
      forall r, w = Done r -> r = 0 /\ cb_log s' = cb_log s).
    { intros n flags s1 w0 s0 Hs1 Hh. binv Hh. log_of H0.
      destruct (negb _); [eapply Habort; exact Hh|].
      intros r Hr. destruct (IH _ _ _ _ _ _ _ _ _ Hh r Hr) as [-> E].
      split; [reflexivity | congruence]. }
    binv H. log_of H0. binv H. log_of H1.
    assert (E2 : cb_log s1 = cb_log s) by congruence.
    destruct (_ =? - EINVAL); [eapply Habort; exact H|].
    destruct (_ =? VHD_BM_BAT_LOCKED); [eapply Habort; exact H|].
    destruct (_ =? VHD_BM_BAT_CLEAR).
    { binv H. log_of H2. eapply Hwrite; [|exact H]. congruence. }
    destruct (_ =? VHD_BM_BIT_CLEAR).
    { binv H. log_of H2. eapply Hwrite; [|exact H]. congruence. }
    destruct (_ =? VHD_BM_BIT_SET).
    { binv H. log_of H2. eapply Hwrite; [|exact H]. congruence. }
    destruct (_ =? VHD_BM_NOT_CACHED).
    { binv H. log_of H2. binv H. log_of H3. binv H. log_of H4.
      destruct (negb _); [eapply Habort; exact H|].
      binv H. log_of H5.
      destruct (negb _); [eapply Habort; exact H|].
      intros r Hr. destruct (IH _ _ _ _ _ _ _ _ _ H r Hr) as [-> E].
      split; [reflexivity | congruence]. }
    destruct (_ =? VHD_BM_READ_PENDING).
    { binv H. log_of H2. binv H. log_of H3.
      destruct (negb _); [eapply Habort; exact H|].
      intros r Hr. destruct (IH _ _ _ _ _ _ _ _ _ H r Hr) as [-> E].
      split; [reflexivity | congruence]. }
    binv H. discriminate.
Qed.


(** ** Walks along the request lists *)

Lemma rref_eqb_eq a b : rref_eqb a b = true <-> a = b.
Proof.
  destruct a, b; simpl; split; intros H; try discriminate; try reflexivity;
    try (apply Nat.eqb_eq in H; congruence);
    try (inversion H; apply Nat.eqb_refl).
Qed.

Lemma get_req_put_req_ne s p v q :
  q <> p -> get_req (put_req p v s) q = get_req s q.
Proof.
  intros Hne. destruct p, q; simpl; try reflexivity; try congruence.
  - apply list_lookup_insert_ne. congruence.
  - rewrite list_lookup_alter_ne by congruence. reflexivity.
Qed.

Lemma get_req_with_cb_log l s q : get_req (with_cb_log l s) q = get_req s q.
Proof. destruct q; reflexivity. Qed.

Lemma get_req_with_vreq_free l s q : get_req (with_vreq_free l s) q = get_req s q.
Proof. destruct q; reflexivity. Qed.

Lemma is_chain_agree s1 s r l :
  (forall q, q ∈ l -> get_req s1 q = get_req s q) ->
  is_chain s r l -> is_chain s1 r l.
Proof.
  intros Hag Hc. induction Hc as [|p rq l Hp Hc IH].
  - constructor.
  - apply (chain_cons s1 p rq).
    + rewrite Hag; [exact Hp | apply list_elem_of_here].
    + apply IH. intros q Hq. apply Hag. apply list_elem_of_further. exact Hq.
Qed.

Lemma free_vhd_request_Ok p s u s' :
  free_vhd_request p s = Ok u s' ->
  s' = with_vreq_free (p :: vreq_free s) (put_req p zero_request s).
Proof.
  intros H. unfold free_vhd_request in H.
  binv H. unfold upd_req in H0. binv H0. apply load_req_Ok in H1.
  destruct H1 as [_ ->]. apply modify_Ok in H0. subst s0.
  binv H. apply gets_Ok in H0. destruct H0 as [-> ->]. unfold id in H.
  destruct (Nat.ltb _ _); [|discriminate].
  apply modify_Ok in H. subst s'. destruct p; reflexivity.
Qed.

Lemma call_cb_state cb_ret cb err sector n id_ private s v s' :
  call_cb cb_ret cb err sector n id_ private s = Ok v s' ->
  let c := mk_cb_call cb err sector n id_ private in
  v = cb_ret c /\ s' = with_cb_log (cb_log s ++ [c]) s.
Proof.
  unfold call_cb. destruct (cb =? 0); [discriminate|].
  unfold bind, modify, ret. intros H. inversion H. simpl. split; reflexivity.
Qed.

Lemma signal_completion_loop_chain cb_ret error fuel :
  forall l r rsp s v s',
    is_chain s r l -> NoDup l ->
    signal_completion_loop cb_ret fuel r error rsp s = Ok v s' ->
    cb_log s' = cb_log s ++ map (completion_call s error) l
    /\ v = rsp + returned_sum cb_ret (map (completion_call s error) l).
Proof.
  induction fuel as [|fuel IH]; intros l r rsp s v s' Hc Hnd H.
  - destruct r; simpl in H; [discriminate|].
    inversion Hc; subst. apply ret_Ok in H. destruct H as [-> ->].
    simpl. rewrite app_nil_r. unfold returned_sum. simpl.
    split; [reflexivity | lia].
  - destruct r as [p|]; simpl in H.
    2:{ inversion Hc; subst. apply ret_Ok in H. destruct H as [-> ->].
        simpl. rewrite app_nil_r. unfold returned_sum. simpl.
        split; [reflexivity | lia]. }
    inversion Hc as [|p' rq l' Hp Hc']; subst.
    bstep H as rq' s0 Hl. apply load_req_Ok in Hl. destruct Hl as [Hl ->].
    rewrite Hp in Hl. inversion Hl; subst rq'; clear Hl.
    bstep H as v1 s1 Hcb. apply call_cb_state in Hcb. destruct Hcb as [-> Hs1].
    bstep H as u s2 Hfree. apply free_vhd_request_Ok in Hfree.
    apply NoDup_cons in Hnd. destruct Hnd as [Hnotin Hnd].
    assert (Hs2 : forall q, q ∈ l' -> get_req s2 q = get_req s q).
    { intros q Hq. subst s2 s1.
      rewrite get_req_with_vreq_free, get_req_put_req_ne, get_req_with_cb_log;
        [reflexivity|].
      intros ->. contradiction. }
    assert (Hc2 : is_chain s2 (req_next rq) l')
      by (apply (is_chain_agree s2 s); assumption).
    destruct (IH l' _ _ _ _ _ Hc2 Hnd H) as (Hlog & Hv).
    assert (Hmap : map (completion_call s2 error) l' = map (completion_call s error) l').
    { apply map_ext_in. intros q Hq. unfold completion_call.
      rewrite Hs2; [reflexivity | apply list_elem_of_In; exact Hq]. }
    rewrite Hmap in Hlog, Hv.
    assert (Hcall : completion_call s error p
                    = mk_cb_call (req_cb rq) (if negb (error =? 0) then error else req_error rq)
                        (req_lsec rq) (req_nr_secs rq) (req_id rq) (req_private rq)).
    { unfold completion_call. rewrite Hp. reflexivity. }
    simpl. rewrite Hcall. split.
    + rewrite Hlog. subst s2 s1.
      assert (E : forall x, cb_log (put_req p zero_request x) = cb_log x)
        by (intros x; destruct p; reflexivity).
      simpl. rewrite E. simpl. rewrite <- app_assoc. reflexivity.
    + rewrite Hv. unfold returned_sum. simpl. lia.
Qed.

(** ** Promotion of a queue onto an unallocated block *)

Lemma lookup_alter_proj {A B} (g : A -> B) (h : A -> A) (l : list A) k b :
  (forall x, g (h x) = g x) ->
  g <$> alter h k l !! b = g <$> l !! b.
Proof.
  intros Hg. destruct (decide (k = b)) as [->|Hne].
  - rewrite list_lookup_alter_eq. destruct (l !! b); simpl; [f_equal; apply Hg | reflexivity].
  - rewrite list_lookup_alter_ne by exact Hne. reflexivity.
Qed.

Lemma signal_completion_keeps_bitmap cb_ret b r error :
  kept (fun s => (promotion_frame b s, bm_queue <$> bitmap_list s !! b))
    (signal_completion cb_ret r error).
Proof.
  apply kept_signal_completion; try (intros; reflexivity).
  unfold skips_requests. intros s p v. destruct p; try reflexivity.
  unfold promotion_frame. simpl.
  rewrite !lookup_alter_proj by reflexivity. reflexivity.
Qed.

Lemma is_chain_errors s r l error :
  is_chain s r l -> error <> 0 ->
  Forall (fun c => cc_error c = error) (map (completion_call s error) l).
Proof.
  intros Hc He. induction Hc as [|p rq l Hp Hc IH]; simpl; constructor.
  - unfold completion_call. rewrite Hp. simpl.
    apply Z.eqb_neq in He. rewrite He. reflexivity.
  - exact IH.
Qed.


(** * Runs on which the code departs from the claims *)

(** C1 (the code departs from the claim): the callback of a data write can
    be invoked while that write, a member of a live transaction, is still
    outstanding.  [bat.zero_req] keeps the [next] link of its previous use;
    when an allocating write finds the request pool empty after
    [update_bat], the transaction list of the new bitmap is left as
    [zero_req -> stale request]; the failure of the zero-bitmap write then
    finishes that transaction and signals the stale chain: the four writes to
    block 0, none of which has completed, with no bitmap write issued for
    their transaction. *)
Theorem callback_before_write_completes :
  ex_pool_exhausted ex_diff = Ok 0 ex_stale
  /\ req_next (bat_zero_req (bat ex_stale)) = Some (RData 3)
  /\ (bm_tx <$> bitmap_list ex_stale !! 30%nat)
     = Some (mk_tx 0 0 1 0 3 (mk_req_list (Some RZero) (Some RZero)))
  /\ ex_event RZero 0 ex_stale = Ok 0 ex_stale_signalled
  /\ cb_log ex_stale_signalled
     = cb_log ex_stale ++ [mk_cb_call 1 (- EIO) 1 1 2 0; mk_cb_call 1 (- EIO) 2 1 3 0;
                           mk_cb_call 1 (- EIO) 3 1 4 0; mk_cb_call 1 (- EIO) 4 1 5 0]
  /\ forallb (outstanding ex_stale_signalled) [RData 3; RData 2; RData 1; RData 0] = true
  /\ outstanding ex_stale_signalled (RBm 31) = false
  /\ (bm_tx <$> bitmap_list ex_stale_signalled !! 31%nat)
     = Some (mk_tx 0 0 4 0 1 (mk_req_list (Some (RData 3)) (Some (RData 0)))).
Proof. vm_compute. repeat split; reflexivity. Qed.

(** C3 (the code departs from the claim): when the zero-bitmap write of an
    allocation fails after a data write of the transaction has succeeded,
    the transaction is finished without a bitmap write and without undoing
    the bits the data write set in [shadow]: the bitmap stays in the cache,
    its transaction is not live, and [map] and [shadow] differ. *)
Theorem shadow_not_rolled_back :
  (ex_event (RData 3) 512 ;; ex_event RZero 0) ex_alloc = Ok 0 ex_zero_failed
  /\ get_bitmap ex_zero_failed 0 = Some 31%nat
  /\ (bm_tx <$> bitmap_list ex_zero_failed !! 31%nat) = Some zero_tx
  /\ (bm_map <$> bitmap_list ex_zero_failed !! 31%nat) = Some 0
  /\ (bm_shadow <$> bitmap_list ex_zero_failed !! 31%nat) = Some 1.
Proof. vm_compute. repeat split; reflexivity. Qed.

(** C9 (the code departs from the claim): when a bitmap read fails, the
    waiting request is signalled with its own error field, 0; then
    [free_vhd_bitmap] is entered with the bitmap still LOCKED, its assertion
    fails, and the bitmap is neither taken out of the cache nor put on the
    free stack. *)
Theorem bitmap_read_error_asserts :
  (vhd_queue_read cb_zero ex_not_allocated 0 1 0 1 1 0 ;;
   vhd_submit cb_zero ex_not_allocated 128) ex_diff_allocated = Ok 0 ex_waiting
  /\ (bitmap_locked <$> bitmap_list ex_waiting !! 31%nat) = Some true
  /\ ex_event (RBm 31) 0 ex_waiting = Crash AssertionFailed ex_bitmap_read_failed
  /\ cb_log ex_bitmap_read_failed = [mk_cb_call 1 0 0 1 1 0]
  /\ get_bitmap ex_bitmap_read_failed 0 = Some 31%nat
  /\ bitmap_free ex_bitmap_read_failed = bitmap_free ex_waiting.
Proof. vm_compute. repeat split; reflexivity. Qed.

(** ** When the bitmap write is issued *)


Lemma upd_req_Ok r g s u s' :
  upd_req r g s = Ok u s' ->
  exists v, get_req s r = Some v /\ s' = put_req r (g v) s.
Proof.
  intros H. unfold upd_req in H. bstep H as v s0 Hl.
  apply load_req_Ok in Hl. destruct Hl as [Hl ->].
  apply modify_Ok in H. exists v. split; assumption.
Qed.

Lemma upd_bm_Ok b g s u s' :
  upd_bm b g s = Ok u s' ->
  s' = with_bitmap_list (alter g b (bitmap_list s)) s.
Proof.
  intros H. unfold upd_bm in H. bstep H as v s0 Hl.
  apply load_bm_Ok in Hl. destruct Hl as [_ ->].
  apply modify_Ok in H. exact H.
Qed.

Lemma upd_tx_Ok b g s u s' :
  upd_tx b g s = Ok u s' ->
  s' = with_bitmap_list
         (alter (fun bm => bm_with_tx (g (bm_tx bm)) bm) b (bitmap_list s)) s.
Proof. unfold upd_tx. apply upd_bm_Ok. Qed.

Lemma load_tx_Ok b tx s s' :
  load_tx b s = Ok tx s' -> tx_of s b = Some tx /\ s' = s.
Proof.
  intros H. unfold load_tx in H. bstep H as bm s0 Hl.
  apply load_bm_Ok in Hl. destruct Hl as [Hl ->].
  apply ret_Ok in H. destruct H as [-> ->].
  unfold tx_of. rewrite Hl. split; reflexivity.
Qed.

Lemma slot_blocks_alter h k s :
  (forall x, bm_blk (h x) = bm_blk x) ->
  slot_blocks (with_bitmap_list (alter h k (bitmap_list s)) s) = slot_blocks s.
Proof.
  intros Hh. unfold slot_blocks. simpl.
  apply list_eq. intros i. rewrite !list_lookup_fmap.
  apply lookup_alter_proj. exact Hh.
Qed.

Lemma get_bitmap_scan_blocks bl1 bl2 block slots :
  map bm_blk bl1 = map bm_blk bl2 ->
  get_bitmap_scan bl1 block slots = get_bitmap_scan bl2 block slots.
Proof.
  intros Hb. induction slots as [|[b|] rest IH]; simpl; [reflexivity| |exact IH].
  assert (E : bm_blk <$> bl1 !! b = bm_blk <$> bl2 !! b).
  { rewrite <- !list_lookup_fmap. change (fmap bm_blk) with (map bm_blk).
    rewrite Hb. reflexivity. }
  destruct (bl1 !! b) as [x|], (bl2 !! b) as [y|]; simpl in E; try discriminate.
  - inversion E as [E']. rewrite E', IH. reflexivity.
  - exact IH.
Qed.

Lemma get_bitmap_same s1 s2 block :
  bitmap s1 = bitmap s2 -> slot_blocks s1 = slot_blocks s2 ->
  get_bitmap s1 block = get_bitmap s2 block.
Proof.
  intros Hc Hb. unfold get_bitmap, cache_slots. rewrite Hc.
  apply get_bitmap_scan_blocks. exact Hb.
Qed.

Lemma get_bitmap_scan_blk bl block slots b :
  get_bitmap_scan bl block slots = Some b ->
  bm_blk <$> bl !! b = Some block.
Proof.
  induction slots as [|[b'|] rest IH]; simpl; intros H; [discriminate| |auto].
  destruct (bl !! b') as [x|] eqn:E; [|auto].
  destruct (bm_blk x =? block) eqn:Eb; [|auto].
  inversion H; subst b'. rewrite E. simpl. apply Z.eqb_eq in Eb. congruence.
Qed.

Lemma udiv_Ok a b q s s' : udiv a b s = Ok q s' -> q = a / b /\ s' = s.
Proof.
  unfold udiv. destruct (b =? 0); [discriminate|]. intros H.
  apply ret_Ok in H. exact H.
Qed.

Lemma umod_Ok a b q s s' : umod a b s = Ok q s' -> q = a mod b /\ s' = s.
Proof.
  unfold umod. destruct (b =? 0); [discriminate|]. intros H.
  apply ret_Ok in H. exact H.
Qed.

(** One step of a run whose first action reads the state without changing
    it. *)
Ltac rstep_as H H1 :=
  let a := fresh "a" in
  let s1 := fresh "s" in
  apply bind_Ok in H; destruct H as (a & s1 & H1 & H);
  first
    [ apply gets_Ok in H1; destruct H1 as [-> ->]; unfold id in H
    | apply ASSERT_Ok in H1; destruct H1 as [H1 ->]
    | apply load_bm_Ok in H1; destruct H1 as [H1 ->]
    | apply load_req_Ok in H1; destruct H1 as [H1 ->]
    | apply load_tx_Ok in H1; destruct H1 as [H1 ->]
    | apply udiv_Ok in H1; destruct H1 as [-> ->]
    | apply umod_Ok in H1; destruct H1 as [-> ->]
    | apply ret_Ok in H1; destruct H1 as [-> ->] ].

Ltac rstep H := let H1 := fresh "R" in rstep_as H H1.

(** The same for a load, naming the value and the fact about it. *)
Tactic Notation "rload" hyp(H) "as" ident(a) ident(H1) :=
  let s1 := fresh "s" in
  apply bind_Ok in H; destruct H as (a & s1 & H1 & H);
  first
    [ apply load_bm_Ok in H1; destruct H1 as [H1 ->]
    | apply load_req_Ok in H1; destruct H1 as [H1 ->]
    | apply load_tx_Ok in H1; destruct H1 as [H1 ->] ].

Lemma tx_of_alter_tx g b s :
  tx_of (with_bitmap_list
           (alter (fun bm => bm_with_tx (g (bm_tx bm)) bm) b (bitmap_list s)) s) b
  = g <$> tx_of s b.
Proof.
  unfold tx_of. simpl. rewrite list_lookup_alter_eq.
  destruct (bitmap_list s !! b); reflexivity.
Qed.

Lemma set_bits_Ok count from addr s v s' :
  set_bits count from addr s = Ok v s' -> s' = s.
Proof.
  revert from addr s. induction count as [|c IH]; intros from addr s H; simpl in H.
  - apply ret_Ok in H. tauto.
  - bstep H as a s1 Hb. unfold set_bit in Hb.
    destruct (_ <? 31); [|discriminate].
    apply ret_Ok in Hb. destruct Hb as [_ ->]. apply (IH _ _ _ H).
Qed.

Lemma finish_data_write_prefix cb_ret i rq t tx0 s rsp s' :
  get_req s (RData i) = Some rq -> req_tx rq = Some t ->
  tx_of s t = Some tx0 ->
  get_bitmap s (u32 (req_lsec rq / spb s)) = Some t ->
  finish_data_write cb_ret (RData i) s = Ok rsp s' ->
  exists s3,
    outer s3 = outer s /\ slot_blocks s3 = slot_blocks s
    /\ tx_of s3 t = Some (tx_with_finished (tx_finished tx0 + 1) tx0)
    /\ status_of s3 t = status_of s t
    /\ (if transaction_completed (tx_with_finished (tx_finished tx0 + 1) tx0)
        then finish_data_transaction cb_ret t s3 else ret 0 s3) = Ok rsp s'.
Proof.
  intros Hrq Htx Htx0 Hbm H. unfold finish_data_write in H.
  bstep H as u s1 Hu. apply upd_req_Ok in Hu. destruct Hu as (v & Hv & Es1).
  rewrite Hrq in Hv. inversion Hv; subst v; clear Hv.
  assert (O1 : outer s1 = outer s) by (subst s1; reflexivity).
  assert (L1 : bitmap_list s1 = bitmap_list s) by (subst s1; reflexivity).
  assert (G1 : get_req s1 (RData i)
               = Some (req_with_flags (set_vhd_flag (req_flags rq) VHD_FLAG_REQ_FINISHED) rq)).
  { subst s1. simpl. apply list_lookup_insert_eq.
    simpl in Hrq. apply lookup_lt_Some in Hrq. exact Hrq. }
  assert (P1 : spb s1 = spb s /\ ftr_type s1 = ftr_type s /\ bitmap s1 = bitmap s)
    by (subst s1; auto).
  destruct P1 as (P1 & P2 & P3).
  clear Es1.
  rstep H. rewrite G1 in R. inversion R; subst a; clear R. simpl in H.
  rewrite Htx in H.
  rstep H. rstep H. rstep H. rewrite P1, P2 in H.
  rewrite (get_bitmap_same s1 s) in H by (unfold slot_blocks; congruence).
  rewrite Hbm in H.
  rstep H. rstep H. rstep H.
  bstep H as u2 s2 Hu. apply upd_tx_Ok in Hu.
  assert (T2 : tx_of s2 t = Some (tx_with_finished (tx_finished tx0 + 1) tx0)).
  { subst s2. unfold tx_of in *. simpl. rewrite list_lookup_alter_eq, L1.
    destruct (bitmap_list s !! t); inversion Htx0; reflexivity. }
  assert (O2 : outer s2 = outer s) by (subst s2; exact O1).
  assert (B2 : slot_blocks s2 = slot_blocks s).
  { subst s2. rewrite slot_blocks_alter by reflexivity.
    unfold slot_blocks. rewrite L1. reflexivity. }
  assert (S2 : status_of s2 t = status_of s t).
  { subst s2. unfold status_of. simpl. rewrite lookup_alter_proj by reflexivity.
    rewrite L1. reflexivity. }
  clear Hu.
  bstep H as u3 s3 Hu.
  assert (F3 : outer s3 = outer s2 /\ slot_blocks s3 = slot_blocks s2
               /\ tx_of s3 t = tx_of s2 t /\ status_of s3 t = status_of s2 t).
  { destruct ((req_error rq =? 0) && hd_type_eqb (ftr_type s) HD_TYPE_DIFF).
    - rstep Hu. bstep Hu as sh s4 Hs. apply set_bits_Ok in Hs. subst s4.
      apply upd_bm_Ok in Hu. subst s3.
      split; [reflexivity|]. split; [apply slot_blocks_alter; reflexivity|].
      split; [apply lookup_alter_proj; reflexivity|].
      apply lookup_alter_proj; reflexivity.
    - apply ret_Ok in Hu. destruct Hu as [_ ->]. auto. }
  destruct F3 as (O3 & B3 & T3 & S3).
  rstep_as H Rtx. rewrite T3, T2 in Rtx. inversion Rtx as [Etx]. rewrite <- Etx in H.
  exists s3. repeat split; try congruence.
  destruct (transaction_completed _); exact H.
Qed.

Lemma bat_entry_Ok blk v s s' : bat_entry blk s = Ok v s' -> s' = s.
Proof.
  unfold bat_entry. destruct (_ && _); [destruct (_ !! _)|]; intros H;
    inversion H; reflexivity.
Qed.

Lemma lru_halve_proj {X} (g : vhd_bitmap -> X) slots :
  (forall v x, g (bm_with_seqno v x) = g x) ->
  forall bl lru k,
    g <$> fst (lru_halve slots bl lru) !! k = g <$> bl !! k.
Proof.
  intros Hg. induction slots as [|[b|] rest IH]; intros bl lru k; simpl;
    [reflexivity| |apply IH].
  destruct (bl !! b) as [bm|] eqn:E; [|apply IH].
  rewrite IH. destruct (decide (b = k)) as [->|Hne].
  - rewrite list_lookup_insert_eq by (apply lookup_lt_Some in E; exact E).
    rewrite E. simpl. rewrite Hg. reflexivity.
  - rewrite list_lookup_insert_ne by exact Hne. reflexivity.
Qed.

(** [touch_bitmap] renumbers: it changes [bm_lru] and sequence numbers
    only. *)
Lemma touch_bitmap_Ok {X} (g : vhd_bitmap -> X) b s u s' :
  (forall v x, g (bm_with_seqno v x) = g x) ->
  touch_bitmap b s = Ok u s' ->
  (forall k, g <$> bitmap_list s' !! k = g <$> bitmap_list s !! k)
  /\ iocb_queue s' = iocb_queue s /\ cb_log s' = cb_log s /\ bat s' = bat s
  /\ bitmap s' = bitmap s.
Proof.
  intros Hg H. unfold touch_bitmap, __bitmap_lru_seqno in H.
  bstep H as sq s1 Hs. rstep Hs.
  bstep Hs as u1 s2 Hh.
  assert (F2 : (forall k, g <$> bitmap_list s2 !! k = g <$> bitmap_list s !! k)
               /\ iocb_queue s2 = iocb_queue s /\ cb_log s2 = cb_log s
               /\ bat s2 = bat s /\ bitmap s2 = bitmap s).
  { destruct (bm_lru s =? 4294967295).
    - pose proof (lru_halve_proj g (cache_slots s) Hg (bitmap_list s) 0) as P.
      destruct (lru_halve (cache_slots s) (bitmap_list s) 0) as [bl lru].
      apply modify_Ok in Hh. subst s2. simpl in *. auto.
    - apply ret_Ok in Hh. destruct Hh as [_ ->]. auto. }
  destruct F2 as (G2 & Q2 & L2 & B2 & C2).
  bstep Hs as u2 s3 Hm. apply modify_Ok in Hm. subst s3.
  apply gets_Ok in Hs. destruct Hs as [-> ->].
  apply upd_bm_Ok in H. subst s'. simpl.
  split; [|auto].
  intros k. rewrite lookup_alter_proj by (intros; apply Hg). apply G2.
Qed.

Lemma test_set_vhd_flag w f : f <> 0 -> test_vhd_flag (set_vhd_flag w f) f = true.
Proof.
  intros Hf. unfold test_vhd_flag, set_vhd_flag.
  replace (Z.land (Z.lor w f) f) with f.
  - apply negb_true_iff. apply Z.eqb_neq. exact Hf.
  - apply Z.bits_inj'. intros n Hn. rewrite Z.land_spec, Z.lor_spec.
    destruct (Z.testbit w n), (Z.testbit f n); reflexivity.
Qed.

Lemma schedule_bitmap_write_Ok blk t s r s' :
  get_bitmap s blk = Some t ->
  schedule_bitmap_write blk s = Ok r s' ->
  r = 0 /\ cb_log s' = cb_log s /\ bat s' = bat s
  /\ (exists off, iocb_queue s'
                  = iocb_queue s ++ [mk_iocb (RBm t) true
                                       (Z.shiftl (bm_secs s) VHD_SECTOR_SHIFT) off])
  /\ tx_of s' t = tx_of s t
  /\ (exists st, status_of s' t = Some st
                 /\ test_vhd_flag st VHD_FLAG_BM_WRITE_PENDING = true).
Proof.
  intros Hbm H. unfold schedule_bitmap_write in H.
  rstep H. rewrite Hbm in H.
  bstep H as e s1 He. apply bat_entry_Ok in He. subst s1.
  rstep H. rstep H. rstep_as H Rbm. rstep H.
  bstep H as base s1 Hb.
  assert (s1 = s) as ->.
  { destruct (e =? DD_BLK_UNUSED).
    - rstep Hb. apply ret_Ok in Hb. tauto.
    - apply ret_Ok in Hb. tauto. }
  clear Hb.
  bstep H as u2 s2 Hu. apply upd_req_Ok in Hu. destruct Hu as (v & Hv & Es2).
  assert (G2 : get_req s2 (RBm t)
               = Some (req_with_io VHD_OP_BITMAP_WRITE (u32 (blk * spb s)) (bm_secs s) v)).
  { subst s2. simpl. rewrite list_lookup_alter_eq, Rbm. reflexivity. }
  assert (F2 : cb_log s2 = cb_log s /\ bat s2 = bat s /\ iocb_queue s2 = iocb_queue s
               /\ tx_of s2 t = tx_of s t
               /\ length (vreq_list s2) = length (vreq_list s)).
  { subst s2. simpl. repeat split; try reflexivity.
    unfold tx_of. simpl. apply lookup_alter_proj. reflexivity. }
  destruct F2 as (L2 & B2 & Q2 & T2 & _). clear Es2 Hv.
  bstep H as u3 s3 Ha. unfold aio_write in Ha.
  rstep_as Ha Rq. rewrite G2 in Rq. injection Rq as <-.
  unfold enqueue_iocb in Ha. rstep Ha.
  destruct (Nat.ltb _ _); [|discriminate].
  apply modify_Ok in Ha. simpl in Ha.
  bstep H as u4 s4 Hl. unfold lock_bitmap in Hl. apply upd_bm_Ok in Hl.
  bstep H as u5 s5 Ht.
  pose proof (touch_bitmap_Ok bm_tx t s4 u5 s5 ltac:(reflexivity) Ht) as (T5 & Q5 & L5 & B5 & _).
  clear Ht.
  bstep H as u6 s6 Hw. apply upd_bm_Ok in Hw.
  apply ret_Ok in H. destruct H as [-> ->].
  split; [reflexivity|].
  split; [subst s6 s4 s3; simpl in *; congruence|].
  split; [subst s6 s4 s3; simpl in *; congruence|].
  split.
  { eexists. subst s6 s4 s3. simpl in *. rewrite Q5. simpl. rewrite Q2. reflexivity. }
  split.
  { subst s6. unfold tx_of in *. simpl. rewrite lookup_alter_proj by reflexivity.
    rewrite T5. subst s4. simpl. rewrite lookup_alter_proj by reflexivity.
    subst s3. simpl. exact T2. }
  subst s6. unfold status_of. simpl. rewrite list_lookup_alter_eq.
  destruct (bitmap_list s5 !! t) as [x|] eqn:E.
  - simpl. eexists. split; [reflexivity|]. apply test_set_vhd_flag. discriminate.
  - exfalso. specialize (T5 t). rewrite E in T5. subst s4. simpl in T5.
    rewrite list_lookup_alter_eq in T5. subst s3. simpl in T5.
    assert (Hs : is_Some (bitmap_list s2 !! t)).
    { simpl in G2. destruct (bitmap_list s2 !! t); [eauto | discriminate]. }
    destruct Hs as [y Hy]. rewrite Hy in T5. discriminate.
Qed.

Lemma outer_eq a b :
  outer a = outer b ->
  ftr_type a = ftr_type b /\ spb a = spb b /\ bat a = bat b
  /\ bm_secs a = bm_secs b /\ bitmap a = bitmap b
  /\ iocb_queue a = iocb_queue b /\ cb_log a = cb_log b.
Proof. unfold outer. intros H. inversion H. repeat split; assumption. Qed.

Lemma schedule_bat_write_queue s r s' :
  schedule_bat_write s = Ok r s' ->
  r = 0 /\ cb_log s' = cb_log s /\ aio_ctx s' = aio_ctx s
  /\ bitmap_list s' = bitmap_list s
  /\ exists off, iocb_queue s' = iocb_queue s ++ [mk_iocb RBat true 512 off].
Proof.
  intros H. unfold schedule_bat_write in H.
  rstep H. rstep H.
  bstep H as win sw Hwin. unfold bat_window in Hwin.
  destruct (_ && _); [|discriminate].
  injection Hwin as _ <-.
  cbv [bind upd_bat modify upd_req load_req get_req put_req aio_write
       enqueue_iocb gets ret] in H.
  simpl in H.
  destruct (Nat.ltb _ _); [|discriminate].
  inversion H; subst r s'; clear H. simpl.
  repeat split. eexists. reflexivity.
Qed.

Lemma finish_zero_bm_write_success cb_ret req rq s rsp s' :
  get_req s req = Some rq -> req_error rq = 0 ->
  finish_zero_bm_write cb_ret req s = Ok rsp s' ->
  rsp = 0 /\ cb_log s' = cb_log s /\ aio_ctx s' = aio_ctx s
  /\ exists off, iocb_queue s' = iocb_queue s ++ [mk_iocb RBat true 512 off].
Proof.
  intros Hrq Herr H. unfold finish_zero_bm_write in H.
  rload H as rq' Hl. rewrite Hrq in Hl. injection Hl as <-.
  rstep H. rstep H. rstep H. rstep H.
  bstep H as b s1 Hb.
  assert (s1 = s) as ->.
  { destruct (get_bitmap s _); [apply ret_Ok in Hb; tauto|].
    bstep Hb as u s2 Hu. discriminate. }
  rstep H. rstep H.
  bstep H as t s1 Ht.
  assert (s1 = s) as ->.
  { destruct (req_tx rq); [apply ret_Ok in Ht; tauto | discriminate]. }
  bstep H as u1 s1 H1. apply upd_tx_Ok in H1.
  rstep H.
  bstep H as rl s2 H2.
  assert (K2 : submission s2 = submission s1).
  { revert H2. apply kept_remove_from_req_list.
    unfold skips_requests. intros ? [| | |] ?; reflexivity. }
  bstep H as u3 s3 H3. apply upd_tx_Ok in H3.
  rewrite Herr in H. simpl in H.
  bstep H as r4 s4 H4. apply ret_Ok in H. destruct H as [-> ->].
  apply schedule_bat_write_queue in H4.
  destruct H4 as (_ & L4 & A4 & _ & off & Q4).
  assert (K : submission s3 = submission s).
  { subst s3. subst s1. unfold submission in *. simpl. exact K2. }
  unfold submission in K. inversion K as [[Kq Ka Kl]].
  split; [reflexivity|]. split; [congruence|]. split; [congruence|].
  exists off. rewrite Q4, Kq. reflexivity.
Qed.

Lemma finish_bat_write_no_transaction cb_ret req s rsp s' :
  req_tx (bat_req (bat s)) = None ->
  finish_bat_write cb_ret req s = Ok rsp s' ->
  rsp = 0 /\ iocb_queue s' = iocb_queue s /\ aio_ctx s' = aio_ctx s
  /\ cb_log s' = cb_log s.
Proof.
  intros Hnone H. unfold finish_bat_write in H.
  rstep H.
  bstep H as b s1 Hb.
  assert (s1 = s) as ->.
  { destruct (get_bitmap s _); [apply ret_Ok in Hb; tauto|].
    bstep Hb as u s2 Hu. discriminate. }
  rload H as bm Hbm. rstep H. rstep H. rstep H.
  rload H as rq Hrq.
  bstep H as u1 s1 H1.
  assert (K1 : submission s1 = submission s
               /\ req_tx (bat_req (bat s1)) = req_tx (bat_req (bat s))).
  { destruct (req_error rq =? 0).
    - bstep H1 as u0 s0 H0.
      unfold set_bat_entry in H0. bstep H0 as e se He.
      apply bat_entry_Ok in He. subst se.
      cbv [upd_bat modify] in H0. inversion H0; subst s0; clear H0.
      unfold advance_next_db in H1. rstep H1. rstep H1.
      destruct (negb _); apply modify_Ok in H1; subst s1; split; reflexivity.
    - apply upd_tx_Ok in H1. subst s1. split; reflexivity. }
  destruct K1 as [K1 T1].
  bstep H as u2 s2 H2. apply upd_tx_Ok in H2.
  rstep H.
  assert (E : req_tx (bat_req (bat s2)) = None)
    by (subst s2; simpl; congruence).
  rewrite E in H. simpl in H.
  bstep H as r3 s3 H3. apply ret_Ok in H3. destruct H3 as [-> ->].
  cbv [unlock_bat init_bat upd_bat upd_req load_req modify bind get_req
       put_req ret] in H.
  inversion H; subst rsp s'; clear H.
  assert (K : submission s2 = submission s) by (subst s2; exact K1).
  unfold submission in K. inversion K as [[Kq Ka Kl]].
  simpl. repeat split; assumption.
Qed.

Lemma finish_data_write_last_member cb_ret i rq t tx0 s rsp s' :
  ftr_type s = HD_TYPE_DIFF ->
  get_req s (RData i) = Some rq -> req_tx rq = Some t ->
  tx_of s t = Some tx0 ->
  get_bitmap s (u32 (req_lsec rq / spb s)) = Some t ->
  finish_data_write cb_ret (RData i) s = Ok rsp s' ->
  (tx_started tx0 <> tx_finished tx0 + 1 ->
     rsp = 0 /\ iocb_queue s' = iocb_queue s /\ cb_log s' = cb_log s)
  /\ (tx_started tx0 = tx_finished tx0 + 1 -> tx_error tx0 = 0 ->
      rsp = 0 /\ cb_log s' = cb_log s /\ bat s' = bat s
      /\ (exists off, iocb_queue s'
                      = iocb_queue s ++ [mk_iocb (RBm t) true
                                           (Z.shiftl (bm_secs s) VHD_SECTOR_SHIFT) off])
      /\ tx_status <$> tx_of s' t = Some (tx_status tx0)
      /\ (exists st, status_of s' t = Some st
                     /\ test_vhd_flag st VHD_FLAG_BM_WRITE_PENDING = true)).
Proof.
  intros Hty Hrq Htx Htx0 Hbm H.
  destruct (finish_data_write_prefix _ _ _ _ _ _ _ _ Hrq Htx Htx0 Hbm H)
    as (s3 & O3 & B3 & T3 & S3 & H3).
  apply outer_eq in O3. destruct O3 as (Ety & Espb & Ebat & Ebs & Ebm & Eq & El).
  unfold transaction_completed in H3. simpl in H3. split.
  - intros Hne. apply Z.eqb_neq in Hne. rewrite Hne in H3.
    apply ret_Ok in H3. destruct H3 as [-> ->]. auto.
  - intros Heq Herr. apply Z.eqb_eq in Heq. rewrite Heq in H3.
    unfold finish_data_transaction, finish_data_transaction_ in H3.
    bstep H3 as u4 s4 Hu. apply upd_tx_Ok in Hu.
    assert (T4 : tx_of s4 t
                 = Some (tx_with_closed 1 (tx_with_finished (tx_finished tx0 + 1) tx0))).
    { subst s4. unfold tx_of in *. simpl. rewrite list_lookup_alter_eq.
      destruct (bitmap_list s3 !! t); inversion T3; reflexivity. }
    assert (F4 : ftr_type s4 = ftr_type s3 /\ bitmap s4 = bitmap s3
                 /\ slot_blocks s4 = slot_blocks s3 /\ bat s4 = bat s3
                 /\ iocb_queue s4 = iocb_queue s3 /\ cb_log s4 = cb_log s3
                 /\ bm_secs s4 = bm_secs s3).
    { subst s4. repeat split; try reflexivity.
      apply slot_blocks_alter. reflexivity. }
    destruct F4 as (Ety4 & Ebm4 & B4 & Ebat4 & Eq4 & El4 & Ebs4). clear Hu.
    rstep_as H3 Rtx. rewrite T4 in Rtx. injection Rtx as <-.
    rstep H3. simpl in H3. rewrite Herr, Ety4, Ety, Hty in H3. simpl in H3.
    rstep_as H3 Rbm.
    bstep H3 as r5 s5 Hs. apply ret_Ok in H3. destruct H3 as [-> ->].
    assert (Hblk : bm_blk a = u32 (req_lsec rq / spb s)).
    { apply get_bitmap_scan_blk in Hbm.
      assert (E : bm_blk <$> bitmap_list s4 !! t = bm_blk <$> bitmap_list s !! t).
      { rewrite <- !list_lookup_fmap. change (fmap bm_blk) with (map bm_blk).
        fold (slot_blocks s4). fold (slot_blocks s). congruence. }
      rewrite Rbm, Hbm in E. simpl in E. congruence. }
    rewrite Hblk in Hs.
    apply (schedule_bitmap_write_Ok _ t) in Hs.
    2:{ rewrite (get_bitmap_same s4 s); [exact Hbm | congruence | congruence]. }
    destruct Hs as (_ & L5 & B5 & (off & Q5) & T5 & W5).
    split; [reflexivity|]. split; [congruence|]. split; [congruence|].
    split; [exists off; rewrite Q5; congruence|].
    split; [rewrite T5, T4; reflexivity | exact W5].
Qed.

(** * Loops that are given enough turns *)

Lemma returns_ret {A} (a : A) : returns (ret a).
Proof. intros s. discriminate. Qed.

Lemma returns_bind {A B} (m : M A) (k : A -> M B) :
  returns m -> (forall a, returns (k a)) -> returns (bind m k).
Proof.
  intros Hm Hk s. unfold bind. destruct (m s) eqn:E.
  - apply Hk.
  - discriminate.
  - exfalso. exact (Hm s E).
Qed.

Lemma returns_crash {A} (e : fault) : returns (@crash A e).
Proof. intros s. discriminate. Qed.

Lemma returns_gets {A} (g : vhd_state -> A) : returns (gets g).
Proof. intros s. discriminate. Qed.

Lemma returns_modify g : returns (modify g).
Proof. intros s. discriminate. Qed.

Lemma returns_ASSERT p : returns (ASSERT p).
Proof. destruct p; intros s; discriminate. Qed.

Lemma returns_udiv a b : returns (udiv a b).
Proof. unfold udiv. destruct (b =? 0); intros s; discriminate. Qed.

Lemma returns_umod a b : returns (umod a b).
Proof. unfold umod. destruct (b =? 0); intros s; discriminate. Qed.

Lemma returns_load_req r : returns (load_req r).
Proof. intros s. unfold load_req. destruct (get_req s r); discriminate. Qed.

Lemma returns_load_bm b : returns (load_bm b).
Proof. intros s. unfold load_bm. destruct (bitmap_list s !! b); discriminate. Qed.

Lemma returns_deref p : returns (deref p).
Proof. destruct p; intros s; discriminate. Qed.

Lemma returns_bat_entry blk : returns (bat_entry blk).
Proof.
  intros s. unfold bat_entry. destruct (_ && _); [destruct (_ !! _)|]; discriminate.
Qed.

Lemma returns_bat_window base : returns (bat_window base).
Proof. intros s. unfold bat_window. destruct (_ && _); discriminate. Qed.

Ltac returns_step :=
  match goal with
  | H : returns ?m |- returns ?m => exact H
  | |- returns (bind _ _) => apply returns_bind; [|intros ?]
  | |- returns (ret _) => apply returns_ret
  | |- returns (crash _) => apply returns_crash
  | |- returns (gets _) => apply returns_gets
  | |- returns (modify _) => apply returns_modify
  | |- returns (ASSERT _) => apply returns_ASSERT
  | |- returns (udiv _ _) => apply returns_udiv
  | |- returns (umod _ _) => apply returns_umod
  | |- returns (load_req _) => apply returns_load_req
  | |- returns (load_bm _) => apply returns_load_bm
  | |- returns (deref _) => apply returns_deref
  | |- returns (bat_entry _) => apply returns_bat_entry
  | |- returns (bat_window _) => apply returns_bat_window
  | |- returns (if ?b then _ else _) => destruct b
  | |- returns (match ?x with _ => _ end) => destruct x
  | |- returns _ => solve [auto 1]
  end.

Ltac returns_auto := repeat returns_step.

Lemma returns_upd_req r g : returns (upd_req r g).
Proof. unfold upd_req. returns_auto. Qed.

Lemma returns_upd_bm b g : returns (upd_bm b g).
Proof. unfold upd_bm. returns_auto. Qed.

Lemma returns_load_tx b : returns (load_tx b).
Proof. unfold load_tx. returns_auto. Qed.

Lemma returns_upd_tx b g : returns (upd_tx b g).
Proof. unfold upd_tx. apply returns_upd_bm. Qed.

Lemma returns_upd_bat g : returns (upd_bat g).
Proof. unfold upd_bat. returns_auto. Qed.

#[local] Hint Resolve returns_upd_req returns_upd_bm returns_load_tx returns_upd_tx
  returns_upd_bat : core.

Lemma returns_add_to_tail l e : returns (add_to_tail l e).
Proof. unfold add_to_tail. returns_auto. Qed.

#[local] Hint Resolve returns_add_to_tail : core.

Lemma returns_add_to_transaction b r : returns (add_to_transaction b r).
Proof. unfold add_to_transaction. returns_auto. Qed.

Lemma returns_lock_bat : returns lock_bat.
Proof. unfold lock_bat. returns_auto. Qed.

Lemma returns_lock_bitmap b : returns (lock_bitmap b).
Proof. unfold lock_bitmap. returns_auto. Qed.

Lemma returns_seqno : returns __bitmap_lru_seqno.
Proof. unfold __bitmap_lru_seqno. returns_auto. Qed.

#[local] Hint Resolve returns_add_to_transaction returns_lock_bat returns_lock_bitmap
  returns_seqno : core.

Lemma returns_touch_bitmap b : returns (touch_bitmap b).
Proof. unfold touch_bitmap. returns_auto. Qed.

#[local] Hint Resolve returns_touch_bitmap : core.

Lemma returns_install_bitmap b : returns (install_bitmap b).
Proof. unfold install_bitmap. returns_auto. Qed.

Lemma returns_remove_lru_bitmap : returns remove_lru_bitmap.
Proof. unfold remove_lru_bitmap. returns_auto. Qed.

#[local] Hint Resolve returns_install_bitmap returns_remove_lru_bitmap : core.

Lemma returns_alloc_vhd_bitmap blk : returns (alloc_vhd_bitmap blk).
Proof. unfold alloc_vhd_bitmap, init_vhd_bitmap. returns_auto. Qed.

Lemma returns_alloc_vhd_request : returns alloc_vhd_request.
Proof. unfold alloc_vhd_request. returns_auto. Qed.

Lemma returns_free_vhd_request r : returns (free_vhd_request r).
Proof. unfold free_vhd_request. returns_auto. Qed.

Lemma returns_enqueue_iocb io : returns (enqueue_iocb io).
Proof. unfold enqueue_iocb. returns_auto. Qed.

#[local] Hint Resolve returns_alloc_vhd_bitmap returns_alloc_vhd_request
  returns_free_vhd_request returns_enqueue_iocb : core.

Lemma returns_aio_read r o : returns (aio_read r o).
Proof. unfold aio_read. returns_auto. Qed.

Lemma returns_aio_write r o : returns (aio_write r o).
Proof. unfold aio_write. returns_auto. Qed.

#[local] Hint Resolve returns_aio_read returns_aio_write : core.

Lemma returns_read_bitmap_cache sector op : returns (read_bitmap_cache sector op).
Proof. unfold read_bitmap_cache. returns_auto. Qed.

Lemma returns_read_bitmap_cache_span sector n v :
  returns (read_bitmap_cache_span sector n v).
Proof. unfold read_bitmap_cache_span. returns_auto. Qed.

Lemma returns_reserve_new_block blk : returns (reserve_new_block blk).
Proof. unfold reserve_new_block. returns_auto. Qed.

Lemma returns_schedule_zero_bm_write b : returns (schedule_zero_bm_write b).
Proof. unfold schedule_zero_bm_write. returns_auto. Qed.

#[local] Hint Resolve returns_read_bitmap_cache returns_read_bitmap_cache_span
  returns_reserve_new_block returns_schedule_zero_bm_write : core.

Lemma returns_update_bat blk : returns (update_bat blk).
Proof. unfold update_bat. returns_auto. Qed.

#[local] Hint Resolve returns_update_bat : core.

Lemma returns_schedule_data_read sector n buf flags cb id_ private :
  returns (schedule_data_read sector n buf flags cb id_ private).
Proof. unfold schedule_data_read. returns_auto. Qed.

Lemma returns_schedule_data_write sector n buf flags cb id_ private :
  returns (schedule_data_write sector n buf flags cb id_ private).
Proof. unfold schedule_data_write. returns_auto. Qed.

Lemma returns_schedule_bitmap_read blk : returns (schedule_bitmap_read blk).
Proof. unfold schedule_bitmap_read. returns_auto. Qed.

Lemma returns___vhd_queue_request op sector n buf cb id_ private :
  returns (__vhd_queue_request op sector n buf cb id_ private).
Proof. unfold __vhd_queue_request. returns_auto. Qed.

Lemma returns_call_cb cb_ret cb err sector n id_ private :
  returns (call_cb cb_ret cb err sector n id_ private).
Proof. unfold call_cb. returns_auto. Qed.

Lemma returns_block_span s0 sec remaining : returns (block_span s0 sec remaining).
Proof. unfold block_span. returns_auto. Qed.

#[local] Hint Resolve returns_schedule_data_read returns_schedule_data_write
  returns_schedule_bitmap_read returns___vhd_queue_request returns_call_cb
  returns_block_span : core.

Lemma cfg_read_bitmap_cache sector op : kept cfg (read_bitmap_cache sector op).
Proof. apply kept_read_bitmap_cache; kept_log_side. Qed.

Lemma cfg_read_bitmap_cache_span sector n v :
  kept cfg (read_bitmap_cache_span sector n v).
Proof. apply kept_read_bitmap_cache_span; kept_log_side. Qed.

Lemma cfg_schedule_data_read sector n buf flags cb id_ private :
  kept cfg (schedule_data_read sector n buf flags cb id_ private).
Proof. apply kept_schedule_data_read; kept_log_side. Qed.

Lemma cfg_schedule_data_write sector n buf flags cb id_ private :
  kept cfg (schedule_data_write sector n buf flags cb id_ private).
Proof. apply kept_schedule_data_write; kept_log_side. Qed.

Lemma cfg_schedule_bitmap_read blk : kept cfg (schedule_bitmap_read blk).
Proof. apply kept_schedule_bitmap_read; kept_log_side. Qed.

Lemma cfg___vhd_queue_request op sector n buf cb id_ private :
  kept cfg (__vhd_queue_request op sector n buf cb id_ private).
Proof. apply kept___vhd_queue_request; kept_log_side. Qed.

Lemma cfg_call_cb cb_ret cb err sector n id_ private :
  kept cfg (call_cb cb_ret cb err sector n id_ private).
Proof. apply kept_call_cb; kept_log_side. Qed.

Lemma to_int_small z : 0 <= z < 2 ^ 31 -> to_int z = z.
Proof.
  intros H. unfold to_int. rewrite Z.mod_small by lia.
  replace (z <? 2 ^ 31) with true by (symmetry; apply Z.ltb_lt; lia). reflexivity.
Qed.

Lemma MIN_bounds a b : 1 <= a -> 1 <= b -> 1 <= MIN a b <= a.
Proof. intros Ha Hb. unfold MIN. destruct (a <? b) eqn:E; [lia|]. apply Z.ltb_ge in E. lia. Qed.

Lemma block_span_bounds s0 sec remaining n s s' :
  block_span s0 sec remaining s = Ok n s' ->
  0 < spb s0 < 2 ^ 32 -> 0 < remaining < 2 ^ 31 ->
  1 <= n <= remaining /\ s' = s.
Proof.
  intros H Hspb Hrem. unfold block_span in H. rstep H.
  apply ret_Ok in H. destruct H as [-> ->].
  pose proof (Z.mod_pos_bound sec (spb s0) ltac:(lia)) as Hm.
  rewrite (u64_small remaining) by lia.
  rewrite (u64_small (spb s0 - sec mod spb s0)) by lia.
  pose proof (MIN_bounds remaining (spb s0 - sec mod spb s0) ltac:(lia) ltac:(lia)).
  rewrite to_int_small by lia. split; [lia | reflexivity].
Qed.

Lemma span_loop_bounds map spb_ nr value :
  forall fuel sec ret_,
    ret_ <= nr ->
    ret_ <= span_loop fuel map spb_ sec ret_ nr value <= nr.
Proof.
  induction fuel as [|f IH]; intros sec ret_ Hr; simpl; [lia|].
  destruct ((sec <? spb_) && (ret_ <? nr)) eqn:E; [|lia].
  destruct (negb _); [lia|].
  apply andb_prop in E. destruct E as [_ E]. apply Z.ltb_lt in E.
  specialize (IH (sec + 1) (ret_ + 1) ltac:(lia)). lia.
Qed.

Lemma span_loop_first map spb_ nr value fuel sec :
  sec < spb_ -> 0 < nr -> test_bit sec map = value ->
  1 <= span_loop (S fuel) map spb_ sec 0 nr value <= nr.
Proof.
  intros Hs Hn Ht. simpl.
  replace (sec <? spb_) with true by (symmetry; apply Z.ltb_lt; lia).
  replace (0 <? nr) with true by (symmetry; apply Z.ltb_lt; lia).
  simpl. rewrite Ht, Z.eqb_refl. simpl.
  pose proof (span_loop_bounds map spb_ nr value fuel (sec + 1) (0 + 1) ltac:(lia)). lia.
Qed.

(** What a BIT_CLEAR or BIT_SET classification means on a differencing
    disk: the bitmap of the block is cached and valid, and the bit of the
    sector has the value reported. *)
Lemma read_bitmap_cache_bit sector op s c s' :
  read_bitmap_cache sector op s = Ok c s' ->
  ftr_type s = HD_TYPE_DIFF ->
  c = VHD_BM_BIT_CLEAR \/ c = VHD_BM_BIT_SET ->
  exists b bm,
    get_bitmap s' (u32 (sector / spb s)) = Some b
    /\ bitmap_list s' !! b = Some bm /\ bitmap_valid bm = true
    /\ test_bit (u32 (sector mod spb s)) (bm_map bm)
       = (if c =? VHD_BM_BIT_SET then 1 else 0).
Proof.
  intros H Hty Hc. unfold read_bitmap_cache in H.
  rstep H. rewrite Hty in H. simpl in H. rstep H. rstep H.
  destruct (hdr_max_bat_size s <? _).
  { apply ret_Ok in H. destruct H as [-> _]. destruct Hc; discriminate. }
  bstep H as e s1 He. apply bat_entry_Ok in He. subst s1.
  destruct (e =? DD_BLK_UNUSED).
  { destruct (_ && _); apply ret_Ok in H; destruct H as [-> _];
      destruct Hc; discriminate. }
  destruct (get_bitmap s (u32 (sector / spb s))) as [b|] eqn:Hb.
  2:{ apply ret_Ok in H. destruct H as [-> _]. destruct Hc; discriminate. }
  bstep H as u s1 Ht.
  pose proof (touch_bitmap_Ok bm_blk b s u s1 ltac:(reflexivity) Ht)
    as (G & _ & _ & _ & Ec).
  rload H as bm Rbm.
  destruct (test_vhd_flag (bm_status bm) VHD_FLAG_BM_READ_PENDING) eqn:Ev.
  { apply ret_Ok in H. destruct H as [-> _]. destruct Hc; discriminate. }
  apply ret_Ok in H. destruct H as [-> ->].
  exists b, bm. split; [|split; [exact Rbm|split]].
  - rewrite (get_bitmap_same s1 s); [exact Hb | exact Ec |].
    unfold slot_blocks. apply list_eq. intros k.
    change (map bm_blk) with (fmap (M:=list) bm_blk).
    rewrite !list_lookup_fmap. apply G.
  - unfold bitmap_valid. rewrite Ev. reflexivity.
  - destruct (test_bit _ _ =? 0) eqn:Eb; simpl.
    + apply Z.eqb_eq in Eb. exact Eb.
    + unfold test_bit in *. destruct (Z.testbit _ _); [reflexivity | discriminate].
Qed.

Lemma bind_returns {A B} (m : M A) (k : A -> M B) s :
  m s <> OutOfFuel ->
  (forall a s1, m s = Ok a s1 -> k a s1 <> OutOfFuel) ->
  bind m k s <> OutOfFuel.
Proof.
  intros Hm Hk. unfold bind. destruct (m s) as [a s1| |] eqn:E.
  - apply Hk. reflexivity.
  - discriminate.
  - exfalso. apply Hm. reflexivity.
Qed.

Lemma classification_not_fixed sector op s c s1 :
  read_bitmap_cache sector op s = Ok c s1 ->
  c <> VHD_BM_BIT_SET -> ftr_type s <> HD_TYPE_FIXED.
Proof.
  intros H Hc Hty. unfold read_bitmap_cache in H. rstep H.
  rewrite Hty in H. simpl in H. apply ret_Ok in H. destruct H as [-> _].
  apply Hc. reflexivity.
Qed.

Lemma cfg_eq a b : cfg a = cfg b -> ftr_type a = ftr_type b /\ spb a = spb b.
Proof. unfold cfg. intros H. inversion H. auto. Qed.

Lemma span_after_classification sector op s c s1 remaining n s2 :
  read_bitmap_cache sector op s = Ok c s1 ->
  c = VHD_BM_BIT_CLEAR \/ c = VHD_BM_BIT_SET ->
  (ftr_type s <> HD_TYPE_FIXED -> 0 < spb s < 2 ^ 32) ->
  0 < remaining < 2 ^ 31 ->
  read_bitmap_cache_span sector remaining (if c =? VHD_BM_BIT_SET then 1 else 0) s1
  = Ok n s2 ->
  1 <= n <= remaining.
Proof.
  intros Hc Hcv Hspb Hrem Hn.
  pose proof (cfg_read_bitmap_cache _ _ _ _ _ Hc) as Hcfg.
  apply cfg_eq in Hcfg. destruct Hcfg as [Ety Espb].
  unfold read_bitmap_cache_span in Hn. rstep Hn. rewrite Ety, Espb in Hn.
  destruct (ftr_type s) eqn:Hty; simpl in Hn.
  - apply ret_Ok in Hn. destruct Hn as [-> _]. lia.
  - rstep Hn. apply ret_Ok in Hn. destruct Hn as [-> _].
    specialize (Hspb ltac:(discriminate)).
    pose proof (Z.mod_pos_bound sector (spb s) ltac:(lia)) as Hm.
    rewrite (u32_small (sector mod spb s)) by lia.
    rewrite (u32_small remaining) by lia.
    rewrite (u32_small (spb s - sector mod spb s)) by lia.
    pose proof (MIN_bounds remaining (spb s - sector mod spb s) ltac:(lia) ltac:(lia)).
    rewrite to_int_small by lia. lia.
  - specialize (Hspb ltac:(discriminate)).
    destruct (read_bitmap_cache_bit _ _ _ _ _ Hc Hty Hcv) as (b & bm & Hb & Hbm & Hv & Ht).
    rstep Hn. rstep Hn. rewrite Hb in Hn.
    rload Hn as bm' Rbm. rewrite Hbm in Rbm. injection Rbm as <-.
    rstep Hn. apply ret_Ok in Hn. destruct Hn as [-> _].
    pose proof (Z.mod_pos_bound sector (spb s) ltac:(lia)) as Hm.
    destruct (Z.to_nat remaining) as [|k] eqn:Ek; [lia|].
    apply span_loop_first; [rewrite u32_small by lia; lia | lia | exact Ht].
Qed.

Lemma vhd_queue_read_loop_returns cb_ret BLK :
  forall fuel sec end_ buf cb id_ private rsp s,
    (ftr_type s <> HD_TYPE_FIXED -> 0 < spb s < 2 ^ 32) ->
    0 <= sec -> end_ < 2 ^ 64 -> end_ - sec < 2 ^ 31 ->
    end_ - sec <= Z.of_nat fuel ->
    vhd_queue_read_loop cb_ret BLK fuel sec end_ buf cb id_ private rsp s <> OutOfFuel.
Proof.
  induction fuel as [|fuel IH]; intros sec end_ buf cb id_ private rsp s Hspb Hsec Hend Hrem Hfuel.
  - simpl. replace (sec <? end_) with false by (symmetry; apply Z.ltb_ge; lia).
    simpl. discriminate.
  - simpl. destruct (sec <? end_) eqn:Elt; simpl; [|discriminate].
    apply Z.ltb_lt in Elt.
    assert (Er : to_int (u64 (end_ - sec)) = end_ - sec).
    { rewrite u64_small by lia. apply to_int_small. lia. }
    rewrite Er.
    assert (Hnext : forall n rsp' s1,
      cfg s1 = cfg s -> 1 <= n <= end_ - sec ->
      vhd_queue_read_loop cb_ret BLK fuel (u64 (sec + n)) end_
        (buf + VHD_SECTOR_SIZE * n) cb id_ private rsp' s1 <> OutOfFuel).
    { intros n rsp' s1 Hc Hn. apply cfg_eq in Hc. destruct Hc as [E1 E2].
      rewrite u64_small by lia.
      apply IH; try lia. rewrite E1, E2. exact Hspb. }
    assert (Habort : forall err s1,
      (let* v := call_cb cb_ret cb err sec (end_ - sec) id_ private in
       ret (Aborted v)) s1 <> OutOfFuel).
    { intros err s1. apply returns_bind; [apply returns_call_cb|].
      intros a. apply returns_ret. }
    assert (Hhole : forall n s1,
      cfg s1 = cfg s -> 1 <= n <= end_ - sec ->
      (let* r := call_cb cb_ret cb BLK sec n id_ private in
       if r =? - EBUSY then
         let* v := call_cb cb_ret cb (- EBUSY) (u64 (sec + n)) (end_ - sec - n)
                     id_ private in
         ret (Aborted v)
       else vhd_queue_read_loop cb_ret BLK fuel (u64 (sec + n)) end_
              (buf + VHD_SECTOR_SIZE * n) cb id_ private (rsp + r)) s1 <> OutOfFuel).
    { intros n s1 Hc Hn. apply bind_returns; [apply returns_call_cb|].
      intros r s2 E. apply cfg_call_cb in E.
      destruct (r =? - EBUSY).
      - apply returns_bind; [apply returns_call_cb | intros a; apply returns_ret].
      - apply Hnext; [congruence | exact Hn]. }
    apply bind_returns; [apply returns_gets|]. intros s0 s1 E0.
    apply gets_Ok in E0. destruct E0 as [-> ->]. unfold id.
    apply bind_returns; [apply returns_read_bitmap_cache|]. intros c s1 Ec.
    pose proof (cfg_read_bitmap_cache _ _ _ _ _ Ec) as C1.
    pose proof (classification_not_fixed _ _ _ _ _ Ec) as Hnf.
    assert (Hblock : forall s2 n s3,
      c <> VHD_BM_BIT_SET ->
      block_span s sec (end_ - sec) s2 = Ok n s3 -> 1 <= n <= end_ - sec /\ s3 = s2).
    { intros s2 n s3 Hne En. apply block_span_bounds in En; [exact En | auto | lia]. }
    destruct (c =? - EINVAL); [apply Habort|].
    destruct (c =? VHD_BM_BAT_CLEAR) eqn:E1.
    { apply Z.eqb_eq in E1.
      apply bind_returns; [apply returns_block_span|]. intros n s2 En.
      apply Hblock in En; [|subst c; discriminate]. destruct En as [Hn ->].
      apply Hhole; assumption. }
    destruct (c =? VHD_BM_BIT_CLEAR) eqn:E2.
    { apply Z.eqb_eq in E2. subst c.
      apply bind_returns; [apply returns_read_bitmap_cache_span|]. intros n s2 En.
      pose proof (cfg_read_bitmap_cache_span _ _ _ _ _ _ En) as C2.
      apply Hhole; [congruence|].
      eapply span_after_classification;
        [exact Ec | left; reflexivity | exact Hspb | lia | exact En]. }
    destruct (c =? VHD_BM_BIT_SET) eqn:E3.
    { apply Z.eqb_eq in E3. subst c.
      apply bind_returns; [apply returns_read_bitmap_cache_span|]. intros n s2 En.
      pose proof (cfg_read_bitmap_cache_span _ _ _ _ _ _ En) as C2.
      assert (Hn : 1 <= n <= end_ - sec).
      { eapply span_after_classification;
          [exact Ec | right; reflexivity | exact Hspb | lia | exact En]. }
      apply bind_returns; [apply returns_schedule_data_read|]. intros err s3 Es.
      apply cfg_schedule_data_read in Es.
      destruct (negb _); [apply Habort | apply Hnext; [congruence | exact Hn]]. }
    destruct (c =? VHD_BM_NOT_CACHED) eqn:E4.
    { apply Z.eqb_eq in E4.
      apply bind_returns; [apply returns_block_span|]. intros n s2 En.
      apply Hblock in En; [|subst c; discriminate]. destruct En as [Hn ->].
      apply bind_returns; [apply returns_udiv|]. intros q s3 Eq.
      apply udiv_Ok in Eq. destruct Eq as [-> ->].
      apply bind_returns; [apply returns_schedule_bitmap_read|]. intros err s3 Es.
      apply cfg_schedule_bitmap_read in Es.
      destruct (negb _); [apply Habort|].
      apply bind_returns; [apply returns___vhd_queue_request|]. intros err2 s4 Eq.
      apply cfg___vhd_queue_request in Eq.
      destruct (negb _); [apply Habort | apply Hnext; [congruence | exact Hn]]. }
    destruct (c =? VHD_BM_READ_PENDING) eqn:E5.
    { apply Z.eqb_eq in E5.
      apply bind_returns; [apply returns_block_span|]. intros n s2 En.
      apply Hblock in En; [|subst c; discriminate]. destruct En as [Hn ->].
      apply bind_returns; [apply returns___vhd_queue_request|]. intros err2 s4 Eq.
      apply cfg___vhd_queue_request in Eq.
      destruct (negb _); [apply Habort | apply Hnext; [congruence | exact Hn]]. }
    apply bind_returns; [discriminate|]. intros u s2 Ea. discriminate.
Qed.

Lemma vhd_queue_write_loop_returns cb_ret :
  forall fuel sec end_ buf cb id_ private s,
    (ftr_type s <> HD_TYPE_FIXED -> 0 < spb s < 2 ^ 32) ->
    0 <= sec -> end_ < 2 ^ 64 -> end_ - sec < 2 ^ 31 ->
    end_ - sec <= Z.of_nat fuel ->
    vhd_queue_write_loop cb_ret fuel sec end_ buf cb id_ private s <> OutOfFuel.
Proof.
  induction fuel as [|fuel IH]; intros sec end_ buf cb id_ private s Hspb Hsec Hend Hrem Hfuel.
  - simpl. replace (sec <? end_) with false by (symmetry; apply Z.ltb_ge; lia).
    simpl. discriminate.
  - simpl. destruct (sec <? end_) eqn:Elt; simpl; [|discriminate].
    apply Z.ltb_lt in Elt.
    assert (Er : to_int (u64 (end_ - sec)) = end_ - sec).
    { rewrite u64_small by lia. apply to_int_small. lia. }
    rewrite Er.
    assert (Hnext : forall n s1,
      cfg s1 = cfg s -> 1 <= n <= end_ - sec ->
      vhd_queue_write_loop cb_ret fuel (u64 (sec + n)) end_
        (buf + VHD_SECTOR_SIZE * n) cb id_ private s1 <> OutOfFuel).
    { intros n s1 Hc Hn. apply cfg_eq in Hc. destruct Hc as [E1 E2].
      rewrite u64_small by lia.
      apply IH; try lia. rewrite E1, E2. exact Hspb. }
    assert (Habort : forall err s1,
      (let* v := call_cb cb_ret cb err sec (end_ - sec) id_ private in
       ret (Aborted v)) s1 <> OutOfFuel).
    { intros err s1. apply returns_bind; [apply returns_call_cb|].
      intros a. apply returns_ret. }
    assert (Hwrite : forall n flags s1,
      cfg s1 = cfg s -> 1 <= n <= end_ - sec ->
      (let* err := schedule_data_write sec n buf flags cb id_ private in
       if negb (err =? 0) then
         let* v := call_cb cb_ret cb err sec (end_ - sec) id_ private in
         ret (Aborted v)
       else vhd_queue_write_loop cb_ret fuel (u64 (sec + n)) end_
              (buf + VHD_SECTOR_SIZE * n) cb id_ private) s1 <> OutOfFuel).
    { intros n flags s1 Hc Hn.
      apply bind_returns; [apply returns_schedule_data_write|]. intros err s2 Es.
      apply cfg_schedule_data_write in Es.
      destruct (negb _); [apply Habort | apply Hnext; [congruence | exact Hn]]. }
    apply bind_returns; [apply returns_gets|]. intros s0 s1 E0.
    apply gets_Ok in E0. destruct E0 as [-> ->]. unfold id.
    apply bind_returns; [apply returns_read_bitmap_cache|]. intros c s1 Ec.
    pose proof (cfg_read_bitmap_cache _ _ _ _ _ Ec) as C1.
    pose proof (classification_not_fixed _ _ _ _ _ Ec) as Hnf.
    assert (Hblock : forall s2 n s3,
      c <> VHD_BM_BIT_SET ->
      block_span s sec (end_ - sec) s2 = Ok n s3 -> 1 <= n <= end_ - sec /\ s3 = s2).
    { intros s2 n s3 Hne En. apply block_span_bounds in En; [exact En | auto | lia]. }
    destruct (c =? - EINVAL); [apply Habort|].
    destruct (c =? VHD_BM_BAT_LOCKED); [apply Habort|].
    destruct (c =? VHD_BM_BAT_CLEAR) eqn:E1.
    { apply Z.eqb_eq in E1.
      apply bind_returns; [apply returns_block_span|]. intros n s2 En.
      apply Hblock in En; [|subst c; discriminate]. destruct En as [Hn ->].
      apply Hwrite; assumption. }
    destruct (c =? VHD_BM_BIT_CLEAR) eqn:E2.
    { apply Z.eqb_eq in E2. subst c.
      apply bind_returns; [apply returns_read_bitmap_cache_span|]. intros n s2 En.
      pose proof (cfg_read_bitmap_cache_span _ _ _ _ _ _ En) as C2.
      apply Hwrite; [congruence|].
      eapply span_after_classification;
        [exact Ec | left; reflexivity | exact Hspb | lia | exact En]. }
    destruct (c =? VHD_BM_BIT_SET) eqn:E3.
    { apply Z.eqb_eq in E3. subst c.
      apply bind_returns; [apply returns_read_bitmap_cache_span|]. intros n s2 En.
      pose proof (cfg_read_bitmap_cache_span _ _ _ _ _ _ En) as C2.
      apply Hwrite; [congruence|].
      eapply span_after_classification;
        [exact Ec | right; reflexivity | exact Hspb | lia | exact En]. }
    destruct (c =? VHD_BM_NOT_CACHED) eqn:E4.
    { apply Z.eqb_eq in E4.
      apply bind_returns; [apply returns_block_span|]. intros n s2 En.
      apply Hblock in En; [|subst c; discriminate]. destruct En as [Hn ->].
      apply bind_returns; [apply returns_udiv|]. intros q s3 Eq.
      apply udiv_Ok in Eq. destruct Eq as [-> ->].
      apply bind_returns; [apply returns_schedule_bitmap_read|]. intros err s3 Es.
      apply cfg_schedule_bitmap_read in Es.
      destruct (negb _); [apply Habort|].
      apply bind_returns; [apply returns___vhd_queue_request|]. intros err2 s4 Eq.
      apply cfg___vhd_queue_request in Eq.
      destruct (negb _); [apply Habort | apply Hnext; [congruence | exact Hn]]. }
    destruct (c =? VHD_BM_READ_PENDING) eqn:E5.
    { apply Z.eqb_eq in E5.
      apply bind_returns; [apply returns_block_span|]. intros n s2 En.
      apply Hblock in En; [|subst c; discriminate]. destruct En as [Hn ->].
      apply bind_returns; [apply returns___vhd_queue_request|]. intros err2 s4 Eq.
      apply cfg___vhd_queue_request in Eq.
      destruct (negb _); [apply Habort | apply Hnext; [congruence | exact Hn]]. }
    apply bind_returns; [discriminate|]. intros u s2 Ea. discriminate.
Qed.

(** With [nr_sectors] turns both walks come to an end: they return or stop
    at a fault, for every range that fits the 64-bit sector arithmetic. *)
Lemma queue_walks_return cb_ret BLK sector nr buf cb id_ private s :
  (ftr_type s <> HD_TYPE_FIXED -> 0 < spb s < 2 ^ 32) ->
  0 <= sector -> 0 <= nr < 2 ^ 31 -> sector + nr < 2 ^ 64 ->
  vhd_queue_read_walk cb_ret BLK sector nr buf cb id_ private s <> OutOfFuel
  /\ vhd_queue_write_walk cb_ret sector nr buf cb id_ private s <> OutOfFuel.
Proof.
  intros Hspb Hs Hn H64.
  unfold vhd_queue_read_walk, vhd_queue_write_walk.
  rewrite u64_small by lia. split.
  - apply vhd_queue_read_loop_returns; try lia. exact Hspb.
  - apply vhd_queue_write_loop_returns; try lia. exact Hspb.
Qed.

(** C6: when the walk of [vhd_queue_read] or of [vhd_queue_write] runs to
    the end of the range (no span returns early with an error), the value
    the call returns is the sum of the values returned by the callbacks it
    invoked: the calls it appended to the log.  Both walks come to an end for
    every range that fits the sector arithmetic. *)
Theorem queue_return_is_sum cb_ret BLK sector nr buf cb id_ private s rsp s' :
  (vhd_queue_read_walk cb_ret BLK sector nr buf cb id_ private s = Ok (Done rsp) s' ->
   vhd_queue_read cb_ret BLK sector nr buf cb id_ private s = Ok rsp s'
   /\ exists calls, cb_log s' = cb_log s ++ calls
                    /\ rsp = returned_sum cb_ret calls)
  /\ (vhd_queue_write_walk cb_ret sector nr buf cb id_ private s = Ok (Done rsp) s' ->
      vhd_queue_write cb_ret sector nr buf cb id_ private s = Ok rsp s'
      /\ exists calls, cb_log s' = cb_log s ++ calls
                       /\ rsp = returned_sum cb_ret calls)
  /\ ((ftr_type s <> HD_TYPE_FIXED -> 0 < spb s < 2 ^ 32) ->
      0 <= sector -> 0 <= nr < 2 ^ 31 -> sector + nr < 2 ^ 64 ->
      vhd_queue_read_walk cb_ret BLK sector nr buf cb id_ private s <> OutOfFuel
      /\ vhd_queue_write_walk cb_ret sector nr buf cb id_ private s <> OutOfFuel).
Proof.
  split; [|split].
  - intros H. split.
    + unfold vhd_queue_read, bind. rewrite H. reflexivity.
    + apply vhd_queue_read_loop_sums in H. destruct H as (calls & Hl & Hr).
      exists calls. split; [exact Hl|]. rewrite (Hr rsp eq_refl). lia.
  - intros H. split.
    + unfold vhd_queue_write, bind. rewrite H. reflexivity.
    + destruct (vhd_queue_write_loop_sums _ _ _ _ _ _ _ _ _ _ _ H rsp eq_refl)
        as [-> E].
      exists []. split; [rewrite app_nil_r; exact E | reflexivity].
  - apply queue_walks_return.
Qed.

Lemma queue_return_is_sum_witness :
  vhd_queue_read_walk cb_count ex_not_allocated 4095 2 0 1 1 0 ex_diff
  = Ok (Done 2) ex_read_holes
  /\ vhd_queue_read cb_count ex_not_allocated 4095 2 0 1 1 0 ex_diff
     = Ok 2 ex_read_holes
  /\ cb_log ex_read_holes
     = [mk_cb_call 1 ex_not_allocated 4095 1 1 0; mk_cb_call 1 ex_not_allocated 4096 1 1 0].
Proof.
  assert (H : vhd_queue_read_walk cb_count ex_not_allocated 4095 2 0 1 1 0 ex_diff
              = Ok (Done 2) ex_read_holes) by (vm_compute; reflexivity).
  split; [exact H|].
  destruct (queue_return_is_sum cb_count ex_not_allocated 4095 2 0 1 1 0 ex_diff 2
              ex_read_holes) as (R & _ & _).
  destruct (R H) as [R1 _].
  split; [exact R1 | reflexivity].
Defined.

(** ** Walks along a duplicate-free chain come to an end *)

Lemma get_req_refs s p rq : get_req s p = Some rq -> In p (request_refs s).
Proof.
  intros H. unfold request_refs. destruct p as [i| | |k]; simpl in H.
  - apply in_or_app. left. apply in_map. apply in_seq.
    apply lookup_lt_Some in H. lia.
  - apply in_or_app. right. left. reflexivity.
  - apply in_or_app. right. right. left. reflexivity.
  - apply in_or_app. right. right. right. apply in_map. apply in_seq.
    destruct (bitmap_list s !! k) eqn:E; [|discriminate].
    apply lookup_lt_Some in E. lia.
Qed.

Lemma length_request_refs s : S (length (request_refs s)) = chain_fuel s.
Proof.
  unfold request_refs, chain_fuel.
  rewrite !length_app, !length_map, !length_seq. simpl. lia.
Qed.

Lemma is_chain_refs s r l : is_chain s r l -> incl l (request_refs s).
Proof.
  intros Hc. induction Hc as [|p rq l Hp Hc IH]; intros q Hq.
  - destruct Hq.
  - destruct Hq as [<-|Hq]; [exact (get_req_refs _ _ _ Hp) | exact (IH q Hq)].
Qed.

Lemma chain_length s r l :
  is_chain s r l -> NoDup l -> (length l < chain_fuel s)%nat.
Proof.
  intros Hc Hnd. rewrite <- length_request_refs.
  apply Nat.lt_succ_r. apply NoDup_incl_length; [apply NoDup_ListNoDup; exact Hnd|].
  exact (is_chain_refs _ _ _ Hc).
Qed.

Lemma completion_step cb_ret cb err sector n id_ private p s v s1 u s2 :
  call_cb cb_ret cb err sector n id_ private s = Ok v s1 ->
  free_vhd_request p s1 = Ok u s2 ->
  (forall q, q <> p -> get_req s2 q = get_req s q)
  /\ length (vreq_list s2) = length (vreq_list s)
  /\ length (vreq_free s2) = S (length (vreq_free s)).
Proof.
  intros Hcb Hfree. apply call_cb_state in Hcb. destruct Hcb as [_ ->].
  apply free_vhd_request_Ok in Hfree. subst s2. split; [|split].
  - intros q Hq.
    rewrite get_req_with_vreq_free, get_req_put_req_ne, get_req_with_cb_log
      by exact Hq.
    reflexivity.
  - destruct p; simpl; try reflexivity. apply length_insert.
  - reflexivity.
Qed.

Lemma chain_after_step s s2 p rq l :
  (forall q, q <> p -> get_req s2 q = get_req s q) ->
  is_chain s (req_next rq) l -> ~ In p l ->
  is_chain s2 (req_next rq) l
  /\ forall error, map (completion_call s2 error) l = map (completion_call s error) l.
Proof.
  intros Hag Hc Hnotin.
  assert (Hl : forall q, q ∈ l -> get_req s2 q = get_req s q).
  { intros q Hq. apply Hag. intros ->. apply Hnotin.
    apply list_elem_of_In. exact Hq. }
  split.
  - apply (is_chain_agree s2 s); assumption.
  - intros error. apply map_ext_in. intros q Hq. unfold completion_call.
    rewrite Hl; [reflexivity | apply list_elem_of_In; exact Hq].
Qed.

Lemma signal_completion_loop_returns cb_ret error fuel :
  forall l r rsp s,
    is_chain s r l -> NoDup l -> (length l <= fuel)%nat ->
    signal_completion_loop cb_ret fuel r error rsp s <> OutOfFuel.
Proof.
  induction fuel as [|fuel IH]; intros l r rsp s Hc Hnd Hlen.
  - inversion Hc; subst; simpl in *; [discriminate | lia].
  - inversion Hc as [|p rq l' Hp Hc']; subst; simpl; [discriminate|].
    apply bind_returns; [apply returns_load_req|].
    intros rq' s0 Hl. apply load_req_Ok in Hl. destruct Hl as [Hl ->].
    rewrite Hp in Hl. inversion Hl; subst rq'; clear Hl.
    apply bind_returns; [apply returns_call_cb|]. intros v s1 Hcb.
    apply bind_returns; [apply returns_free_vhd_request|]. intros u s2 Hfree.
    destruct (completion_step _ _ _ _ _ _ _ _ _ _ _ _ _ Hcb Hfree) as (Hag & _ & _).
    apply NoDup_cons in Hnd. destruct Hnd as [Hnotin Hnd].
    assert (Hnotin' : ~ In p l')
      by (intros Hin; apply Hnotin; apply list_elem_of_In; exact Hin).
    destruct (chain_after_step s s2 p rq l' Hag Hc' Hnotin') as [Hc2 _].
    apply (IH l'); [exact Hc2 | exact Hnd | simpl in Hlen; lia].
Qed.

Lemma signal_completion_loop_completes cb_ret error fuel :
  forall l r rsp s,
    is_chain s r l -> NoDup l -> (length l <= fuel)%nat ->
    Forall (fun c => cc_cb c <> 0) (map (completion_call s error) l) ->
    (length (vreq_free s) + length l <= length (vreq_list s))%nat ->
    exists v s', signal_completion_loop cb_ret fuel r error rsp s = Ok v s'.
Proof.
  induction fuel as [|fuel IH]; intros l r rsp s Hc Hnd Hlen Hcb Hroom.
  - inversion Hc; subst; simpl in *; [eexists _, _; reflexivity | lia].
  - inversion Hc as [|p rq l' Hp Hc']; subst; simpl; [eexists _, _; reflexivity|].
    simpl in Hcb, Hlen, Hroom. apply Forall_cons in Hcb. destruct Hcb as [Hcb0 Hcb].
    unfold completion_call in Hcb0. rewrite Hp in Hcb0. simpl in Hcb0.
    unfold bind at 1. unfold load_req at 1. rewrite Hp.
    remember (if negb (error =? 0) then error else req_error rq) as err.
    destruct (call_cb cb_ret (req_cb rq) err (req_lsec rq) (req_nr_secs rq)
                (req_id rq) (req_private rq) s) as [v s1| |] eqn:Ecb.
    2,3: (unfold call_cb in Ecb; apply Z.eqb_neq in Hcb0; rewrite Hcb0 in Ecb;
          discriminate).
    unfold bind at 1. rewrite Ecb.
    assert (Hs1 : get_req s1 p = Some rq /\ vreq_free s1 = vreq_free s
                  /\ vreq_list s1 = vreq_list s).
    { apply call_cb_state in Ecb. destruct Ecb as [_ ->].
      rewrite get_req_with_cb_log. split; [exact Hp | split; reflexivity]. }
    destruct Hs1 as (Hp1 & Hf1 & Hl1).
    destruct (free_vhd_request p s1) as [u s2| |] eqn:Efree.
    2,3: (unfold free_vhd_request, upd_req, bind, load_req, modify, gets, id in Efree;
          rewrite Hp1 in Efree; simpl in Efree;
          assert (El : length (vreq_list (put_req p zero_request s1))
                       = length (vreq_list s))
            by (rewrite <- Hl1; destruct p; simpl; try reflexivity;
                apply length_insert);
          assert (Ef : vreq_free (put_req p zero_request s1) = vreq_free s)
            by (rewrite <- Hf1; destruct p; reflexivity);
          rewrite El, Ef in Efree;
          assert (Hlt : (length (vreq_free s) <? length (vreq_list s))%nat = true)
            by (apply Nat.ltb_lt; lia);
          rewrite Hlt in Efree; discriminate).
    unfold bind at 1. rewrite Efree.
    destruct (completion_step _ _ _ _ _ _ _ _ _ _ _ _ _ Ecb Efree) as (Hag & Hvl & Hvf).
    apply NoDup_cons in Hnd. destruct Hnd as [Hnotin Hnd].
    assert (Hnotin' : ~ In p l')
      by (intros Hin; apply Hnotin; apply list_elem_of_In; exact Hin).
    destruct (chain_after_step s s2 p rq l' Hag Hc' Hnotin') as [Hc2 Hmap].
    apply (IH l'); [exact Hc2 | exact Hnd | lia | rewrite Hmap; exact Hcb | lia].
Qed.

Lemma start_new_unallocated_eq cb_ret b bm p s :
  bitmap_list s !! b = Some bm ->
  head (bm_queue bm) = Some p ->
  0 <= bm_blk bm ->
  bat_bat (bat s) !! Z.to_nat (bm_blk bm) = Some DD_BLK_UNUSED ->
  start_new_bitmap_transaction cb_ret b s
  = signal_completion_loop cb_ret (chain_fuel s) (Some p) (- EIO) 0
      (with_bitmap_list (alter (bm_with_queue empty_req_list) b (bitmap_list s)) s).
Proof.
  intros Hbm Hh Hblk Hent.
  unfold start_new_bitmap_transaction, start_new_bitmap_transaction_.
  unfold bind at 1. unfold load_bm at 1. rewrite Hbm, Hh.
  unfold bind at 1. unfold upd_bm, bind at 1, load_bm at 1, modify. rewrite Hbm.
  set (s1 := with_bitmap_list _ s).
  unfold bind at 1.
  rewrite (bat_entry_lookup (bm_blk bm) DD_BLK_UNUSED) by assumption.
  rewrite Z.eqb_refl. unfold signal_completion, bind, gets.
  replace (chain_fuel s1) with (chain_fuel s); [reflexivity|].
  unfold chain_fuel, s1. simpl. rewrite length_alter. reflexivity.
Qed.

(** C10: when the queue of a bitmap is promoted while the BAT entry of its
    block is still UNUSED, every queued request is completed with -EIO, in
    queue order; the transaction of the bitmap is left as it was (nothing
    joins it), nothing is queued for submission and the BAT, its lock and
    its pending allocation are untouched (no allocation is started).  The
    promotion comes to an end, and it returns whenever every queued request
    has a callback and the free list has room for the requests. *)
Theorem start_new_transaction_unallocated cb_ret b bm l s :
  bitmap_list s !! b = Some bm ->
  is_chain s (head (bm_queue bm)) l -> l <> [] -> NoDup l ->
  0 <= bm_blk bm ->
  bat_bat (bat s) !! Z.to_nat (bm_blk bm) = Some DD_BLK_UNUSED ->
  start_new_bitmap_transaction cb_ret b s <> OutOfFuel
  /\ (Forall (fun c => cc_cb c <> 0) (map (completion_call s (- EIO)) l) ->
      (length (vreq_free s) + length l <= length (vreq_list s))%nat ->
      exists rsp s', start_new_bitmap_transaction cb_ret b s = Ok rsp s')
  /\ forall rsp s',
      start_new_bitmap_transaction cb_ret b s = Ok rsp s' ->
      cb_log s' = cb_log s ++ map (completion_call s (- EIO)) l
      /\ Forall (fun c => cc_error c = - EIO) (map (completion_call s (- EIO)) l)
      /\ rsp = returned_sum cb_ret (map (completion_call s (- EIO)) l)
      /\ promotion_frame b s' = promotion_frame b s
      /\ bm_queue <$> bitmap_list s' !! b = Some empty_req_list.
Proof.
  intros Hbm Hc Hne Hnd Hblk Hent.
  destruct (head (bm_queue bm)) as [p|] eqn:Hh.
  2:{ inversion Hc; subst. contradiction. }
  pose proof (start_new_unallocated_eq cb_ret b bm p s Hbm Hh Hblk Hent) as Heq.
  set (s1 := with_bitmap_list
               (alter (bm_with_queue empty_req_list) b (bitmap_list s)) s) in *.
  assert (Hreq : forall q, get_req s1 q = get_req s q).
  { intros q. unfold s1. destruct q; try reflexivity.
    simpl. apply lookup_alter_proj. reflexivity. }
  assert (Hc1 : is_chain s1 (Some p) l)
    by (apply (is_chain_agree s1 s); [intros; apply Hreq | exact Hc]).
  assert (Hmap : map (completion_call s1 (- EIO)) l = map (completion_call s (- EIO)) l).
  { apply map_ext. intros q. unfold completion_call. rewrite Hreq. reflexivity. }
  assert (Hfuel : (length l <= chain_fuel s)%nat).
  { pose proof (chain_length s _ l Hc Hnd). lia. }
  split; [|split].
  - rewrite Heq. apply (signal_completion_loop_returns _ _ _ l); assumption.
  - intros Hcb Hroom. rewrite Heq.
    apply (signal_completion_loop_completes _ _ _ l); try assumption.
    rewrite Hmap. exact Hcb.
  - intros rsp s' H.
    assert (Hk : (promotion_frame b s', bm_queue <$> bitmap_list s' !! b)
                 = (promotion_frame b s1, bm_queue <$> bitmap_list s1 !! b)).
    { apply (signal_completion_keeps_bitmap cb_ret b (Some p) (- EIO) s1 rsp s').
      unfold signal_completion, bind, gets.
      replace (chain_fuel s1) with (chain_fuel s); [rewrite <- Heq; exact H|].
      unfold chain_fuel, s1. simpl. rewrite length_alter. reflexivity. }
    rewrite Heq in H.
    destruct (signal_completion_loop_chain _ _ _ _ _ _ _ _ _ Hc1 Hnd H) as [Hlog Hv].
    rewrite Hmap in Hlog, Hv.
    split; [|split; [|split; [|split]]].
    + rewrite Hlog. reflexivity.
    + apply (is_chain_errors s (Some p)); [exact Hc | discriminate].
    + rewrite Hv. lia.
    + apply (f_equal fst) in Hk. simpl in Hk. rewrite Hk.
      unfold promotion_frame, s1. simpl.
      rewrite lookup_alter_proj by reflexivity. reflexivity.
    + apply (f_equal snd) in Hk. simpl in Hk. rewrite Hk. unfold s1. simpl.
      rewrite list_lookup_alter_eq, Hbm. reflexivity.
Qed.

Lemma start_new_transaction_unallocated_witness :
  (bm_queue <$> bitmap_list ex_queued !! 31%nat)
    = Some (mk_req_list (Some (RData 2)) (Some (RData 1)))
  /\ bat_bat (bat ex_queued) !! 0%nat = Some DD_BLK_UNUSED
  /\ start_new_bitmap_transaction cb_zero 31 ex_queued = Ok 0 ex_queued_failed
  /\ cb_log ex_queued_failed
     = cb_log ex_queued ++ [mk_cb_call 1 (- EIO) 1 1 2 0; mk_cb_call 1 (- EIO) 2 1 3 0]
  /\ promotion_frame 31 ex_queued_failed = promotion_frame 31 ex_queued.
Proof.
  assert (H : start_new_bitmap_transaction cb_zero 31 ex_queued = Ok 0 ex_queued_failed)
    by (vm_compute; reflexivity).
  assert (Hb : exists bm, bitmap_list ex_queued !! 31%nat = Some bm
                          /\ head (bm_queue bm) = Some (RData 2) /\ bm_blk bm = 0).
  { eexists. split; [vm_compute; reflexivity|]. split; reflexivity. }
  destruct Hb as (bm & Hbm & Hh & Hblk).
  assert (Hc : is_chain ex_queued (head (bm_queue bm)) [RData 2; RData 1]).
  { rewrite Hh. eapply chain_cons; [vm_compute; reflexivity|]. simpl.
    eapply chain_cons; [vm_compute; reflexivity|]. simpl. constructor. }
  destruct (start_new_transaction_unallocated cb_zero 31 bm [RData 2; RData 1]
              ex_queued Hbm Hc ltac:(discriminate)
              ltac:(constructor;
                    [intros Hin; inversion Hin as [|? ? ? Hin']; inversion Hin'
                    | constructor; [intros Hin; inversion Hin | constructor]])
              ltac:(rewrite Hblk; discriminate)
              ltac:(rewrite Hblk; vm_compute; reflexivity))
    as (_ & _ & Hprops).
  destruct (Hprops 0 ex_queued_failed H) as (Hlog & _ & _ & Hf & _).
  split; [vm_compute; reflexivity|]. split; [vm_compute; reflexivity|].
  split; [exact H|]. split; [|exact Hf].
  rewrite Hlog. vm_compute. reflexivity.
Defined.

(** ** The nesting of the transaction finishers *)

Lemma bind_cong {A B} (m : M A) (k1 k2 : A -> M B) s :
  (forall a s1, m s = Ok a s1 -> k1 a s1 = k2 a s1) ->
  bind m k1 s = bind m k2 s.
Proof.
  intros H. unfold bind. destruct (m s) as [a s1| |]; [apply H|..]; reflexivity.
Qed.

Lemma queue_skips_requests b : skips_requests (queue_of b).
Proof.
  intros s r v. unfold queue_of. destruct r; try reflexivity.
  simpl. apply lookup_alter_proj. reflexivity.
Qed.

Lemma kept_queue_upd_bm b b' g :
  (forall x, bm_queue (g x) = bm_queue x) -> kept (queue_of b) (upd_bm b' g).
Proof.
  intros Hg s u s' H. apply upd_bm_Ok in H. subst s'. unfold queue_of. simpl.
  apply lookup_alter_proj. exact Hg.
Qed.

Lemma kept_queue_upd_tx b b' g : kept (queue_of b) (upd_tx b' g).
Proof. unfold upd_tx. apply kept_queue_upd_bm. reflexivity. Qed.

Ltac queue_step :=
  match goal with
  | H : kept ?f ?m |- kept ?f ?m => exact H
  | |- kept _ (bind _ _) => apply kept_bind; [|intros ?]
  | |- kept _ (ret _) => apply kept_ret
  | |- kept _ (crash _) => apply kept_crash
  | |- kept _ out_of_fuel => apply kept_out_of_fuel
  | |- kept _ (gets _) => apply kept_gets
  | |- kept _ (ASSERT _) => apply kept_ASSERT
  | |- kept _ (umod _ _) => apply kept_umod
  | |- kept _ (load_req _) => apply kept_load_req
  | |- kept _ (load_bm _) => apply kept_load_bm
  | |- kept _ (load_tx _) => apply kept_load_tx
  | |- kept _ (deref _) => apply kept_deref
  | |- kept _ (upd_req _ _) => apply kept_upd_req, queue_skips_requests
  | |- kept _ (upd_tx _ _) => apply kept_queue_upd_tx
  | |- kept _ (upd_bm _ _) => apply kept_queue_upd_bm; reflexivity
  | |- kept _ (set_bits _ _ _) => apply kept_set_bits
  | |- kept _ (if ?c then _ else _) => destruct c
  | |- kept _ (match ?x with _ => _ end) => destruct x
  | |- kept _ _ => solve [auto 1]
  end.

Lemma kept_queue_promote_queue b fuel b' r completed :
  kept (queue_of b) (promote_queue fuel b' r completed).
Proof.
  revert r completed. induction fuel as [|n IH]; intros r completed; simpl;
    unfold add_to_transaction, add_to_tail; repeat queue_step.
Qed.

Lemma bind_cong_l {A B} (m1 m2 : M A) (k : A -> M B) s :
  m1 s = m2 s -> bind m1 k s = bind m2 k s.
Proof. intros H. unfold bind. rewrite H. reflexivity. Qed.

Lemma queue_empty_kept {A} b (m : M A) s a s' :
  kept (queue_of b) m -> m s = Ok a s' -> queue_empty b s -> queue_empty b s'.
Proof. intros Hk H Hq. unfold queue_empty. rewrite (Hk _ _ _ H). exact Hq. Qed.

Lemma kept_queue_signal_completion cb_ret b r error :
  kept (queue_of b) (signal_completion cb_ret r error).
Proof.
  apply kept_signal_completion; try (intros; reflexivity).
  apply queue_skips_requests.
Qed.

(** With nothing waiting on the bitmap, [start_new_bitmap_transaction]
    returns at once: it does not reach [finish_data_transaction]. *)
Lemma start_new_queue_empty cb_ret fdt1 fdt2 b s :
  queue_empty b s ->
  start_new_bitmap_transaction_ cb_ret fdt1 b s
  = start_new_bitmap_transaction_ cb_ret fdt2 b s.
Proof.
  intros Hq. unfold start_new_bitmap_transaction_, bind, load_bm.
  unfold queue_empty, queue_of in Hq.
  destruct (bitmap_list s !! b) as [bm|]; [|reflexivity].
  simpl in Hq. injection Hq as Hq. rewrite Hq. reflexivity.
Qed.

(** [start_new_bitmap_transaction] empties the queue before it calls
    [finish_data_transaction]. *)
Lemma start_new_cong cb_ret (X Y : nat -> M Z) b s :
  (forall s', queue_empty b s' -> X b s' = Y b s') ->
  start_new_bitmap_transaction_ cb_ret X b s
  = start_new_bitmap_transaction_ cb_ret Y b s.
Proof.
  intros HXY. unfold start_new_bitmap_transaction_.
  apply bind_cong. intros bm s0 Hl. apply load_bm_Ok in Hl. destruct Hl as [Hbm ->].
  destruct (head (bm_queue bm)); [|reflexivity].
  apply bind_cong. intros u s1 Hu.
  assert (Hq1 : queue_empty b s1).
  { apply upd_bm_Ok in Hu. subst s1. unfold queue_empty, queue_of. simpl.
    rewrite list_lookup_alter_eq, Hbm. reflexivity. }
  apply bind_cong. intros e s2 He.
  assert (Hq2 : queue_empty b s2)
    by (exact (queue_empty_kept b _ _ _ _ (kept_bat_entry _ _) He Hq1)).
  destruct (e =? DD_BLK_UNUSED); [reflexivity|].
  apply bind_cong. intros fuel s3 Hg.
  assert (Hq3 : queue_empty b s3)
    by (exact (queue_empty_kept b _ _ _ _ (kept_gets _ _) Hg Hq2)).
  apply bind_cong. intros completed s4 Hp.
  assert (Hq4 : queue_empty b s4)
    by (exact (queue_empty_kept b _ _ _ _ (kept_queue_promote_queue _ _ _ _ _) Hp Hq3)).
  apply bind_cong. intros tx s5 Ht.
  assert (Hq5 : queue_empty b s5)
    by (exact (queue_empty_kept b _ _ _ _ (kept_load_tx _ _) Ht Hq4)).
  apply bind_cong_l.
  destruct (transaction_completed tx); [apply HXY; exact Hq5 | reflexivity].
Qed.

Lemma finish_data_transaction_cong (F G : nat -> Z -> M Z) b s :
  (forall e s', queue_empty b s' -> F b e s' = G b e s') ->
  queue_empty b s ->
  finish_data_transaction_ F b s = finish_data_transaction_ G b s.
Proof.
  intros HFG Hq. unfold finish_data_transaction_.
  apply bind_cong. intros u s1 Hu.
  assert (Hq1 : queue_empty b s1)
    by (exact (queue_empty_kept b _ _ _ _ (kept_queue_upd_tx _ _ _) Hu Hq)).
  apply bind_cong. intros tx s2 Ht.
  assert (Hq2 : queue_empty b s2)
    by (exact (queue_empty_kept b _ _ _ _ (kept_load_tx _ _) Ht Hq1)).
  apply bind_cong. intros x s3 Hg.
  assert (Hq3 : queue_empty b s3)
    by (exact (queue_empty_kept b _ _ _ _ (kept_gets _ _) Hg Hq2)).
  destruct (_ && _); [reflexivity|]. apply HFG. exact Hq3.
Qed.

Lemma finish_bitmap_transaction_S cb_ret n b error :
  finish_bitmap_transaction cb_ret (S n) b error
  = (upd_tx b (fun t => tx_with_error
                          (if negb (tx_error t =? 0) then tx_error t else error) t) ;;
     let* tx := load_tx b in
     if test_vhd_flag (tx_status tx) VHD_FLAG_TX_UPDATE_BAT then
       let* s := gets id in
       let* bm := load_bm b in
       ASSERT (bm_blk bm =? pbw_blk (bat s)) ;;
       ASSERT (test_vhd_flag (bat_status (bat s)) VHD_FLAG_BAT_WRITE_STARTED) ;;
       upd_req RBat (req_with_tx (Some b)) ;;
       ret 0
     else
       let* v1 := signal_completion cb_ret (head (tx_requests tx)) (tx_error tx) in
       upd_tx b (fun _ => zero_tx) ;;
       let* v2 := start_new_bitmap_transaction_ cb_ret
                    (finish_data_transaction_ (finish_bitmap_transaction cb_ret n)) b in
       let* bm := load_bm b in
       (if negb (bitmap_in_use bm) then unlock_bitmap b else ret tt) ;;
       ret (v1 + v2)).
Proof. reflexivity. Qed.

(** A [finish_bitmap_transaction] whose start finds nothing waiting on the
    bitmap makes no nested call. *)
Lemma finish_bitmap_transaction_queue_empty cb_ret k1 k2 b error s :
  queue_empty b s ->
  finish_bitmap_transaction cb_ret (S k1) b error s
  = finish_bitmap_transaction cb_ret (S k2) b error s.
Proof.
  intros Hq. rewrite (finish_bitmap_transaction_S cb_ret k1),
               (finish_bitmap_transaction_S cb_ret k2).
  apply bind_cong. intros u s1 Hu.
  assert (Hq1 : queue_empty b s1)
    by (exact (queue_empty_kept b _ _ _ _ (kept_queue_upd_tx _ _ _) Hu Hq)).
  apply bind_cong. intros tx s2 Ht.
  assert (Hq2 : queue_empty b s2)
    by (exact (queue_empty_kept b _ _ _ _ (kept_load_tx _ _) Ht Hq1)).
  destruct (test_vhd_flag _ _); [reflexivity|].
  apply bind_cong. intros v1 s3 Hs.
  assert (Hq3 : queue_empty b s3)
    by (exact (queue_empty_kept b _ _ _ _
                 (kept_queue_signal_completion _ _ _ _) Hs Hq2)).
  apply bind_cong. intros u2 s4 Hu2.
  assert (Hq4 : queue_empty b s4)
    by (exact (queue_empty_kept b _ _ _ _ (kept_queue_upd_tx _ _ _) Hu2 Hq3)).
  apply bind_cong_l. apply start_new_queue_empty. exact Hq4.
Qed.

(** The depth [tx_fuel] is enough: a deeper bound on the nesting of
    [finish_bitmap_transaction] gives the same outcome on every state. *)
Lemma tx_fuel_enough cb_ret k b error s :
  finish_bitmap_transaction cb_ret (tx_fuel + k) b error s
  = finish_bitmap_transaction cb_ret tx_fuel b error s.
Proof.
  unfold tx_fuel.
  change (3 + k)%nat with (S (S (S k))).
  rewrite (finish_bitmap_transaction_S cb_ret (S (S k))),
    (finish_bitmap_transaction_S cb_ret 2).
  apply bind_cong. intros u s1 _.
  apply bind_cong. intros tx s2 _.
  destruct (test_vhd_flag _ _); [reflexivity|].
  apply bind_cong. intros v1 s3 _.
  apply bind_cong. intros u2 s4 _.
  apply bind_cong_l. apply start_new_cong. intros s5 Hq5.
  apply finish_data_transaction_cong; [|exact Hq5].
  intros e s6 Hq6. apply finish_bitmap_transaction_queue_empty. exact Hq6.
Qed.

(** ** Runs of the finishers *)

Lemma runs_bind {A B} (m : M A) (k : A -> M B) s a s1 :
  m s = Ok a s1 -> runs (k a) s1 -> runs (bind m k) s.
Proof. intros H (b & s' & Hk). exists b, s'. unfold bind. rewrite H. exact Hk. Qed.

Lemma runs_ret {A} (a : A) s : runs (ret a) s.
Proof. exists a, s. reflexivity. Qed.

Lemma upd_bm_runs b g s bm :
  bitmap_list s !! b = Some bm ->
  upd_bm b g s = Ok tt (with_bitmap_list (alter g b (bitmap_list s)) s).
Proof. intros H. unfold upd_bm, bind, load_bm, modify. rewrite H. reflexivity. Qed.

Lemma upd_tx_runs b g s bm :
  bitmap_list s !! b = Some bm ->
  upd_tx b g s
  = Ok tt (with_bitmap_list
             (alter (fun bm => bm_with_tx (g (bm_tx bm)) bm) b (bitmap_list s)) s).
Proof. unfold upd_tx. apply upd_bm_runs. Qed.

Lemma test_clear_vhd_flag w f : test_vhd_flag (clear_vhd_flag w f) f = false.
Proof.
  unfold test_vhd_flag, clear_vhd_flag.
  replace (Z.land (Z.land w (Z.lnot f)) f) with 0; [reflexivity|].
  symmetry. apply Z.bits_inj'. intros n Hn.
  rewrite !Z.land_spec, Z.lnot_spec, Z.bits_0 by exact Hn.
  destruct (Z.testbit w n), (Z.testbit f n); reflexivity.
Qed.

Lemma same_requests_alter_tx (g : vhd_bitmap -> vhd_bitmap) b s :
  (forall x, bm_req (g x) = bm_req x) ->
  same_requests (with_bitmap_list (alter g b (bitmap_list s)) s) s.
Proof.
  intros Hg. split; [|split; reflexivity].
  intros q. destruct q; try reflexivity. simpl. apply lookup_alter_proj. exact Hg.
Qed.

Lemma same_requests_trans s1 s2 s3 :
  same_requests s1 s2 -> same_requests s2 s3 -> same_requests s1 s3.
Proof.
  intros (A1 & A2 & A3) (B1 & B2 & B3). split; [|split]; [|congruence..].
  intros q. rewrite A1. apply B1.
Qed.

Lemma set_bat_entry_runs blk v s :
  0 <= blk < Z.of_nat (length (bat_bat (bat s))) ->
  set_bat_entry blk v s
  = Ok tt (with_bat (bat_with_bat (<[Z.to_nat blk := v]> (bat_bat (bat s))) (bat s)) s).
Proof.
  intros Hb. unfold set_bat_entry, bind, bat_entry.
  replace ((0 <=? blk) && (blk <? Z.of_nat (length (bat_bat (bat s))))) with true
    by (symmetry; apply andb_true_intro; split; [apply Z.leb_le | apply Z.ltb_lt]; lia).
  destruct (lookup_lt_is_Some_2 (bat_bat (bat s)) (Z.to_nat blk) ltac:(lia)) as [e He].
  rewrite He. reflexivity.
Qed.

Lemma advance_next_db_runs s :
  spp s <> 0 -> exists nd, advance_next_db s = Ok tt (with_next_db nd s).
Proof.
  intros Hp. unfold advance_next_db, bind, gets, id, umod.
  apply Z.eqb_neq in Hp. rewrite Hp. unfold ret.
  destruct (negb _); eexists; reflexivity.
Qed.

Lemma start_new_nothing cb_ret X b s :
  queue_empty b s -> start_new_bitmap_transaction_ cb_ret X b s = Ok 0 s.
Proof.
  intros Hq. unfold start_new_bitmap_transaction_, bind, load_bm.
  unfold queue_empty, queue_of in Hq.
  destruct (bitmap_list s !! b) as [bm|]; [|discriminate].
  simpl in Hq. injection Hq as Hq. rewrite Hq. reflexivity.
Qed.

Lemma queue_lookup b s :
  queue_empty b s -> exists bm, bitmap_list s !! b = Some bm.
Proof.
  unfold queue_empty, queue_of. destruct (bitmap_list s !! b); [eauto | discriminate].
Qed.

Lemma unlock_init_runs (rsp : Z) s : runs (unlock_bat ;; init_bat ;; ret rsp) s.
Proof. eexists _, _. reflexivity. Qed.

Lemma completion_call_cb s e1 e2 l :
  Forall (fun c => cc_cb c <> 0) (map (completion_call s e1) l) ->
  Forall (fun c => cc_cb c <> 0) (map (completion_call s e2) l).
Proof.
  rewrite !Forall_map. intros H. eapply Forall_impl; [exact H|].
  intros p. unfold completion_call. destruct (get_req s p); exact id.
Qed.

Ltac rb := eapply runs_bind; [reflexivity|]; cbv beta.

Lemma finish_bat_write_runs cb_ret req rq b bm l s :
  get_req s req = Some rq ->
  get_bitmap s (pbw_blk (bat s)) = Some b ->
  bitmap_list s !! b = Some bm ->
  bitmap_valid bm = true ->
  bat_locked s = true ->
  test_vhd_flag (bat_status (bat s)) VHD_FLAG_BAT_WRITE_STARTED = true ->
  test_vhd_flag (tx_status (bm_tx bm)) VHD_FLAG_TX_LIVE = true ->
  (req_error rq = 0 -> 0 <= pbw_blk (bat s) < Z.of_nat (length (bat_bat (bat s)))) ->
  spp s <> 0 ->
  (req_tx (bat_req (bat s)) = None
   \/ (is_chain s (head (tx_requests (bm_tx bm))) l /\ NoDup l
       /\ Forall (fun c => cc_cb c <> 0) (map (completion_call s 0) l)
       /\ (length (vreq_free s) + length l <= length (vreq_list s))%nat
       /\ head (bm_queue bm) = None)) ->
  runs (finish_bat_write cb_ret req) s.
Proof.
  intros Hrq Hgb Hbm Hvalid Hlocked Hstarted Hlive Hrange Hspp Hcase.
  unfold finish_bat_write.
  rb. unfold id. rewrite Hgb. rb.
  eapply runs_bind; [unfold load_bm; rewrite Hbm; reflexivity|]. cbv beta.
  rewrite Hvalid. rb. rewrite Hlocked, Hstarted. rb. rewrite Hlive. rb.
  eapply runs_bind; [unfold load_req; rewrite Hrq; reflexivity|]. cbv beta.
  (* the commit, or the record of the error *)
  assert (HA : exists sA bmA,
             (if req_error rq =? 0
              then set_bat_entry (pbw_blk (bat s)) (u32 (pbw_offset (bat s))) ;;
                   advance_next_db
              else upd_tx b (tx_with_error (req_error rq))) s = Ok tt sA
             /\ same_requests sA s
             /\ bitmap_list sA !! b = Some bmA
             /\ bm_queue bmA = bm_queue bm
             /\ tx_requests (bm_tx bmA) = tx_requests (bm_tx bm)).
  { destruct (req_error rq =? 0) eqn:E.
    - apply Z.eqb_eq in E. specialize (Hrange E).
      pose proof (set_bat_entry_runs _ (u32 (pbw_offset (bat s))) s Hrange) as H1.
      set (s1 := with_bat _ s) in H1.
      destruct (advance_next_db_runs s1 Hspp) as [nd H2].
      exists (with_next_db nd s1), bm. split.
      + unfold bind. rewrite H1. exact H2.
      + split; [|split; [exact Hbm | split; reflexivity]].
        split; [|split; reflexivity]. intros q. destruct q; reflexivity.
    - eexists _, _. split; [apply (upd_tx_runs _ _ _ bm Hbm)|].
      split; [apply same_requests_alter_tx; reflexivity|].
      split; [simpl; rewrite list_lookup_alter_eq, Hbm; reflexivity|].
      split; reflexivity. }
  destruct HA as (sA & bmA & HsA & HrA & HbA & HqA & HtA).
  eapply runs_bind; [exact HsA|]. cbv beta.
  eapply runs_bind; [apply (upd_tx_runs _ _ _ bmA HbA)|]. cbv beta.
  set (sB := with_bitmap_list _ sA).
  assert (HrB : same_requests sB s).
  { apply (same_requests_trans _ sA); [|exact HrA].
    apply same_requests_alter_tx. reflexivity. }
  rb. unfold id.
  assert (Ereq : bat_req (bat sB) = bat_req (bat s)).
  { destruct HrB as (Hg & _). specialize (Hg RBat). unfold get_req in Hg.
    injection Hg as Hg. exact Hg. }
  rewrite Ereq.
  destruct (req_tx (bat_req (bat s))) as [t|] eqn:Etx; simpl is_some; cbv iota.
  2:{ rb. apply unlock_init_runs. }
  destruct Hcase as [Hcase | (Hc & Hnd & Hcb & Hroom & Hq)]; [discriminate|].
  (* the transaction was waiting for this BAT write *)
  unfold tx_fuel. rewrite (finish_bitmap_transaction_S cb_ret 2).
  set (bmB := bm_with_tx (tx_with_status
                            (clear_vhd_flag (tx_status (bm_tx bmA)) VHD_FLAG_TX_UPDATE_BAT)
                            (bm_tx bmA)) bmA).
  assert (HbB : bitmap_list sB !! b = Some bmB).
  { unfold sB. simpl. rewrite list_lookup_alter_eq, HbA. reflexivity. }
  clearbody sB.
  assert (HF : runs (finish_bitmap_transaction cb_ret 3 b (req_error rq)) sB).
  2:{ destruct HF as (v & sF & HF). rewrite <- (finish_bitmap_transaction_S cb_ret 2).
      eapply runs_bind; [exact HF | apply unlock_init_runs]. }
  rewrite (finish_bitmap_transaction_S cb_ret 2).
  eapply runs_bind; [apply (upd_tx_runs _ _ _ bmB HbB)|]. cbv beta.
  set (sC := with_bitmap_list _ sB).
  set (err := if negb (tx_error (bm_tx bmB) =? 0) then tx_error (bm_tx bmB)
              else req_error rq).
  set (bmC := bm_with_tx (tx_with_error err (bm_tx bmB)) bmB).
  assert (HbC : bitmap_list sC !! b = Some bmC).
  { unfold sC. simpl. rewrite list_lookup_alter_eq, HbB. reflexivity. }
  assert (HrC : same_requests sC s).
  { apply (same_requests_trans _ sB); [|exact HrB].
    apply same_requests_alter_tx. reflexivity. }
  clearbody sC.
  eapply runs_bind; [unfold load_tx, bind, load_bm; rewrite HbC; reflexivity|].
  cbv beta.
  replace (test_vhd_flag (tx_status (bm_tx bmC)) VHD_FLAG_TX_UPDATE_BAT) with false
    by (symmetry; apply test_clear_vhd_flag).
  replace (tx_requests (bm_tx bmC)) with (tx_requests (bm_tx bm)) by (symmetry; exact HtA).
  destruct HrC as (HgC & HfC & HlC).
  assert (HcC : is_chain sC (head (tx_requests (bm_tx bm))) l)
    by (apply (is_chain_agree sC s); [intros; apply HgC | exact Hc]).
  assert (HmC : forall e, map (completion_call sC e) l = map (completion_call s e) l).
  { intros e. apply map_ext. intros q. unfold completion_call. rewrite HgC. reflexivity. }
  destruct (signal_completion_loop_completes cb_ret (tx_error (bm_tx bmC))
              (chain_fuel sC) l (head (tx_requests (bm_tx bm))) 0 sC HcC Hnd)
    as (v1 & sD & HD).
  { pose proof (chain_length sC _ l HcC Hnd). lia. }
  { rewrite HmC. apply (completion_call_cb s 0). exact Hcb. }
  { rewrite HfC, HlC. exact Hroom. }
  assert (HD' : signal_completion cb_ret (head (tx_requests (bm_tx bm)))
                  (tx_error (bm_tx bmC)) sC = Ok v1 sD) by exact HD.
  eapply runs_bind; [exact HD'|]. cbv beta.
  assert (HqC : queue_empty b sC).
  { unfold queue_empty, queue_of. rewrite HbC. simpl. rewrite HqA, Hq. reflexivity. }
  assert (HqD : queue_empty b sD)
    by (exact (queue_empty_kept b _ _ _ _
                 (kept_queue_signal_completion _ _ _ _) HD' HqC)).
  destruct (queue_lookup b sD HqD) as [bmD HbD].
  eapply runs_bind; [apply (upd_tx_runs _ _ _ bmD HbD)|]. cbv beta.
  set (sE := with_bitmap_list _ sD).
  assert (HqE : queue_empty b sE).
  { apply (queue_empty_kept b (upd_tx b (fun _ => zero_tx)) sD tt);
      [apply kept_queue_upd_tx
      | exact (upd_tx_runs b (fun _ => zero_tx) sD bmD HbD) | exact HqD]. }
  eapply runs_bind; [apply start_new_nothing; exact HqE|]. cbv beta.
  destruct (queue_lookup b sE HqE) as [bmE HbE].
  eapply runs_bind; [unfold load_bm; rewrite HbE; reflexivity|]. cbv beta.
  destruct (negb (bitmap_in_use bmE)).
  - eapply runs_bind; [apply (upd_bm_runs _ _ _ bmE HbE)|]. apply runs_ret.
  - rb. apply runs_ret.
Qed.

(** C4: the BAT-write finisher.  With no error it stores [pbw_offset] in
    [bat[pbw_blk]] and moves [next_db] to the least value [v] at or above
    [next_db + SPB + BM] with [(v + BM) mod SPP = 0]; with an error it leaves
    the BAT (so the UNUSED entry) and [next_db] alone; either way the BAT
    lock is released and [pbw_blk], [pbw_offset] and the status are reset.
    The finisher returns whenever its assertions hold and either no
    transaction waits for the BAT write, or the one that does has a
    well-formed list of requests and nothing queued behind it. *)
Theorem finish_bat_write_commit cb_ret req rq s :
  get_req s req = Some rq ->
  0 <= next_db s -> 0 <= spb s -> 0 <= bm_secs s -> 0 < spp s ->
  spb s + bm_secs s < 2 ^ 32 ->
  next_db s + spb s + 2 * bm_secs s + spp s < 2 ^ 64 ->
  0 <= pbw_offset (bat s) < 2 ^ 32 ->
  (forall b bm l,
      get_bitmap s (pbw_blk (bat s)) = Some b ->
      bitmap_list s !! b = Some bm ->
      bitmap_valid bm = true ->
      bat_locked s = true ->
      test_vhd_flag (bat_status (bat s)) VHD_FLAG_BAT_WRITE_STARTED = true ->
      test_vhd_flag (tx_status (bm_tx bm)) VHD_FLAG_TX_LIVE = true ->
      (req_error rq = 0 ->
       0 <= pbw_blk (bat s) < Z.of_nat (length (bat_bat (bat s)))) ->
      (req_tx (bat_req (bat s)) = None
       \/ (is_chain s (head (tx_requests (bm_tx bm))) l /\ NoDup l
           /\ Forall (fun c => cc_cb c <> 0) (map (completion_call s 0) l)
           /\ (length (vreq_free s) + length l <= length (vreq_list s))%nat
           /\ head (bm_queue bm) = None)) ->
      runs (finish_bat_write cb_ret req) s)
  /\ forall rsp s',
      finish_bat_write cb_ret req s = Ok rsp s' ->
      (req_error rq = 0 ->
         bat_bat (bat s')
           = <[Z.to_nat (pbw_blk (bat s)) := pbw_offset (bat s)]> (bat_bat (bat s))
         /\ bat_bat (bat s') !! Z.to_nat (pbw_blk (bat s)) = Some (pbw_offset (bat s))
         /\ page_aligned_from (next_db s + spb s + bm_secs s) (bm_secs s) (spp s)
              (next_db s'))
      /\ (req_error rq <> 0 ->
            bat_bat (bat s') = bat_bat (bat s) /\ next_db s' = next_db s
            /\ (forall blk, bat_bat (bat s) !! blk = Some DD_BLK_UNUSED ->
                            bat_bat (bat s') !! blk = Some DD_BLK_UNUSED))
      /\ bat_locked s' = false
      /\ bat_status (bat s') = 0 /\ pbw_blk (bat s') = 0 /\ pbw_offset (bat s') = 0.
Proof.
  intros Hrq Hn Hb Hm Hp H32 H64 Hoff. split.
  { intros b bm l Hgb Hbm Hvalid Hlocked Hstarted Hlive Hrange Hcase.
    apply (finish_bat_write_runs cb_ret req rq b bm l); try assumption. lia. }
  intros rsp s' H.
  unfold finish_bat_write in H.
  binv H. apply gets_Ok in H0. destruct H0 as [-> ->]. unfold id in H.
  binv H.
  assert (s0 = s) as ->.
  { destruct (get_bitmap s (pbw_blk (bat s))).
    - apply ret_Ok in H0. tauto.
    - binv H0. apply ASSERT_Ok in H1. destruct H1; discriminate. }
  clear H0.
  binv H. apply load_bm_Ok in H0. destruct H0 as [Hbm ->].
  binv H. apply ASSERT_Ok in H0. destruct H0 as [_ ->].
  binv H. apply ASSERT_Ok in H0. destruct H0 as [_ ->].
  binv H. apply ASSERT_Ok in H0. destruct H0 as [_ ->].
  binv H. apply load_req_Ok in H0. destruct H0 as [Hrq' ->].
  rewrite Hrq in Hrq'. inversion Hrq'; subst a4. clear Hrq'.
  binv H.
  (* the tail: everything after the commit keeps the BAT and next_db *)
  assert (Htail : bat_and_next_db s' = bat_and_next_db s0
                  /\ bat_status (bat s') = 0 /\ pbw_blk (bat s') = 0
                  /\ pbw_offset (bat s') = 0).
  { binv H.
    assert (K1 : bat_and_next_db s1 = bat_and_next_db s0).
    { revert H1. apply kept_upd_tx. intros ? ?; reflexivity. }
    binv H. apply gets_Ok in H2. destruct H2 as [-> ->]. unfold id in H.
    binv H.
    assert (K2 : bat_and_next_db s2 = bat_and_next_db s1).
    { destruct (is_some _).
      - revert H2. apply kept_bat_next_db_fbt.
      - apply ret_Ok in H2. destruct H2 as [_ ->]. reflexivity. }
    assert (H' : (unlock_bat ;; init_bat) s2 = Ok tt s').
    { unfold bind in *. destruct (unlock_bat s2); try discriminate.
      destruct (init_bat s3) as [[] ?| |]; try discriminate.
      unfold ret in H. inversion H. reflexivity. }
    apply unlock_init_bat_Ok in H'. destruct H' as (E1 & E2 & E3 & E4 & E5).
    repeat split; auto.
    unfold bat_and_next_db in *. rewrite E4, E5. congruence. }
  destruct Htail as (Kt & E1 & E2 & E3).
  unfold bat_and_next_db in Kt. inversion Kt as [[Kb Kn]].
  split; [|split; [|split; [|split; [|split]]]]; auto.
  - intros He. rewrite He in H0. simpl in H0.
    binv H0. apply set_bat_entry_Ok in H1.
    destruct H1 as (B1 & B2 & B3 & B4 & B5 & B6).
    apply advance_next_db_Ok in H0; try lia.
    destruct H0 as [P Pb].
    rewrite u32_small in B1, B2 by lia.
    rewrite Kb, Kn, Pb, B1. split; [reflexivity|]. split.
    + rewrite <- B1. exact B2.
    + rewrite B3, B4, B5, B6 in P. exact P.
  - intros He. apply Z.eqb_neq in He. rewrite He in H0.
    assert (K0 : bat_and_next_db s0 = bat_and_next_db s).
    { revert H0. apply kept_upd_tx. intros ? ?; reflexivity. }
    unfold bat_and_next_db in K0. inversion K0 as [[K0b K0n]].
    rewrite Kb, Kn, K0b, K0n. repeat split; auto.
  - unfold bat_locked. rewrite E1. reflexivity.
Qed.

Lemma finish_bat_write_commit_witness :
  finish_bat_write cb_zero RBat ex_bat_pending = Ok 0 ex_bat_done
  /\ bat_bat (bat ex_bat_done) !! 0%nat = Some 7
  /\ page_aligned_from 4104 1 8 (next_db ex_bat_done)
  /\ bat_locked ex_bat_done = false.
Proof.
  pose proof (finish_bat_write_commit cb_zero RBat (bat_req (bat ex_bat_pending))
                ex_bat_pending) as T.
  assert (H : finish_bat_write cb_zero RBat ex_bat_pending = Ok 0 ex_bat_done)
    by (vm_compute; reflexivity).
  specialize (T eq_refl).
  specialize (T ltac:(vm_compute; discriminate) ltac:(vm_compute; discriminate)
                ltac:(vm_compute; discriminate) ltac:(vm_compute; reflexivity)
                ltac:(vm_compute; reflexivity) ltac:(vm_compute; reflexivity)
                ltac:(split; [vm_compute; discriminate | vm_compute; reflexivity])).
  destruct T as [_ T]. specialize (T 0 ex_bat_done H).
  destruct T as (T1 & _ & T3 & _).
  destruct (T1 eq_refl) as (_ & B & P).
  split; [exact H|]. split; [exact B|]. split; [exact P | exact T3].
Defined.

(** * Further properties of the driver *)

(** ** Sector counts and the disk geometry *)

Lemma secs_round_up_div bytes : secs_round_up bytes = (bytes + 511) / 512.
Proof. unfold secs_round_up. rewrite Z.shiftr_div_pow2 by (vm_compute; discriminate). reflexivity. Qed.

(** The bitmap of a block: [bm_secs = secs_round_up (spb >> 3)] sectors are
    the least number of sectors with one bit for each of the [spb] sectors
    of a block, when [spb] is a multiple of 8. *)
Theorem bitmap_sectors_hold_block spb_ :
  0 <= spb_ -> spb_ mod 8 = 0 ->
  let n := secs_round_up (Z.shiftr spb_ 3) in
  spb_ <= 8 * (VHD_SECTOR_SIZE * n) < spb_ + 8 * VHD_SECTOR_SIZE.
Proof.
  intros H0 H8 n. unfold n. rewrite secs_round_up_div.
  rewrite Z.shiftr_div_pow2 by lia. unfold VHD_SECTOR_SIZE.
  change (2 ^ 3) with 8.
  pose proof (Z.div_mod spb_ 8 ltac:(lia)) as E.
  pose proof (Z.div_mod (spb_ / 8 + 511) 512 ltac:(lia)) as E2.
  pose proof (Z.mod_pos_bound (spb_ / 8 + 511) 512 ltac:(lia)) as B2.
  lia.
Qed.

Lemma bitmap_sectors_hold_block_witness :
  secs_round_up (Z.shiftr 4096 3) = 1 /\ 4096 <= 8 * (VHD_SECTOR_SIZE * 1).
Proof.
  pose proof (bitmap_sectors_hold_block 4096 ltac:(lia) eq_refl) as H.
  split; [reflexivity | exact (proj1 H)].
Defined.

Lemma chs_secs_bounds size : 0 <= chs_secs size < 2 ^ 32.
Proof. unfold chs_secs, u32. apply Z.mod_pos_bound. lia. Qed.

Lemma div_div_le a b c : 0 <= a -> 0 < b -> 0 < c -> a / b / c * c * b <= a.
Proof.
  intros Ha Hb Hc.
  pose proof (Z.mul_div_le (a / b) c Hc). pose proof (Z.mul_div_le a b Hb).
  assert (0 <= a / b) by (apply Z.div_pos; lia).
  nia.
Qed.

(** [chs]: the geometry packed by [GEOM_ENCODE] has at most 65535
    cylinders, between 4 and 16 heads and 17, 31, 63 or 255 sectors per
    track, and it never describes more sectors than the disk has. *)
Theorem chs_bounds (GEOM_ENCODE : Z -> Z -> Z -> Z) size :
  exists c h s,
    chs GEOM_ENCODE size = GEOM_ENCODE c h s
    /\ 0 <= c <= 65535 /\ 4 <= h <= 16
    /\ (s = 17 \/ s = 31 \/ s = 63 \/ s = 255)
    /\ c * h * s <= chs_secs size.
Proof.
  unfold chs, chs_geometry.
  pose proof (chs_secs_bounds size) as Hs0.
  set (secs0 := chs_secs size) in *.
  set (secs := if 65535 * 16 * 255 <? secs0 then 65535 * 16 * 255 else secs0).
  assert (Hs : 0 <= secs <= 65535 * 16 * 255 /\ secs <= secs0).
  { unfold secs. destruct (65535 * 16 * 255 <? secs0) eqn:E.
    - apply Z.ltb_lt in E. lia.
    - apply Z.ltb_ge in E. lia. }
  destruct (65535 * 16 * 63 <=? secs) eqn:Ebig.
  - exists (secs / 255 / 16), 16, 255. split; [reflexivity|].
    pose proof (div_div_le secs 255 16 ltac:(lia) ltac:(lia) ltac:(lia)).
    assert (secs / 255 / 16 <= 65535).
    { apply Z.div_le_upper_bound; [lia|]. apply Z.div_le_upper_bound; lia. }
    assert (0 <= secs / 255 / 16) by (apply Z.div_pos; [apply Z.div_pos|]; lia).
    repeat split; lia.
  - apply Z.leb_gt in Ebig.
    set (cth := secs / 17).
    assert (Hc : 0 <= cth <= 65535 * 16 * 63 / 17).
    { unfold cth. split; [apply Z.div_pos; lia | apply Z.div_le_mono; lia]. }
    change (65535 * 16 * 63 / 17) with 3885840 in Hc.
    rewrite (u32_small (cth + 1023)) by lia.
    set (h0 := (cth + 1023) / 1024).
    assert (Hh0 : 0 <= h0 <= 3796).
    { unfold h0. split; [apply Z.div_pos; lia|].
      apply Z.div_le_upper_bound; lia. }
    set (h1 := if h0 <? 4 then 4 else h0).
    assert (Hh1 : 4 <= h1 <= 3796).
    { unfold h1. destruct (h0 <? 4) eqn:E; [lia|]. apply Z.ltb_ge in E. lia. }
    rewrite (u32_small (h1 * 1024)) by lia.
    destruct ((h1 * 1024 <=? cth) || (16 <? h1)) eqn:E1.
    + change (u32 (16 * 1024)) with 16384.
      destruct (16384 <=? secs / 31) eqn:E2.
      * exists (secs / 63 / 16), 16, 63. split; [reflexivity|].
        pose proof (div_div_le secs 63 16 ltac:(lia) ltac:(lia) ltac:(lia)).
        assert (secs / 63 / 16 <= 65535).
        { apply Z.div_le_upper_bound; [lia|]. apply Z.div_le_upper_bound; lia. }
        assert (0 <= secs / 63 / 16) by (apply Z.div_pos; [apply Z.div_pos|]; lia).
        repeat split; lia.
      * apply Z.leb_gt in E2.
        exists (secs / 31 / 16), 16, 31. split; [reflexivity|].
        pose proof (div_div_le secs 31 16 ltac:(lia) ltac:(lia) ltac:(lia)).
        assert (secs / 31 / 16 <= 65535).
        { apply Z.div_le_upper_bound; [lia|]. lia. }
        assert (0 <= secs / 31 / 16) by (apply Z.div_pos; [apply Z.div_pos|]; lia).
        repeat split; lia.
    + apply orb_false_iff in E1. destruct E1 as [E1 E1'].
      apply Z.leb_gt in E1. apply Z.ltb_ge in E1'.
      rewrite (u32_small (h1 * 1024)) by lia.
      replace (h1 * 1024 <=? cth) with false by (symmetry; apply Z.leb_gt; lia).
      exists (cth / h1), h1, 17. split; [reflexivity|].
      pose proof (div_div_le secs 17 h1 ltac:(lia) ltac:(lia) ltac:(lia)).
      fold cth in H.
      assert (cth / h1 <= 65535).
      { apply Z.div_le_upper_bound; [lia|]. nia. }
      assert (0 <= cth / h1) by (apply Z.div_pos; lia).
      repeat split; lia.
Qed.

(** ** Bits of a bitmap *)

Lemma set_bit_spec nr addr s a s' :
  0 <= nr -> set_bit nr addr s = Ok a s' ->
  forall i, 0 <= i ->
    Z.testbit a i = if i =? nr then true else Z.testbit addr i.
Proof.
  intros Hnr H i Hi. unfold set_bit in H.
  destruct (nr mod 64 <? 31); [|discriminate].
  apply ret_Ok in H. destruct H as [-> _].
  rewrite Z.lor_spec, Z.shiftl_1_l, Z.pow2_bits_eqb by exact Hnr.
  rewrite (Z.eqb_sym i nr). destruct (nr =? i); [apply orb_true_r | apply orb_false_r].
Qed.

Lemma set_bits_test_bit count : forall from addr s a s',
  0 <= from ->
  set_bits count from addr s = Ok a s' ->
  forall i, 0 <= i ->
    test_bit i a
    = if (from <=? i) && (i <? from + Z.of_nat count) then 1 else test_bit i addr.
Proof.
  induction count as [|c IH]; intros from addr s a s' Hf H i Hi.
  - simpl in H. apply ret_Ok in H. destruct H as [-> _].
    replace ((from <=? i) && (i <? from + Z.of_nat 0)) with false; [reflexivity|].
    symmetry. apply andb_false_iff.
    destruct (Z.le_gt_cases from i); [right; apply Z.ltb_ge | left; apply Z.leb_gt]; lia.
  - simpl in H. bstep H as a1 s1 H1.
    assert (Es : s1 = s).
    { unfold set_bit in H1. destruct (_ <? 31); [|discriminate].
      apply ret_Ok in H1. tauto. }
    subst s1.
    rewrite (IH (from + 1) a1 s a s' ltac:(lia) H i Hi).
    unfold test_bit. rewrite (set_bit_spec from addr s a1 s Hf H1 i Hi).
    destruct (Z.eq_dec i from) as [->|Hne].
    + rewrite Z.eqb_refl.
      replace (from + 1 <=? from) with false by (symmetry; apply Z.leb_gt; lia).
      replace (from <=? from) with true by (symmetry; apply Z.leb_le; lia).
      replace (from <? from + Z.of_nat (S c)) with true
        by (symmetry; apply Z.ltb_lt; lia).
      reflexivity.
    + replace (i =? from) with false by (symmetry; apply Z.eqb_neq; exact Hne).
      destruct (from + 1 <=? i) eqn:E1.
      * apply Z.leb_le in E1.
        replace (from <=? i) with true by (symmetry; apply Z.leb_le; lia).
        replace (from + 1 + Z.of_nat c) with (from + Z.of_nat (S c)) by lia.
        reflexivity.
      * apply Z.leb_gt in E1.
        replace (from <=? i) with false by (symmetry; apply Z.leb_gt; lia).
        reflexivity.
Qed.

Lemma set_bits_runs count : forall from addr s,
  (forall j, from <= j < from + Z.of_nat count -> j mod 64 < 31) ->
  exists a, set_bits count from addr s = Ok a s.
Proof.
  induction count as [|c IH]; intros from addr s Hsh.
  - exists addr. reflexivity.
  - simpl. unfold bind, set_bit.
    replace (from mod 64 <? 31) with true
      by (symmetry; apply Z.ltb_lt; apply Hsh; lia).
    unfold ret. apply IH. intros j Hj. apply Hsh. lia.
Qed.

(** The loops [for (i = 0; i < nr_secs; i++) set_bit (sec + i, shadow)]:
    while every shift of [set_bit] is one the [int] constant 1 allows
    (bit numbers with [nr mod 64 < 31]) the loop returns; and whenever it
    returns, the driver state is as it was and [test_bit] answers 1 on the
    [count] bits from [from] on and what it answered before on every other
    bit. *)
Theorem set_bits_then_test_bit count from addr s :
  0 <= from ->
  ((forall j, from <= j < from + Z.of_nat count -> j mod 64 < 31) ->
   exists a, set_bits count from addr s = Ok a s)
  /\ forall a s',
      set_bits count from addr s = Ok a s' ->
      s' = s
      /\ forall i, 0 <= i ->
           test_bit i a
           = if (from <=? i) && (i <? from + Z.of_nat count) then 1
             else test_bit i addr.
Proof.
  intros Hf. split.
  - apply set_bits_runs.
  - intros a s' H. split.
    + exact (set_bits_Ok count from addr s a s' H).
    + exact (set_bits_test_bit count from addr s a s' Hf H).
Qed.

Lemma set_bits_then_test_bit_witness :
  set_bits 3 2 1 ex_diff = Ok 29 ex_diff
  /\ test_bit 0 29 = 1 /\ test_bit 1 29 = 0 /\ test_bit 4 29 = 1 /\ test_bit 5 29 = 0.
Proof.
  assert (H : set_bits 3 2 1 ex_diff = Ok 29 ex_diff) by reflexivity.
  destruct (set_bits_then_test_bit 3 2 1 ex_diff ltac:(lia)) as [_ T].
  destruct (T 29 ex_diff H) as [_ B].
  split; [exact H|].
  split; [exact (B 0 ltac:(lia))|]. split; [exact (B 1 ltac:(lia))|].
  split; [exact (B 4 ltac:(lia)) | exact (B 5 ltac:(lia))].
Defined.

(** ** The table read at open *)

Lemma bat_entries_length n : forall buf,
  (4 * n <= length buf)%nat -> length (bat_entries n buf) = n.
Proof.
  induction n as [|n IH]; intros buf H; [reflexivity|].
  destruct buf as [|b0 [|b1 [|b2 [|b3 rest]]]]; simpl in H; try lia.
  simpl. f_equal. apply IH. lia.
Qed.

Lemma scan_next_db_spec spb_ bm entries : forall nd,
  0 < spb_ + bm ->
  Forall (fun e => e = DD_BLK_UNUSED \/ 0 <= e /\ e + spb_ + bm < 2 ^ 32) entries ->
  let nd' := scan_next_db spb_ bm entries nd in
  nd <= nd' /\ nd' <= Z.max nd (2 ^ 32)
  /\ Forall (fun e => e <> DD_BLK_UNUSED -> e < nd') entries.
Proof.
  induction entries as [|e rest IH]; intros nd Hpos Hall; simpl.
  - split; [lia|]. split; [lia | constructor].
  - apply Forall_cons in Hall. destruct Hall as [He Hrest].
    set (nd1 := if negb (e =? DD_BLK_UNUSED) && (nd <=? e)
                then u32 (e + spb_ + bm) else nd).
    destruct (IH nd1 Hpos Hrest) as (I1 & I2 & I3).
    assert (H1 : nd <= nd1 /\ nd1 <= Z.max nd (2 ^ 32)
                 /\ (e <> DD_BLK_UNUSED -> e < nd1)).
    { unfold nd1. destruct (e =? DD_BLK_UNUSED) eqn:Eu; simpl.
      - apply Z.eqb_eq in Eu. split; [lia|]. split; [lia | intros; contradiction].
      - apply Z.eqb_neq in Eu. destruct He as [He|He]; [contradiction|].
        destruct (nd <=? e) eqn:El.
        + apply Z.leb_le in El. rewrite u32_small by lia. lia.
        + apply Z.leb_gt in El. lia. }
    destruct H1 as (A1 & A2 & A3).
    split; [lia|]. split; [lia|].
    constructor; [intros Hu; specialize (A3 Hu); lia | exact I3].
Qed.

Lemma page_align_Ok nd bm spp_ s v s' :
  0 < spp_ -> 0 <= nd -> 0 <= bm -> nd + bm + spp_ < 2 ^ 64 ->
  page_align nd bm spp_ s = Ok v s' ->
  s' = s /\ nd <= v /\ (v + bm) mod spp_ = 0.
Proof.
  intros Hp Hn Hb H64 H. unfold page_align in H.
  bstep H as m s1 Hm. apply umod_Ok in Hm. destruct Hm as [-> ->].
  rewrite (u64_small (nd + bm)) in H by lia.
  pose proof (Z.mod_pos_bound (nd + bm) spp_ Hp) as Hmod.
  rewrite (u64_small (spp_ - _)) in H by lia.
  rewrite u64_small in H by lia.
  pose proof (page_aligned_pad nd bm spp_ Hp) as P.
  destruct (negb (_ =? 0)); apply ret_Ok in H; destruct H as [-> ->];
    destruct P as (P1 & P2 & _); auto.
Qed.

Lemma vhd_read_bat_Ok buf s r s' :
  0 <= hdr_max_bat_size s < 2 ^ 20 ->
  0 <= hdr_table_offset s < 2 ^ 63 ->
  0 <= bm_secs s < 2 ^ 32 -> 0 < spb s + bm_secs s -> 0 < spp s < 2 ^ 32 ->
  Forall (fun e => e = DD_BLK_UNUSED \/ 0 <= e /\ e + spb s + bm_secs s < 2 ^ 32)
    (bat_entries (Z.to_nat (hdr_max_bat_size s)) buf) ->
  vhd_read_bat (Some buf) s = Ok r s' ->
  vhd_read_bat None s = Ok (-1) s
  /\ (r = -1 /\ s' = s
      \/ r = 0
         /\ bat_bat (bat s') = bat_entries (Z.to_nat (hdr_max_bat_size s)) buf
         /\ length (bat_bat (bat s')) = Z.to_nat (hdr_max_bat_size s)
         /\ Forall (fun e => e <> DD_BLK_UNUSED -> e < next_db s') (bat_bat (bat s'))
         /\ (next_db s' + bm_secs s) mod spp s = 0).
Proof.
  intros Hn Hloc Hbm Hpos Hspp Hall H. split; [reflexivity|].
  unfold vhd_read_bat in H.
  bstep H as s0 s1 Hg. apply gets_Ok in Hg. destruct Hg as [-> ->]. unfold id in H.
  set (n := hdr_max_bat_size s) in *.
  rewrite (u64_small (n * 4)) in H by lia.
  rewrite (u64_small (4 * n)) in H by lia.
  rewrite !secs_round_up_div in H.
  assert (Hsecs : 0 <= (n * 4 + 511) / 512 < 2 ^ 31).
  { split; [apply Z.div_pos; lia | apply Z.div_lt_upper_bound; lia]. }
  rewrite to_int_small in H by exact Hsecs.
  rewrite Z.shiftl_mul_pow2 in H by (vm_compute; discriminate).
  destruct (negb (_ =? _)) eqn:Elen.
  { apply ret_Ok in H. left. tauto. }
  right. apply negb_false_iff in Elen. apply Z.eqb_eq in Elen.
  set (table := bat_entries (Z.to_nat n) buf) in *.
  rewrite Z.shiftr_div_pow2 in H by (vm_compute; discriminate).
  assert (Hstart : 0 <= hdr_table_offset s / 2 ^ VHD_SECTOR_SHIFT + (4 * n + 511) / 512
                   < 2 ^ 56).
  { assert (0 <= hdr_table_offset s / 2 ^ VHD_SECTOR_SHIFT < 2 ^ 54).
    { split; [apply Z.div_pos; [lia | vm_compute; reflexivity]|].
      apply Z.div_lt_upper_bound; [vm_compute; reflexivity|].
      change (2 ^ VHD_SECTOR_SHIFT * 2 ^ 54) with (2 ^ 63). lia. }
    assert (0 <= (4 * n + 511) / 512 < 2 ^ 31).
    { split; [apply Z.div_pos; lia | apply Z.div_lt_upper_bound; lia]. }
    lia. }
  rewrite u64_small in H by lia.
  set (nd0 := hdr_table_offset s / 2 ^ VHD_SECTOR_SHIFT + (4 * n + 511) / 512) in *.
  destruct (scan_next_db_spec (spb s) (bm_secs s) table nd0 Hpos Hall) as (S1 & S2 & S3).
  set (nd := scan_next_db (spb s) (bm_secs s) table nd0) in *.
  bstep H as v s1 Hpa.
  apply page_align_Ok in Hpa; [|lia..].
  destruct Hpa as (-> & Hv & Hal).
  cbv [bind upd_bat modify ret] in H. inversion H; subst r s'; clear H. simpl.
  split; [reflexivity|]. split; [reflexivity|]. split.
  - apply bat_entries_length.
    assert (Z.of_nat (length buf) >= 4 * n).
    { rewrite Elen. change (2 ^ VHD_SECTOR_SHIFT) with 512.
      pose proof (Z.div_mod (n * 4 + 511) 512 ltac:(lia)).
      pose proof (Z.mod_pos_bound (n * 4 + 511) 512 ltac:(lia)). lia. }
    lia.
  - split; [|exact Hal].
    eapply Forall_impl; [exact S3|]. intros e He Hu. specialize (He Hu). lia.
Qed.

Lemma vhd_read_bat_size s :
  0 <= hdr_max_bat_size s < 2 ^ 20 ->
  Z.shiftl (to_int (secs_round_up (u64 (hdr_max_bat_size s * 4)))) VHD_SECTOR_SHIFT
  = 512 * secs_round_up (4 * hdr_max_bat_size s).
Proof.
  intros Hn. set (n := hdr_max_bat_size s) in *.
  rewrite (u64_small (n * 4)) by lia.
  rewrite !secs_round_up_div.
  assert (Hsecs : 0 <= (n * 4 + 511) / 512 < 2 ^ 31).
  { split; [apply Z.div_pos; lia | apply Z.div_lt_upper_bound; lia]. }
  rewrite to_int_small by exact Hsecs.
  rewrite Z.shiftl_mul_pow2 by (vm_compute; discriminate).
  change (2 ^ VHD_SECTOR_SHIFT) with 512.
  replace (4 * n) with (n * 4) by lia. lia.
Qed.

Lemma vhd_read_bat_short buf s :
  0 <= hdr_max_bat_size s < 2 ^ 20 ->
  Z.of_nat (length buf) <> 512 * secs_round_up (4 * hdr_max_bat_size s) ->
  vhd_read_bat (Some buf) s = Ok (-1) s.
Proof.
  intros Hn Hlen. unfold vhd_read_bat, bind, gets, id.
  rewrite (vhd_read_bat_size s Hn).
  replace (Z.of_nat (length buf) =? _) with false
    by (symmetry; apply Z.eqb_neq; exact Hlen).
  reflexivity.
Qed.

Lemma vhd_read_bat_full buf s :
  0 <= hdr_max_bat_size s < 2 ^ 20 -> 0 < spp s ->
  Z.of_nat (length buf) = 512 * secs_round_up (4 * hdr_max_bat_size s) ->
  exists s', vhd_read_bat (Some buf) s = Ok 0 s'.
Proof.
  intros Hn Hspp Hlen. unfold vhd_read_bat, bind, gets, id.
  rewrite (vhd_read_bat_size s Hn).
  replace (Z.of_nat (length buf) =? _) with true
    by (symmetry; apply Z.eqb_eq; exact Hlen).
  cbn [negb]. unfold page_align, bind, umod.
  replace (spp s =? 0) with false by (symmetry; apply Z.eqb_neq; lia).
  unfold ret. destruct (negb _); eexists; reflexivity.
Qed.



(** ** The table sector written and read back *)

Lemma be32_to_cpu_be32 v :
  0 <= v < 2 ^ 32 ->
  be32_to_cpu ((v / 2 ^ 24) mod 256) ((v / 2 ^ 16) mod 256) ((v / 2 ^ 8) mod 256)
    (v mod 256) = v.
Proof.
  intros Hv. unfold be32_to_cpu.
  change (2 ^ 24) with 16777216. change (2 ^ 16) with 65536. change (2 ^ 8) with 256.
  change (2 ^ 32) with 4294967296 in Hv.
  pose proof (Z.div_mod v 16777216 ltac:(lia)).
  pose proof (Z.div_mod v 65536 ltac:(lia)).
  pose proof (Z.div_mod v 256 ltac:(lia)).
  pose proof (Z.div_mod (v / 16777216) 256 ltac:(lia)).
  pose proof (Z.div_mod (v / 65536) 256 ltac:(lia)).
  pose proof (Z.div_mod (v / 256) 256 ltac:(lia)).
  pose proof (Z.mod_pos_bound v 16777216 ltac:(lia)).
  pose proof (Z.mod_pos_bound v 65536 ltac:(lia)).
  pose proof (Z.mod_pos_bound v 256 ltac:(lia)).
  pose proof (Z.mod_pos_bound (v / 16777216) 256 ltac:(lia)).
  pose proof (Z.mod_pos_bound (v / 65536) 256 ltac:(lia)).
  pose proof (Z.mod_pos_bound (v / 256) 256 ltac:(lia)).
  assert (0 <= v / 16777216 < 256)
    by (split; [apply Z.div_pos; lia | apply Z.div_lt_upper_bound; lia]).
  lia.
Qed.

Lemma bat_entries_be32 l :
  Forall (fun e => 0 <= e < 2 ^ 32) l ->
  bat_entries (length l) (flat_map be32 l) = l.
Proof.
  induction l as [|v l IH]; intros H; [reflexivity|].
  apply Forall_cons in H. destruct H as [Hv Hl].
  simpl. rewrite (be32_to_cpu_be32 v Hv), (IH Hl). reflexivity.
Qed.

Lemma schedule_bat_write_buf s r s' :
  0 <= pbw_offset (bat s) < 2 ^ 32 ->
  schedule_bat_write s = Ok r s' ->
  let blk := pbw_blk (bat s) in
  let window := take 128 (drop (Z.to_nat (blk - blk mod 128)) (bat_bat (bat s))) in
  length window = 128%nat
  /\ bat_buf (bat s')
     = flat_map be32 (<[Z.to_nat (blk mod 128) := pbw_offset (bat s)]> window).
Proof.
  intros Hoff H blk window. unfold schedule_bat_write in H.
  bstep H as s0 s1 Hg. apply gets_Ok in Hg. destruct Hg as [-> ->]. unfold id in H.
  bstep H as u s1 Ha. apply ASSERT_Ok in Ha. destruct Ha as [_ ->].
  bstep H as win sw Hwin. unfold bat_window in Hwin.
  fold blk in Hwin, H.
  destruct ((0 <=? blk - blk mod 128)
            && (blk - blk mod 128 + 128 <=? Z.of_nat (length (bat_bat (bat s)))))
    eqn:Eb; [|discriminate].
  injection Hwin as Hwin Hsw. subst win sw. fold window in H.
  apply andb_prop in Eb. destruct Eb as [Eb1 Eb2].
  apply Z.leb_le in Eb1, Eb2.
  assert (Hw : length window = 128%nat).
  { unfold window. rewrite length_take, length_drop. lia. }
  rewrite (u32_small (pbw_offset (bat s))) in H by lia.
  cbv [bind upd_bat modify upd_req load_req get_req put_req aio_write
       enqueue_iocb gets ret] in H.
  simpl in H.
  destruct (Nat.ltb _ _); [|discriminate].
  inversion H; subst r s'; clear H. simpl.
  split; [exact Hw | reflexivity].
Qed.

(** The sector that [schedule_bat_write] builds, read back through the
    [BE32_IN] loop of [vhd_read_bat], is the window of the table with
    [pbw_offset] in the entry of the pending block. *)
Theorem bat_sector_reads_back s r s' :
  0 <= pbw_offset (bat s) < 2 ^ 32 ->
  Forall (fun e => 0 <= e < 2 ^ 32) (bat_bat (bat s)) ->
  schedule_bat_write s = Ok r s' ->
  let blk := pbw_blk (bat s) in
  let window := take 128 (drop (Z.to_nat (blk - blk mod 128)) (bat_bat (bat s))) in
  bat_entries 128 (bat_buf (bat s'))
  = <[Z.to_nat (blk mod 128) := pbw_offset (bat s)]> window
  /\ bat_entries 128 (bat_buf (bat s')) !! Z.to_nat (blk mod 128)
     = Some (pbw_offset (bat s)).
Proof.
  intros Hoff Hall H blk window.
  destruct (schedule_bat_write_buf s r s' Hoff H) as [Hw Hbuf].
  fold blk in Hw, Hbuf. fold window in Hw, Hbuf.
  assert (Hin : Forall (fun e => 0 <= e < 2 ^ 32)
                  (<[Z.to_nat (blk mod 128) := pbw_offset (bat s)]> window)).
  { apply Forall_insert; [|exact Hoff].
    unfold window. apply Forall_take, Forall_drop. exact Hall. }
  assert (E : bat_entries 128 (bat_buf (bat s'))
              = <[Z.to_nat (blk mod 128) := pbw_offset (bat s)]> window).
  { rewrite Hbuf.
    replace 128%nat
      with (length (<[Z.to_nat (blk mod 128) := pbw_offset (bat s)]> window))
      by (rewrite length_insert; exact Hw).
    apply bat_entries_be32. exact Hin. }
  split; [exact E|]. rewrite E.
  apply list_lookup_insert_eq. rewrite Hw.
  pose proof (Z.mod_pos_bound blk 128 ltac:(lia)). lia.
Qed.

Lemma bat_sector_reads_back_witness :
  schedule_bat_write ex_alloc5 = Ok 0 ex_alloc5_bat
  /\ bat_entries 128 (bat_buf (bat ex_alloc5_bat))
     = <[5%nat := 7]> (replicate 128 DD_BLK_UNUSED).
Proof.
  assert (H : schedule_bat_write ex_alloc5 = Ok 0 ex_alloc5_bat)
    by (vm_compute; reflexivity).
  destruct (bat_sector_reads_back ex_alloc5 0 ex_alloc5_bat
              ltac:(split; [vm_compute; discriminate | vm_compute; reflexivity])
              ltac:(apply Forall_forall; intros e He; vm_compute in He;
                    apply list_elem_of_In in He;
                    apply (repeat_spec 128 DD_BLK_UNUSED e) in He; subst e;
                    split; [vm_compute; discriminate | vm_compute; reflexivity])
              H) as [E _].
  split; [exact H|]. rewrite E. vm_compute. reflexivity.
Defined.

(** ** Request lists *)

Lemma is_chain_inj s r l1 : forall l2,
  is_chain s r l1 -> is_chain s r l2 -> l1 = l2.
Proof.
  intros l2 H1. revert l2. induction H1 as [|p rq l Hp Hc IH]; intros l2 H2.
  - inversion H2. reflexivity.
  - inversion H2 as [|p' rq' l' Hp' Hc']; subst.
    rewrite Hp in Hp'. inversion Hp'; subst rq'. f_equal. apply IH. exact Hc'.
Qed.

Lemma is_chain_suffix s r l q :
  is_chain s r l -> In q l ->
  exists l1 l2, l = l1 ++ q :: l2 /\ is_chain s (Some q) (q :: l2).
Proof.
  intros Hc. induction Hc as [|p rq l Hp Hc IH]; intros Hin; [destruct Hin|].
  destruct (decide (rref_eqb p q = true)) as [E|E].
  - apply rref_eqb_eq in E. subst q. exists [], l. split; [reflexivity|].
    apply (chain_cons s p rq); assumption.
  - destruct Hin as [->|Hin].
    + exfalso. apply E. apply rref_eqb_eq. reflexivity.
    + destruct (IH Hin) as (l1 & l2 & -> & Hq).
      exists (p :: l1), l2. split; [reflexivity | exact Hq].
Qed.

(** A chain that ends in NULL visits no request twice. *)
Lemma is_chain_NoDup s r l : is_chain s r l -> NoDup l.
Proof.
  intros Hc. induction Hc as [|p rq l Hp Hc IH]; constructor; [|exact IH].
  intros Hin. apply list_elem_of_In in Hin.
  destruct (is_chain_suffix s _ l p Hc Hin) as (l1 & l2 & El & Hq).
  assert (Hpl : is_chain s (Some p) (p :: l)) by (apply (chain_cons s p rq); assumption).
  pose proof (is_chain_inj s _ _ _ Hq Hpl) as E. inversion E as [E'].
  rewrite <- E' in El. apply (f_equal length) in El.
  rewrite length_app in El. simpl in El. lia.
Qed.

Lemma is_chain_get s r l q :
  is_chain s r l -> In q l -> exists rq, get_req s q = Some rq.
Proof.
  intros Hc. induction Hc as [|p rq l Hp Hc IH]; intros Hin; [destruct Hin|].
  destruct Hin as [<-|Hin]; [eauto | exact (IH Hin)].
Qed.

Lemma get_req_put_req_eq s p v rq :
  get_req s p = Some rq -> get_req (put_req p v s) p = Some v.
Proof.
  intros H. destruct p as [i| | |k]; simpl in *; try reflexivity.
  - apply list_lookup_insert_eq. apply lookup_lt_Some in H. exact H.
  - rewrite list_lookup_alter_eq. destruct (bitmap_list s !! k); [reflexivity | discriminate].
Qed.

Lemma chain_append s r refs :
  is_chain s r refs ->
  forall t rt e re,
    last refs = Some t -> get_req s t = Some rt ->
    get_req s e = Some re -> req_next re = None -> ~ In e refs ->
    is_chain (put_req t (req_with_next (Some e) rt) s) r (refs ++ [e]).
Proof.
  intros Hc. pose proof (is_chain_NoDup s r refs Hc) as Hnd.
  induction Hc as [|p rq l Hp Hc IH]; intros t rt e re Hlast Ht He Hn Hnotin;
    [discriminate|].
  apply NoDup_cons in Hnd. destruct Hnd as [Hpl Hnd].
  destruct l as [|p2 l].
  - simpl in Hlast. inversion Hlast; subst t. rewrite Hp in Ht. inversion Ht; subst rt.
    simpl. apply (chain_cons _ p (req_with_next (Some e) rq)).
    + apply (get_req_put_req_eq s p _ rq Hp).
    + simpl. apply (chain_cons _ e re).
      * rewrite get_req_put_req_ne; [exact He|].
        intros ->. apply Hnotin. left. reflexivity.
      * rewrite Hn. constructor.
  - assert (Hlast' : last (p2 :: l) = Some t) by exact Hlast.
    assert (Hne : p <> t).
    { intros ->. apply Hpl. apply last_Some_elem_of in Hlast'. exact Hlast'. }
    simpl. apply (chain_cons _ p rq).
    + rewrite get_req_put_req_ne; [exact Hp | exact Hne].
    + apply (IH Hnd t rt e re); try assumption.
      intros Hin. apply Hnotin. right. exact Hin.
Qed.

(** [add_to_tail] appends [e] to a well-formed list, and touches no
    request outside the list, provided the [next] link of [e] is NULL: the
    function does not reset it. *)
Theorem add_to_tail_appends l e re refs s :
  is_req_list s l refs ->
  get_req s e = Some re -> req_next re = None -> ~ In e refs ->
  exists l' s',
    add_to_tail l e s = Ok l' s'
    /\ is_req_list s' l' (refs ++ [e])
    /\ forall q, ~ In q refs -> get_req s' q = get_req s q.
Proof.
  intros [Hc Ht] He Hn Hnotin. unfold add_to_tail.
  destruct (head l) as [p|] eqn:Hh.
  - inversion Hc as [|p' rq l0 Hp Hc0]; subst.
    assert (Hne : p :: l0 <> []) by discriminate.
    specialize (Ht Hne).
    destruct (last (p :: l0)) as [t|] eqn:Hlast.
    2:{ apply last_None in Hlast. discriminate. }
    assert (Hin : In t (p :: l0))
      by (apply list_elem_of_In; apply last_Some_elem_of in Hlast; exact Hlast).
    assert (Hc' : is_chain s (Some p) (p :: l0))
      by (apply (chain_cons s p rq); assumption).
    destruct (is_chain_get s _ _ t Hc' Hin) as [rt Hrt].
    exists (mk_req_list (Some p) (Some e)),
      (put_req t (req_with_next (Some e) rt) s).
    split; [|split].
    + rewrite Ht. cbv [deref bind ret upd_req load_req modify]. rewrite Hrt.
      reflexivity.
    + split.
      * simpl. apply (chain_append s (Some p) (p :: l0) Hc' t rt e re); assumption.
      * intros _. simpl tail. rewrite last_snoc. reflexivity.
    + intros q Hq. apply get_req_put_req_ne. intros ->. contradiction.
  - inversion Hc; subst. exists (mk_req_list (Some e) (Some e)), s.
    split; [reflexivity|]. split; [|reflexivity].
    split.
    + simpl. apply (chain_cons s e re); [exact He|]. rewrite Hn. constructor.
    + intros _. reflexivity.
Qed.

Lemma add_to_tail_appends_witness :
  exists l' s',
    add_to_tail (mk_req_list (Some (RData 2)) (Some (RData 1))) (RData 0) ex_queued
    = Ok l' s'
    /\ is_req_list s' l' [RData 2; RData 1; RData 0].
Proof.
  assert (Hl : is_req_list ex_queued (mk_req_list (Some (RData 2)) (Some (RData 1)))
                 [RData 2; RData 1]).
  { split.
    - simpl. eapply chain_cons; [vm_compute; reflexivity|]. simpl.
      eapply chain_cons; [vm_compute; reflexivity|]. simpl. constructor.
    - intros _. reflexivity. }
  destruct (add_to_tail_appends _ (RData 0) zero_request _ ex_queued Hl
              ltac:(vm_compute; reflexivity) eq_refl
              ltac:(intros [H|[H|[]]]; discriminate))
    as (l' & s' & H & Hl' & _).
  exists l', s'. split; [exact H | exact Hl'].
Defined.

Lemma rref_eqb_neq a b : a <> b -> rref_eqb a b = false.
Proof.
  intros H. destruct (rref_eqb a b) eqn:E; [|reflexivity].
  apply rref_eqb_eq in E. contradiction.
Qed.

Lemma rref_eqb_refl a : rref_eqb a a = true.
Proof. apply rref_eqb_eq. reflexivity. Qed.

Lemma remove_walk_absent e s : forall refs fuel i,
  is_chain s (Some i) (i :: refs) -> ~ In e refs -> (length refs < fuel)%nat ->
  remove_walk fuel i e s = Ok (- EINVAL) s.
Proof.
  induction refs as [|n rest IH]; intros fuel i Hc Hnotin Hlen;
    (destruct fuel as [|fuel]; [simpl in Hlen; lia|]);
    inversion Hc as [|p ri l Hi Hc']; subst; simpl;
    unfold bind at 1, load_req at 1; rewrite Hi; cbv beta iota.
  - inversion Hc' as [E|]; subst. reflexivity.
  - inversion Hc' as [|p rn l Hn Hc'' E]; subst. rewrite <- E in *.
    rewrite rref_eqb_neq by (intros ->; apply Hnotin; left; reflexivity).
    apply IH; [exact Hc' | intros Hin; apply Hnotin; right; exact Hin
              | simpl in Hlen; lia].
Qed.

Lemma remove_walk_present e l2 s : forall l1 fuel i,
  is_chain s (Some i) (i :: l1 ++ e :: l2) -> (length l1 < fuel)%nat ->
  exists s',
    remove_walk fuel i e s = Ok 0 s'
    /\ is_chain s' (Some i) (i :: l1 ++ l2)
    /\ forall q, ~ In q (i :: l1) -> get_req s' q = get_req s q.
Proof.
  induction l1 as [|n l1 IH]; intros fuel i Hc Hlen;
    (destruct fuel as [|fuel]; [simpl in Hlen; lia|]);
    pose proof (is_chain_NoDup _ _ _ Hc) as Hnd;
    inversion Hc as [|p ri l Hi Hc']; subst; simpl;
    unfold bind at 1, load_req at 1; rewrite Hi; cbv beta iota.
  - simpl in Hc'. inversion Hc' as [|p re l He Hc'' E]; subst. rewrite <- E in *.
    rewrite rref_eqb_refl.
    exists (put_req i (req_with_next (req_next re) ri) s).
    split; [|split].
    + cbv [bind load_req upd_req modify ret]. rewrite He, Hi. reflexivity.
    + simpl. apply (chain_cons _ i (req_with_next (req_next re) ri)).
      * apply (get_req_put_req_eq s i _ ri Hi).
      * simpl. apply (is_chain_agree _ s); [|exact Hc''].
        intros q Hq. apply get_req_put_req_ne. intros ->.
        apply NoDup_cons in Hnd. destruct Hnd as [Hnd _]. apply Hnd.
        apply list_elem_of_further. exact Hq.
    + intros q Hq. apply get_req_put_req_ne. intros ->. apply Hq. left. reflexivity.
  - simpl in Hc'. inversion Hc' as [|p rn l Hn Hc'' E]; subst. rewrite <- E in *.
    assert (Hne : n <> e).
    { intros ->. pose proof (is_chain_NoDup _ _ _ Hc') as Hnd'.
      apply NoDup_cons in Hnd'. destruct Hnd' as [Hnd' _]. apply Hnd'.
      apply list_elem_of_In. apply in_or_app. right. left. reflexivity. }
    rewrite (rref_eqb_neq n e Hne).
    destruct (IH fuel n Hc' ltac:(simpl in Hlen; lia)) as (s' & Hw & Hs' & Hfr).
    exists s'. split; [exact Hw|]. split.
    + simpl. apply (chain_cons _ i ri); [|rewrite <- E; exact Hs'].
      rewrite Hfr; [exact Hi|].
      apply NoDup_cons in Hnd. destruct Hnd as [Hnd _].
      intros Hin. apply Hnd. apply list_elem_of_In.
      change (In i ((n :: l1) ++ e :: l2)). apply in_or_app. left. exact Hin.
    + intros q Hq. apply Hfr. intros Hin. apply Hq. right. exact Hin.
Qed.

(** [remove_from_req_list] on a well-formed, non-empty list: a request
    that is not on the list gives -EINVAL and changes nothing; a request on
    the list is unlinked, the others keep their order, and neither the [next]
    link of the removed request nor the [tail] of the list is touched. *)
Theorem remove_from_req_list_unlinks l e refs s :
  is_chain s (head l) refs -> refs <> [] ->
  (~ In e refs -> remove_from_req_list l e s = Ok (- EINVAL, l) s)
  /\ forall l1 l2,
      refs = l1 ++ e :: l2 ->
      exists l' s',
        remove_from_req_list l e s = Ok (0, l') s'
        /\ is_chain s' (head l') (l1 ++ l2)
        /\ tail l' = tail l
        /\ get_req s' e = get_req s e
        /\ forall q, ~ In q l1 -> get_req s' q = get_req s q.
Proof.
  intros Hc Hne.
  pose proof (is_chain_NoDup _ _ _ Hc) as Hnd.
  pose proof (chain_length s _ _ Hc Hnd) as Hfuel.
  inversion Hc as [E|p rp rest Hp Hc' Eh]; subst; [contradiction|].
  unfold remove_from_req_list. rewrite <- Eh. rewrite <- Eh in Hc.
  change (opt_rref_eqb (Some p) e) with (rref_eqb p e).
  split.
  - intros Hnotin.
    rewrite rref_eqb_neq by (intros ->; apply Hnotin; left; reflexivity).
    cbv [deref]. unfold bind at 1. unfold ret at 1. unfold bind at 1, gets at 1.
    unfold bind at 1.
    rewrite (remove_walk_absent e s rest (chain_fuel s) p Hc
               ltac:(intros Hin; apply Hnotin; right; exact Hin)
               ltac:(simpl in Hfuel; lia)).
    reflexivity.
  - intros l1 l2 El. destruct l1 as [|p1 l1]; simpl in El; inversion El; subst.
    + rewrite rref_eqb_refl.
      exists (mk_req_list (req_next rp) (tail l)), s.
      split; [cbv [bind load_req ret]; rewrite Hp; reflexivity|].
      split; [exact Hc'|]. split; [reflexivity|]. split; reflexivity.
    + assert (Hpe : p1 <> e).
      { intros ->. apply NoDup_cons in Hnd. destruct Hnd as [Hnd _]. apply Hnd.
        apply list_elem_of_In. apply in_or_app. right. left. reflexivity. }
      rewrite (rref_eqb_neq p1 e Hpe).
      destruct (remove_walk_present e l2 s l1 (chain_fuel s) p1 Hc
                  ltac:(simpl in Hfuel; rewrite length_app in Hfuel; simpl in Hfuel; lia))
        as (s' & Hw & Hs' & Hfr).
      exists l, s'. split.
      { cbv [deref]. unfold bind at 1. unfold ret at 1. unfold bind at 1, gets at 1.
        unfold bind at 1. rewrite Hw. reflexivity. }
      split; [rewrite <- Eh; exact Hs'|]. split; [reflexivity|].
      assert (He1 : ~ In e (p1 :: l1)).
      { intros Hin. apply NoDup_ListNoDup in Hnd.
        change (List.NoDup ((p1 :: l1) ++ e :: l2)) in Hnd.
        apply NoDup_remove_2 in Hnd. apply Hnd. apply in_or_app. left. exact Hin. }
      split; [apply Hfr; exact He1 | exact Hfr].
Qed.

Lemma remove_from_req_list_unlinks_witness :
  exists l' s',
    remove_from_req_list (mk_req_list (Some (RData 2)) (Some (RData 1))) (RData 1)
      ex_queued = Ok (0, l') s'
    /\ is_chain s' (head l') [RData 2]
    /\ tail l' = Some (RData 1).
Proof.
  assert (Hc : is_chain ex_queued
                 (head (mk_req_list (Some (RData 2)) (Some (RData 1))))
                 [RData 2; RData 1]).
  { simpl. eapply chain_cons; [vm_compute; reflexivity|]. simpl.
    eapply chain_cons; [vm_compute; reflexivity|]. simpl. constructor. }
  destruct (remove_from_req_list_unlinks _ (RData 1) _ ex_queued Hc
              ltac:(discriminate)) as [_ Hpres].
  destruct (Hpres [RData 2] [] eq_refl) as (l' & s' & H & Hc' & Ht & _).
  exists l', s'. split; [exact H|]. split; [exact Hc' | exact Ht].
Defined.

(** ** The request pool *)

Lemma free_vhd_request_runs r rq s :
  get_req s r = Some rq ->
  (length (vreq_free s) < length (vreq_list s))%nat ->
  free_vhd_request r s
  = Ok tt (with_vreq_free (r :: vreq_free s) (put_req r zero_request s)).
Proof.
  intros Hr Hroom. unfold free_vhd_request, upd_req.
  cbv [bind load_req modify gets id]. rewrite Hr.
  replace (vreq_free (put_req r zero_request s)) with (vreq_free s)
    by (destruct r; reflexivity).
  replace (length (vreq_list (put_req r zero_request s)))
    with (length (vreq_list s))
    by (destruct r; simpl; try reflexivity; symmetry; apply length_insert).
  apply Nat.ltb_lt in Hroom. rewrite Hroom. reflexivity.
Qed.

Lemma bind_eq {A B} (m : M A) (k : A -> M B) s a s1 :
  m s = Ok a s1 -> bind m k s = k a s1.
Proof. intros H. unfold bind. rewrite H. reflexivity. Qed.

Lemma alloc_vhd_request_runs r rest rq s :
  vreq_free s = r :: rest -> get_req s r = Some rq -> req_nr_secs rq = 0 ->
  alloc_vhd_request s = Ok (Some r) (with_vreq_free rest s).
Proof.
  intros Hf Hr Hz. unfold alloc_vhd_request.
  rewrite (bind_eq (gets vreq_free) _ s (vreq_free s) s eq_refl). rewrite Hf.
  rewrite (bind_eq (modify (with_vreq_free rest)) _ s tt (with_vreq_free rest s) eq_refl).
  rewrite (bind_eq (load_req r) _ _ rq (with_vreq_free rest s)).
  2:{ unfold load_req. rewrite get_req_with_vreq_free, Hr. reflexivity. }
  rewrite Hz. reflexivity.
Qed.

(** The pool is a stack: the request just freed is the next one allocated,
    zeroed, and the other requests and the rest of the free stack are as
    they were; an empty pool answers NULL and changes nothing. *)
Theorem free_then_alloc_vhd_request r rq s :
  get_req s r = Some rq ->
  (length (vreq_free s) < length (vreq_list s))%nat ->
  (forall s0, vreq_free s0 = [] -> alloc_vhd_request s0 = Ok None s0)
  /\ exists s',
      (free_vhd_request r ;; alloc_vhd_request) s = Ok (Some r) s'
      /\ get_req s' r = Some zero_request
      /\ vreq_free s' = vreq_free s
      /\ forall q, q <> r -> get_req s' q = get_req s q.
Proof.
  intros Hr Hroom. split.
  - intros s0 H0. unfold alloc_vhd_request, bind, gets. rewrite H0. reflexivity.
  - exists (with_vreq_free (vreq_free s) (put_req r zero_request s)).
    split; [|split; [|split]].
    + rewrite (bind_eq (free_vhd_request r) _ s tt _
                 (free_vhd_request_runs r rq s Hr Hroom)).
      rewrite (alloc_vhd_request_runs r (vreq_free s) zero_request);
        [destruct r; reflexivity | reflexivity | | reflexivity].
      rewrite get_req_with_vreq_free. apply (get_req_put_req_eq s r _ rq Hr).
    + rewrite get_req_with_vreq_free. apply (get_req_put_req_eq s r _ rq Hr).
    + reflexivity.
    + intros q Hq. rewrite get_req_with_vreq_free. apply get_req_put_req_ne. exact Hq.
Qed.

Lemma free_then_alloc_vhd_request_witness :
  exists s',
    (free_vhd_request (RData 3) ;; alloc_vhd_request) ex_queued = Ok (Some (RData 3)) s'
    /\ get_req s' (RData 3) = Some zero_request
    /\ vreq_free s' = vreq_free ex_queued.
Proof.
  destruct (get_req ex_queued (RData 3)) as [rq|] eqn:Hr;
    [|vm_compute in Hr; discriminate].
  destruct (free_then_alloc_vhd_request (RData 3) rq ex_queued Hr
              ltac:(vm_compute; lia)) as [_ (s' & H & Hz & Hf & _)].
  exists s'. split; [exact H|]. split; [exact Hz | exact Hf].
Defined.

(** ** Completion of a chain of requests *)

Lemma signal_completion_loop_frees cb_ret error fuel :
  forall l r rsp s v s',
    is_chain s r l ->
    signal_completion_loop cb_ret fuel r error rsp s = Ok v s' ->
    vreq_free s' = rev l ++ vreq_free s
    /\ (forall p, In p l -> get_req s' p = Some zero_request)
    /\ (forall q, ~ In q l -> get_req s' q = get_req s q).
Proof.
  induction fuel as [|fuel IH]; intros l r rsp s v s' Hc H.
  - destruct r; simpl in H; [discriminate|].
    inversion Hc; subst. apply ret_Ok in H. destruct H as [_ ->].
    split; [reflexivity|]. split; [intros p []|reflexivity].
  - destruct r as [p|]; simpl in H.
    2:{ inversion Hc; subst. apply ret_Ok in H. destruct H as [_ ->].
        split; [reflexivity|]. split; [intros p []|reflexivity]. }
    pose proof (is_chain_NoDup _ _ _ Hc) as Hnd.
    inversion Hc as [|p' rq l' Hp Hc']; subst.
    bstep H as rq' s0 Hl. apply load_req_Ok in Hl. destruct Hl as [Hl ->].
    rewrite Hp in Hl. inversion Hl; subst rq'; clear Hl.
    bstep H as v1 s1 Hcb. bstep H as u s2 Hfree.
    destruct (completion_step _ _ _ _ _ _ _ _ _ _ _ _ _ Hcb Hfree) as (Hag & _ & _).
    apply call_cb_state in Hcb. destruct Hcb as [_ Es1].
    apply free_vhd_request_Ok in Hfree.
    apply NoDup_cons in Hnd. destruct Hnd as [Hnotin Hnd].
    assert (Hnotin' : ~ In p l')
      by (intros Hin; apply Hnotin; apply list_elem_of_In; exact Hin).
    destruct (chain_after_step s s2 p rq l' Hag Hc' Hnotin') as [Hc2 _].
    destruct (IH l' _ _ _ _ _ Hc2 H) as (F1 & F2 & F3).
    assert (Ef : vreq_free s2 = p :: vreq_free s) by (subst s2 s1; destruct p; reflexivity).
    assert (Ez : get_req s2 p = Some zero_request).
    { subst s2. rewrite get_req_with_vreq_free.
      apply (get_req_put_req_eq s1 p _ rq). subst s1.
      rewrite get_req_with_cb_log. exact Hp. }
    split; [|split].
    + rewrite F1, Ef. simpl. rewrite <- app_assoc. reflexivity.
    + intros q [<-|Hq]; [rewrite F3; assumption | apply F2; exact Hq].
    + intros q Hq. rewrite F3 by (intros Hin; apply Hq; right; exact Hin).
      apply Hag. intros ->. apply Hq. left. reflexivity.
Qed.

(** [signal_completion]: when every request on the chain has a callback
    and the free stack has room, each request is called back exactly once, in
    list order, with [error] if it is not zero and with its own error
    otherwise; the sum of the callback values is returned; every request of
    the chain is zeroed and pushed on the free stack, and no other request
    changes. *)
Theorem signal_completion_completes_chain cb_ret r l error s :
  is_chain s r l ->
  Forall (fun c => cc_cb c <> 0) (map (completion_call s error) l) ->
  (length (vreq_free s) + length l <= length (vreq_list s))%nat ->
  exists v s',
    signal_completion cb_ret r error s = Ok v s'
    /\ cb_log s' = cb_log s ++ map (completion_call s error) l
    /\ v = returned_sum cb_ret (map (completion_call s error) l)
    /\ vreq_free s' = rev l ++ vreq_free s
    /\ (forall p, In p l -> get_req s' p = Some zero_request)
    /\ (forall q, ~ In q l -> get_req s' q = get_req s q).
Proof.
  intros Hc Hcb Hroom.
  pose proof (is_chain_NoDup _ _ _ Hc) as Hnd.
  pose proof (chain_length s _ _ Hc Hnd) as Hfuel.
  destruct (signal_completion_loop_completes cb_ret error (chain_fuel s) l r 0 s
              Hc Hnd ltac:(lia) Hcb Hroom) as (v & s' & H).
  exists v, s'.
  destruct (signal_completion_loop_chain _ _ _ _ _ _ _ _ _ Hc Hnd H) as [Hlog Hv].
  destruct (signal_completion_loop_frees _ _ _ _ _ _ _ _ _ Hc H) as (F1 & F2 & F3).
  split; [exact H|]. split; [exact Hlog|]. split; [lia|].
  split; [exact F1|]. split; [exact F2 | exact F3].
Qed.

Lemma signal_completion_completes_chain_witness :
  exists v s',
    signal_completion cb_count (Some (RData 2)) (- EIO) ex_queued = Ok v s'
    /\ cb_log s' = cb_log ex_queued
                   ++ [mk_cb_call 1 (- EIO) 1 1 2 0; mk_cb_call 1 (- EIO) 2 1 3 0]
    /\ vreq_free s' = [RData 1; RData 2] ++ vreq_free ex_queued.
Proof.
  assert (Hc : is_chain ex_queued (Some (RData 2)) [RData 2; RData 1]).
  { eapply chain_cons; [vm_compute; reflexivity|]. simpl.
    eapply chain_cons; [vm_compute; reflexivity|]. simpl. constructor. }
  destruct (signal_completion_completes_chain cb_count _ _ (- EIO) ex_queued Hc
              ltac:(repeat constructor; vm_compute; discriminate)
              ltac:(vm_compute; lia))
    as (v & s' & H & Hlog & _ & Hf & _).
  exists v, s'. split; [exact H|]. split; [|exact Hf].
  rewrite Hlog. reflexivity.
Defined.

(** ** The bitmap cache *)

Lemma lru_scan_spec bl : forall slots i idx0 lru0 seq0 idx lru seq,
  lru_scan bl slots i (idx0, lru0, seq0) = (idx, lru, seq) ->
  seq <= seq0
  /\ (forall b bm, In (Some b) slots -> bl !! b = Some bm ->
                   bitmap_locked bm = false -> seq <= bm_seqno bm)
  /\ (lru = lru0 /\ seq = seq0 /\ idx = idx0
      \/ exists b bm, lru = Some b /\ (i <= idx)%nat
                      /\ slots !! (idx - i)%nat = Some (Some b)
                      /\ bl !! b = Some bm /\ bitmap_locked bm = false
                      /\ seq = bm_seqno bm /\ seq < seq0).
Proof.
  induction slots as [|o rest IH]; intros i idx0 lru0 seq0 idx lru seq H; simpl in H.
  - inversion H; subst. split; [lia|]. split; [intros b bm []|]. left. auto.
  - set (acc' := match o with
                 | Some b => match bl !! b with
                             | Some bm => if (bm_seqno bm <? seq0)
                                             && negb (bitmap_locked bm)
                                          then (i, Some b, bm_seqno bm)
                                          else (idx0, lru0, seq0)
                             | None => (idx0, lru0, seq0)
                             end
                 | None => (idx0, lru0, seq0)
                 end) in H.
    destruct acc' as [[idx1 lru1] seq1] eqn:Eacc.
    destruct (IH _ _ _ _ _ _ _ H) as (I1 & I2 & I3).
    assert (Hstep : seq1 <= seq0
                    /\ (forall b bm, o = Some b -> bl !! b = Some bm ->
                                     bitmap_locked bm = false -> seq1 <= bm_seqno bm)
                    /\ (lru1 = lru0 /\ seq1 = seq0 /\ idx1 = idx0
                        \/ exists b bm, lru1 = Some b /\ idx1 = i /\ o = Some b
                                        /\ bl !! b = Some bm /\ bitmap_locked bm = false
                                        /\ seq1 = bm_seqno bm /\ seq1 < seq0)).
    { unfold acc' in Eacc. destruct o as [b|].
      - destruct (bl !! b) as [bm|] eqn:Eb.
        + simpl in Eacc.
          destruct ((bm_seqno bm <? seq0) && negb (bitmap_locked bm)) eqn:Ec.
          * inversion Eacc; subst. apply andb_prop in Ec. destruct Ec as [E1 E2].
            apply Z.ltb_lt in E1. apply negb_true_iff in E2.
            split; [lia|]. split.
            { intros b' bm' Hb Hl _. inversion Hb; subst b'. rewrite Eb in Hl.
              inversion Hl. lia. }
            right. exists b, bm. repeat split; try assumption; reflexivity.
          * inversion Eacc; subst. split; [lia|]. split; [|left; auto].
            intros b' bm' Hb Hl Hu. inversion Hb; subst b'. rewrite Eb in Hl.
            inversion Hl; subst bm'. rewrite Hu in Ec. simpl in Ec.
            rewrite andb_true_r in Ec. apply Z.ltb_ge in Ec. exact Ec.
        + inversion Eacc; subst. split; [lia|]. split; [|left; auto].
          intros b' bm' Hb Hl. inversion Hb; subst b'. rewrite Eb in Hl. discriminate.
      - inversion Eacc; subst. split; [lia|]. split; [|left; auto].
        intros b bm Hb. discriminate. }
    destruct Hstep as (S1 & S2 & S3).
    split; [lia|]. split.
    + intros b bm [Hb|Hb] Hl Hu.
      * specialize (S2 b bm Hb Hl Hu). lia.
      * exact (I2 b bm Hb Hl Hu).
    + destruct I3 as [(-> & -> & ->)|(b & bm & -> & Hi & Hs & Hl & Hu & -> & Hlt)].
      * destruct S3 as [(-> & -> & ->)|(b & bm & -> & -> & -> & Hl & Hu & -> & Hlt)].
        { left. auto. }
        right. exists b, bm. rewrite Nat.sub_diag. simpl.
        repeat split; try assumption; try reflexivity; try lia.
      * right. exists b, bm.
        replace (idx - i)%nat with (S (idx - S i)) by lia. simpl.
        repeat split; try assumption; try reflexivity; lia.
Qed.

(** [remove_lru_bitmap] never takes a locked bitmap out of the cache: the
    one it returns is cached, unlocked, no request depends on it, and no
    unlocked cached bitmap was used less recently.  When it returns NULL the
    cache is unchanged and every cached bitmap is locked or carries the
    newest sequence number. *)
Theorem remove_lru_bitmap_least_recent s r s' :
  remove_lru_bitmap s = Ok r s' ->
  match r with
  | Some b =>
      exists bm idx,
        cache_slots s !! idx = Some (Some b)
        /\ bitmap s' = <[idx := None]> (bitmap s)
        /\ bitmap_list s !! b = Some bm
        /\ bitmap_locked bm = false /\ bitmap_in_use bm = false
        /\ bm_seqno bm < bm_lru s
        /\ forall b' bm', In (Some b') (cache_slots s) ->
                          bitmap_list s !! b' = Some bm' ->
                          bitmap_locked bm' = false -> bm_seqno bm <= bm_seqno bm'
  | None =>
      s' = s
      /\ forall b' bm', In (Some b') (cache_slots s) ->
                        bitmap_list s !! b' = Some bm' ->
                        bitmap_locked bm' = true \/ bm_lru s <= bm_seqno bm'
  end.
Proof.
  intros H. unfold remove_lru_bitmap in H.
  bstep H as s0 s1 Hg. apply gets_Ok in Hg. destruct Hg as [-> ->]. unfold id in H.
  destruct (lru_scan (bitmap_list s) (cache_slots s) 0 (0%nat, None, bm_lru s))
    as [[idx lru] seq] eqn:Escan.
  destruct (lru_scan_spec _ _ _ _ _ _ _ _ _ Escan) as (S1 & S2 & S3).
  destruct lru as [b|].
  - destruct S3 as [(Hbad & _)|(b0 & bm & Eb & _ & Hs & Hl & Hu & -> & Hlt)];
      [discriminate|].
    inversion Eb; subst b0. rewrite Nat.sub_0_r in Hs.
    bstep H as u s1 Hm. apply modify_Ok in Hm. subst s1.
    bstep H as bm1 s1 Hl1. apply load_bm_Ok in Hl1. destruct Hl1 as [Hl1 ->].
    simpl in Hl1. rewrite Hl in Hl1. inversion Hl1; subst bm1.
    bstep H as u2 s2 Ha. apply ASSERT_Ok in Ha. destruct Ha as [Ha ->].
    apply negb_true_iff in Ha.
    apply ret_Ok in H. destruct H as [-> ->].
    exists bm, idx. repeat split; try assumption; try reflexivity.
  - apply ret_Ok in H. destruct H as [-> ->]. split; [reflexivity|].
    destruct S3 as [(_ & -> & _)|(b0 & bm & Hbad & _)]; [|discriminate].
    intros b' bm' Hin Hl.
    destruct (bitmap_locked bm') eqn:Eu; [left; reflexivity|].
    right. exact (S2 b' bm' Hin Hl Eu).
Qed.

Lemma remove_lru_bitmap_least_recent_witness :
  exists s' bm,
    remove_lru_bitmap ex_two_blocks = Ok (Some 31%nat) s'
    /\ cache_slots ex_two_blocks !! 0%nat = Some (Some 31%nat)
    /\ cache_slots ex_two_blocks !! 1%nat = Some (Some 30%nat)
    /\ bitmap_list ex_two_blocks !! 31%nat = Some bm
    /\ bitmap_locked bm = false
    /\ bm_seqno bm < bm_lru ex_two_blocks.
Proof.
  destruct (remove_lru_bitmap ex_two_blocks) as [r s'| |] eqn:H;
    try (vm_compute in H; discriminate).
  assert (Hr : r = Some 31%nat) by (vm_compute in H; inversion H; reflexivity).
  subst r.
  pose proof (remove_lru_bitmap_least_recent ex_two_blocks _ s' H) as T.
  destruct T as (bm & idx & _ & _ & Hl & Hu & _ & Hlt & _).
  exists s', bm. split; [reflexivity|]. split; [reflexivity|]. split; [reflexivity|].
  split; [exact Hl|]. split; [exact Hu | exact Hlt].
Defined.

Lemma shiftr1_bounds z : 0 <= z -> 0 <= Z.shiftr z 1 <= z.
Proof.
  intros H. rewrite Z.shiftr_div_pow2 by lia. change (2 ^ 1) with 2.
  pose proof (Z.div_mod z 2 ltac:(lia)). pose proof (Z.mod_pos_bound z 2 ltac:(lia)).
  lia.
Qed.

Lemma lru_halve_length slots bl lru :
  length (fst (lru_halve slots bl lru)) = length bl.
Proof.
  pose proof (lru_halve_proj (fun _ => tt) slots (fun _ _ => eq_refl) bl lru) as P.
  assert (E : (fun _ : vhd_bitmap => tt) <$> fst (lru_halve slots bl lru)
              = (fun _ => tt) <$> bl)
    by (apply list_eq; intros k; rewrite !list_lookup_fmap; apply P).
  apply (f_equal length) in E. rewrite !length_fmap in E. exact E.
Qed.

Lemma lru_halve_seq (S : list (option nat)) (B : Z) : forall slots bl lru,
  (forall o, In o slots -> In o S) ->
  (forall b bm, In (Some b) S -> bl !! b = Some bm -> 0 <= bm_seqno bm <= B) ->
  0 <= lru <= B ->
  (forall b bm, In (Some b) S -> fst (lru_halve slots bl lru) !! b = Some bm ->
                0 <= bm_seqno bm <= B)
  /\ lru <= snd (lru_halve slots bl lru) <= B
  /\ (forall b bm, In (Some b) slots -> fst (lru_halve slots bl lru) !! b = Some bm ->
                   bm_seqno bm <= snd (lru_halve slots bl lru))
  /\ (forall b bm, In (Some b) S -> bl !! b = Some bm ->
                   exists bm', fst (lru_halve slots bl lru) !! b = Some bm'
                               /\ bm_seqno bm' <= bm_seqno bm).
Proof.
  induction slots as [|o rest IH]; intros bl lru Hsub HP Hlru; simpl.
  - split; [exact HP|]. split; [lia|]. split; [intros b bm []|].
    intros b bm Hb Hl. exists bm. split; [exact Hl | lia].
  - assert (Hsub' : forall o', In o' rest -> In o' S)
      by (intros o' Ho; apply Hsub; right; exact Ho).
    destruct o as [b|].
    2:{ destruct (IH bl lru Hsub' HP Hlru) as (I1 & I2 & I3 & I4).
        split; [exact I1|]. split; [exact I2|]. split; [|exact I4].
        intros b bm [Hb|Hb]; [discriminate | exact (I3 b bm Hb)]. }
    destruct (bl !! b) as [bm|] eqn:Eb.
    2:{ destruct (IH bl lru Hsub' HP Hlru) as (I1 & I2 & I3 & I4).
        split; [exact I1|]. split; [exact I2|]. split; [|exact I4].
        intros b' bm' [Hb|Hb] Hl; [|exact (I3 b' bm' Hb Hl)].
        inversion Hb; subst b'.
        pose proof (lru_halve_length rest bl lru) as Hlen.
        apply lookup_lt_Some in Hl. rewrite Hlen in Hl.
        apply lookup_ge_None in Eb. lia. }
    assert (HbS : In (Some b) S) by (apply Hsub; left; reflexivity).
    pose proof (HP b bm HbS Eb) as Hbm.
    pose proof (shiftr1_bounds (bm_seqno bm) ltac:(lia)) as Hsq.
    set (sq := Z.shiftr (bm_seqno bm) 1) in *.
    set (bl1 := <[b := bm_with_seqno sq bm]> bl).
    set (lru1 := if lru <? sq then sq else lru).
    assert (Hlru1 : 0 <= lru1 <= B /\ lru <= lru1 /\ sq <= lru1).
    { unfold lru1. destruct (lru <? sq) eqn:E; [apply Z.ltb_lt in E | apply Z.ltb_ge in E]; lia. }
    assert (Hb1 : bl1 !! b = Some (bm_with_seqno sq bm)).
    { unfold bl1. apply list_lookup_insert_eq. apply lookup_lt_Some in Eb. exact Eb. }
    assert (HP1 : forall b' bm', In (Some b') S -> bl1 !! b' = Some bm' ->
                                 0 <= bm_seqno bm' <= B).
    { intros b' bm' Hb' Hl. destruct (decide (b = b')) as [<-|Hne].
      - rewrite Hb1 in Hl. inversion Hl. simpl. lia.
      - unfold bl1 in Hl. rewrite list_lookup_insert_ne in Hl by exact Hne.
        exact (HP b' bm' Hb' Hl). }
    destruct (IH bl1 lru1 Hsub' HP1 ltac:(lia)) as (I1 & I2 & I3 & I4).
    split; [exact I1|]. split; [lia|]. split.
    + intros b' bm' [Hb|Hb] Hl; [|exact (I3 b' bm' Hb Hl)].
      inversion Hb; subst b'.
      destruct (I4 b _ HbS Hb1) as (bm2 & Hl2 & Hle).
      rewrite Hl in Hl2. inversion Hl2; subst bm2. simpl in Hle. lia.
    + intros b' bm' Hb' Hl. destruct (decide (b = b')) as [<-|Hne].
      * rewrite Eb in Hl. inversion Hl; subst bm'.
        destruct (I4 b _ HbS Hb1) as (bm2 & Hl2 & Hle).
        exists bm2. split; [exact Hl2|]. simpl in Hle. lia.
      * apply (I4 b' bm' Hb'). unfold bl1.
        rewrite list_lookup_insert_ne by exact Hne. exact Hl.
Qed.


Lemma seqno_runs s : exists sq s', __bitmap_lru_seqno s = Ok sq s'
                                  /\ length (bitmap_list s') = length (bitmap_list s).
Proof.
  unfold __bitmap_lru_seqno. cbv [bind gets id].
  destruct (bm_lru s =? 4294967295).
  - pose proof (lru_halve_length (cache_slots s) (bitmap_list s) 0) as L.
    destruct (lru_halve (cache_slots s) (bitmap_list s) 0) as [bl lru].
    eexists _, _. split; [reflexivity | exact L].
  - eexists _, _. split; reflexivity.
Qed.

Lemma touch_bitmap_runs b bm s :
  bitmap_list s !! b = Some bm -> exists s', touch_bitmap b s = Ok tt s'.
Proof.
  intros Hb. destruct (seqno_runs s) as (sq & s1 & H1 & L).
  assert (Hb1 : exists bm1, bitmap_list s1 !! b = Some bm1).
  { apply lookup_lt_Some in Hb. rewrite <- L in Hb.
    destruct (lookup_lt_is_Some_2 _ _ Hb) as [x Hx]. eauto. }
  destruct Hb1 as [bm1 Hb1].
  eexists. unfold touch_bitmap. rewrite (bind_eq __bitmap_lru_seqno _ s sq s1 H1).
  unfold upd_bm. rewrite (bind_eq (load_bm b) _ s1 bm1 s1).
  - reflexivity.
  - unfold load_bm. rewrite Hb1. reflexivity.
Qed.

(** [touch_bitmap] makes its bitmap the most recently used one: it gets the
    new [bm_lru], every other cached bitmap stays strictly below, also when
    the counter reaches 0xffffffff and the cached numbers are halved; the
    cache slots are not changed. *)
Theorem touch_bitmap_most_recent b bm s :
  lru_bounded s -> 0 <= bm_lru s < 2 ^ 64 - 1 ->
  bitmap_list s !! b = Some bm ->
  exists s',
    touch_bitmap b s = Ok tt s'
    /\ bm_seqno <$> bitmap_list s' !! b = Some (bm_lru s')
    /\ (forall b' bm', b' <> b -> In (Some b') (cache_slots s') ->
                       bitmap_list s' !! b' = Some bm' ->
                       0 <= bm_seqno bm' < bm_lru s')
    /\ bitmap s' = bitmap s.
Proof.
  intros Hinv Hlru Hb.
  destruct (touch_bitmap_runs b bm s Hb) as [s' H].
  exists s'. split; [exact H|].
  pose proof (touch_bitmap_Ok (fun _ => tt) b s tt s' (fun _ _ => eq_refl) H)
    as (_ & _ & _ & _ & Hslots).
  unfold touch_bitmap, __bitmap_lru_seqno in H.
  bstep H as sq s1 Hs. rstep Hs. bstep Hs as u1 s2 Hh.
  assert (F : cache_slots s2 = cache_slots s
              /\ 0 <= bm_lru s2 < 2 ^ 64 - 1
              /\ length (bitmap_list s2) = length (bitmap_list s)
              /\ forall b' bm', In (Some b') (cache_slots s) ->
                                bitmap_list s2 !! b' = Some bm' ->
                                0 <= bm_seqno bm' <= bm_lru s2).
  { destruct (bm_lru s =? 4294967295) eqn:E.
    - apply Z.eqb_eq in E.
      pose proof (lru_halve_seq (cache_slots s) (bm_lru s) (cache_slots s)
                    (bitmap_list s) 0 (fun o Ho => Ho) Hinv ltac:(lia))
        as (I1 & I2 & I3 & _).
      pose proof (lru_halve_length (cache_slots s) (bitmap_list s) 0) as L.
      destruct (lru_halve (cache_slots s) (bitmap_list s) 0) as [bl lru].
      apply modify_Ok in Hh. subst s2. simpl in *.
      split; [reflexivity|]. split; [lia|]. split; [exact L|].
      intros b' bm' Hin Hl. specialize (I1 b' bm' Hin Hl). specialize (I3 b' bm' Hin Hl).
      lia.
    - apply ret_Ok in Hh. destruct Hh as [_ ->].
      split; [reflexivity|]. split; [lia|]. split; [reflexivity | exact Hinv]. }
  destruct F as (F1 & F2 & F3 & F4).
  bstep Hs as u2 s3 Hm. apply modify_Ok in Hm. subst s3.
  apply gets_Ok in Hs. destruct Hs as [-> ->].
  apply upd_bm_Ok in H. subst s'. simpl.
  rewrite (u64_small (bm_lru s2 + 1)) by lia.
  split; [|split; [|exact Hslots]].
  - rewrite list_lookup_alter_eq.
    destruct (bitmap_list s2 !! b) as [x|] eqn:Ex; [reflexivity|].
    apply lookup_ge_None in Ex. apply lookup_lt_Some in Hb. lia.
  - intros b' bm' Hne Hin Hl.
    rewrite list_lookup_alter_ne in Hl by (intros E; apply Hne; symmetry; exact E).
    assert (Hin' : In (Some b') (cache_slots s)).
    { unfold cache_slots in *. simpl in Hin. rewrite <- F1. exact Hin. }
    specialize (F4 b' bm' Hin' Hl). lia.
Qed.

Lemma touch_bitmap_most_recent_witness :
  exists s',
    touch_bitmap 31 (with_bm_lru 4294967295 ex_two_blocks) = Ok tt s'
    /\ bm_lru s' = 3
    /\ bm_seqno <$> bitmap_list s' !! 31%nat = Some 3
    /\ bm_seqno <$> bitmap_list s' !! 30%nat = Some 2.
Proof.
  set (s := with_bm_lru 4294967295 ex_two_blocks).
  assert (Hinv : lru_bounded s).
  { intros b bm Hin Hl. vm_compute in Hin.
    destruct Hin as [E|[E|Hin]].
    - inversion E; subst b. vm_compute in Hl. inversion Hl. vm_compute.
      split; discriminate.
    - inversion E; subst b. vm_compute in Hl. inversion Hl. vm_compute.
      split; discriminate.
    - repeat (destruct Hin as [E|Hin]; [discriminate|]). destruct Hin. }
  destruct (bitmap_list s !! 31%nat) as [bm|] eqn:Hb; [|vm_compute in Hb; discriminate].
  destruct (touch_bitmap_most_recent 31 bm s Hinv
              ltac:(split; [vm_compute; discriminate | vm_compute; reflexivity]) Hb)
    as (s' & H & Hseq & _).
  exists s'. split; [exact H|].
  assert (E : bm_lru s' = 3 /\ bm_seqno <$> bitmap_list s' !! 30%nat = Some 2).
  { vm_compute in H. inversion H. split; reflexivity. }
  destruct E as [E1 E2]. split; [exact E1|]. split; [|exact E2].
  rewrite Hseq, E1. reflexivity.
Defined.

Lemma first_null_spec slots : forall i0 i,
  first_null slots i0 = Some i -> (i0 <= i)%nat /\ slots !! (i - i0)%nat = Some None.
Proof.
  induction slots as [|[b|] rest IH]; intros i0 i H; simpl in H; [discriminate| |].
  - destruct (IH _ _ H) as [H1 H2]. split; [lia|].
    replace (i - i0)%nat with (S (i - S i0)) by lia. exact H2.
  - inversion H; subst. split; [lia|]. rewrite Nat.sub_diag. reflexivity.
Qed.

Lemma get_bitmap_scan_None bl blk slots :
  get_bitmap_scan bl blk slots = None ->
  forall b bm, In (Some b) slots -> bl !! b = Some bm -> bm_blk bm <> blk.
Proof.
  induction slots as [|[b'|] rest IH]; simpl; intros H b bm Hin Hl; [destruct Hin| |].
  - destruct (bl !! b') as [x|] eqn:E.
    + destruct (bm_blk x =? blk) eqn:Eb; [discriminate|].
      destruct Hin as [Hb|Hin]; [|exact (IH H b bm Hin Hl)].
      inversion Hb; subst b'. rewrite E in Hl. inversion Hl; subst x.
      apply Z.eqb_neq. exact Eb.
    + destruct Hin as [Hb|Hin]; [|exact (IH H b bm Hin Hl)].
      inversion Hb; subst b'. rewrite E in Hl. discriminate.
  - destruct Hin as [Hb|Hin]; [discriminate | exact (IH H b bm Hin Hl)].
Qed.

Lemma get_bitmap_scan_unique bl blk slots b bm :
  In (Some b) slots -> bl !! b = Some bm -> bm_blk bm = blk ->
  (forall b' bm', In (Some b') slots -> bl !! b' = Some bm' -> bm_blk bm' = blk ->
                  b' = b) ->
  get_bitmap_scan bl blk slots = Some b.
Proof.
  intros Hin Hl Hblk. induction slots as [|[b'|] rest IH]; intros Hu; simpl;
    [destruct Hin| |].
  - destruct (bl !! b') as [x|] eqn:E.
    + destruct (bm_blk x =? blk) eqn:Eb.
      * apply Z.eqb_eq in Eb. f_equal. apply (Hu b' x); [left; reflexivity | exact E | exact Eb].
      * destruct Hin as [Hb|Hin].
        { inversion Hb; subst b'. rewrite E in Hl. inversion Hl; subst x.
          apply Z.eqb_neq in Eb. contradiction. }
        apply IH; [exact Hin|]. intros b2 bm2 H2. apply Hu. right. exact H2.
    + destruct Hin as [Hb|Hin].
      { inversion Hb; subst b'. rewrite E in Hl. discriminate. }
      apply IH; [exact Hin|]. intros b2 bm2 H2. apply Hu. right. exact H2.
  - destruct Hin as [Hb|Hin]; [discriminate|].
    apply IH; [exact Hin|]. intros b2 bm2 H2. apply Hu. right. exact H2.
Qed.

Lemma In_take_insert {A} (x y : A) n i (l : list A) :
  In x (take n (<[i := y]> l)) -> x = y \/ In x (take n l).
Proof.
  intros Hin. apply list_elem_of_In in Hin. apply list_elem_of_lookup in Hin.
  destruct Hin as [k Hk].
  destruct (decide (k < n)%nat) as [Hlt|Hge].
  - rewrite lookup_take_lt in Hk by exact Hlt.
    destruct (decide (i = k)) as [->|Hne].
    + destruct (decide (k < length l)%nat) as [Hl|Hl].
      * rewrite list_lookup_insert_eq in Hk by exact Hl. left. congruence.
      * rewrite list_insert_ge in Hk by lia. right.
        apply list_elem_of_In. apply (list_elem_of_lookup_2 _ k).
        rewrite lookup_take_lt by exact Hlt. exact Hk.
    + rewrite list_lookup_insert_ne in Hk by exact Hne. right.
      apply list_elem_of_In. apply (list_elem_of_lookup_2 _ k).
      rewrite lookup_take_lt by exact Hlt. exact Hk.
  - rewrite lookup_take_ge in Hk by lia. discriminate.
Qed.

Lemma remove_lru_bitmap_slots s r s' :
  remove_lru_bitmap s = Ok r s' ->
  bitmap_list s' = bitmap_list s
  /\ forall b, In (Some b) (cache_slots s') -> In (Some b) (cache_slots s).
Proof.
  intros H. unfold remove_lru_bitmap in H.
  bstep H as s0 s1 Hg. apply gets_Ok in Hg. destruct Hg as [-> ->]. unfold id in H.
  destruct (lru_scan _ _ _ _) as [[idx lru] seq].
  destruct lru as [b|].
  - bstep H as u s1 Hm. apply modify_Ok in Hm. subst s1.
    bstep H as bm1 s1 Hl1. apply load_bm_Ok in Hl1. destruct Hl1 as [_ ->].
    bstep H as u2 s2 Ha. apply ASSERT_Ok in Ha. destruct Ha as [_ ->].
    apply ret_Ok in H. destruct H as [_ ->].
    split; [reflexivity|]. intros b' Hin. unfold cache_slots in Hin. simpl in Hin.
    apply In_take_insert in Hin. destruct Hin as [Hbad|Hin]; [discriminate | exact Hin].
  - apply ret_Ok in H. destruct H as [_ ->]. split; [reflexivity | auto].
Qed.

Lemma alloc_vhd_bitmap_Ok blk s b s1 :
  alloc_vhd_bitmap blk s = Ok (0, Some b) s1 ->
  (exists x, bitmap_list s !! b = Some x)
  /\ bitmap_list s1
     = <[b := mk_bitmap blk 0 0 0 0 zero_tx empty_req_list empty_req_list zero_request]>
         (bitmap_list s)
  /\ bm_lru s1 = bm_lru s
  /\ forall b', In (Some b') (cache_slots s1) -> In (Some b') (cache_slots s).
Proof.
  intros H. unfold alloc_vhd_bitmap in H.
  bstep H as fr s0 Hg. apply gets_Ok in Hg. destruct Hg as [-> ->].
  bstep H as got s0 Hgot.
  assert (F : bitmap_list s0 = bitmap_list s /\ bm_lru s0 = bm_lru s
              /\ forall b', In (Some b') (cache_slots s0) -> In (Some b') (cache_slots s)).
  { destruct (bitmap_free s) as [|b0 rest].
    - pose proof (remove_lru_bitmap_slots _ _ _ Hgot) as [F1 F2].
      split; [exact F1|]. split; [|exact F2].
      revert Hgot. apply (kept_remove_lru_bitmap bm_lru); intros; reflexivity.
    - bstep Hgot as u s2 Hm. apply modify_Ok in Hm. subst s2.
      apply ret_Ok in Hgot. destruct Hgot as [_ ->]. auto. }
  destruct F as (F1 & F2 & F3).
  destruct got as [b0|]; [|apply ret_Ok in H; destruct H as [H _]; discriminate].
  unfold init_vhd_bitmap in H.
  bstep H as u1 s2 H1. unfold upd_bm in H1.
  bstep H1 as x s3 Hx. apply load_bm_Ok in Hx. destruct Hx as [Hx ->].
  apply modify_Ok in H1. subst s2.
  bstep H as u2 s3 H2. apply upd_bm_Ok in H2. subst s3.
  apply ret_Ok in H. destruct H as [E ->]. inversion E; subst b0.
  split; [exists x; rewrite <- F1; exact Hx|]. simpl.
  split; [|split; [exact F2 | exact F3]].
  rewrite <- F1. apply list_eq. intros k.
  destruct (decide (b = k)) as [<-|Hne].
  - rewrite !list_lookup_alter_eq, Hx.
    rewrite list_lookup_insert_eq by (apply lookup_lt_Some in Hx; exact Hx).
    reflexivity.
  - rewrite !list_lookup_alter_ne by exact Hne.
    rewrite list_lookup_insert_ne by exact Hne. reflexivity.
Qed.

Lemma install_bitmap_Ok b s u s' :
  install_bitmap b s = Ok u s' ->
  exists i,
    first_null (cache_slots s) 0 = Some i
    /\ bitmap s' = <[i := Some b]> (bitmap s)
    /\ forall k, bitmap_contents <$> bitmap_list s' !! k
                 = bitmap_contents <$> bitmap_list s !! k.
Proof.
  intros H. unfold install_bitmap in H.
  bstep H as s0 s1 Hg. apply gets_Ok in Hg. destruct Hg as [-> ->]. unfold id in H.
  destruct (first_null (cache_slots s) 0) as [i|] eqn:Ei.
  2:{ apply ASSERT_Ok in H. destruct H; discriminate. }
  exists i. split; [reflexivity|].
  bstep H as u1 s1 Ht.
  pose proof (touch_bitmap_Ok bitmap_contents b s u1 s1 (fun _ _ => eq_refl) Ht)
    as (G & _ & _ & _ & Hs).
  apply modify_Ok in H. subst s'. simpl. rewrite Hs. split; [reflexivity | exact G].
Qed.

(** A bitmap obtained from [alloc_vhd_bitmap] for a block that is not in
    the cache and then installed is the one [get_bitmap] finds for the block,
    and it is empty: no bits, no flags, no transaction, no requests. *)
Theorem alloc_install_then_get_bitmap blk s b s1 s2 :
  get_bitmap s blk = None ->
  alloc_vhd_bitmap blk s = Ok (0, Some b) s1 ->
  install_bitmap b s1 = Ok tt s2 ->
  get_bitmap s2 blk = Some b
  /\ bitmap_contents <$> bitmap_list s2 !! b
     = Some (blk, 0, 0, 0, zero_tx, empty_req_list, empty_req_list, zero_request).
Proof.
  intros Hnone Ha Hi.
  destruct (alloc_vhd_bitmap_Ok _ _ _ _ Ha) as ([x Hx] & Hbl & _ & Hslots).
  destruct (install_bitmap_Ok _ _ _ _ Hi) as (i & Hfn & Hbm & Hg).
  assert (Hb1 : bitmap_list s1 !! b
                = Some (mk_bitmap blk 0 0 0 0 zero_tx empty_req_list empty_req_list
                          zero_request)).
  { rewrite Hbl. apply list_lookup_insert_eq. apply lookup_lt_Some in Hx. exact Hx. }
  assert (Hc : bitmap_contents <$> bitmap_list s2 !! b
               = Some (blk, 0, 0, 0, zero_tx, empty_req_list, empty_req_list,
                       zero_request)).
  { rewrite Hg, Hb1. reflexivity. }
  split; [|exact Hc].
  destruct (bitmap_list s2 !! b) as [bm2|] eqn:Hb2; [|discriminate].
  unfold get_bitmap.
  apply (get_bitmap_scan_unique _ _ _ b bm2).
  - destruct (first_null_spec _ _ _ Hfn) as [_ Hnull]. rewrite Nat.sub_0_r in Hnull.
    apply list_elem_of_In. apply (list_elem_of_lookup_2 _ i).
    unfold cache_slots in *. rewrite Hbm.
    assert (Hi32 : (i < VHD_CACHE_SIZE)%nat).
    { destruct (decide (i < VHD_CACHE_SIZE)%nat) as [Hlt|Hge]; [exact Hlt|].
      rewrite lookup_take_ge in Hnull by lia. discriminate. }
    rewrite lookup_take_lt in Hnull by exact Hi32.
    rewrite lookup_take_lt by exact Hi32.
    apply list_lookup_insert_eq. apply lookup_lt_Some in Hnull. exact Hnull.
  - exact Hb2.
  - simpl in Hc. inversion Hc. reflexivity.
  - intros b' bm' Hin Hl Hblk.
    destruct (decide (b' = b)) as [E|Hne]; [exact E|]. exfalso.
    unfold cache_slots in Hin. rewrite Hbm in Hin.
    apply In_take_insert in Hin. destruct Hin as [Hin|Hin]; [congruence|].
    specialize (Hslots b' Hin).
    assert (Hl1 : bm_blk <$> bitmap_list s !! b' = Some blk).
    { assert (E : bitmap_contents <$> bitmap_list s2 !! b'
                  = bitmap_contents <$> bitmap_list s !! b').
      { rewrite Hg, Hbl. rewrite list_lookup_insert_ne by (intros E; apply Hne; symmetry; exact E).
        reflexivity. }
      rewrite Hl in E. destruct (bitmap_list s !! b') as [y|]; [|discriminate].
      simpl in E. inversion E. simpl. congruence. }
    destruct (bitmap_list s !! b') as [y|] eqn:Ey; [|discriminate].
    simpl in Hl1. inversion Hl1.
    exact (get_bitmap_scan_None _ _ _ Hnone b' y Hslots Ey ltac:(assumption)).
Qed.

Lemma alloc_install_then_get_bitmap_witness :
  exists b s1 s2,
    alloc_vhd_bitmap 9 ex_two_blocks = Ok (0, Some b) s1
    /\ install_bitmap b s1 = Ok tt s2
    /\ get_bitmap s2 9 = Some b
    /\ get_bitmap s2 0 = Some 31%nat.
Proof.
  destruct (alloc_vhd_bitmap 9 ex_two_blocks) as [[e [b|]] s1| |] eqn:Ha;
    try (vm_compute in Ha; discriminate).
  assert (He : e = 0) by (vm_compute in Ha; inversion Ha; reflexivity). subst e.
  destruct (install_bitmap b s1) as [[] s2| |] eqn:Hi;
    try (vm_compute in Ha; inversion Ha; subst; vm_compute in Hi; discriminate).
  destruct (alloc_install_then_get_bitmap 9 ex_two_blocks b s1 s2
              ltac:(vm_compute; reflexivity) Ha Hi) as [Hg _].
  exists b, s1, s2. split; [reflexivity|]. split; [exact Hi|]. split; [exact Hg|].
  vm_compute in Ha. inversion Ha; subst. vm_compute in Hi. inversion Hi; subst.
  vm_compute. reflexivity.
Defined.

(** ** Fixed disks *)

Lemma enqueue_data_request op (write : bool) sector n buf flags cb id_ private offset
    r rq rest s (k : M Z) :
  vreq_free s = r :: rest -> get_req s r = Some rq ->
  (length (iocb_queue s) < length (vreq_list s) + VHD_CACHE_SIZE + 2)%nat ->
  (upd_req r (fill_request op sector n buf flags cb id_ private) ;;
   (if write then aio_write r offset else aio_read r offset) ;; k)
    (with_vreq_free rest s)
  = k (queued_data_request op write sector n buf flags cb id_ private offset r rq rest s).
Proof.
  intros Hf Hr Hroom.
  set (s1 := with_vreq_free rest s).
  assert (Hr1 : get_req s1 r = Some rq)
    by (unfold s1; rewrite get_req_with_vreq_free; exact Hr).
  rewrite (bind_eq (upd_req r _) _ s1 tt
             (put_req r (fill_request op sector n buf flags cb id_ private rq) s1)).
  2:{ unfold upd_req, bind, load_req, modify. rewrite Hr1. reflexivity. }
  unfold queued_data_request. fold s1.
  set (s2 := put_req r _ s1).
  assert (Hr2 : get_req s2 r
                = Some (fill_request op sector n buf flags cb id_ private rq))
    by (apply (get_req_put_req_eq s1 r _ rq Hr1)).
  assert (Hq : iocb_queue s2 = iocb_queue s /\ length (vreq_list s2) = length (vreq_list s)).
  { unfold s2, s1. destruct r; simpl; split; try reflexivity. apply length_insert. }
  destruct Hq as [Hq Hl].
  clearbody s2.
  apply Nat.ltb_lt in Hroom.
  assert (E : (if write then aio_write r offset else aio_read r offset) s2
              = Ok tt (with_iocb_queue
                         (iocb_queue s ++ [mk_iocb r write (Z.shiftl n VHD_SECTOR_SHIFT) offset])
                         s2)).
  { destruct write; unfold aio_write, aio_read, bind, load_req, enqueue_iocb, gets, id,
      modify; rewrite Hr2; cbv [bind]; cbv beta iota; rewrite Hq, Hl, Hroom; reflexivity. }
  rewrite (bind_eq _ (fun _ => k) s2 tt _ E). reflexivity.
Qed.

Lemma read_bitmap_cache_fixed s sec op :
  ftr_type s = HD_TYPE_FIXED -> read_bitmap_cache sec op s = Ok VHD_BM_BIT_SET s.
Proof. intros H. unfold read_bitmap_cache, bind, gets, id. rewrite H. reflexivity. Qed.

Lemma read_bitmap_cache_span_fixed s sec n v :
  ftr_type s = HD_TYPE_FIXED -> read_bitmap_cache_span sec n v s = Ok n s.
Proof. intros H. unfold read_bitmap_cache_span, bind, gets, id. rewrite H. reflexivity. Qed.

Lemma schedule_data_read_fixed sector n buf flags cb id_ private r rq rest s :
  ftr_type s = HD_TYPE_FIXED ->
  vreq_free s = r :: rest -> get_req s r = Some rq -> req_nr_secs rq = 0 ->
  (length (iocb_queue s) < length (vreq_list s) + VHD_CACHE_SIZE + 2)%nat ->
  schedule_data_read sector n buf flags cb id_ private s
  = Ok 0 (queued_data_request VHD_OP_DATA_READ false sector n buf flags cb id_ private
            (u64 (Z.shiftl sector VHD_SECTOR_SHIFT)) r rq rest s).
Proof.
  intros Hty Hf Hr Hz Hroom. unfold schedule_data_read.
  rewrite (bind_eq (gets id) _ s s s eq_refl). unfold id. rewrite Hty. simpl hd_type_eqb.
  cbv iota.
  rewrite (bind_eq (ret _) _ s (u64 (Z.shiftl sector VHD_SECTOR_SHIFT)) s eq_refl).
  rewrite (bind_eq alloc_vhd_request _ s (Some r) (with_vreq_free rest s)
             (alloc_vhd_request_runs r rest rq s Hf Hr Hz)).
  apply (enqueue_data_request VHD_OP_DATA_READ false sector n buf flags cb id_ private
           _ r rq rest s (ret 0) Hf Hr Hroom).
Qed.

Lemma schedule_data_write_fixed sector n buf cb id_ private r rq rest s :
  ftr_type s = HD_TYPE_FIXED ->
  vreq_free s = r :: rest -> get_req s r = Some rq -> req_nr_secs rq = 0 ->
  (length (iocb_queue s) < length (vreq_list s) + VHD_CACHE_SIZE + 2)%nat ->
  schedule_data_write sector n buf 0 cb id_ private s
  = Ok 0 (queued_data_request VHD_OP_DATA_WRITE true sector n buf 0 cb id_ private
            (u64 (Z.shiftl sector VHD_SECTOR_SHIFT)) r rq rest s).
Proof.
  intros Hty Hf Hr Hz Hroom. unfold schedule_data_write.
  rewrite (bind_eq (gets id) _ s s s eq_refl). unfold id. rewrite Hty. simpl hd_type_eqb.
  cbv iota.
  rewrite (bind_eq (ret _) _ s (0, 0, u64 (Z.shiftl sector VHD_SECTOR_SHIFT)) s eq_refl).
  cbv beta iota. change (negb (0 =? 0)) with false. cbv iota.
  rewrite (bind_eq alloc_vhd_request _ s (Some r) (with_vreq_free rest s)
             (alloc_vhd_request_runs r rest rq s Hf Hr Hz)).
  change (test_vhd_flag 0 VHD_FLAG_REQ_UPDATE_BITMAP) with false. cbv iota.
  exact (enqueue_data_request VHD_OP_DATA_WRITE true sector n buf 0 cb id_ private
           _ r rq rest s (ret 0) Hf Hr Hroom).
Qed.

Lemma to_int_u64_small z : 0 <= z < 2 ^ 31 -> to_int (u64 z) = z.
Proof. intros H. rewrite u64_small by lia. apply to_int_small. exact H. Qed.

Lemma fixed_read_loop cb_ret BLK fuel sector nr buf cb id_ private r rq rest s :
  ftr_type s = HD_TYPE_FIXED ->
  0 <= sector -> 0 < nr < 2 ^ 31 -> sector + nr < 2 ^ 55 ->
  vreq_free s = r :: rest -> get_req s r = Some rq -> req_nr_secs rq = 0 ->
  (length (iocb_queue s) < length (vreq_list s) + VHD_CACHE_SIZE + 2)%nat ->
  vhd_queue_read_loop cb_ret BLK (S fuel) sector (sector + nr) buf cb id_ private 0 s
  = Ok (Done 0)
      (queued_data_request VHD_OP_DATA_READ false sector nr buf 0 cb id_ private
         (u64 (Z.shiftl sector VHD_SECTOR_SHIFT)) r rq rest s).
Proof.
  intros Hty Hs Hn H55 Hf Hr Hz Hroom.
  cbn [vhd_queue_read_loop].
  replace (sector <? sector + nr) with true by (symmetry; apply Z.ltb_lt; lia).
  cbn [negb].
  replace (sector + nr - sector) with nr by lia.
  rewrite (to_int_u64_small nr) by lia.
  rewrite (bind_eq (gets id) _ s s s eq_refl).
  rewrite (bind_eq (read_bitmap_cache sector VHD_OP_DATA_READ) _ s VHD_BM_BIT_SET s
             (read_bitmap_cache_fixed s sector _ Hty)).
  change (VHD_BM_BIT_SET =? - EINVAL) with false.
  change (VHD_BM_BIT_SET =? VHD_BM_BAT_CLEAR) with false.
  change (VHD_BM_BIT_SET =? VHD_BM_BIT_CLEAR) with false.
  change (VHD_BM_BIT_SET =? VHD_BM_BIT_SET) with true. cbv iota.
  rewrite (bind_eq (read_bitmap_cache_span sector nr 1) _ s nr s
             (read_bitmap_cache_span_fixed s sector nr 1 Hty)).
  rewrite (bind_eq (schedule_data_read sector nr buf 0 cb id_ private) _ s 0 _
             (schedule_data_read_fixed sector nr buf 0 cb id_ private r rq rest s
                Hty Hf Hr Hz Hroom)).
  change (negb (0 =? 0)) with false. cbv iota.
  rewrite (u64_small (sector + nr)) by lia.
  destruct fuel; cbn [vhd_queue_read_loop]; rewrite Z.ltb_irrefl; reflexivity.
Qed.

Lemma fixed_write_loop cb_ret fuel sector nr buf cb id_ private r rq rest s :
  ftr_type s = HD_TYPE_FIXED ->
  0 <= sector -> 0 < nr < 2 ^ 31 -> sector + nr < 2 ^ 55 ->
  vreq_free s = r :: rest -> get_req s r = Some rq -> req_nr_secs rq = 0 ->
  (length (iocb_queue s) < length (vreq_list s) + VHD_CACHE_SIZE + 2)%nat ->
  vhd_queue_write_loop cb_ret (S fuel) sector (sector + nr) buf cb id_ private s
  = Ok (Done 0)
      (queued_data_request VHD_OP_DATA_WRITE true sector nr buf 0 cb id_ private
         (u64 (Z.shiftl sector VHD_SECTOR_SHIFT)) r rq rest s).
Proof.
  intros Hty Hs Hn H55 Hf Hr Hz Hroom.
  cbn [vhd_queue_write_loop].
  replace (sector <? sector + nr) with true by (symmetry; apply Z.ltb_lt; lia).
  cbn [negb].
  replace (sector + nr - sector) with nr by lia.
  rewrite (to_int_u64_small nr) by lia.
  rewrite (bind_eq (gets id) _ s s s eq_refl).
  rewrite (bind_eq (read_bitmap_cache sector VHD_OP_DATA_WRITE) _ s VHD_BM_BIT_SET s
             (read_bitmap_cache_fixed s sector _ Hty)).
  change (VHD_BM_BIT_SET =? - EINVAL) with false.
  change (VHD_BM_BIT_SET =? VHD_BM_BAT_LOCKED) with false.
  change (VHD_BM_BIT_SET =? VHD_BM_BAT_CLEAR) with false.
  change (VHD_BM_BIT_SET =? VHD_BM_BIT_CLEAR) with false.
  change (VHD_BM_BIT_SET =? VHD_BM_BIT_SET) with true. cbv iota.
  rewrite (bind_eq (read_bitmap_cache_span sector nr 1) _ s nr s
             (read_bitmap_cache_span_fixed s sector nr 1 Hty)).
  rewrite (bind_eq (schedule_data_write sector nr buf 0 cb id_ private) _ s 0 _
             (schedule_data_write_fixed sector nr buf cb id_ private r rq rest s
                Hty Hf Hr Hz Hroom)).
  change (negb (0 =? 0)) with false. cbv iota.
  rewrite (u64_small (sector + nr)) by lia.
  destruct fuel; cbn [vhd_queue_write_loop]; rewrite Z.ltb_irrefl; reflexivity.
Qed.

(** On a fixed disk a read or a write of any range is queued as one
    request for the whole range, at byte offset [sector << 9]: the request on
    top of the free stack is filled in, its control block joins the
    submission queue, no callback is made and 0 is returned. *)
Theorem fixed_disk_single_request cb_ret BLK sector nr buf cb id_ private r rq rest s :
  ftr_type s = HD_TYPE_FIXED ->
  0 <= sector -> 0 < nr < 2 ^ 31 -> sector + nr < 2 ^ 55 ->
  vreq_free s = r :: rest -> get_req s r = Some rq -> req_nr_secs rq = 0 ->
  (length (iocb_queue s) < length (vreq_list s) + VHD_CACHE_SIZE + 2)%nat ->
  vhd_queue_read cb_ret BLK sector nr buf cb id_ private s
  = Ok 0 (queued_data_request VHD_OP_DATA_READ false sector nr buf 0 cb id_ private
            (sector * 512) r rq rest s)
  /\ vhd_queue_write cb_ret sector nr buf cb id_ private s
     = Ok 0 (queued_data_request VHD_OP_DATA_WRITE true sector nr buf 0 cb id_ private
               (sector * 512) r rq rest s).
Proof.
  intros Hty Hs Hn H55 Hf Hr Hz Hroom.
  assert (Eoff : u64 (Z.shiftl sector VHD_SECTOR_SHIFT) = sector * 512).
  { rewrite Z.shiftl_mul_pow2 by (vm_compute; discriminate).
    change (2 ^ VHD_SECTOR_SHIFT) with 512. apply u64_small.
    change (2 ^ 55) with 36028797018963968 in H55.
    change (2 ^ 64) with 18446744073709551616. lia. }
  assert (Ef : exists k, Z.to_nat nr = S k) by (exists (Z.to_nat nr - 1)%nat; lia).
  destruct Ef as [k Ek].
  split.
  - unfold vhd_queue_read, vhd_queue_read_walk.
    rewrite Ek, (u64_small (sector + nr)) by lia.
    rewrite (bind_eq _ _ s _ _
               (fixed_read_loop cb_ret BLK k sector nr buf cb id_ private r rq rest s
                  Hty Hs Hn H55 Hf Hr Hz Hroom)).
    rewrite Eoff. reflexivity.
  - unfold vhd_queue_write, vhd_queue_write_walk.
    rewrite Ek, (u64_small (sector + nr)) by lia.
    rewrite (bind_eq _ _ s _ _
               (fixed_write_loop cb_ret k sector nr buf cb id_ private r rq rest s
                  Hty Hs Hn H55 Hf Hr Hz Hroom)).
    rewrite Eoff. reflexivity.
Qed.

Lemma fixed_disk_single_request_witness :
  exists s',
    vhd_queue_read cb_zero ex_not_allocated 10000 16 0 1 1 0 ex_fixed = Ok 0 s'
    /\ iocb_queue s' = [mk_iocb (RData 3) false 8192 5120000]
    /\ cb_log s' = [].
Proof.
  destruct (fixed_disk_single_request cb_zero ex_not_allocated 10000 16 0 1 1 0
              (RData 3) zero_request [RData 2; RData 1; RData 0] ex_fixed
              ltac:(vm_compute; reflexivity) ltac:(lia) ltac:(lia)
              ltac:(vm_compute; reflexivity)
              ltac:(vm_compute; reflexivity) ltac:(vm_compute; reflexivity)
              ltac:(vm_compute; reflexivity) ltac:(vm_compute; lia)) as [Hr _].
  eexists. split; [exact Hr|]. split; vm_compute; reflexivity.
Defined.

(** ** Queueing never changes the block allocation table *)

Ltac kept_bat_side :=
  kept_log_side;
  try (intros ? ? E; unfold bat_and_next_db; simpl; rewrite E; reflexivity).

Lemma bat_kept_block_span s0 sec remaining :
  kept bat_and_next_db (block_span s0 sec remaining).
Proof.
  unfold block_span. apply kept_bind; [apply kept_umod | intros; apply kept_ret].
Qed.

Ltac kept_bat_step :=
  match goal with
  | H : forall _, _ |- kept _ (vhd_queue_read_loop _ _ _ _ _ _ _ _ _ _) => apply H
  | H : forall _, _ |- kept _ (vhd_queue_write_loop _ _ _ _ _ _ _ _) => apply H
  | |- kept _ (bind _ _) => apply kept_bind; [|intros ?]
  | |- kept _ (ret _) => apply kept_ret
  | |- kept _ out_of_fuel => apply kept_out_of_fuel
  | |- kept _ (gets _) => apply kept_gets
  | |- kept _ (ASSERT _) => apply kept_ASSERT
  | |- kept _ (udiv _ _) => apply kept_udiv
  | |- kept _ (block_span _ _ _) => apply bat_kept_block_span
  | |- kept _ (call_cb _ _ _ _ _ _ _) => apply kept_call_cb; kept_bat_side
  | |- kept _ (read_bitmap_cache _ _) => apply kept_read_bitmap_cache; kept_bat_side
  | |- kept _ (read_bitmap_cache_span _ _ _) =>
      apply kept_read_bitmap_cache_span; kept_bat_side
  | |- kept _ (schedule_data_read _ _ _ _ _ _ _) =>
      apply kept_schedule_data_read; kept_bat_side
  | |- kept _ (schedule_data_write _ _ _ _ _ _ _) =>
      apply kept_schedule_data_write; kept_bat_side
  | |- kept _ (schedule_bitmap_read _) => apply kept_schedule_bitmap_read; kept_bat_side
  | |- kept _ (__vhd_queue_request _ _ _ _ _ _ _) =>
      apply kept___vhd_queue_request; kept_bat_side
  | |- kept _ (if ?b then _ else _) => destruct b
  end.

Lemma bat_kept_read_loop cb_ret BLK fuel :
  forall sec end_ buf cb id_ private rsp,
    kept bat_and_next_db
      (vhd_queue_read_loop cb_ret BLK fuel sec end_ buf cb id_ private rsp).
Proof.
  induction fuel as [|fuel IH]; intros sec end_ buf cb id_ private rsp;
    cbn [vhd_queue_read_loop]; cbv zeta; repeat kept_bat_step.
Qed.

Lemma bat_kept_write_loop cb_ret fuel :
  forall sec end_ buf cb id_ private,
    kept bat_and_next_db
      (vhd_queue_write_loop cb_ret fuel sec end_ buf cb id_ private).
Proof.
  induction fuel as [|fuel IH]; intros sec end_ buf cb id_ private;
    cbn [vhd_queue_write_loop]; cbv zeta; repeat kept_bat_step.
Qed.

(** Whatever a call of [vhd_queue_read] or [vhd_queue_write] does
    (callbacks, requests queued, a block reserved for allocation), it
    leaves every entry of the BAT and [next_db] as they were: an allocation
    is only committed when its BAT write completes. *)
Theorem queueing_keeps_allocation_table cb_ret BLK (write : bool)
    sector nr buf cb id_ private s v s' :
  (if write then vhd_queue_write cb_ret sector nr buf cb id_ private
   else vhd_queue_read cb_ret BLK sector nr buf cb id_ private) s = Ok v s' ->
  bat_bat (bat s') = bat_bat (bat s) /\ next_db s' = next_db s.
Proof.
  intros H.
  assert (K : bat_and_next_db s' = bat_and_next_db s).
  { destruct write.
    - unfold vhd_queue_write, vhd_queue_write_walk in H.
      revert H. apply kept_bind; [apply bat_kept_write_loop | intros; apply kept_ret].
    - unfold vhd_queue_read, vhd_queue_read_walk in H.
      revert H. apply kept_bind; [apply bat_kept_read_loop | intros; apply kept_ret]. }
  unfold bat_and_next_db in K. inversion K. split; reflexivity.
Qed.

Lemma queueing_keeps_allocation_table_witness :
  exists s',
    vhd_queue_write cb_zero 4096 2 0 1 9 0 ex_diff = Ok 0 s'
    /\ pbw_blk (bat s') = 1 /\ pbw_offset (bat s') = 7
    /\ bat_bat (bat s') = replicate 128 DD_BLK_UNUSED /\ next_db s' = 7.
Proof.
  destruct (vhd_queue_write cb_zero 4096 2 0 1 9 0 ex_diff) as [v s'| |] eqn:H;
    try (vm_compute in H; discriminate).
  pose proof (queueing_keeps_allocation_table cb_zero ex_not_allocated true
                4096 2 0 1 9 0 ex_diff v s' H) as [Kb Kn].
  assert (Hv : v = 0) by (vm_compute in H; inversion H; reflexivity).
  assert (Hp : pbw_blk (bat s') = 1 /\ pbw_offset (bat s') = 7).
  { vm_compute in H. inversion H. split; reflexivity. }
  exists s'. subst v. split; [reflexivity|]. split; [apply Hp|]. split; [apply Hp|].
  split; [exact Kb | exact Kn].
Defined.

(** ** Reading a block that is not allocated *)

Lemma read_bitmap_cache_unallocated s sector :
  ftr_type s <> HD_TYPE_FIXED ->
  0 < spb s -> 0 <= sector -> sector / spb s < 2 ^ 32 ->
  sector / spb s <= hdr_max_bat_size s ->
  bat_bat (bat s) !! Z.to_nat (sector / spb s) = Some DD_BLK_UNUSED ->
  read_bitmap_cache sector VHD_OP_DATA_READ s = Ok VHD_BM_BAT_CLEAR s.
Proof.
  intros Hty Hspb Hs Hq Hmax Hb.
  assert (Hq0 : 0 <= sector / spb s) by (apply Z.div_pos; lia).
  unfold read_bitmap_cache, bind, gets, id, udiv, umod, ret, bat_entry.
  replace (hd_type_eqb (ftr_type s) HD_TYPE_FIXED) with false
    by (destruct (ftr_type s); [contradiction | reflexivity | reflexivity]).
  replace (spb s =? 0) with false by (symmetry; apply Z.eqb_neq; lia).
  rewrite (u32_small (sector / spb s)) by lia.
  replace (hdr_max_bat_size s <? sector / spb s) with false
    by (symmetry; apply Z.ltb_ge; lia).
  pose proof (lookup_lt_Some _ _ _ Hb) as Hlen.
  replace ((0 <=? sector / spb s)
           && (sector / spb s <? Z.of_nat (length (bat_bat (bat s))))) with true
    by (symmetry; apply andb_true_iff; split; [apply Z.leb_le | apply Z.ltb_lt]; lia).
  rewrite Hb. reflexivity.
Qed.

Lemma block_span_inside s0 sec remaining s :
  0 < spb s0 < 2 ^ 32 -> 0 <= sec -> 0 < remaining < 2 ^ 31 ->
  sec mod spb s0 + remaining <= spb s0 ->
  block_span s0 sec remaining s = Ok remaining s.
Proof.
  intros Hspb Hs Hr Hin. unfold block_span, bind, umod, ret.
  replace (spb s0 =? 0) with false by (symmetry; apply Z.eqb_neq; lia).
  pose proof (Z.mod_pos_bound sec (spb s0) ltac:(lia)) as Hm.
  change (2 ^ 31) with 2147483648 in *. change (2 ^ 32) with 4294967296 in *.
  rewrite (u64_small remaining) by (change (2 ^ 64) with 18446744073709551616; lia).
  rewrite (u64_small (spb s0 - sec mod spb s0))
    by (change (2 ^ 64) with 18446744073709551616; lia).
  unfold MIN.
  destruct (remaining <? spb s0 - sec mod spb s0) eqn:E.
  - rewrite to_int_small by (change (2 ^ 31) with 2147483648; lia). reflexivity.
  - apply Z.ltb_ge in E.
    replace (spb s0 - sec mod spb s0) with remaining by lia.
    rewrite to_int_small by (change (2 ^ 31) with 2147483648; lia). reflexivity.
Qed.

Lemma call_cb_eq cb_ret cb err sector n id_ private s :
  cb <> 0 ->
  call_cb cb_ret cb err sector n id_ private s
  = Ok (cb_ret (mk_cb_call cb err sector n id_ private))
       (with_cb_log (cb_log s ++ [mk_cb_call cb err sector n id_ private]) s).
Proof.
  intros H. unfold call_cb.
  replace (cb =? 0) with false by (symmetry; apply Z.eqb_neq; exact H).
  reflexivity.
Qed.

Lemma unallocated_read_loop cb_ret BLK fuel sector nr buf cb id_ private s :
  ftr_type s <> HD_TYPE_FIXED ->
  0 < spb s < 2 ^ 32 -> 0 <= sector -> 0 < nr < 2 ^ 31 -> sector + nr < 2 ^ 64 ->
  sector mod spb s + nr <= spb s ->
  sector / spb s <= hdr_max_bat_size s -> hdr_max_bat_size s < 2 ^ 32 ->
  bat_bat (bat s) !! Z.to_nat (sector / spb s) = Some DD_BLK_UNUSED ->
  cb <> 0 ->
  cb_ret (mk_cb_call cb BLK sector nr id_ private) <> - EBUSY ->
  vhd_queue_read_loop cb_ret BLK (S fuel) sector (sector + nr) buf cb id_ private 0 s
  = Ok (Done (0 + cb_ret (mk_cb_call cb BLK sector nr id_ private)))
       (with_cb_log (cb_log s ++ [mk_cb_call cb BLK sector nr id_ private]) s).
Proof.
  intros Hty Hspb Hs Hn H64 Hin Hmax Hmax32 Hb Hcb Hbusy.
  cbn [vhd_queue_read_loop].
  replace (sector <? sector + nr) with true by (symmetry; apply Z.ltb_lt; lia).
  cbn [negb].
  replace (sector + nr - sector) with nr by lia.
  rewrite (to_int_u64_small nr) by lia.
  rewrite (bind_eq (gets id) _ s s s eq_refl).
  rewrite (bind_eq (read_bitmap_cache sector VHD_OP_DATA_READ) _ s VHD_BM_BAT_CLEAR s
             (read_bitmap_cache_unallocated s sector Hty ltac:(lia) Hs ltac:(lia) Hmax Hb)).
  change (VHD_BM_BAT_CLEAR =? - EINVAL) with false.
  change (VHD_BM_BAT_CLEAR =? VHD_BM_BAT_CLEAR) with true. cbv iota.
  unfold id.
  rewrite (bind_eq (block_span s sector nr) _ s nr s
             (block_span_inside s sector nr s Hspb Hs Hn Hin)).
  rewrite (bind_eq (call_cb cb_ret cb BLK sector nr id_ private) _ s _ _
             (call_cb_eq cb_ret cb BLK sector nr id_ private s Hcb)).
  replace (cb_ret (mk_cb_call cb BLK sector nr id_ private) =? - EBUSY) with false
    by (symmetry; apply Z.eqb_neq; exact Hbusy).
  rewrite (u64_small (sector + nr)) by lia.
  destruct fuel; cbn [vhd_queue_read_loop]; rewrite Z.ltb_irrefl; reflexivity.
Qed.

(** On a dynamic or differencing disk, a read that stays inside
    one block whose BAT entry is [DD_BLK_UNUSED] makes exactly one callback,
    with [BLK_NOT_ALLOCATED] and the whole range, queues no I/O and takes no
    request: the state changes in nothing else, and the value of the
    callback is returned (-EBUSY apart, which ends the call early). *)
Theorem read_of_unallocated_block cb_ret BLK sector nr buf cb id_ private s :
  ftr_type s <> HD_TYPE_FIXED ->
  0 < spb s < 2 ^ 32 -> 0 <= sector -> 0 < nr < 2 ^ 31 -> sector + nr < 2 ^ 64 ->
  sector mod spb s + nr <= spb s ->
  sector / spb s <= hdr_max_bat_size s -> hdr_max_bat_size s < 2 ^ 32 ->
  bat_bat (bat s) !! Z.to_nat (sector / spb s) = Some DD_BLK_UNUSED ->
  cb <> 0 ->
  cb_ret (mk_cb_call cb BLK sector nr id_ private) <> - EBUSY ->
  vhd_queue_read cb_ret BLK sector nr buf cb id_ private s
  = Ok (cb_ret (mk_cb_call cb BLK sector nr id_ private))
       (with_cb_log (cb_log s ++ [mk_cb_call cb BLK sector nr id_ private]) s).
Proof.
  intros Hty Hspb Hs Hn H64 Hin Hmax Hmax32 Hb Hcb Hbusy.
  assert (Ef : exists k, Z.to_nat nr = S k) by (exists (Z.to_nat nr - 1)%nat; lia).
  destruct Ef as [k Ek].
  unfold vhd_queue_read, vhd_queue_read_walk.
  rewrite Ek, (u64_small (sector + nr)) by lia.
  rewrite (bind_eq _ _ s _ _
             (unallocated_read_loop cb_ret BLK k sector nr buf cb id_ private s
                Hty Hspb Hs Hn H64 Hin Hmax Hmax32 Hb Hcb Hbusy)).
  reflexivity.
Qed.

Lemma read_of_unallocated_block_witness :
  vhd_queue_read cb_count ex_not_allocated 4000 96 0 1 1 0 ex_diff
  = Ok 96 (with_cb_log [mk_cb_call 1 ex_not_allocated 4000 96 1 0] ex_diff).
Proof.
  exact (read_of_unallocated_block cb_count ex_not_allocated 4000 96 0 1 1 0 ex_diff
           ltac:(discriminate) ltac:(vm_compute; split; reflexivity) ltac:(lia)
           ltac:(lia) ltac:(vm_compute; reflexivity) ltac:(vm_compute; discriminate)
           ltac:(vm_compute; discriminate) ltac:(vm_compute; reflexivity)
           ltac:(vm_compute; reflexivity) ltac:(discriminate)
           ltac:(vm_compute; discriminate)).
Defined.

(** ** Address translation on a dynamic disk *)

Lemma read_bitmap_cache_dynamic s sector op e :
  ftr_type s = HD_TYPE_DYNAMIC ->
  0 < spb s -> 0 <= sector -> sector / spb s < 2 ^ 32 ->
  sector / spb s <= hdr_max_bat_size s ->
  bat_bat (bat s) !! Z.to_nat (sector / spb s) = Some e -> e <> DD_BLK_UNUSED ->
  read_bitmap_cache sector op s = Ok VHD_BM_BIT_SET s.
Proof.
  intros Hty Hspb Hs Hq Hmax Hb He.
  assert (Hq0 : 0 <= sector / spb s) by (apply Z.div_pos; lia).
  unfold read_bitmap_cache, bind, gets, id, udiv, umod, ret, bat_entry.
  rewrite Hty. cbn [hd_type_eqb].
  replace (spb s =? 0) with false by (symmetry; apply Z.eqb_neq; lia).
  rewrite (u32_small (sector / spb s)) by lia.
  replace (hdr_max_bat_size s <? sector / spb s) with false
    by (symmetry; apply Z.ltb_ge; lia).
  pose proof (lookup_lt_Some _ _ _ Hb) as Hlen.
  replace ((0 <=? sector / spb s)
           && (sector / spb s <? Z.of_nat (length (bat_bat (bat s))))) with true
    by (symmetry; apply andb_true_iff; split; [apply Z.leb_le | apply Z.ltb_lt]; lia).
  rewrite Hb.
  replace (e =? DD_BLK_UNUSED) with false by (symmetry; apply Z.eqb_neq; exact He).
  reflexivity.
Qed.

Lemma read_bitmap_cache_span_dynamic s sector nr v :
  ftr_type s = HD_TYPE_DYNAMIC ->
  0 < spb s < 2 ^ 32 -> 0 <= sector -> 0 < nr < 2 ^ 31 ->
  sector mod spb s + nr <= spb s ->
  read_bitmap_cache_span sector nr v s = Ok nr s.
Proof.
  intros Hty Hspb Hs Hn Hin.
  unfold read_bitmap_cache_span, bind, gets, id, umod, ret.
  rewrite Hty. cbn [hd_type_eqb].
  replace (spb s =? 0) with false by (symmetry; apply Z.eqb_neq; lia).
  pose proof (Z.mod_pos_bound sector (spb s) ltac:(lia)) as Hm.
  change (2 ^ 31) with 2147483648 in *. change (2 ^ 32) with 4294967296 in *.
  rewrite (u32_small (sector mod spb s)) by (change (2 ^ 32) with 4294967296; lia).
  rewrite (u32_small nr) by (change (2 ^ 32) with 4294967296; lia).
  rewrite (u32_small (spb s - sector mod spb s)) by (change (2 ^ 32) with 4294967296; lia).
  unfold MIN.
  destruct (nr <? spb s - sector mod spb s) eqn:E.
  - rewrite to_int_small by (change (2 ^ 31) with 2147483648; lia). reflexivity.
  - apply Z.ltb_ge in E.
    replace (spb s - sector mod spb s) with nr by lia.
    rewrite to_int_small by (change (2 ^ 31) with 2147483648; lia). reflexivity.
Qed.

Lemma data_offset_small s e sec :
  0 <= e < 2 ^ 32 -> 0 <= bm_secs s -> 0 <= sec -> bm_secs s + sec < 2 ^ 32 ->
  data_offset s e sec = (e + bm_secs s + sec) * 512.
Proof.
  intros He Hb Hs Hsum. unfold data_offset.
  change (2 ^ 32) with 4294967296 in *.
  rewrite (u32_small (bm_secs s + sec)) by (change (2 ^ 32) with 4294967296; lia).
  rewrite (u64_small (e + (bm_secs s + sec)))
    by (change (2 ^ 64) with 18446744073709551616; lia).
  rewrite Z.shiftl_mul_pow2 by (vm_compute; discriminate).
  change (2 ^ VHD_SECTOR_SHIFT) with 512.
  rewrite u64_small by (change (2 ^ 64) with 18446744073709551616; lia).
  f_equal. lia.
Qed.

Section DynamicBlock.

Variables (sector nr : Z) (e : Z) (r : rref) (rq : vhd_request) (rest : list rref)
  (s : vhd_state).
Hypothesis Hty : ftr_type s = HD_TYPE_DYNAMIC.
Hypothesis Hspb : 0 < spb s < 2 ^ 32.
Hypothesis Hs : 0 <= sector.
Hypothesis Hq : sector / spb s < 2 ^ 32.
Hypothesis Hmax : sector / spb s <= hdr_max_bat_size s.
Hypothesis Hb : bat_bat (bat s) !! Z.to_nat (sector / spb s) = Some e.
Hypothesis Hf : vreq_free s = r :: rest.
Hypothesis Hr : get_req s r = Some rq.
Hypothesis Hz : req_nr_secs rq = 0.
Hypothesis Hroom :
  (length (iocb_queue s) < length (vreq_list s) + VHD_CACHE_SIZE + 2)%nat.

Lemma schedule_data_read_dynamic n buf flags cb id_ private :
  schedule_data_read sector n buf flags cb id_ private s
  = Ok 0 (queued_data_request VHD_OP_DATA_READ false sector n buf flags cb id_ private
            (data_offset s e (u32 (sector mod spb s))) r rq rest s).
Proof.
  assert (Hq0 : 0 <= sector / spb s) by (apply Z.div_pos; lia).
  pose proof (lookup_lt_Some _ _ _ Hb) as Hlen.
  unfold schedule_data_read.
  rewrite (bind_eq (gets id) _ s s s eq_refl). unfold id. rewrite Hty.
  cbn [hd_type_eqb]. cbv iota.
  rewrite (bind_eq _ _ s (data_offset s e (u32 (sector mod spb s))) s).
  2:{ unfold bind, udiv, umod, ret, bat_entry.
      replace (spb s =? 0) with false by (symmetry; apply Z.eqb_neq; lia).
      rewrite (u32_small (sector / spb s)) by lia.
      replace ((0 <=? sector / spb s)
               && (sector / spb s <? Z.of_nat (length (bat_bat (bat s))))) with true
        by (symmetry; apply andb_true_iff; split; [apply Z.leb_le | apply Z.ltb_lt]; lia).
      rewrite Hb. reflexivity. }
  rewrite (bind_eq alloc_vhd_request _ s (Some r) (with_vreq_free rest s)
             (alloc_vhd_request_runs r rest rq s Hf Hr Hz)).
  apply (enqueue_data_request VHD_OP_DATA_READ false sector n buf flags cb id_ private
           _ r rq rest s (ret 0) Hf Hr Hroom).
Qed.

Lemma schedule_data_write_dynamic n buf cb id_ private :
  schedule_data_write sector n buf 0 cb id_ private s
  = Ok 0 (queued_data_request VHD_OP_DATA_WRITE true sector n buf 0 cb id_ private
            (data_offset s e (u32 (sector mod spb s))) r rq rest s).
Proof.
  assert (Hq0 : 0 <= sector / spb s) by (apply Z.div_pos; lia).
  pose proof (lookup_lt_Some _ _ _ Hb) as Hlen.
  unfold schedule_data_write.
  rewrite (bind_eq (gets id) _ s s s eq_refl). unfold id. rewrite Hty.
  cbn [hd_type_eqb]. cbv iota.
  rewrite (bind_eq _ _ s (0, u32 (sector / spb s),
                          data_offset s e (u32 (sector mod spb s))) s).
  2:{ unfold bind, udiv, umod, ret, bat_entry.
      replace (spb s =? 0) with false by (symmetry; apply Z.eqb_neq; lia).
      rewrite (u32_small (sector / spb s)) by lia.
      replace ((0 <=? sector / spb s)
               && (sector / spb s <? Z.of_nat (length (bat_bat (bat s))))) with true
        by (symmetry; apply andb_true_iff; split; [apply Z.leb_le | apply Z.ltb_lt]; lia).
      rewrite Hb. reflexivity. }
  cbv beta iota. change (negb (0 =? 0)) with false. cbv iota.
  rewrite (bind_eq alloc_vhd_request _ s (Some r) (with_vreq_free rest s)
             (alloc_vhd_request_runs r rest rq s Hf Hr Hz)).
  change (test_vhd_flag 0 VHD_FLAG_REQ_UPDATE_BITMAP) with false. cbv iota.
  exact (enqueue_data_request VHD_OP_DATA_WRITE true sector n buf 0 cb id_ private
           _ r rq rest s (ret 0) Hf Hr Hroom).
Qed.

End DynamicBlock.

Lemma dynamic_read_loop cb_ret BLK fuel sector nr buf cb id_ private e r rq rest s :
  ftr_type s = HD_TYPE_DYNAMIC ->
  0 < spb s < 2 ^ 32 -> 0 <= sector -> 0 < nr < 2 ^ 31 -> sector + nr < 2 ^ 64 ->
  sector mod spb s + nr <= spb s ->
  sector / spb s <= hdr_max_bat_size s -> hdr_max_bat_size s < 2 ^ 32 ->
  bat_bat (bat s) !! Z.to_nat (sector / spb s) = Some e -> e <> DD_BLK_UNUSED ->
  vreq_free s = r :: rest -> get_req s r = Some rq -> req_nr_secs rq = 0 ->
  (length (iocb_queue s) < length (vreq_list s) + VHD_CACHE_SIZE + 2)%nat ->
  vhd_queue_read_loop cb_ret BLK (S fuel) sector (sector + nr) buf cb id_ private 0 s
  = Ok (Done 0)
      (queued_data_request VHD_OP_DATA_READ false sector nr buf 0 cb id_ private
         (data_offset s e (u32 (sector mod spb s))) r rq rest s).
Proof.
  intros Hty Hspb Hs Hn H64 Hin Hmax Hmax32 Hb He Hf Hr Hz Hroom.
  assert (Hq : sector / spb s < 2 ^ 32) by lia.
  cbn [vhd_queue_read_loop].
  replace (sector <? sector + nr) with true by (symmetry; apply Z.ltb_lt; lia).
  cbn [negb].
  replace (sector + nr - sector) with nr by lia.
  rewrite (to_int_u64_small nr) by lia.
  rewrite (bind_eq (gets id) _ s s s eq_refl).
  rewrite (bind_eq (read_bitmap_cache sector VHD_OP_DATA_READ) _ s VHD_BM_BIT_SET s
             (read_bitmap_cache_dynamic s sector _ e Hty ltac:(lia) Hs Hq Hmax Hb He)).
  change (VHD_BM_BIT_SET =? - EINVAL) with false.
  change (VHD_BM_BIT_SET =? VHD_BM_BAT_CLEAR) with false.
  change (VHD_BM_BIT_SET =? VHD_BM_BIT_CLEAR) with false.
  change (VHD_BM_BIT_SET =? VHD_BM_BIT_SET) with true. cbv iota.
  rewrite (bind_eq (read_bitmap_cache_span sector nr 1) _ s nr s
             (read_bitmap_cache_span_dynamic s sector nr 1 Hty Hspb Hs Hn Hin)).
  rewrite (bind_eq (schedule_data_read sector nr buf 0 cb id_ private) _ s 0 _
             (schedule_data_read_dynamic sector e r rq rest s Hty Hspb Hs Hq Hb Hf Hr Hz
                Hroom nr buf 0 cb id_ private)).
  change (negb (0 =? 0)) with false. cbv iota.
  rewrite (u64_small (sector + nr)) by lia.
  destruct fuel; cbn [vhd_queue_read_loop]; rewrite Z.ltb_irrefl; reflexivity.
Qed.

Lemma dynamic_write_loop cb_ret fuel sector nr buf cb id_ private e r rq rest s :
  ftr_type s = HD_TYPE_DYNAMIC ->
  0 < spb s < 2 ^ 32 -> 0 <= sector -> 0 < nr < 2 ^ 31 -> sector + nr < 2 ^ 64 ->
  sector mod spb s + nr <= spb s ->
  sector / spb s <= hdr_max_bat_size s -> hdr_max_bat_size s < 2 ^ 32 ->
  bat_bat (bat s) !! Z.to_nat (sector / spb s) = Some e -> e <> DD_BLK_UNUSED ->
  vreq_free s = r :: rest -> get_req s r = Some rq -> req_nr_secs rq = 0 ->
  (length (iocb_queue s) < length (vreq_list s) + VHD_CACHE_SIZE + 2)%nat ->
  vhd_queue_write_loop cb_ret (S fuel) sector (sector + nr) buf cb id_ private s
  = Ok (Done 0)
      (queued_data_request VHD_OP_DATA_WRITE true sector nr buf 0 cb id_ private
         (data_offset s e (u32 (sector mod spb s))) r rq rest s).
Proof.
  intros Hty Hspb Hs Hn H64 Hin Hmax Hmax32 Hb He Hf Hr Hz Hroom.
  assert (Hq : sector / spb s < 2 ^ 32) by lia.
  cbn [vhd_queue_write_loop].
  replace (sector <? sector + nr) with true by (symmetry; apply Z.ltb_lt; lia).
  cbn [negb].
  replace (sector + nr - sector) with nr by lia.
  rewrite (to_int_u64_small nr) by lia.
  rewrite (bind_eq (gets id) _ s s s eq_refl).
  rewrite (bind_eq (read_bitmap_cache sector VHD_OP_DATA_WRITE) _ s VHD_BM_BIT_SET s
             (read_bitmap_cache_dynamic s sector _ e Hty ltac:(lia) Hs Hq Hmax Hb He)).
  change (VHD_BM_BIT_SET =? - EINVAL) with false.
  change (VHD_BM_BIT_SET =? VHD_BM_BAT_LOCKED) with false.
  change (VHD_BM_BIT_SET =? VHD_BM_BAT_CLEAR) with false.
  change (VHD_BM_BIT_SET =? VHD_BM_BIT_CLEAR) with false.
  change (VHD_BM_BIT_SET =? VHD_BM_BIT_SET) with true. cbv iota.
  rewrite (bind_eq (read_bitmap_cache_span sector nr 1) _ s nr s
             (read_bitmap_cache_span_dynamic s sector nr 1 Hty Hspb Hs Hn Hin)).
  rewrite (bind_eq (schedule_data_write sector nr buf 0 cb id_ private) _ s 0 _
             (schedule_data_write_dynamic sector e r rq rest s Hty Hspb Hs Hq Hb Hf Hr Hz
                Hroom nr buf cb id_ private)).
  change (negb (0 =? 0)) with false. cbv iota.
  rewrite (u64_small (sector + nr)) by lia.
  destruct fuel; cbn [vhd_queue_write_loop]; rewrite Z.ltb_irrefl; reflexivity.
Qed.

(** On a dynamic disk, a read or a write that stays inside one
    allocated block is queued as one request for the whole range, at the
    byte offset of sector [bat[blk] + bm_secs + sector % spb] of the file:
    the data of a block follow its bitmap.  No bitmap is consulted, no
    callback is made and 0 is returned. *)
Theorem dynamic_disk_block_request cb_ret BLK sector nr buf cb id_ private e r rq rest s :
  ftr_type s = HD_TYPE_DYNAMIC ->
  0 < spb s -> 0 <= bm_secs s -> bm_secs s + spb s < 2 ^ 32 ->
  0 <= sector -> 0 < nr < 2 ^ 31 -> sector + nr < 2 ^ 64 ->
  sector mod spb s + nr <= spb s ->
  sector / spb s <= hdr_max_bat_size s -> hdr_max_bat_size s < 2 ^ 32 ->
  bat_bat (bat s) !! Z.to_nat (sector / spb s) = Some e ->
  e <> DD_BLK_UNUSED -> 0 <= e < 2 ^ 32 ->
  vreq_free s = r :: rest -> get_req s r = Some rq -> req_nr_secs rq = 0 ->
  (length (iocb_queue s) < length (vreq_list s) + VHD_CACHE_SIZE + 2)%nat ->
  vhd_queue_read cb_ret BLK sector nr buf cb id_ private s
  = Ok 0 (queued_data_request VHD_OP_DATA_READ false sector nr buf 0 cb id_ private
            ((e + bm_secs s + sector mod spb s) * 512) r rq rest s)
  /\ vhd_queue_write cb_ret sector nr buf cb id_ private s
     = Ok 0 (queued_data_request VHD_OP_DATA_WRITE true sector nr buf 0 cb id_ private
               ((e + bm_secs s + sector mod spb s) * 512) r rq rest s).
Proof.
  intros Hty Hspb Hbm Hsum Hs Hn H64 Hin Hmax Hmax32 Hb He He32 Hf Hr Hz Hroom.
  pose proof (Z.mod_pos_bound sector (spb s) Hspb) as Hm.
  assert (Hspb' : 0 < spb s < 2 ^ 32) by lia.
  assert (Eoff : data_offset s e (u32 (sector mod spb s))
                 = (e + bm_secs s + sector mod spb s) * 512).
  { rewrite (u32_small (sector mod spb s)) by lia.
    apply data_offset_small; lia. }
  assert (Ef : exists k, Z.to_nat nr = S k) by (exists (Z.to_nat nr - 1)%nat; lia).
  destruct Ef as [k Ek].
  split.
  - unfold vhd_queue_read, vhd_queue_read_walk.
    rewrite Ek, (u64_small (sector + nr)) by lia.
    rewrite (bind_eq _ _ s _ _
               (dynamic_read_loop cb_ret BLK k sector nr buf cb id_ private e r rq rest s
                  Hty Hspb' Hs Hn H64 Hin Hmax Hmax32 Hb He Hf Hr Hz Hroom)).
    rewrite Eoff. reflexivity.
  - unfold vhd_queue_write, vhd_queue_write_walk.
    rewrite Ek, (u64_small (sector + nr)) by lia.
    rewrite (bind_eq _ _ s _ _
               (dynamic_write_loop cb_ret k sector nr buf cb id_ private e r rq rest s
                  Hty Hspb' Hs Hn H64 Hin Hmax Hmax32 Hb He Hf Hr Hz Hroom)).
    rewrite Eoff. reflexivity.
Qed.

Lemma dynamic_disk_block_request_witness :
  exists s',
    vhd_queue_write cb_zero 4100 8 0 1 1 0 ex_dynamic = Ok 0 s'
    /\ iocb_queue s' = [mk_iocb (RData 3) true 4096 6144]
    /\ cb_log s' = [].
Proof.
  destruct (dynamic_disk_block_request cb_zero ex_not_allocated 4100 8 0 1 1 0 7
              (RData 3) zero_request [RData 2; RData 1; RData 0] ex_dynamic
              ltac:(vm_compute; reflexivity) ltac:(vm_compute; reflexivity)
              ltac:(vm_compute; discriminate) ltac:(vm_compute; reflexivity)
              ltac:(lia) ltac:(lia) ltac:(vm_compute; reflexivity)
              ltac:(vm_compute; discriminate) ltac:(vm_compute; discriminate)
              ltac:(vm_compute; reflexivity) ltac:(vm_compute; reflexivity)
              ltac:(vm_compute; discriminate) ltac:(lia)
              ltac:(vm_compute; reflexivity) ltac:(vm_compute; reflexivity)
              ltac:(vm_compute; reflexivity) ltac:(vm_compute; lia)) as [_ Hw].
  eexists. split; [exact Hw|]. split; vm_compute; reflexivity.
Defined.

(** ** The completions of an allocating transaction *)

Lemma remove_walk_returns e s : forall refs fuel i,
  is_chain s (Some i) (i :: refs) -> (length refs < fuel)%nat ->
  remove_walk fuel i e s <> OutOfFuel.
Proof.
  induction refs as [|n rest IH]; intros fuel i Hc Hlen;
    (destruct fuel as [|fuel]; [simpl in Hlen; lia|]);
    inversion Hc as [|p ri l Hi Hc']; subst; simpl;
    unfold bind at 1, load_req at 1; rewrite Hi; cbv beta iota.
  - inversion Hc' as [E|]; subst. discriminate.
  - inversion Hc' as [|p rn l Hn Hc'' E]; subst. rewrite <- E in *.
    destruct (rref_eqb n e).
    + apply returns_bind; [apply returns_load_req|]. intros rn'.
      apply returns_bind; [apply returns_upd_req | intros; apply returns_ret].
    + apply IH; [exact Hc' | simpl in Hlen; lia].
Qed.

Lemma remove_from_req_list_returns l e refs s :
  is_chain s (head l) refs -> remove_from_req_list l e s <> OutOfFuel.
Proof.
  intros Hc. unfold remove_from_req_list.
  destruct (opt_rref_eqb (head l) e).
  - apply returns_bind; [apply returns_load_req | intros; apply returns_ret].
  - destruct (head l) as [i|] eqn:Eh; [|discriminate].
    pose proof (is_chain_NoDup _ _ _ Hc) as Hnd.
    pose proof (chain_length _ _ _ Hc Hnd) as Hfuel.
    inversion Hc as [|p ri rest Hi Hc']; subst.
    unfold deref, bind at 1, ret at 1. unfold bind at 1, gets at 1.
    apply bind_returns.
    + apply (remove_walk_returns e s rest);
        [apply (chain_cons s i ri); assumption | simpl in Hfuel; lia].
    + intros a s1 _. discriminate.
Qed.

Lemma returns_schedule_bat_write : returns schedule_bat_write.
Proof.
  unfold schedule_bat_write.
  apply returns_bind; [apply returns_gets|]. intros s0.
  apply returns_bind; [apply returns_ASSERT|]. intros _.
  apply returns_bind; [apply returns_bat_window|]. intros win.
  apply returns_bind; [apply returns_upd_bat|]. intros _.
  apply returns_bind; [apply returns_upd_req|]. intros _.
  apply returns_bind; [apply returns_aio_write|]. intros _.
  apply returns_bind; [apply returns_upd_bat | intros; apply returns_ret].
Qed.

Lemma finish_zero_bm_write_returns cb_ret req rq t tx refs s :
  get_req s req = Some rq -> req_error rq = 0 ->
  req_tx rq = Some t -> tx_of s t = Some tx ->
  is_chain s (head (tx_requests tx)) refs ->
  finish_zero_bm_write cb_ret req s <> OutOfFuel.
Proof.
  intros Hrq Herr Htx Htx0 Hc. unfold finish_zero_bm_write.
  apply bind_returns; [apply returns_load_req|]. intros rq' s1 H1.
  apply load_req_Ok in H1. destruct H1 as [H1 ->].
  rewrite Hrq in H1. injection H1 as <-.
  apply bind_returns; [apply returns_gets|]. intros s0 s1 H1.
  apply gets_Ok in H1. destruct H1 as [-> ->]. unfold id.
  apply bind_returns; [apply returns_udiv|]. intros q s1 H1.
  apply udiv_Ok in H1. destruct H1 as [-> ->].
  apply bind_returns; [apply returns_ASSERT|]. intros u s1 H1.
  apply ASSERT_Ok in H1. destruct H1 as [_ ->].
  apply bind_returns; [apply returns_ASSERT|]. intros u0 s1 H1.
  apply ASSERT_Ok in H1. destruct H1 as [_ ->].
  apply bind_returns.
  { destruct (get_bitmap s _); [discriminate|].
    apply bind_returns; [apply returns_ASSERT | intros; discriminate]. }
  intros b s1 Hb.
  assert (s1 = s) as ->.
  { destruct (get_bitmap s _); [apply ret_Ok in Hb; tauto|].
    apply bind_Ok in Hb. destruct Hb as (? & ? & ? & ?). discriminate. }
  apply bind_returns; [apply returns_load_bm|]. intros bm s1 H1.
  apply load_bm_Ok in H1. destruct H1 as [_ ->].
  apply bind_returns; [apply returns_ASSERT|]. intros u1 s1 H1.
  apply ASSERT_Ok in H1. destruct H1 as [_ ->].
  rewrite Htx. unfold bind at 1, ret at 1.
  apply bind_returns; [apply returns_upd_tx|]. intros u2 s1 H1.
  apply upd_tx_Ok in H1.
  apply bind_returns; [apply returns_load_tx|]. intros tx1 s2 H2.
  apply load_tx_Ok in H2. destruct H2 as [H2 ->].
  assert (Etx : tx_requests tx1 = tx_requests tx).
  { subst s1. unfold tx_of in *. simpl in H2. rewrite list_lookup_alter_eq in H2.
    destruct (bitmap_list s !! t); [|discriminate].
    simpl in H2, Htx0. injection H2 as <-. injection Htx0 as <-. reflexivity. }
  assert (Hc1 : is_chain s1 (head (tx_requests tx1)) refs).
  { rewrite Etx. apply (is_chain_agree s1 s); [|exact Hc].
    intros q _. subst s1. destruct q as [i| | |k]; try reflexivity.
    simpl. apply lookup_alter_proj. reflexivity. }
  apply bind_returns; [exact (remove_from_req_list_returns _ _ _ _ Hc1)|].
  intros rl s3 _.
  apply returns_bind; [apply returns_upd_tx|]. intros _.
  rewrite Herr. simpl.
  apply returns_bind; [apply returns_schedule_bat_write | intros; apply returns_ret].
Qed.

Lemma bind_OutOfFuel {A B} (m : M A) (k : A -> M B) s :
  bind m k s = OutOfFuel ->
  m s = OutOfFuel \/ exists a s1, m s = Ok a s1 /\ k a s1 = OutOfFuel.
Proof.
  unfold bind. destruct (m s) as [a s1| |]; intros H.
  - right. exists a, s1. split; [reflexivity | exact H].
  - discriminate.
  - left. reflexivity.
Qed.

(** One step of a run that stops for lack of fuel: its first action
    returns, so it is the rest that stops. *)
Tactic Notation "ostep" hyp(H) "as" ident(a) ident(s1) ident(H1) "by" tactic3(tac) :=
  apply bind_OutOfFuel in H; destruct H as [H|(a & s1 & H1 & H)];
  [exfalso; revert H; tac|].

Ltac oread H H1 :=
  let a := fresh "a" in
  let s1 := fresh "s" in
  apply bind_OutOfFuel in H; destruct H as [H|(a & s1 & H1 & H)];
  [ exfalso; revert H;
    first [ apply returns_gets | apply returns_ASSERT | apply returns_load_bm
          | apply returns_load_req | apply returns_load_tx | apply returns_udiv
          | apply returns_umod | apply returns_ret ]
  | first
      [ apply gets_Ok in H1; destruct H1 as [-> ->]; unfold id in H
      | apply ASSERT_Ok in H1; destruct H1 as [H1 ->]
      | apply load_bm_Ok in H1; destruct H1 as [H1 ->]
      | apply load_req_Ok in H1; destruct H1 as [H1 ->]
      | apply load_tx_Ok in H1; destruct H1 as [H1 ->]
      | apply udiv_Ok in H1; destruct H1 as [-> ->]
      | apply umod_Ok in H1; destruct H1 as [-> ->]
      | apply ret_Ok in H1; destruct H1 as [-> ->] ] ].

Lemma returns_set_bits count : forall from addr, returns (set_bits count from addr).
Proof.
  induction count as [|c IH]; intros from addr; simpl.
  - apply returns_ret.
  - apply returns_bind; [|intros a; apply IH].
    unfold set_bit. destruct (_ <? 31); [apply returns_ret | apply returns_crash].
Qed.

Lemma returns_schedule_bitmap_write blk : returns (schedule_bitmap_write blk).
Proof.
  unfold schedule_bitmap_write.
  repeat first
    [ apply returns_ret | apply returns_crash | apply returns_gets
    | apply returns_ASSERT | apply returns_load_bm | apply returns_bat_entry
    | apply returns_upd_req | apply returns_upd_bm | apply returns_aio_write
    | apply returns_lock_bitmap | apply returns_touch_bitmap
    | apply returns_bind; [|intros ?]
    | match goal with
      | |- returns (if ?b then _ else _) => destruct b
      | |- returns (match ?x with _ => _ end) => destruct x
      end ].
Qed.

Lemma finish_data_write_returns cb_ret i rq t tx0 s :
  ftr_type s = HD_TYPE_DIFF ->
  get_req s (RData i) = Some rq -> req_tx rq = Some t ->
  tx_of s t = Some tx0 ->
  get_bitmap s (u32 (req_lsec rq / spb s)) = Some t ->
  tx_started tx0 <> tx_finished tx0 + 1 \/ tx_error tx0 = 0 ->
  finish_data_write cb_ret (RData i) s <> OutOfFuel.
Proof.
  intros Hty Hrq Htx Htx0 Hbm Hcase H. unfold finish_data_write in H.
  ostep H as u s1 Hu by (apply returns_upd_req).
  apply upd_req_Ok in Hu. destruct Hu as (v & Hv & Es1).
  rewrite Hrq in Hv. inversion Hv; subst v; clear Hv.
  assert (L1 : bitmap_list s1 = bitmap_list s) by (subst s1; reflexivity).
  assert (G1 : get_req s1 (RData i)
               = Some (req_with_flags (set_vhd_flag (req_flags rq) VHD_FLAG_REQ_FINISHED) rq)).
  { subst s1. simpl. apply list_lookup_insert_eq.
    simpl in Hrq. apply lookup_lt_Some in Hrq. exact Hrq. }
  assert (P1 : spb s1 = spb s /\ ftr_type s1 = ftr_type s /\ bitmap s1 = bitmap s)
    by (subst s1; auto).
  destruct P1 as (P1 & P2 & P3).
  clear Es1.
  oread H R. rewrite G1 in R. inversion R; subst a; clear R. simpl in H.
  rewrite Htx in H.
  oread H R0. oread H R1. oread H R2. rewrite P1, P2 in H.
  rewrite (get_bitmap_same s1 s) in H by (unfold slot_blocks; congruence).
  rewrite Hbm in H.
  oread H R3. oread H R4. oread H R5.
  ostep H as u2 s2 Hu by (apply returns_upd_tx).
  apply upd_tx_Ok in Hu.
  assert (T2 : tx_of s2 t = Some (tx_with_finished (tx_finished tx0 + 1) tx0)).
  { subst s2. unfold tx_of in *. simpl. rewrite list_lookup_alter_eq, L1.
    destruct (bitmap_list s !! t); inversion Htx0; reflexivity. }
  assert (Y2 : ftr_type s2 = ftr_type s) by (subst s2; exact P2).
  clear Hu.
  apply bind_OutOfFuel in H. destruct H as [H|(u3 & s3 & Hu & H)].
  { destruct ((req_error rq =? 0) && hd_type_eqb (ftr_type s) HD_TYPE_DIFF).
    - revert H. apply returns_bind; [apply returns_load_bm|]. intros bm.
      apply returns_bind; [apply returns_set_bits | intros; apply returns_upd_bm].
    - discriminate. }
  assert (F3 : ftr_type s3 = ftr_type s2 /\ tx_of s3 t = tx_of s2 t).
  { destruct ((req_error rq =? 0) && hd_type_eqb (ftr_type s) HD_TYPE_DIFF).
    - rstep Hu. bstep Hu as sh s4 Hs. apply set_bits_Ok in Hs. subst s4.
      apply upd_bm_Ok in Hu. subst s3.
      split; [reflexivity | apply lookup_alter_proj; reflexivity].
    - apply ret_Ok in Hu. destruct Hu as [_ ->]. auto. }
  destruct F3 as (Y3 & T3).
  oread H Rtx. rewrite T3, T2 in Rtx. inversion Rtx as [Etx]. rewrite <- Etx in H.
  unfold transaction_completed in H. simpl in H.
  destruct (tx_started tx0 =? tx_finished tx0 + 1) eqn:Ec; [|discriminate].
  apply Z.eqb_eq in Ec. destruct Hcase as [Hne|Herr]; [contradiction|].
  unfold finish_data_transaction, finish_data_transaction_ in H.
  ostep H as u4 s4 Hu4 by (apply returns_upd_tx).
  apply upd_tx_Ok in Hu4.
  assert (T4 : tx_of s4 t
               = Some (tx_with_closed 1 (tx_with_finished (tx_finished tx0 + 1) tx0))).
  { subst s4. unfold tx_of in *. simpl. rewrite list_lookup_alter_eq.
    destruct (bitmap_list s3 !! t); [|rewrite T2 in T3; discriminate].
    simpl in T3. rewrite T2 in T3. inversion T3. reflexivity. }
  assert (Y4 : ftr_type s4 = ftr_type s3) by (subst s4; reflexivity).
  clear Hu4.
  oread H Rtx4. rewrite T4 in Rtx4. injection Rtx4 as <-.
  oread H Rg. simpl in H. rewrite Herr, Y4, Y3, Y2, Hty in H. simpl in H.
  oread H Rbm.
  revert H. apply returns_bind; [apply returns_schedule_bitmap_write|].
  intros; apply returns_ret.
Qed.

Lemma finish_bat_write_returns cb_ret req s :
  req_tx (bat_req (bat s)) = None ->
  finish_bat_write cb_ret req s <> OutOfFuel.
Proof.
  intros Hnone H. unfold finish_bat_write in H.
  oread H R.
  apply bind_OutOfFuel in H. destruct H as [H|(b & s1 & Hb & H)].
  { destruct (get_bitmap s _); [discriminate|].
    revert H. apply returns_bind; [apply returns_ASSERT | intros; apply returns_crash]. }
  assert (s1 = s) as ->.
  { destruct (get_bitmap s _); [apply ret_Ok in Hb; tauto|].
    bstep Hb as u s2 Hu. discriminate. }
  oread H Rbm. oread H R1. oread H R2. oread H R3. oread H Rrq.
  apply bind_OutOfFuel in H. destruct H as [H|(u1 & s1 & H1 & H)].
  { destruct (req_error _ =? 0).
    - revert H. apply returns_bind.
      + unfold set_bat_entry. apply returns_bind; [apply returns_bat_entry|].
        intros; apply returns_upd_bat.
      + intros _. unfold advance_next_db.
        apply returns_bind; [apply returns_gets|]. intros s0.
        apply returns_bind; [apply returns_umod|]. intros m.
        destruct (negb _); apply returns_modify.
    - revert H. apply returns_upd_tx. }
  assert (K1 : req_tx (bat_req (bat s1)) = req_tx (bat_req (bat s))).
  { destruct (req_error _ =? 0).
    - bstep H1 as u0 s0 H0.
      unfold set_bat_entry in H0. bstep H0 as e se He.
      apply bat_entry_Ok in He. subst se.
      cbv [upd_bat modify] in H0. inversion H0; subst s0; clear H0.
      unfold advance_next_db in H1. rstep H1. rstep H1.
      destruct (negb _); apply modify_Ok in H1; subst s1; reflexivity.
    - apply upd_tx_Ok in H1. subst s1. reflexivity. }
  ostep H as u2 s2 H2 by (apply returns_upd_tx).
  apply upd_tx_Ok in H2.
  oread H Rg.
  assert (E : req_tx (bat_req (bat s2)) = None)
    by (subst s2; simpl; congruence).
  rewrite E in H. simpl in H.
  oread H Rr.
  cbv [unlock_bat init_bat upd_bat upd_req load_req modify bind get_req
       put_req ret] in H.
  discriminate.
Qed.


